(** * ck-render: deployment orchestration, provider clients and command proxy

    A shallow embedding of the TypeScript sources of the repository:

      - class [FlyClient]         [src/lib/fly/client.ts], first part
      - the Fly.io orchestrator   [src/lib/fly/client.ts], second part
      - the command proxy         [src/lib/fly/ssh.ts], first part
      - class [RenderClient]      [src/lib/fly/ssh.ts], second part
      - the Render orchestrator   [src/lib/render/deploy.ts]
      - the terminal route        [src/RENDER_SETUP.md], second part

    Asynchronous functions become computations in a state-and-exception
    monad over a [World] that holds the two Prisma tables, the wall clock
    and the record of the calls made to the outside.  Whatever the outside
    answers is read from an [Env], indexed by the number of outside calls
    made so far, so that a polled resource may answer differently each
    time.  The tables fail only where their constraints say so (a unique
    key taken, a row that is not there); [console] output is left out. *)

From Stdlib Require Import String Ascii List ZArith Lia Bool Arith.
Import ListNotations.

Local Open Scope string_scope.
Local Open Scope Z_scope.

(* ===================================================================== *)
(** ** JavaScript strings and the built-ins the sources call

    A JavaScript string is modelled by a Rocq [string]; each [ascii] is
    one code unit below 256. *)
(* ===================================================================== *)

Module JS.

(** Truthiness of a nullable string column: [null], [undefined] and the
    empty string are falsy. *)
Definition truthy (s : option string) : bool :=
  match s with
  | Some s => negb (String.eqb s EmptyString)
  | None => false
  end.

(** [a || b] on strings. *)
Definition orElse (s : option string) (dflt : string) : string :=
  if truthy s then match s with Some v => v | None => dflt end else dflt.

(** [s.startsWith(p)] *)
Definition startsWith (s p : string) : bool := String.prefix p s.

(** [s.includes(sub)] *)
Fixpoint includes (s sub : string) : bool :=
  String.prefix sub s ||
  match s with
  | EmptyString => false
  | String _ rest => includes rest sub
  end.

(** [s.split(sep)] for a one-character separator, as a head and a tail:
    the array returned by [split] is never empty. *)
Fixpoint split_ne (sep : ascii) (s : string) : string * list string :=
  match s with
  | EmptyString => (EmptyString, [])
  | String c rest =>
      let '(h, t) := split_ne sep rest in
      if Ascii.eqb c sep then (EmptyString, h :: t) else (String c h, t)
  end.

Definition split (sep : ascii) (s : string) : list string :=
  let '(h, t) := split_ne sep s in h :: t.

(** White space stripped by [trim], among the code units below 256:
    TAB, LF, VT, FF, CR, SP and NBSP. *)
Definition isWhiteSpace (c : ascii) : bool :=
  let n := nat_of_ascii c in
  ((9 <=? n) && (n <=? 13))%nat || (n =? 32)%nat || (n =? 160)%nat.

Fixpoint trimStart (s : string) : string :=
  match s with
  | EmptyString => EmptyString
  | String c rest => if isWhiteSpace c then trimStart rest else s
  end.

Fixpoint trimEnd (s : string) : string :=
  match s with
  | EmptyString => EmptyString
  | String c rest =>
      match trimEnd rest with
      | EmptyString => if isWhiteSpace c then EmptyString else String c EmptyString
      | kept => String c kept
      end
  end.

(** [s.trim()] *)
Definition trim (s : string) : string := trimEnd (trimStart s).

(** [s.replace(/[...]/g, '')]: every code unit of the class is dropped. *)
Fixpoint removeClass (cls : ascii -> bool) (s : string) : string :=
  match s with
  | EmptyString => EmptyString
  | String c rest =>
      if cls c then removeClass cls rest else String c (removeClass cls rest)
  end.

(** [s.replace(/"/g, '\\"')]: every double quote gets a backslash. *)
Fixpoint escapeQuotes (s : string) : string :=
  match s with
  | EmptyString => EmptyString
  | String c rest =>
      if Ascii.eqb c (ascii_of_nat 34)
      then String (ascii_of_nat 92) (String c (escapeQuotes rest))
      else String c (escapeQuotes rest)
  end.

(** [s.slice(0, n)] *)
Definition slice0 (n : nat) (s : string) : string := String.substring 0 n s.

Definition digit36 (d : Z) : ascii :=
  if d <? 10 then ascii_of_nat (Z.to_nat (48 + d))
  else ascii_of_nat (Z.to_nat (87 + d)).

Fixpoint toString36_digits (fuel : nat) (n : Z) (acc : string) : string :=
  match fuel with
  | O => acc
  | S fuel' =>
      let acc' := String (digit36 (n mod 36)) acc in
      if n / 36 =? 0 then acc' else toString36_digits fuel' (n / 36) acc'
  end.

(** [n.toString(36)] for an integer [n]; a number has at most as many
    base-36 digits as it has bits. *)
Definition toString36 (n : Z) : string :=
  let body := toString36_digits (S (Z.to_nat (Z.log2 (Z.abs n)))) (Z.abs n) EmptyString in
  if n <? 0 then String "-"%char body else body.

(** An object used as a string-to-string record, in insertion order. *)
Definition Obj := list (string * string).

Fixpoint objSet (k v : string) (o : Obj) : Obj :=
  match o with
  | [] => [(k, v)]
  | (k', v') :: rest =>
      if String.eqb k' k then (k, v) :: rest else (k', v') :: objSet k v rest
  end.

(** [{ ...base, ...extra }] *)
Definition spread (base extra : Obj) : Obj :=
  fold_left (fun o kv => objSet (fst kv) (snd kv) o) extra base.

End JS.

(* ===================================================================== *)
(** ** The persisted data model (Prisma) *)
(* ===================================================================== *)

Inductive InstanceStatus : Set :=
| DEPLOYING | RUNNING | STOPPED | RESTARTING | ERROR.

Record Instance : Set := mkInstance {
  id : string;
  userId : string;
  containerId : option string;
  containerName : option string;
  port : Z;
  status : InstanceStatus;
  accessUrl : option string;
  serviceUrl : option string;
  gatewayToken : option string;
  lastHealthCheck : option Z
}.

Record DeploymentLog : Set := mkLog {
  instanceId : string;
  action : string;
  logStatus : string;
  message : string;
  error : option string
}.

(** The [data] object of [prisma.instance.update]: an absent property
    leaves the column alone. *)
Record InstanceData : Set := mkData {
  setContainerId : option (option string);
  setStatus : option InstanceStatus;
  setAccessUrl : option string;
  setServiceUrl : option string;
  setGatewayToken : option string;
  setLastHealthCheck : option Z
}.

Definition noData : InstanceData := mkData None None None None None None.

Definition applyData (d : InstanceData) (r : Instance) : Instance :=
  {| id := id r;
     userId := userId r;
     containerId := match setContainerId d with Some c => c | None => containerId r end;
     containerName := containerName r;
     port := port r;
     status := match setStatus d with Some s => s | None => status r end;
     accessUrl := match setAccessUrl d with Some u => Some u | None => accessUrl r end;
     serviceUrl := match setServiceUrl d with Some u => Some u | None => serviceUrl r end;
     gatewayToken := match setGatewayToken d with Some t => Some t | None => gatewayToken r end;
     lastHealthCheck :=
       match setLastHealthCheck d with Some t => Some t | None => lastHealthCheck r end |}.

(** Table operations on the rows themselves. *)
Definition findById (i : string) (rows : list Instance) : option Instance :=
  find (fun r => String.eqb (id r) i) rows.

Definition findByUserId (u : string) (rows : list Instance) : option Instance :=
  find (fun r => String.eqb (userId r) u) rows.

Definition updateRows (i : string) (d : InstanceData) (rows : list Instance)
  : list Instance :=
  map (fun r => if String.eqb (id r) i then applyData d r else r) rows.

Definition deleteRows (i : string) (rows : list Instance) : list Instance :=
  filter (fun r => negb (String.eqb (id r) i)) rows.

(* ===================================================================== *)
(** ** The outside world and the monad of asynchronous functions *)
(* ===================================================================== *)

(** What a provider answers for a machine, a service and a deploy; only
    the properties the orchestration reads are kept. *)
Record FlyMachine : Set := mkMachine {
  machineId : string;
  machineState : string
}.

Record RenderService : Set := mkService {
  serviceId : string;
  serviceName : string;
  serviceDetailsUrl : option string;   (* [serviceDetails.url], optional *)
  suspended : string
}.

Record RenderDeploy : Set := mkDeploy {
  deployId : string;
  deployStatus : string
}.

(** The body of [createMachine]'s POST request. *)
Record MachineRequest : Set := mkMachineRequest {
  reqName : string;
  reqRegion : string;
  reqImage : string;
  reqEnv : JS.Obj;
  reqCpuKind : string;
  reqCpus : Z;
  reqMemoryMb : Z;
  reqCmd : option (list string);
  reqInternalPort : option Z
}.

(** The body of [createService]'s POST request. *)
Record ServiceRequest : Set := mkServiceRequest {
  svcName : string;
  svcRegion : string;
  svcPlan : string;
  svcDockerCommand : option string;
  svcImagePath : string;
  svcEnvVars : JS.Obj
}.

(** One entry of the record of outside calls. *)
Inductive Event : Set :=
| FlyVerifyAccess
| FlyCreateApp (appName orgSlug : string)
| FlyDeleteApp (appName : string)
| FlySetSecrets (appName : string) (secrets : JS.Obj)
| FlyCreateMachine (appName : string) (body : MachineRequest)
| FlyGetMachine (appName machine : string)
| FlyListMachines (appName : string)
| FlyStopMachine (appName machine : string)
| FlyStartMachine (appName machine : string)
| FlyRestartMachine (appName machine : string)
| FlyDeleteMachine (appName machine : string)
| FlyGetLogs (appName machine : string) (limit : Z)
| FlyAllocateIP (appName kind : string)
| RenderCreateService (body : ServiceRequest)
| RenderGetService (service : string)
| RenderDeleteService (service : string)
| RenderSuspendService (service : string)
| RenderResumeService (service : string)
| RenderRestartService (service : string)
| RenderGetDeploy (service deploy : string)
| HealthProbe (url bearer : string)
| Exec (commandLine : string) (timeoutMs : Z)
| AllocatePort.

Inductive Outcome (A : Type) : Type :=
| Ok (a : A)
| Throw (msg : string).   (* [throw new Error(msg)]; [msg] is [error.message] *)
Arguments Ok {A} a.
Arguments Throw {A} msg.

(** Process configuration and the answers of everything the code calls
    but does not define.  The [nat] is the number of outside calls made
    before this one. *)
Record Env : Type := mkEnv {
  FLY_API_TOKEN : option string;
  FLY_ORG_SLUG : option string;
  RENDER_API_KEY : option string;
  OPENCLAW_IMAGE_var : option string;
  latency : nat -> Z;                      (* how long the call takes, in ms *)
  voidCall : nat -> Event -> Outcome unit; (* calls whose answer is not read *)
  listMachinesAnswer : nat -> string -> Outcome (list FlyMachine);
  createMachineAnswer : nat -> string -> MachineRequest -> Outcome FlyMachine;
  getMachineAnswer : nat -> string -> string -> Outcome FlyMachine;
  logsAnswer : nat -> string -> string -> Z -> Outcome (option string);
  createServiceAnswer : nat -> ServiceRequest -> Outcome RenderService;
  getServiceAnswer : nat -> string -> Outcome RenderService;
  getDeployAnswer : nat -> string -> string -> Outcome RenderDeploy;
  fetchHealth : nat -> string -> string -> Outcome (bool * Z); (* [res.ok], [res.status] *)
  execAnswer : nat -> string -> Z -> Outcome (string * string); (* stdout, stderr *)
  allocatePortAnswer : nat -> Outcome Z;
  randomUUID : nat -> string;
  cuid : nat -> string                     (* primary key Prisma generates *)
}.

Record World : Type := mkWorld {
  instances : list Instance;
  deploymentLogs : list DeploymentLog;     (* oldest first *)
  now : Z;                                 (* [Date.now()] *)
  calls : list Event                       (* newest first *)
}.

(** An asynchronous function: it may change the world and then either
    returns or throws; what it did before throwing stays done. *)
Definition M (A : Type) : Type := World -> Outcome A * World.

Definition ret {A} (a : A) : M A := fun w => (Ok a, w).

Definition throw {A} (msg : string) : M A := fun w => (Throw msg, w).

Definition bind {A B} (m : M A) (k : A -> M B) : M B :=
  fun w =>
    match m w with
    | (Ok a, w') => k a w'
    | (Throw e, w') => (Throw e, w')
    end.

(** [try { m } catch (error) { handler(error.message) }] *)
Definition tryCatch {A} (m : M A) (handler : string -> M A) : M A :=
  fun w =>
    match m w with
    | (Ok a, w') => (Ok a, w')
    | (Throw e, w') => handler e w'
    end.

(** A synchronous collaborator that may throw. *)
Definition lift {A} (o : Outcome A) : M A := fun w => (o, w).

Declare Scope async_scope.
Delimit Scope async_scope with async.
Notation "x <- m ;; k" := (bind m (fun x => k))
  (at level 100, m at next level, right associativity) : async_scope.
Notation "m ;; k" := (bind m (fun _ => k))
  (at level 100, right associativity) : async_scope.
Local Open Scope async_scope.

Definition whenM (b : bool) (m : M unit) : M unit := if b then m else ret tt.

(** [for (const x of xs) { await body(x) }] *)
Fixpoint forEach {A} (xs : list A) (body : A -> M unit) : M unit :=
  match xs with
  | [] => ret tt
  | x :: rest => body x ;; forEach rest body
  end.

(** [Date.now()] *)
Definition Date_now : M Z := fun w => (Ok (now w), w).

(** [await sleep(ms)]: the timer is taken to fire after exactly [ms]; a
    real timer fires no earlier than that. *)
Definition sleep (ms : Z) : M unit :=
  fun w => (Ok tt, mkWorld (instances w) (deploymentLogs w) (now w + ms) (calls w)).

Section Outside.

Variable env : Env.

(** One call to the outside: it is recorded, takes its time and yields
    the answer the environment has for it. *)
Definition outside {A} (ev : Event) (answer : nat -> Outcome A) : M A :=
  fun w =>
    let n := length (calls w) in
    (answer n,
     mkWorld (instances w) (deploymentLogs w)
             (now w + Z.max 0 (latency env n)) (ev :: calls w)).

Definition void (ev : Event) : M unit :=
  outside ev (fun n => voidCall env n ev).

(** [crypto.randomUUID()] *)
Definition crypto_randomUUID : M string :=
  fun w => (Ok (randomUUID env (length (calls w))), w).

(** [allocatePort()] of [lib/utils/port-allocator]. *)
Definition allocatePort : M Z := outside AllocatePort (allocatePortAnswer env).

(** *** Prisma *)

(** [prisma.instance.findUnique({ where: { id } })] *)
Definition instance_findUnique_id (i : string) : M (option Instance) :=
  fun w => (Ok (findById i (instances w)), w).

(** [prisma.instance.findUnique({ where: { userId } })] *)
Definition instance_findUnique_userId (u : string) : M (option Instance) :=
  fun w => (Ok (findByUserId u (instances w)), w).

(** [prisma.instance.create]: a fresh row with the columns given and the
    others null; the primary key and [userId] are unique. *)
Definition instance_create (u : string) (name : string) (p : Z)
           (s : InstanceStatus) : M Instance :=
  fun w =>
    let row := mkInstance (cuid env (length (calls w))) u None (Some name) p s
                          None None None None in
    match findById (id row) (instances w), findByUserId u (instances w) with
    | None, None =>
        (Ok row, mkWorld (instances w ++ [row]) (deploymentLogs w) (now w) (calls w))
    | _, _ => (Throw "Unique constraint failed", w)
    end.

(** [prisma.instance.update({ where: { id }, data })] *)
Definition instance_update (i : string) (d : InstanceData) : M unit :=
  fun w =>
    match findById i (instances w) with
    | Some _ =>
        (Ok tt, mkWorld (updateRows i d (instances w)) (deploymentLogs w)
                        (now w) (calls w))
    | None => (Throw "Record to update not found", w)
    end.

(** [prisma.instance.delete({ where: { id } })] *)
Definition instance_delete (i : string) : M unit :=
  fun w =>
    match findById i (instances w) with
    | Some _ =>
        (Ok tt, mkWorld (deleteRows i (instances w)) (deploymentLogs w)
                        (now w) (calls w))
    | None => (Throw "Record to delete does not exist", w)
    end.

(** [logDeployment(instanceId, action, status, message, error?)] *)
Definition logDeployment (i a s m : string) (e : option string) : M unit :=
  fun w =>
    (Ok tt, mkWorld (instances w) (deploymentLogs w ++ [mkLog i a s m e])
                    (now w) (calls w)).

(** [process.env.OPENCLAW_IMAGE || 'ghcr.io/openclaw/openclaw:latest'] *)
Definition OPENCLAW_IMAGE : string :=
  JS.orElse (OPENCLAW_IMAGE_var env) "ghcr.io/openclaw/openclaw:latest".

End Outside.

(** The config builder of [lib/openclaw/config-builder], which the
    orchestrators import. *)
Record ConfigBuilder (UserConfiguration : Type) : Type := mkBuilder {
  OpenClawConfig : Type;
  generateOpenClawConfig : UserConfiguration -> Outcome OpenClawConfig;
  buildEnvironmentVariables : UserConfiguration -> Outcome JS.Obj;
  JSON_stringify : OpenClawConfig -> string
}.
Arguments OpenClawConfig {UserConfiguration} _.
Arguments generateOpenClawConfig {UserConfiguration} _ _.
Arguments buildEnvironmentVariables {UserConfiguration} _ _.
Arguments JSON_stringify {UserConfiguration} _ _.

(* ===================================================================== *)
(** ** [lib/fly/ssh.ts]: the command proxy *)
(* ===================================================================== *)

Module Ssh.

Record Options : Set := mkOptions {
  timeout : option Z;
  machineId : option string
}.

Record Output : Set := mkOutput {
  stdout : string;
  stderr : string
}.

(** A pending pairing request as the text parser assembles it; a
    property never assigned is [None]. *)
Record Device : Set := mkDevice {
  requestId : option string;
  channel : option string;
  identifier : option string;
  timestamp : option string
}.

Definition noDevice : Device := mkDevice None None None None.

Section WithEnv.

Variable env : Env.

Definition flyctlCommand (appName command : string) (options : option Options)
  : string :=
  let machineIdFlag :=
    match options with
    | Some o => if JS.truthy (machineId o)
                then "--machine " ++ JS.orElse (machineId o) EmptyString
                else EmptyString
    | None => EmptyString
    end in
  "flyctl ssh console " ++ machineIdFlag ++ " --app " ++ appName
    ++ " --command " ++ String (ascii_of_nat 34) (JS.escapeQuotes command)
    ++ String (ascii_of_nat 34) EmptyString.

(** [executeSSHCommand(appName, command, options?)] *)
Definition executeSSHCommand (appName command : string)
           (options : option Options) : M Output :=
  let timeout :=
    match options with
    | Some (mkOptions (Some t) _) => if t =? 0 then 30000 else t
    | _ => 30000
    end in
  let line := flyctlCommand appName command options in
  tryCatch
    (out <- outside env (Exec line timeout) (fun n => execAnswer env n line timeout) ;;
     ret (mkOutput (fst out) (snd out)))
    (fun msg => throw ("SSH command failed: " ++ msg)).

(** [line.split(':')[1]?.trim()] *)
Definition labelledValue (line : string) : option string :=
  option_map JS.trim (nth_error (JS.split ":"%char line) 1).

(** One turn of the [for (const line of lines)] loop over the pair
    ([devices], [currentDevice]). *)
Definition parseLine (acc : list Device * Device) (line : string)
  : list Device * Device :=
  let '(devices, currentDevice) := acc in
  if JS.startsWith line "Request ID:" then
    let '(devices, currentDevice) :=
      if JS.truthy (requestId currentDevice)
      then ((devices ++ [currentDevice])%list, noDevice)
      else (devices, currentDevice) in
    (devices,
     mkDevice (labelledValue line) (channel currentDevice)
              (identifier currentDevice) (timestamp currentDevice))
  else if JS.startsWith line "Channel:" then
    (devices,
     mkDevice (requestId currentDevice) (labelledValue line)
              (identifier currentDevice) (timestamp currentDevice))
  else if JS.startsWith line "Identifier:" then
    (devices,
     mkDevice (requestId currentDevice) (channel currentDevice)
              (labelledValue line) (timestamp currentDevice))
  else if JS.startsWith line "Timestamp:" then
    (devices,
     mkDevice (requestId currentDevice) (channel currentDevice)
              (identifier currentDevice) (labelledValue line))
  else (devices, currentDevice).

(** The [catch] branch of [listPendingDevices]: the text parser. *)
Definition parseDevicesText (stdout : string) : list Device :=
  let lines := JS.split (ascii_of_nat 10) stdout in
  let '(devices, currentDevice) := fold_left parseLine lines ([], noDevice) in
  if JS.truthy (requestId currentDevice)
  then (devices ++ [currentDevice])%list
  else devices.

(** [JSON.parse(stdout)], read as the device array; [None] when it
    throws. *)
Variable JSON_parse : string -> option (list Device).

(** [listPendingDevices(appName)] *)
Definition listPendingDevices (appName : string) : M (list Device) :=
  out <- executeSSHCommand appName "openclaw devices list --json" None ;;
  match JSON_parse (stdout out) with
  | Some devices => ret devices
  | None => ret (parseDevicesText (stdout out))
  end.

(** [approveDevice(appName, requestId)] returns [{ success, message }]. *)
Definition approveDevice (appName request : string) : M (bool * string) :=
  out <- executeSSHCommand appName ("openclaw devices approve " ++ request) None ;;
  let success :=
    negb (JS.includes (stderr out) "error")
    && negb (JS.includes (stderr out) "failed") in
  ret (success, stdout out ++ stderr out).

(** The class [[;&|`$()]] of the sanitising regular expression. *)
Definition shellMeta (c : ascii) : bool :=
  existsb (Ascii.eqb c)
          [";"%char; "&"%char; "|"%char; "`"%char; "$"%char; "("%char; ")"%char].

(** [executeOpenClawCommand(appName, command)] *)
Definition executeOpenClawCommand (appName command : string) : M Output :=
  let sanitized := JS.removeClass shellMeta command in
  executeSSHCommand appName ("openclaw " ++ sanitized) None.

End WithEnv.

End Ssh.

(* ===================================================================== *)
(** ** [lib/fly/client.ts]: class [FlyClient] *)
(* ===================================================================== *)

Module FlyClient.

Record t : Set := mkClient {
  token : string;
  orgSlug : string
}.

(** The [config] argument of [createMachine]; [guest] is flattened and
    of [services] the internal port is kept. *)
Record MachineConfig : Set := mkMachineConfig {
  image : string;
  env_ : option JS.Obj;
  cmd : option (list string);
  region : option string;
  cpus : option Z;
  memory_mb : option Z;
  cpu_kind : option string;
  internal_port : option Z
}.

(** [n || dflt] on numbers: zero is falsy. *)
Definition numOr (n : option Z) (dflt : Z) : Z :=
  match n with
  | Some v => if v =? 0 then dflt else v
  | None => dflt
  end.

Definition pollInterval : Z := 3000.

(** The loop of [waitForMachineState] may turn at most this often: each
    turn that goes on sleeps a full [pollInterval]. *)
Definition maxPolls (timeoutMs interval : Z) : nat :=
  S (Z.to_nat (timeoutMs / interval)).

Section WithEnv.

Variable env : Env.

(** [new FlyClient()] *)
Definition new : M t :=
  if negb (JS.truthy (FLY_API_TOKEN env)) then
    throw "Missing FLY_API_TOKEN environment variable. Get one at: https://fly.io/user/personal_access_tokens"
  else if negb (JS.truthy (FLY_ORG_SLUG env)) then
    throw "Missing FLY_ORG_SLUG environment variable. Find yours at: https://fly.io/dashboard"
  else
    ret (mkClient (JS.orElse (FLY_API_TOKEN env) EmptyString)
                  (JS.orElse (FLY_ORG_SLUG env) EmptyString)).

Definition verifyAccess (fly : t) : M unit := void env FlyVerifyAccess.

Definition createApp (fly : t) (name : string) : M unit :=
  void env (FlyCreateApp name (orgSlug fly)).

Definition deleteApp (fly : t) (appName : string) : M unit :=
  void env (FlyDeleteApp appName).

Definition setSecrets (fly : t) (appName : string) (secrets : JS.Obj) : M unit :=
  void env (FlySetSecrets appName secrets).

Definition createMachine (fly : t) (appName : string) (config : MachineConfig)
  : M FlyMachine :=
  let body :=
    mkMachineRequest
      (appName ++ "-main")
      (JS.orElse (region config) "iad")
      (image config)
      (match env_ config with Some e => e | None => [] end)
      (JS.orElse (cpu_kind config) "shared")
      (numOr (cpus config) 1)
      (numOr (memory_mb config) 256)
      (cmd config)
      (internal_port config) in
  outside env (FlyCreateMachine appName body)
          (fun n => createMachineAnswer env n appName body).

Definition getMachine (fly : t) (appName machine : string) : M FlyMachine :=
  outside env (FlyGetMachine appName machine)
          (fun n => getMachineAnswer env n appName machine).

Definition listMachines (fly : t) (appName : string) : M (list FlyMachine) :=
  outside env (FlyListMachines appName)
          (fun n => listMachinesAnswer env n appName).

Definition stopMachine (fly : t) (appName machine : string) : M unit :=
  void env (FlyStopMachine appName machine).

Definition startMachine (fly : t) (appName machine : string) : M unit :=
  void env (FlyStartMachine appName machine).

Definition restartMachine (fly : t) (appName machine : string) : M unit :=
  void env (FlyRestartMachine appName machine).

Definition deleteMachine (fly : t) (appName machine : string) : M unit :=
  void env (FlyDeleteMachine appName machine).

Definition isTerminal (state : string) : bool :=
  String.eqb state "failed" || String.eqb state "destroyed".

(** The [while (Date.now() - startTime < timeoutMs)] loop; [None] when
    [turns] turns were not enough to leave it. *)
Fixpoint waitLoop (turns : nat) (fly : t) (appName machine targetState : string)
         (timeoutMs startTime : Z) (w : World) : option (Outcome unit * World) :=
  if now w - startTime <? timeoutMs then
    match turns with
    | O => None
    | S turns' =>
        match getMachine fly appName machine w with
        | (Throw e, w1) => Some (Throw e, w1)
        | (Ok m, w1) =>
            if String.eqb (machineState m) targetState then Some (Ok tt, w1)
            else if isTerminal (machineState m) then
              Some (Throw ("Machine entered terminal state: " ++ machineState m), w1)
            else
              waitLoop turns' fly appName machine targetState timeoutMs startTime
                       (snd (sleep pollInterval w1))
        end
    end
  else
    Some (Throw ("Timeout waiting for machine to reach state: " ++ targetState), w).

(** [waitForMachineState(appName, machineId, targetState, timeoutMs)];
    [maxPolls] turns always suffice ([waitLoop_leaves]), so the last
    branch is never taken. *)
Definition waitForMachineState (fly : t) (appName machine targetState : string)
           (timeoutMs : Z) : M unit :=
  fun w =>
    match waitLoop (maxPolls timeoutMs pollInterval) fly appName machine
                   targetState timeoutMs (now w) w with
    | Some r => r
    | None => (Throw ("Timeout waiting for machine to reach state: " ++ targetState), w)
    end.

(** [getMachineLogs(appName, machineId, limit)]; the answer is the
    [logs] property of the response, [None] when it has none. *)
Definition getMachineLogs (fly : t) (appName machine : string) (limit : Z)
  : M string :=
  tryCatch
    (logs <- outside env (FlyGetLogs appName machine limit)
                     (fun n => logsAnswer env n appName machine limit) ;;
     ret (JS.orElse logs "No logs available"))
    (fun _ => ret "Failed to fetch logs. Use flyctl logs instead.").

Definition allocateIPAddress (fly : t) (appName kind : string) : M unit :=
  void env (FlyAllocateIP appName kind).

Definition getAppHostname (appName : string) : string := appName ++ ".fly.dev".

Definition getAppUrl (appName : string) : string :=
  "https://" ++ getAppHostname appName.

End WithEnv.

End FlyClient.

(* ===================================================================== *)
(** ** [lib/render/client.ts]: class [RenderClient] *)
(* ===================================================================== *)

Module RenderClient.

Record t : Set := mkClient { apiKey : string }.

Record ServiceConfig : Set := mkServiceConfig {
  name : string;
  image : string;
  env_ : JS.Obj;
  plan : option string;
  region : option string;
  startCommand : option string
}.

Definition pollInterval : Z := 5000.

Section WithEnv.

Variable env : Env.

(** [new RenderClient()] *)
Definition new : M t :=
  if negb (JS.truthy (RENDER_API_KEY env)) then
    throw ("Missing RENDER_API_KEY environment variable."
           ++ String (ascii_of_nat 10)
                "Get one at: https://dashboard.render.com/u/<your-username>/settings#api-keys")
  else ret (mkClient (JS.orElse (RENDER_API_KEY env) EmptyString)).

Definition createService (render : t) (config : ServiceConfig) : M RenderService :=
  let body :=
    mkServiceRequest (name config)
                     (JS.orElse (region config) "oregon")
                     (JS.orElse (plan config) "starter")
                     (startCommand config)
                     (image config)
                     (env_ config) in
  outside env (RenderCreateService body) (fun n => createServiceAnswer env n body).

Definition getService (render : t) (service : string) : M RenderService :=
  outside env (RenderGetService service) (fun n => getServiceAnswer env n service).

Definition deleteService (render : t) (service : string) : M unit :=
  void env (RenderDeleteService service).

Definition suspendService (render : t) (service : string) : M unit :=
  void env (RenderSuspendService service).

Definition resumeService (render : t) (service : string) : M unit :=
  void env (RenderResumeService service).

Definition restartService (render : t) (service : string) : M unit :=
  void env (RenderRestartService service).

Definition getDeploy (render : t) (service deploy : string) : M RenderDeploy :=
  outside env (RenderGetDeploy service deploy)
          (fun n => getDeployAnswer env n service deploy).

Definition isFailed (status : string) : bool :=
  String.eqb status "build_failed" || String.eqb status "deactivated".

(** The [while] loop of [waitForDeploy]; [None] when [turns] turns
    were not enough to leave it. *)
Fixpoint waitLoop (turns : nat) (render : t) (service deploy : string)
         (timeoutMs startTime : Z) (w : World) : option (Outcome unit * World) :=
  if now w - startTime <? timeoutMs then
    match turns with
    | O => None
    | S turns' =>
        match getDeploy render service deploy w with
        | (Throw e, w1) => Some (Throw e, w1)
        | (Ok d, w1) =>
            if String.eqb (deployStatus d) "live" then Some (Ok tt, w1)
            else if isFailed (deployStatus d) then
              Some (Throw ("Deployment failed with status: " ++ deployStatus d), w1)
            else
              waitLoop turns' render service deploy timeoutMs startTime
                       (snd (sleep pollInterval w1))
        end
    end
  else Some (Throw "Deployment timeout (5 minutes)", w).

(** [waitForDeploy(serviceId, deployId, timeoutMs)]; the last branch
    is never taken ([waitLoop_leaves]). *)
Definition waitForDeploy (render : t) (service deploy : string) (timeoutMs : Z)
  : M unit :=
  fun w =>
    match waitLoop (FlyClient.maxPolls timeoutMs pollInterval) render service
                   deploy timeoutMs (now w) w with
    | Some r => r
    | None => (Throw "Deployment timeout (5 minutes)", w)
    end.

Definition getShellUrl (service : string) : string :=
  "https://dashboard.render.com/web/" ++ service ++ "/shell".

End WithEnv.

End RenderClient.

(** The double quote, for the string constants that contain one. *)
Definition dquote : string := String (ascii_of_nat 34) EmptyString.

Definition dataStatus (s : InstanceStatus) : InstanceData :=
  mkData None (Some s) None None None None.

(* ===================================================================== *)
(** ** [lib/fly/deploy.ts]: the Fly.io orchestrator *)
(* ===================================================================== *)

Module FlyDeploy.

Record DeploymentResult : Set := mkResult {
  res_instanceId : string;
  res_machineId : string;
  res_appName : string;
  res_port : Z;
  res_accessUrl : string;
  res_status : string
}.

(** What the first part of the [try] block hands to the health check. *)
Record Provisioned : Set := mkProvisioned {
  machine : FlyMachine;
  accessUrl_ : string;
  gatewayToken_ : string
}.

(** What is known when the [try] block is entered. *)
Record Started : Set := mkStarted {
  fly : FlyClient.t;
  appName : string;
  port_ : Z;
  instance : Instance
}.

Definition startCmd : list string :=
  [ "/bin/sh"; "-c";
    "mkdir -p /home/node/.openclaw && " ++
    "echo " ++ dquote ++ "$OPENCLAW_CONFIG" ++ dquote ++
    " > /home/node/.openclaw/openclaw.json && " ++
    "exec node dist/index.js gateway" ].

Section WithEnv.

Variable env : Env.
Context {UserConfiguration : Type}.
Variable builder : ConfigBuilder UserConfiguration.

(** "Clean up any pre-existing instance": errors are swallowed. *)
Definition cleanup (fly : FlyClient.t) (existing : option Instance) : M unit :=
  match existing with
  | None => ret tt
  | Some ex =>
      tryCatch
        (whenM (JS.truthy (containerId ex))
           (whenM (JS.truthy (containerName ex))
              (let name := JS.orElse (containerName ex) EmptyString in
               machines <- FlyClient.listMachines env fly name ;;
               forEach machines
                 (fun m => FlyClient.deleteMachine env fly name (machineId m)) ;;
               FlyClient.deleteApp env fly name)) ;;
         instance_delete (id ex))
        (fun _ => ret tt)
  end.

(** Everything before the [try] block. *)
Definition prelude (userId : string) : M Started :=
  fly <- FlyClient.new env ;;
  t <- Date_now ;;
  let appName := "openclaw-" ++ JS.slice0 8 userId ++ "-" ++ JS.toString36 t in
  existing <- instance_findUnique_userId userId ;;
  cleanup fly existing ;;
  port <- allocatePort env ;;
  instance <- instance_create env userId appName port DEPLOYING ;;
  logDeployment (id instance) "DEPLOY" "IN_PROGRESS" "Creating Fly.io app..." None ;;
  ret (mkStarted fly appName port instance).

(** The [try] block up to and including the pause before the health
    check. *)
Definition provision (config : UserConfiguration) (s : Started) : M Provisioned :=
  let fly := fly s in
  let appName := appName s in
  let i := id (instance s) in
  FlyClient.verifyAccess env fly ;;
  FlyClient.createApp env fly appName ;;
  openclawConfig <- lift (generateOpenClawConfig builder config) ;;
  envVars <- lift (buildEnvironmentVariables builder config) ;;
  gatewayToken <- crypto_randomUUID env ;;
  let secrets := JS.spread [("OPENCLAW_GATEWAY_TOKEN", gatewayToken)] envVars in
  FlyClient.setSecrets env fly appName secrets ;;
  instance_update i (mkData None None None None (Some gatewayToken) None) ;;
  let machineEnv :=
    [ ("OPENCLAW_CONFIG", JSON_stringify builder openclawConfig);
      ("NODE_ENV", "production");
      ("OPENCLAW_WORKSPACE", "/home/node/.openclaw/workspace") ] in
  logDeployment i "DEPLOY" "IN_PROGRESS" "Creating Fly.io machine..." None ;;
  machine <- FlyClient.createMachine env fly appName
               (FlyClient.mkMachineConfig (OPENCLAW_IMAGE env) (Some machineEnv)
                  (Some startCmd) (Some "iad") (Some 1) (Some 512) (Some "shared")
                  (Some 18789)) ;;
  instance_update i (mkData (Some (Some (machineId machine))) None None None None None) ;;
  logDeployment i "DEPLOY" "IN_PROGRESS" "Waiting for machine to start..." None ;;
  FlyClient.waitForMachineState env fly appName (machineId machine) "started" 120000 ;;
  logDeployment i "DEPLOY" "IN_PROGRESS" "Allocating public IP..." None ;;
  FlyClient.allocateIPAddress env fly appName "v6" ;;
  sleep 10000 ;;
  let accessUrl := FlyClient.getAppUrl appName in
  logDeployment i "DEPLOY" "IN_PROGRESS" "Verifying OpenClaw Gateway..." None ;;
  sleep 15000 ;;
  ret (mkProvisioned machine accessUrl gatewayToken).

(** The health probe: [healthOk] stays [false] unless the fetch
    returns and [healthResponse.ok] holds. *)
Definition probeHealth (accessUrl gatewayToken : string) : M bool :=
  tryCatch
    (res <- outside env (HealthProbe (accessUrl ++ "/health") gatewayToken)
                    (fun n => fetchHealth env n (accessUrl ++ "/health") gatewayToken) ;;
     ret (fst res))
    (fun _ => ret false).

(** The rest of the [try] block. *)
Definition complete (s : Started) (p : Provisioned) : M DeploymentResult :=
  let i := id (instance s) in
  healthOk <- probeHealth (accessUrl_ p) (gatewayToken_ p) ;;
  instance_update i
    (mkData (Some (Some (machineId (machine p))))
            (Some (if healthOk then RUNNING else ERROR))
            (Some (accessUrl_ p)) None None None) ;;
  logDeployment i "DEPLOY"
    (if healthOk then "SUCCESS" else "PARTIAL")
    (if healthOk then "Deployment completed"
     else "Deployment completed but health check failed") None ;;
  ret (mkResult i (machineId (machine p)) (appName s) (port_ s) (accessUrl_ p)
                (if healthOk then "RUNNING" else "ERROR")).

Definition tryBlock (config : UserConfiguration) (s : Started) : M DeploymentResult :=
  p <- provision config s ;;
  complete s p.

(** The [catch (error)] block. *)
Definition onFailure (s : Started) (msg : string) : M DeploymentResult :=
  instance_update (id (instance s)) (dataStatus ERROR) ;;
  logDeployment (id (instance s)) "DEPLOY" "FAILED" "Deployment failed" (Some msg) ;;
  throw ("Deployment failed: " ++ msg).

(** [deployInstance(userId, config)] *)
Definition deployInstance (userId : string) (config : UserConfiguration)
  : M DeploymentResult :=
  s <- prelude userId ;;
  tryCatch (tryBlock config s) (onFailure s).

Definition missingIdentifiers (r : Instance) : bool :=
  negb (JS.truthy (containerId r)) || negb (JS.truthy (containerName r)).

(** [stopInstance(instanceId)] *)
Definition stopInstance (i : string) : M unit :=
  found <- instance_findUnique_id i ;;
  match found with
  | None => throw "Instance not found"
  | Some r =>
      if missingIdentifiers r then throw "Instance missing Fly.io identifiers"
      else
        fly <- FlyClient.new env ;;
        FlyClient.stopMachine env fly (JS.orElse (containerName r) EmptyString)
                              (JS.orElse (containerId r) EmptyString) ;;
        instance_update i (dataStatus STOPPED) ;;
        logDeployment i "STOP" "SUCCESS" "Instance stopped" None
  end.

(** [startInstance(instanceId)] *)
Definition startInstance (i : string) : M unit :=
  found <- instance_findUnique_id i ;;
  match found with
  | None => throw "Instance not found"
  | Some r =>
      if missingIdentifiers r then throw "Instance missing Fly.io identifiers"
      else
        fly <- FlyClient.new env ;;
        FlyClient.startMachine env fly (JS.orElse (containerName r) EmptyString)
                               (JS.orElse (containerId r) EmptyString) ;;
        instance_update i (dataStatus RUNNING) ;;
        logDeployment i "START" "SUCCESS" "Instance started" None
  end.

(** [restartInstance(instanceId)] *)
Definition restartInstance (i : string) : M unit :=
  found <- instance_findUnique_id i ;;
  match found with
  | None => throw "Instance not found"
  | Some r =>
      if missingIdentifiers r then throw "Instance missing Fly.io identifiers"
      else
        instance_update i (dataStatus RESTARTING) ;;
        fly <- FlyClient.new env ;;
        FlyClient.restartMachine env fly (JS.orElse (containerName r) EmptyString)
                                 (JS.orElse (containerId r) EmptyString) ;;
        instance_update i (dataStatus RUNNING) ;;
        logDeployment i "RESTART" "SUCCESS" "Instance restarted" None
  end.

(** [getInstanceLogs(instanceId, tail)] *)
Definition getInstanceLogs (i : string) (tail : Z) : M string :=
  found <- instance_findUnique_id i ;;
  match found with
  | None => throw "Instance not found"
  | Some r =>
      if missingIdentifiers r then throw "Instance missing Fly.io identifiers"
      else
        fly <- FlyClient.new env ;;
        FlyClient.getMachineLogs env fly (JS.orElse (containerName r) EmptyString)
                                 (JS.orElse (containerId r) EmptyString) tail
  end.

Definition reportsRunning (m : FlyMachine) : bool :=
  String.eqb (machineState m) "started" || String.eqb (machineState m) "running".

(** [checkInstanceHealth(instanceId)] *)
Definition checkInstanceHealth (i : string) : M bool :=
  tryCatch
    (found <- instance_findUnique_id i ;;
     match found with
     | None => ret false
     | Some r =>
         if missingIdentifiers r then ret false
         else
           fly <- FlyClient.new env ;;
           m <- FlyClient.getMachine env fly (JS.orElse (containerName r) EmptyString)
                                     (JS.orElse (containerId r) EmptyString) ;;
           let isHealthy := reportsRunning m in
           t <- Date_now ;;
           instance_update i
             (mkData None (Some (if isHealthy then RUNNING else ERROR))
                     None None None (Some t)) ;;
           ret isHealthy
     end)
    (fun _ => ret false).

End WithEnv.

End FlyDeploy.

(* ===================================================================== *)
(** ** [lib/render/deploy.ts]: the Render orchestrator *)
(* ===================================================================== *)

Module RenderDeploy.

Record DeploymentResult : Set := mkResult {
  res_instanceId : string;
  res_serviceId : string;
  res_serviceName : string;
  res_port : Z;
  res_accessUrl : string;
  res_shellUrl : string;
  res_status : string
}.

Record Provisioned : Set := mkProvisioned {
  service : RenderService;
  accessUrl_ : string;
  shellUrl_ : string;
  gatewayToken_ : string
}.

Record Started : Set := mkStarted {
  render : RenderClient.t;
  serviceName_ : string;
  port_ : Z;
  instance : Instance
}.

Definition startCommand : string :=
  "mkdir -p /home/node/.openclaw && " ++
  "echo " ++ dquote ++ "$OPENCLAW_CONFIG" ++ dquote ++
  " > /home/node/.openclaw/openclaw.json && " ++
  "node dist/index.js gateway".

Definition maxAttempts : nat := 60.

Section WithEnv.

Variable env : Env.
Context {UserConfiguration : Type}.
Variable builder : ConfigBuilder UserConfiguration.

(** "Clean up any pre-existing instance": errors are swallowed. *)
Definition cleanup (render : RenderClient.t) (existing : option Instance) : M unit :=
  match existing with
  | None => ret tt
  | Some ex =>
      tryCatch
        (whenM (JS.truthy (containerId ex))
           (RenderClient.deleteService env render
              (JS.orElse (containerId ex) EmptyString)) ;;
         instance_delete (id ex))
        (fun _ => ret tt)
  end.

(** Everything before the [try] block. *)
Definition prelude (userId : string) : M Started :=
  render <- RenderClient.new env ;;
  let serviceName := "openclaw-" ++ JS.slice0 8 userId in
  existing <- instance_findUnique_userId userId ;;
  cleanup render existing ;;
  port <- allocatePort env ;;
  instance <- instance_create env userId serviceName port DEPLOYING ;;
  logDeployment (id instance) "DEPLOY" "IN_PROGRESS" "Creating Render service..." None ;;
  ret (mkStarted render serviceName port instance).

(** [while (attempts < maxAttempts)] with [remaining] attempts left;
    the result is [serviceUrl], empty when the loop ran out. *)
Fixpoint pollServiceUrl (remaining : nat) (render : RenderClient.t)
         (service : string) : M string :=
  match remaining with
  | O => ret EmptyString
  | S remaining' =>
      updatedService <- RenderClient.getService env render service ;;
      if JS.truthy (serviceDetailsUrl updatedService)
      then ret (JS.orElse (serviceDetailsUrl updatedService) EmptyString)
      else (sleep 5000 ;; pollServiceUrl remaining' render service)
  end.

(** The [try] block up to and including the pause before the health
    check. *)
Definition provision (config : UserConfiguration) (s : Started) : M Provisioned :=
  let render := render s in
  let serviceName := serviceName_ s in
  let i := id (instance s) in
  openclawConfig <- lift (generateOpenClawConfig builder config) ;;
  envVars <- lift (buildEnvironmentVariables builder config) ;;
  gatewayToken <- crypto_randomUUID env ;;
  let vars :=
    JS.spread
      [ ("OPENCLAW_GATEWAY_TOKEN", gatewayToken);
        ("OPENCLAW_CONFIG", JSON_stringify builder openclawConfig);
        ("NODE_ENV", "production");
        ("OPENCLAW_WORKSPACE", "/home/node/.openclaw/workspace") ]
      envVars in
  logDeployment i "DEPLOY" "IN_PROGRESS" "Creating Render service..." None ;;
  service <- RenderClient.createService env render
               (RenderClient.mkServiceConfig serviceName (OPENCLAW_IMAGE env) vars
                  (Some "starter") (Some "oregon") (Some startCommand)) ;;
  instance_update i
    (mkData (Some (Some (serviceId service))) None None None (Some gatewayToken) None) ;;
  logDeployment i "DEPLOY" "IN_PROGRESS" "Waiting for deployment..." None ;;
  sleep 10000 ;;
  polled <- pollServiceUrl maxAttempts render (serviceId service) ;;
  let serviceUrl :=
    if String.eqb polled EmptyString
    then "https://" ++ serviceName ++ ".onrender.com"
    else polled in
  let accessUrl := serviceUrl in
  let shellUrl := RenderClient.getShellUrl (serviceId service) in
  logDeployment i "DEPLOY" "IN_PROGRESS" "Verifying OpenClaw Gateway..." None ;;
  sleep 20000 ;;
  ret (mkProvisioned service accessUrl shellUrl gatewayToken).

Definition probeHealth (accessUrl gatewayToken : string) : M bool :=
  tryCatch
    (res <- outside env (HealthProbe (accessUrl ++ "/health") gatewayToken)
                    (fun n => fetchHealth env n (accessUrl ++ "/health") gatewayToken) ;;
     ret (fst res))
    (fun _ => ret false).

(** The rest of the [try] block. *)
Definition complete (s : Started) (p : Provisioned) : M DeploymentResult :=
  let i := id (instance s) in
  healthOk <- probeHealth (accessUrl_ p) (gatewayToken_ p) ;;
  instance_update i
    (mkData (Some (Some (serviceId (service p))))
            (Some (if healthOk then RUNNING else ERROR))
            (Some (accessUrl_ p)) (Some (shellUrl_ p)) None None) ;;
  logDeployment i "DEPLOY"
    (if healthOk then "SUCCESS" else "PARTIAL")
    (if healthOk then "Deployment completed"
     else "Deployment completed but health check failed") None ;;
  ret (mkResult i (serviceId (service p)) (serviceName_ s) (port_ s)
                (accessUrl_ p) (shellUrl_ p)
                (if healthOk then "RUNNING" else "ERROR")).

Definition tryBlock (config : UserConfiguration) (s : Started) : M DeploymentResult :=
  p <- provision config s ;;
  complete s p.

(** The [catch (error)] block. *)
Definition onFailure (s : Started) (msg : string) : M DeploymentResult :=
  instance_update (id (instance s)) (dataStatus ERROR) ;;
  logDeployment (id (instance s)) "DEPLOY" "FAILED" "Deployment failed" (Some msg) ;;
  throw ("Deployment failed: " ++ msg).

(** [deployInstance(userId, config)] *)
Definition deployInstance (userId : string) (config : UserConfiguration)
  : M DeploymentResult :=
  s <- prelude userId ;;
  tryCatch (tryBlock config s) (onFailure s).

(** [stopInstance(instanceId)] *)
Definition stopInstance (i : string) : M unit :=
  found <- instance_findUnique_id i ;;
  match found with
  | None => throw "Instance not found"
  | Some r =>
      if negb (JS.truthy (containerId r)) then throw "Instance missing Render service ID"
      else
        render <- RenderClient.new env ;;
        RenderClient.suspendService env render (JS.orElse (containerId r) EmptyString) ;;
        instance_update i (dataStatus STOPPED) ;;
        logDeployment i "STOP" "SUCCESS" "Instance stopped" None
  end.

(** [startInstance(instanceId)] *)
Definition startInstance (i : string) : M unit :=
  found <- instance_findUnique_id i ;;
  match found with
  | None => throw "Instance not found"
  | Some r =>
      if negb (JS.truthy (containerId r)) then throw "Instance missing Render service ID"
      else
        render <- RenderClient.new env ;;
        RenderClient.resumeService env render (JS.orElse (containerId r) EmptyString) ;;
        instance_update i (dataStatus RUNNING) ;;
        logDeployment i "START" "SUCCESS" "Instance started" None
  end.

(** [restartInstance(instanceId)] *)
Definition restartInstance (i : string) : M unit :=
  found <- instance_findUnique_id i ;;
  match found with
  | None => throw "Instance not found"
  | Some r =>
      if negb (JS.truthy (containerId r)) then throw "Instance missing Render service ID"
      else
        instance_update i (dataStatus RESTARTING) ;;
        render <- RenderClient.new env ;;
        RenderClient.restartService env render (JS.orElse (containerId r) EmptyString) ;;
        instance_update i (dataStatus RUNNING) ;;
        logDeployment i "RESTART" "SUCCESS" "Instance restarted" None
  end.

(** [service.suspended === 'not_suspended' &&
     service.serviceDetails.url !== undefined] *)
Definition reportsRunning (s : RenderService) : bool :=
  String.eqb (suspended s) "not_suspended" &&
  match serviceDetailsUrl s with Some _ => true | None => false end.

(** [checkInstanceHealth(instanceId)] *)
Definition checkInstanceHealth (i : string) : M bool :=
  tryCatch
    (found <- instance_findUnique_id i ;;
     match found with
     | None => ret false
     | Some r =>
         if negb (JS.truthy (containerId r)) then ret false
         else
           render <- RenderClient.new env ;;
           s <- RenderClient.getService env render
                  (JS.orElse (containerId r) EmptyString) ;;
           let isHealthy := reportsRunning s in
           t <- Date_now ;;
           instance_update i
             (mkData None (Some (if isHealthy then RUNNING else ERROR))
                     None None None (Some t)) ;;
           ret isHealthy
     end)
    (fun _ => ret false).

End WithEnv.

End RenderDeploy.

(* ===================================================================== *)
(** ** Vocabulary of the statements and sample environments *)
(* ===================================================================== *)

(** [sub] occurs in [s]. *)
Definition Occurs (sub s : string) : Prop :=
  exists before after, s = before ++ sub ++ after.

(** The code unit [c] occurs in [s]. *)
Definition HasChar (c : ascii) (s : string) : Prop := In c (list_ascii_of_string s).

Definition throws {A} (o : Outcome A) : bool :=
  match o with
  | Throw _ => true
  | Ok _ => false
  end.

(** The health probe succeeded: [fetch] returned and [res.ok] held. *)
Definition probeSucceeded (o : Outcome (bool * Z)) : bool :=
  match o with
  | Ok (ok, _) => ok
  | Throw _ => false
  end.

(** When the [k]-th turn of a polling loop begins, if the loop was entered
    at time [t0] after [n0] outside calls and every earlier turn slept. *)
Fixpoint turnStart (env : Env) (interval : Z) (n0 : nat) (t0 : Z) (k : nat) : Z :=
  match k with
  | O => t0
  | S k' => turnStart env interval n0 t0 k' + Z.max 0 (latency env (n0 + k')) + interval
  end.

Definition withFetchHealth (h : nat -> string -> string -> Outcome (bool * Z))
           (e : Env) : Env :=
  mkEnv (FLY_API_TOKEN e) (FLY_ORG_SLUG e) (RENDER_API_KEY e) (OPENCLAW_IMAGE_var e)
        (latency e) (voidCall e) (listMachinesAnswer e) (createMachineAnswer e)
        (getMachineAnswer e) (logsAnswer e) (createServiceAnswer e)
        (getServiceAnswer e) (getDeployAnswer e) h (execAnswer e)
        (allocatePortAnswer e) (randomUUID e) (cuid e).

Definition withAllocatePort (a : nat -> Outcome Z) (e : Env) : Env :=
  mkEnv (FLY_API_TOKEN e) (FLY_ORG_SLUG e) (RENDER_API_KEY e) (OPENCLAW_IMAGE_var e)
        (latency e) (voidCall e) (listMachinesAnswer e) (createMachineAnswer e)
        (getMachineAnswer e) (logsAnswer e) (createServiceAnswer e)
        (getServiceAnswer e) (getDeployAnswer e) (fetchHealth e) (execAnswer e)
        a (randomUUID e) (cuid e).

Definition withGetMachine (g : nat -> string -> string -> Outcome FlyMachine)
           (e : Env) : Env :=
  mkEnv (FLY_API_TOKEN e) (FLY_ORG_SLUG e) (RENDER_API_KEY e) (OPENCLAW_IMAGE_var e)
        (latency e) (voidCall e) (listMachinesAnswer e) (createMachineAnswer e)
        g (logsAnswer e) (createServiceAnswer e)
        (getServiceAnswer e) (getDeployAnswer e) (fetchHealth e) (execAnswer e)
        (allocatePortAnswer e) (randomUUID e) (cuid e).

Definition withGetDeploy (g : nat -> string -> string -> Outcome RenderDeploy)
           (e : Env) : Env :=
  mkEnv (FLY_API_TOKEN e) (FLY_ORG_SLUG e) (RENDER_API_KEY e) (OPENCLAW_IMAGE_var e)
        (latency e) (voidCall e) (listMachinesAnswer e) (createMachineAnswer e)
        (getMachineAnswer e) (logsAnswer e) (createServiceAnswer e)
        (getServiceAnswer e) g (fetchHealth e) (execAnswer e)
        (allocatePortAnswer e) (randomUUID e) (cuid e).

Definition withExec (x : nat -> string -> Z -> Outcome (string * string))
           (e : Env) : Env :=
  mkEnv (FLY_API_TOKEN e) (FLY_ORG_SLUG e) (RENDER_API_KEY e) (OPENCLAW_IMAGE_var e)
        (latency e) (voidCall e) (listMachinesAnswer e) (createMachineAnswer e)
        (getMachineAnswer e) (logsAnswer e) (createServiceAnswer e)
        (getServiceAnswer e) (getDeployAnswer e) (fetchHealth e) x
        (allocatePortAnswer e) (randomUUID e) (cuid e).

Definition withCreateMachine (c : nat -> string -> MachineRequest -> Outcome FlyMachine)
           (e : Env) : Env :=
  mkEnv (FLY_API_TOKEN e) (FLY_ORG_SLUG e) (RENDER_API_KEY e) (OPENCLAW_IMAGE_var e)
        (latency e) (voidCall e) (listMachinesAnswer e) c
        (getMachineAnswer e) (logsAnswer e) (createServiceAnswer e)
        (getServiceAnswer e) (getDeployAnswer e) (fetchHealth e) (execAnswer e)
        (allocatePortAnswer e) (randomUUID e) (cuid e).

Definition withLogs (l : nat -> string -> string -> Z -> Outcome (option string))
           (e : Env) : Env :=
  mkEnv (FLY_API_TOKEN e) (FLY_ORG_SLUG e) (RENDER_API_KEY e) (OPENCLAW_IMAGE_var e)
        (latency e) (voidCall e) (listMachinesAnswer e) (createMachineAnswer e)
        (getMachineAnswer e) l (createServiceAnswer e)
        (getServiceAnswer e) (getDeployAnswer e) (fetchHealth e) (execAnswer e)
        (allocatePortAnswer e) (randomUUID e) (cuid e).

(** The shape that the two waiting loops, [FlyClient.waitLoop] and
    [RenderClient.waitLoop], have in common; the statements about them
    are proved once, on this loop. *)
Section Polling.

Variable env : Env.
Context {R : Type}.
Variable request : Event.
Variable answer : nat -> Outcome R.
Variables reached failed : R -> bool.
Variable failure : R -> string.
Variable timeoutMessage : string.
Variable interval : Z.

Fixpoint pollLoop (turns : nat) (timeoutMs startTime : Z) (w : World)
  : option (Outcome unit * World) :=
  if now w - startTime <? timeoutMs then
    match turns with
    | O => None
    | S turns' =>
        match outside env request answer w with
        | (Throw e, w1) => Some (Throw e, w1)
        | (Ok r, w1) =>
            if reached r then Some (Ok tt, w1)
            else if failed r then Some (Throw (failure r), w1)
            else pollLoop turns' timeoutMs startTime (snd (sleep interval w1))
        end
    end
  else Some (Throw timeoutMessage, w).

(** An answer on which the loop goes on. *)
Definition undecided (o : Outcome R) : Prop :=
  exists r, o = Ok r /\ reached r = false /\ failed r = false.

End Polling.

(** A machine answer on which [waitForMachineState] keeps waiting for
    [target]. *)
Definition stillWaiting (target : string) (o : Outcome FlyMachine) : Prop :=
  exists m, o = Ok m /\ machineState m <> target
            /\ machineState m <> "failed" /\ machineState m <> "destroyed".

(** A deploy answer on which [waitForDeploy] keeps waiting. *)
Definition stillDeploying (o : Outcome RenderDeploy) : Prop :=
  exists d, o = Ok d /\ deployStatus d <> "live"
            /\ deployStatus d <> "build_failed" /\ deployStatus d <> "deactivated".

(** The instance [i] is the one that belongs to user [u]. *)
Definition Owns (u i : string) (rows : list Instance) : Prop :=
  exists r, findByUserId u rows = Some r /\ findById i rows = Some r.

(** The computation [m] maintains the property [P] of the instance
    table, whether it returns or throws. *)
Definition keeps (P : list Instance -> Prop) {A} (m : M A) : Prop :=
  forall w, P (instances w) -> P (instances (snd (m w))).

(** The computation [m] does not write to the instance table. *)
Definition inert {A} (m : M A) : Prop :=
  forall w, instances (snd (m w)) = instances w.

(** A value that a labelled line of the device list can carry and the
    text parser can give back: it has no colon and no line feed. *)
Definition plainValue (v : string) : Prop :=
  ~ HasChar ":"%char v /\ ~ HasChar (ascii_of_nat 10) v.

(** The text that lists one pending request per block of four labelled
    lines. *)
Definition deviceBlock (request channel identifier timestamp : string) : list string :=
  [ "Request ID:" ++ request; "Channel:" ++ channel;
    "Identifier:" ++ identifier; "Timestamp:" ++ timestamp ].

(** The step of the deployment sequence that an outside call carries
    out.  The status requests of the waiting loops are repeated by design
    and are no step of their own. *)
Definition stepOf (e : Event) : option string :=
  match e with
  | FlyVerifyAccess => Some "verifyAccess"
  | FlyCreateApp _ _ => Some "createApp"
  | FlyDeleteApp _ => Some "deleteApp"
  | FlySetSecrets _ _ => Some "setSecrets"
  | FlyCreateMachine _ _ => Some "createMachine"
  | FlyGetMachine _ _ => None
  | FlyListMachines _ => Some "listMachines"
  | FlyStopMachine _ _ => Some "stopMachine"
  | FlyStartMachine _ _ => Some "startMachine"
  | FlyRestartMachine _ _ => Some "restartMachine"
  | FlyDeleteMachine _ _ => Some "deleteMachine"
  | FlyGetLogs _ _ _ => Some "getMachineLogs"
  | FlyAllocateIP _ _ => Some "allocateIPAddress"
  | RenderCreateService _ => Some "createService"
  | RenderGetService _ => None
  | RenderDeleteService _ => Some "deleteService"
  | RenderSuspendService _ => Some "suspendService"
  | RenderResumeService _ => Some "resumeService"
  | RenderRestartService _ => Some "restartService"
  | RenderGetDeploy _ _ => None
  | HealthProbe _ _ => Some "health"
  | Exec _ _ => Some "exec"
  | AllocatePort => Some "allocatePort"
  end.

(** The steps carried out by the calls [made], newest first. *)
Definition stepsOf (made : list Event) : list string :=
  flat_map (fun e => match stepOf e with Some s => [s] | None => [] end) made.

(** The computation [m] carries out the steps at the head of [script], in
    their order and each once: all of those up to [rest] when it returns,
    some first ones of them when it throws. *)
Definition consumes {A} (m : M A) (script rest : list string) : Prop :=
  forall w, exists (made : list Event) (done : list string),
    calls (snd (m w)) = (made ++ calls w)%list
    /\ stepsOf made = rev done
    /\ match fst (m w) with
       | Ok _ => script = (done ++ rest)%list
       | Throw _ => exists later, script = (done ++ later)%list
       end.

(** The computation [m] makes no outside call. *)
Definition quiet {A} (m : M A) : Prop :=
  forall w, calls (snd (m w)) = calls w.

Module Sample.

(** An environment in which every outside call succeeds at once. *)
Definition calm : Env :=
  mkEnv (Some "fo1_token") (Some "personal") (Some "rnd_key") None
        (fun _ => 250)
        (fun _ _ => Ok tt)
        (fun _ _ => Ok [])
        (fun _ _ _ => Ok (mkMachine "148e21" "created"))
        (fun _ _ m => Ok (mkMachine m "started"))
        (fun _ _ _ _ => Ok (Some "gateway listening on 18789"))
        (fun _ b => Ok (mkService "srv-c0ffee" (svcName b) None "not_suspended"))
        (fun _ s => Ok (mkService s "openclaw-user-123"
                                  (Some "https://openclaw-user-123.onrender.com")
                                  "not_suspended"))
        (fun _ _ d => Ok (mkDeploy d "live"))
        (fun _ _ _ => Ok (true, 200))
        (fun _ _ _ => Ok (EmptyString, EmptyString))
        (fun _ => Ok 3001)
        (fun _ => "6f1c2c0e-4a1e-4c0b-9f57-2d0de3a5b001")
        (fun n => "inst-" ++ JS.toString36 (Z.of_nat n)).

Definition empty : World := mkWorld [] [] 1770000000000 [].

(** A configuration builder over a configuration that is one string. *)
Definition plainBuilder : ConfigBuilder string :=
  mkBuilder string string
            (fun c => Ok ("{" ++ dquote ++ "agent" ++ dquote ++ ":" ++ dquote ++ c
                            ++ dquote ++ "}"))
            (fun c => Ok [("ANTHROPIC_API_KEY", "sk-" ++ c)])
            (fun doc => doc).

Definition newline : string := String (ascii_of_nat 10) EmptyString.

(** The text format the comment in [listPendingDevices] expects, with
    two requests. *)
Definition twoRequests : string :=
  "Request ID: abc123" ++ newline ++
  "Channel: whatsapp" ++ newline ++
  "Identifier: +1234567890" ++ newline ++
  "Timestamp: 2026-02-06T10:30:00Z" ++ newline ++
  "Request ID: def456" ++ newline ++
  "Channel: telegram" ++ newline ++
  "Identifier: @bob" ++ newline ++
  "Timestamp: 2026-02-06T11:45:10Z" ++ newline.

(** The approve sub-command reports its failure on stdout. *)
Definition approveSaysErrorOnStdout : Env :=
  withExec (fun _ _ _ => Ok ("error: unknown request", EmptyString)) calm.

(** No port can be allocated. *)
Definition noPort : Env :=
  withAllocatePort (fun _ => Throw "No available ports") calm.

(** The gateway answers 500 to the health probe. *)
Definition unhealthy : Env :=
  withFetchHealth (fun _ _ _ => Ok (false, 500)) calm.

(** The machine cannot be created. *)
Definition noMachine : Env :=
  withCreateMachine (fun _ _ _ => Throw "Fly.io API error 422: invalid image") calm.

(** The machine is reported as failed. *)
Definition failedMachine : Env :=
  withGetMachine (fun _ _ m => Ok (mkMachine m "failed")) calm.

(** The machine stays in [starting]. *)
Definition stuckMachine : Env :=
  withGetMachine (fun _ _ m => Ok (mkMachine m "starting")) calm.

(** The deploy is reported as [build_failed]. *)
Definition failedDeploy : Env :=
  withGetDeploy (fun _ _ d => Ok (mkDeploy d "build_failed")) calm.

(** The machine is reported as destroyed. *)
Definition destroyedMachine : Env :=
  withGetMachine (fun _ _ m => Ok (mkMachine m "destroyed")) calm.

Definition client : FlyClient.t := FlyClient.mkClient "fo1_token" "personal".

Definition renderClient : RenderClient.t := RenderClient.mkClient "rnd_key".

(** The logs endpoint answers 404. *)
Definition noLogs : Env :=
  withLogs (fun _ _ _ _ => Throw "Fly.io API error 404: not found") calm.

(** A Render instance whose service exists but whose [containerName]
    column is null. *)
Definition namelessRow : Instance :=
  mkInstance "inst-7" "user-7" (Some "srv-c0ffee") None 3007 RUNNING
             None None None None.

(** An instance that has no provider identifier yet. *)
Definition bareRow : Instance :=
  mkInstance "inst-8" "user-8" None (Some "openclaw-user-8") 3008 DEPLOYING
             None None None None.

(** An instance that is deployed on either provider. *)
Definition liveRow : Instance :=
  mkInstance "inst-9" "user-9" (Some "148e21") (Some "openclaw-user-9") 3009 RUNNING
             (Some "https://openclaw-user-9.fly.dev") None
             (Some "6f1c2c0e-4a1e-4c0b-9f57-2d0de3a5b001") None.

Definition withRows (rows : list Instance) : World :=
  mkWorld rows [] 1770000000000 [].

End Sample.


(* ===================================================================== *)
(** ** More of the sources: diagnostics of the command proxy, the terminal
       route, the HTTP layer of the Fly.io client, the Render logs *)
(* ===================================================================== *)

From Stdlib Require Import DecimalString.

Module JSMore.

Definition lowerChar (c : ascii) : ascii :=
  let n := nat_of_ascii c in
  if ((65 <=? n) && (n <=? 90))%nat
     || (((192 <=? n) && (n <=? 222))%nat && negb (n =? 215)%nat)
  then ascii_of_nat (n + 32)
  else c.

(** [s.toLowerCase()], on code units below 256: the letters A to Z and
    the capital letters of Latin-1. *)
Fixpoint toLowerCase (s : string) : string :=
  match s with
  | EmptyString => EmptyString
  | String c rest => String (lowerChar c) (toLowerCase rest)
  end.

(** A whole number inside a template literal. *)
Definition numberToString (n : Z) : string := NilZero.string_of_int (Z.to_int n).

(** The inverse of [JS.escapeQuotes]: a backslash that stands before a
    double quote is dropped. *)
Fixpoint unescapeQuotes (s : string) : string :=
  match s with
  | EmptyString => EmptyString
  | String c rest =>
      match rest with
      | String d _ =>
          if Ascii.eqb c (ascii_of_nat 92) && Ascii.eqb d (ascii_of_nat 34)
          then unescapeQuotes rest
          else String c (unescapeQuotes rest)
      | EmptyString => String c EmptyString
      end
  end.

End JSMore.

(** *** [lib/fly/ssh.ts]: [listChannels], [getWhatsAppQR], [runDoctor],
        [getGatewayHealth] *)

Module SshDiagnostics.

Record Channel : Set := mkChannel {
  channelName : string;
  channelType : string;
  channelStatus : string;
  connected : bool
}.

(** What [JSON.parse] gives for the doctor's output, as far as it is read. *)
Record DoctorJson : Set := mkDoctorJson {
  jsonHealthy : option bool;
  jsonIssues : option (list string);
  jsonWarnings : option (list string)
}.

Record DoctorReport : Set := mkReport {
  healthy : bool;
  issues : list string;
  warnings : list string
}.

(** What [JSON.parse] gives for the health output, as far as it is read. *)
Record HealthJson : Set := mkHealthJson {
  jsonStatus : option string;
  jsonUptime : option Z;
  jsonVersion : option string
}.

Inductive HealthStatus : Set := Healthy | Unhealthy | Unknown.

Record GatewayHealth : Set := mkGatewayHealth {
  healthStatus : HealthStatus;
  uptime : option Z;
  version : option string
}.

Record QR : Set := mkQR {
  qrCode : option string;
  expires : option string
}.

(** [JSON.parse] at the type each caller reads its result at, and the
    first group of the match of
    [/QR Code:?\s*([\s\S]+?)(?:\n\n|\n[A-Z])/i].  [None] stands for a
    parse that throws and, where the caller reads properties of the
    result, for the result [null], on which reading a property throws. *)
Record Parsers : Type := mkParsers {
  parseDevices : string -> option (list Ssh.Device);
  parseChannels : string -> option (list Channel);
  parseDoctor : string -> option DoctorJson;
  parseHealth : string -> option HealthJson;
  matchQR : string -> option string
}.

(** [line.toLowerCase().includes('error') || line.toLowerCase().includes('issue')] *)
Definition mentionsIssue (line : string) : bool :=
  JS.includes (JSMore.toLowerCase line) "error"
  || JS.includes (JSMore.toLowerCase line) "issue".

(** [line.toLowerCase().includes('warn')] *)
Definition mentionsWarning (line : string) : bool :=
  JS.includes (JSMore.toLowerCase line) "warn".

(** One turn of the loop over the lines, on the pair ([issues],
    [warnings]). *)
Definition classify (acc : list string * list string) (line : string)
  : list string * list string :=
  let '(issues, warnings) := acc in
  if mentionsIssue line then ((issues ++ [JS.trim line])%list, warnings)
  else if mentionsWarning line then (issues, (warnings ++ [JS.trim line])%list)
  else (issues, warnings).

(** The [catch] branch of [runDoctor]. *)
Definition doctorFromText (stdout stderr : string) : DoctorReport :=
  let lines := JS.split (ascii_of_nat 10) (stdout ++ stderr) in
  let '(issues, warnings) := fold_left classify lines ([], []) in
  mkReport (match issues with [] => true | _ => false end) issues warnings.

Section WithEnv.

Variable env : Env.
Variable parsers : Parsers.

(** [listChannels(appName)] *)
Definition listChannels (appName : string) : M (list Channel) :=
  out <- Ssh.executeSSHCommand env appName "openclaw channels list --json" None ;;
  match parseChannels parsers (Ssh.stdout out) with
  | Some channels => ret channels
  | None => ret []
  end.

(** [getWhatsAppQR(appName)] *)
Definition getWhatsAppQR (appName : string) : M QR :=
  out <- Ssh.executeSSHCommand env appName
           ("openclaw logs --grep " ++ dquote ++ "QR Code" ++ dquote ++ " --tail 100")
           None ;;
  match matchQR parsers (Ssh.stdout out) with
  | Some group =>
      if JS.truthy (Some group) then ret (mkQR (Some (JS.trim group)) None)
      else ret (mkQR None None)
  | None => ret (mkQR None None)
  end.

(** [runDoctor(appName)] *)
Definition runDoctor (appName : string) : M DoctorReport :=
  out <- Ssh.executeSSHCommand env appName "openclaw doctor --json" None ;;
  match parseDoctor parsers (Ssh.stdout out) with
  | Some result =>
      ret (mkReport (match jsonHealthy result with Some b => b | None => false end)
                    (match jsonIssues result with Some l => l | None => [] end)
                    (match jsonWarnings result with Some l => l | None => [] end))
  | None => ret (doctorFromText (Ssh.stdout out) (Ssh.stderr out))
  end.

(** [getGatewayHealth(appName)] *)
Definition getGatewayHealth (appName : string) : M GatewayHealth :=
  tryCatch
    (out <- Ssh.executeSSHCommand env appName "openclaw health --json"
              (Some (Ssh.mkOptions (Some 10000) None)) ;;
     match parseHealth parsers (Ssh.stdout out) with
     | Some health =>
         ret (mkGatewayHealth
                (match jsonStatus health with
                 | Some s => if String.eqb s "ok" then Healthy else Unhealthy
                 | None => Unhealthy
                 end)
                (match jsonUptime health with
                 | Some n => if n =? 0 then None else Some n
                 | None => None
                 end)
                (if JS.truthy (jsonVersion health) then jsonVersion health else None))
     | None => throw "Unexpected token in JSON"
     end)
    (fun _ => ret (mkGatewayHealth Unknown None None)).

End WithEnv.

End SshDiagnostics.

(** *** [app/api/instance/terminal/route.ts]: the [POST] handler *)

Module TerminalRoute.

Record RequestBody : Set := mkBody {
  reqAction : option string;
  reqCommand : option string;
  reqRequestId : option string
}.

(** What the handler asks of its surroundings: the e-mail of the session
    ([session?.user?.email]), the user row with that e-mail
    ([prisma.user.findUnique], as the id of the user) and the body of the
    request ([req.json()]). *)
Record Web : Type := mkWeb {
  sessionEmail : Outcome (option string);
  userIdByEmail : string -> Outcome (option string);
  requestJson : Outcome RequestBody
}.

Inductive Payload : Type :=
| ErrorBody (message : string)
| DevicesBody (devices : list Ssh.Device)
| ApprovalBody (success : bool) (message : string)
| QRBody (qr : SshDiagnostics.QR)
| DoctorBody (report : SshDiagnostics.DoctorReport)
| HealthBody (health : SshDiagnostics.GatewayHealth)
| ChannelsBody (channels : list SshDiagnostics.Channel)
| OutputBody (output : Ssh.Output).

(** [NextResponse.json(payload, { status })] *)
Record Response : Type := mkResponse {
  payload : Payload;
  statusCode : Z
}.

Definition allowedCommands : list string :=
  [ "devices list"; "devices approve"; "channels list"; "channels status";
    "health"; "status"; "doctor"; "logs"; "pairing list"; "pairing approve" ].

(** [allowedCommands.some((allowed) => command.startsWith(allowed))] *)
Definition isAllowed (command : string) : bool :=
  existsb (fun allowed => JS.startsWith command allowed) allowedCommands.

Section WithEnv.

Variable env : Env.
Variable parsers : SshDiagnostics.Parsers.
Variable web : Web.

(** The [switch (action)] of the handler. *)
Definition dispatch (containerName : string) (body : RequestBody) : M Response :=
  let action := JS.orElse (reqAction body) EmptyString in
  if String.eqb action "list-devices" then
    devices <- Ssh.listPendingDevices env (SshDiagnostics.parseDevices parsers)
                 containerName ;;
    ret (mkResponse (DevicesBody devices) 200)
  else if String.eqb action "approve-device" then
    if negb (JS.truthy (reqRequestId body)) then
      ret (mkResponse (ErrorBody "requestId required") 400)
    else
      approval <- Ssh.approveDevice env containerName
                    (JS.orElse (reqRequestId body) EmptyString) ;;
      ret (mkResponse (ApprovalBody (fst approval) (snd approval)) 200)
  else if String.eqb action "get-whatsapp-qr" then
    qr <- SshDiagnostics.getWhatsAppQR env parsers containerName ;;
    ret (mkResponse (QRBody qr) 200)
  else if String.eqb action "run-doctor" then
    report <- SshDiagnostics.runDoctor env parsers containerName ;;
    ret (mkResponse (DoctorBody report) 200)
  else if String.eqb action "check-health" then
    health <- SshDiagnostics.getGatewayHealth env parsers containerName ;;
    ret (mkResponse (HealthBody health) 200)
  else if String.eqb action "list-channels" then
    channels <- SshDiagnostics.listChannels env parsers containerName ;;
    ret (mkResponse (ChannelsBody channels) 200)
  else if String.eqb action "execute" then
    if negb (JS.truthy (reqCommand body)) then
      ret (mkResponse (ErrorBody "command required") 400)
    else
      let command := JS.orElse (reqCommand body) EmptyString in
      if negb (isAllowed command) then
        ret (mkResponse (ErrorBody "Command not allowed. Use preset actions instead.") 403)
      else
        result <- Ssh.executeOpenClawCommand env containerName command ;;
        ret (mkResponse (OutputBody result) 200)
  else ret (mkResponse (ErrorBody "Invalid action") 400).

(** [POST(req)] *)
Definition POST : M Response :=
  tryCatch
    (email <- lift (sessionEmail web) ;;
     if negb (JS.truthy email) then ret (mkResponse (ErrorBody "Unauthorized") 401)
     else
       user <- lift (userIdByEmail web (JS.orElse email EmptyString)) ;;
       instance <- match user with
                   | Some userId => instance_findUnique_userId userId
                   | None => ret None
                   end ;;
       match instance with
       | None => ret (mkResponse (ErrorBody "No instance found") 404)
       | Some row =>
           if negb (JS.truthy (containerName row)) then
             ret (mkResponse (ErrorBody "Instance not properly configured") 400)
           else
             body <- lift (requestJson web) ;;
             dispatch (JS.orElse (containerName row) EmptyString) body
       end)
    (fun message =>
       ret (mkResponse (ErrorBody (JS.orElse (Some message) "Command execution failed"))
                       500)).

End WithEnv.

End TerminalRoute.

(** *** [lib/fly/client.ts]: [request] and [appExists], as functions of
        what [fetch] settles to *)

Module FlyHttp.

(** The answer of [fetch]: its status and what reading its body as text
    settles to. *)
Record HttpResponse : Set := mkHttp {
  httpStatus : Z;
  httpText : Outcome string
}.

(** [res.ok] *)
Definition ok (res : HttpResponse) : bool :=
  (200 <=? httpStatus res) && (httpStatus res <=? 299).

Section WithJson.

(** The parsed JSON, its empty object and [res.json()], which throws on a
    body that is not JSON. *)
Variable Json : Type.
Variable emptyObject : Json.
Variable json : string -> Outcome Json.

(** [request(method, path, body)] once [fetch] has settled to [fetched]. *)
Definition request (fetched : Outcome HttpResponse) : Outcome Json :=
  match fetched with
  | Throw e => Throw e
  | Ok res =>
      if negb (ok res) then
        match httpText res with
        | Throw e => Throw e
        | Ok errorText =>
            Throw ("Fly.io API error " ++ JSMore.numberToString (httpStatus res)
                     ++ ": " ++ errorText)
        end
      else if httpStatus res =? 204 then Ok emptyObject
      else match httpText res with
           | Throw e => Throw e
           | Ok text => json text
           end
  end.

(** [appExists(appName)] *)
Definition appExists (fetched : Outcome HttpResponse) : Outcome bool :=
  match request fetched with
  | Ok _ => Ok true
  | Throw message => if JS.includes message "404" then Ok false else Throw message
  end.

End WithJson.

End FlyHttp.

(** *** [lib/render/deploy.ts]: [getInstanceLogs] *)

Module RenderLogs.

(** [getInstanceLogs(instanceId, tail)] *)
Definition getInstanceLogs (i : string) (tail : Z) : M string :=
  found <- instance_findUnique_id i ;;
  match found with
  | None => throw "Instance not found"
  | Some r =>
      ret ("Logs are available in the Render dashboard:" ++ String (ascii_of_nat 10)
             (JS.orElse (serviceUrl r) "https://dashboard.render.com"))
  end.

End RenderLogs.

(* ===================================================================== *)
(** ** Vocabulary of the further statements *)
(* ===================================================================== *)

(** The lines of a device list that open a request. *)
Definition requestLines (stdout : string) : list string :=
  filter (fun line => JS.startsWith line "Request ID:")
         (JS.split (ascii_of_nat 10) stdout).

(** A pending request written as a block of four labelled lines: its
    request id, channel, identifier and timestamp. *)
Definition PlainBlock : Set := (string * string * string * string)%type.

Definition blockLines (b : PlainBlock) : list string :=
  let '(request, channel, identifier, timestamp) := b in
  deviceBlock request channel identifier timestamp.

Definition blockDevice (b : PlainBlock) : Ssh.Device :=
  let '(request, channel, identifier, timestamp) := b in
  Ssh.mkDevice (Some (JS.trim request)) (Some (JS.trim channel))
               (Some (JS.trim identifier)) (Some (JS.trim timestamp)).

(** The four values have no colon and no line feed, and the request id
    is not blank. *)
Definition plainBlock (b : PlainBlock) : Prop :=
  let '(request, channel, identifier, timestamp) := b in
  plainValue request /\ plainValue channel /\ plainValue identifier
  /\ plainValue timestamp /\ JS.trim request <> EmptyString.

Definition blocksText (blocks : list PlainBlock) : string :=
  String.concat (String (ascii_of_nat 10) EmptyString) (flat_map blockLines blocks).

(** What the text parser returns, from the state of its loop. *)
Definition flushDevices (acc : list Ssh.Device * Ssh.Device) : list Ssh.Device :=
  if JS.truthy (Ssh.requestId (snd acc)) then (fst acc ++ [snd acc])%list else fst acc.

(** The lines of the doctor's output that [runDoctor] reads when the
    output is not JSON. *)
Definition doctorLines (stdout stderr : string) : list string :=
  JS.split (ascii_of_nat 10) (stdout ++ stderr).

(** A sample of what [JSON.parse] and the QR pattern give: nothing
    parses and nothing matches. *)
Definition noParsers : SshDiagnostics.Parsers :=
  SshDiagnostics.mkParsers (fun _ => None) (fun _ => None) (fun _ => None)
                           (fun _ => None) (fun _ => None).

(** [options?.timeout || 30000] *)
Definition effectiveTimeout (options : option Ssh.Options) : Z :=
  match options with
  | Some o => FlyClient.numOr (Ssh.timeout o) 30000
  | None => 30000
  end.

(** The doctor prints plain text with an error in capitals. *)
Definition doctorShouts : Env :=
  withExec (fun _ _ _ => Ok ("Gateway: ok" ++ Sample.newline
                               ++ "  Config ERROR: missing key",
                             EmptyString))
           Sample.calm.

(** The world after [executeSSHCommand] has handed the line for the app
    [appName] and the command to [exec], and nothing else has
    happened. *)
Definition afterCommand (env : Env) (appName command : string)
           (options : option Ssh.Options) (w : World) : World :=
  mkWorld (instances w) (deploymentLogs w)
          (now w + Z.max 0 (latency env (length (calls w))))
          (Exec (Ssh.flyctlCommand appName command options) (effectiveTimeout options)
             :: calls w).

(** The computation hands one line for the app [appName] to [exec] and
    does nothing else. *)
Definition runsOneCommand (env : Env) (appName : string) {A} (m : M A) : Prop :=
  forall w, exists command options, snd (m w) = afterCommand env appName command options w.

(** A signed-in user who has an instance, and the request they send. *)
Definition signedIn (body : TerminalRoute.RequestBody) : TerminalRoute.Web :=
  TerminalRoute.mkWeb (Ok (Some "ada@example.com"))
                      (fun email => if String.eqb email "ada@example.com"
                                    then Ok (Some "user-9") else Ok None)
                      (Ok body).

(** A request without a session; its body is not JSON. *)
Definition anonymous : TerminalRoute.Web :=
  TerminalRoute.mkWeb (Ok None) (fun _ => Ok None) (Throw "Unexpected end of JSON input").

(** The remote command cannot be run. *)
Definition noShell : Env :=
  withExec (fun _ _ _ => Throw "Command failed: flyctl: not found") Sample.calm.

(** The calm environment with another answer to the listing of the
    machines of an app. *)
Definition withListing (l : nat -> string -> Outcome (list FlyMachine)) : Env :=
  mkEnv (FLY_API_TOKEN Sample.calm) (FLY_ORG_SLUG Sample.calm)
        (RENDER_API_KEY Sample.calm) (OPENCLAW_IMAGE_var Sample.calm)
        (latency Sample.calm) (voidCall Sample.calm)
        l
        (createMachineAnswer Sample.calm) (getMachineAnswer Sample.calm)
        (logsAnswer Sample.calm) (createServiceAnswer Sample.calm)
        (getServiceAnswer Sample.calm) (getDeployAnswer Sample.calm)
        (fetchHealth Sample.calm) (execAnswer Sample.calm)
        (allocatePortAnswer Sample.calm) (randomUUID Sample.calm) (cuid Sample.calm).

(** The provider refuses to list the machines of an app. *)
Definition noListing : Env :=
  withListing (fun _ _ => Throw "Fly.io API error 500: internal error").

(** The provider refuses every call whose answer is not read. *)
Definition refusing : Env :=
  mkEnv (FLY_API_TOKEN Sample.calm) (FLY_ORG_SLUG Sample.calm)
        (RENDER_API_KEY Sample.calm) (OPENCLAW_IMAGE_var Sample.calm)
        (latency Sample.calm)
        (fun _ _ => Throw "API error 503: service unavailable")
        (listMachinesAnswer Sample.calm)
        (createMachineAnswer Sample.calm) (getMachineAnswer Sample.calm)
        (logsAnswer Sample.calm) (createServiceAnswer Sample.calm)
        (getServiceAnswer Sample.calm) (getDeployAnswer Sample.calm)
        (fetchHealth Sample.calm) (execAnswer Sample.calm)
        (allocatePortAnswer Sample.calm) (randomUUID Sample.calm) (cuid Sample.calm).

(** Two users, each with an instance. *)
Definition twoUsers : World := Sample.withRows [Sample.liveRow; Sample.namelessRow].

(** The service never reports a URL. *)
Definition noUrl : Env :=
  mkEnv (FLY_API_TOKEN Sample.calm) (FLY_ORG_SLUG Sample.calm)
        (RENDER_API_KEY Sample.calm) (OPENCLAW_IMAGE_var Sample.calm)
        (latency Sample.calm) (voidCall Sample.calm)
        (listMachinesAnswer Sample.calm)
        (createMachineAnswer Sample.calm) (getMachineAnswer Sample.calm)
        (logsAnswer Sample.calm) (createServiceAnswer Sample.calm)
        (fun _ s => Ok (mkService s "openclaw-user-123" None "not_suspended"))
        (getDeployAnswer Sample.calm)
        (fetchHealth Sample.calm) (execAnswer Sample.calm)
        (allocatePortAnswer Sample.calm) (randomUUID Sample.calm) (cuid Sample.calm).

(** The computation [m] moves the world along the relation [R], whether
    it returns or throws. *)
Definition evolves (R : World -> World -> Prop) {A} (m : M A) : Prop :=
  forall w, R w (snd (m w)).

(** The computation [m] does not write to the deployment log. *)
Definition silent {A} (m : M A) : Prop :=
  forall w, deploymentLogs (snd (m w)) = deploymentLogs w.

(** A row that reports the progress of the deployment of instance [i]. *)
Definition progressRow (i : string) (l : DeploymentLog) : Prop :=
  instanceId l = i /\ action l = "DEPLOY" /\ logStatus l = "IN_PROGRESS"
  /\ error l = None.

(** Only progress rows of the deployment of [i] were appended to the
    log. *)
Definition reported (i : string) (w w' : World) : Prop :=
  exists rows, deploymentLogs w' = (deploymentLogs w ++ rows)%list
               /\ Forall (progressRow i) rows.

(** The computation [m] appends to the deployment log the rows [rows a]
    when it returns [a], and nothing when it throws. *)
Definition logsOnReturn {A} (m : M A) (rows : A -> list DeploymentLog) : Prop :=
  forall w,
    match m w with
    | (Ok a, w') => deploymentLogs w' = (deploymentLogs w ++ rows a)%list
    | (Throw _, w') => deploymentLogs w' = deploymentLogs w
    end.

(** [o[k]]: the value of the property [k] of an object. *)
Definition objGet (k : string) (o : JS.Obj) : option string :=
  option_map snd (find (fun kv => String.eqb (fst kv) k) o).

(** Calls were made and none was forgotten. *)
Definition called (w w' : World) : Prop :=
  exists made, calls w' = (made ++ calls w)%list.

(** The clock did not go back. *)
Definition later (w w' : World) : Prop := now w <= now w'.

(** A service answer on which the deployment keeps asking for the
    URL. *)
Definition noUrlYet (o : Outcome RenderService) : Prop :=
  exists s, o = Ok s /\ JS.truthy (serviceDetailsUrl s) = false.

(** The outside calls of one pass through the [try] block of the Fly.io
    deployment up to the health probe, newest first: each call once, and
    between the creation of the machine and the allocation of the
    address the [polls] status requests of the one wait. *)
Definition flyPass (appName org machine : string) (body : MachineRequest)
           (secrets : JS.Obj) (polls : nat) : list Event :=
  FlyAllocateIP appName "v6"
  :: repeat (FlyGetMachine appName machine) polls
  ++ [ FlyCreateMachine appName body; FlySetSecrets appName secrets;
       FlyCreateApp appName org; FlyVerifyAccess ].

(** The same for the Render deployment: the creation of the service and
    then the [polls] requests for its URL. *)
Definition renderPass (service : string) (body : ServiceRequest) (polls : nat)
  : list Event :=
  (repeat (RenderGetService service) polls ++ [RenderCreateService body])%list.

(* ===================================================================== *)
(** * Properties *)
(* ===================================================================== *)

(** ** Strings *)

Section StringFacts.

Lemma prefix_iff_append (p s : string) :
  String.prefix p s = true <-> exists rest, s = p ++ rest.
Proof.
  revert s; induction p as [|a p IH]; intros s.
  - split; [intros _; exists s; reflexivity | intros _; now destruct s].
  - destruct s as [|b s]; simpl.
    + split; [discriminate | intros [rest H]; discriminate H].
    + destruct (Ascii.ascii_dec a b) as [->|Hab].
      * rewrite IH. split; intros [rest H]; exists rest.
        -- now rewrite H.
        -- now inversion H.
      * split; [discriminate | intros [rest H]; inversion H; congruence].
Qed.

(** [includes] decides occurrence. *)
Lemma includes_iff_occurs (s sub : string) :
  JS.includes s sub = true <-> Occurs sub s.
Proof.
  induction s as [|c s IH].
  - cbn [JS.includes]. rewrite orb_false_r, prefix_iff_append. split.
    + intros [rest H]. exists EmptyString, rest. exact H.
    + intros [before [after H]]. destruct before; [|discriminate H].
      exists after. exact H.
  - cbn [JS.includes]. rewrite orb_true_iff, prefix_iff_append, IH. split.
    + intros [[rest H] | [before [after H]]].
      * exists EmptyString, rest. exact H.
      * exists (String c before), after. simpl. now rewrite H.
    + intros [before [after H]]. destruct before as [|b before].
      * left. exists after. exact H.
      * right. exists before, after. simpl in H. now inversion H.
Qed.

Lemma includes_false_iff (s sub : string) :
  JS.includes s sub = false <-> ~ Occurs sub s.
Proof.
  rewrite <- includes_iff_occurs. destruct (JS.includes s sub); split; intro H;
    try reflexivity; try discriminate; try (exfalso; now apply H).
Qed.

Lemma removeClass_chars (cls : ascii -> bool) (s : string) :
  list_ascii_of_string (JS.removeClass cls s)
  = filter (fun c => negb (cls c)) (list_ascii_of_string s).
Proof.
  induction s as [|c s IH]; simpl; [reflexivity|].
  destruct (cls c); simpl; now rewrite IH.
Qed.

Lemma removeClass_clean (cls : ascii -> bool) (s : string) (c : ascii) :
  cls c = true -> ~ HasChar c (JS.removeClass cls s).
Proof.
  unfold HasChar. rewrite removeClass_chars, filter_In.
  intros Hc [_ H]. now rewrite Hc in H.
Qed.

Lemma list_ascii_of_append (a b : string) :
  list_ascii_of_string (a ++ b)
  = (list_ascii_of_string a ++ list_ascii_of_string b)%list.
Proof. induction a; simpl; congruence. Qed.

Lemma truthy_Some (v : string) : JS.truthy (Some v) = true <-> v <> EmptyString.
Proof. unfold JS.truthy. now rewrite negb_true_iff, String.eqb_neq. Qed.

Lemma orElse_Some (v : string) : v <> EmptyString -> JS.orElse (Some v) EmptyString = v.
Proof. intros H. unfold JS.orElse. now rewrite (proj2 (truthy_Some v) H). Qed.

End StringFacts.

(** The built-ins on small inputs. *)

Example split_at_colons :
  JS.split ":"%char "Timestamp: 2026-02-06T10:30:00Z"
  = ["Timestamp"; " 2026-02-06T10"; "30"; "00Z"].
Proof. reflexivity. Qed.

Example split_without_separator : JS.split ":"%char "whatsapp" = ["whatsapp"].
Proof. reflexivity. Qed.

Example trim_both_ends : JS.trim "  +1234567890 " = "+1234567890".
Proof. reflexivity. Qed.

Example includes_is_case_sensitive :
  JS.includes "Error: device not found" "error" = false
  /\ JS.includes "pairing failed" "failed" = true.
Proof. split; reflexivity. Qed.

Example toString36_digits_and_letters :
  JS.toString36 35 = "z" /\ JS.toString36 36 = "10" /\ JS.toString36 0 = "0".
Proof. repeat split. Qed.

Example spread_overrides_in_place :
  JS.spread [("NODE_ENV", "production"); ("OPENCLAW_GATEWAY_TOKEN", "t")]
            [("OPENCLAW_GATEWAY_TOKEN", "u"); ("DISCORD_TOKEN", "d")]
  = [("NODE_ENV", "production"); ("OPENCLAW_GATEWAY_TOKEN", "u"); ("DISCORD_TOKEN", "d")].
Proof. reflexivity. Qed.

(** ** The command proxy *)

(** What [executeSSHCommand] hands to the shell and what it returns. *)
Lemma executeSSHCommand_run (env : Env) (appName command : string) (w : World) :
  let line := Ssh.flyctlCommand appName command None in
  Ssh.executeSSHCommand env appName command None w
  = (match execAnswer env (length (calls w)) line 30000 with
     | Ok out => Ok (Ssh.mkOutput (fst out) (snd out))
     | Throw msg => Throw ("SSH command failed: " ++ msg)
     end,
     mkWorld (instances w) (deploymentLogs w)
             (now w + Z.max 0 (latency env (length (calls w))))
             (Exec line 30000 :: calls w)).
Proof.
  unfold Ssh.executeSSHCommand, tryCatch, bind, outside, ret, throw. cbn.
  destruct (execAnswer env _ _ _); reflexivity.
Qed.

(** C5, as the code has it: whenever the approve sub-command returns,
    [approveDevice] reports success exactly when stderr contains neither
    "error" nor "failed"; stdout is only copied into the message. *)
Theorem C5_approveDevice_success_iff_stderr_clean :
  forall (env : Env) (appName request : string) (w : World) (out err : string),
    execAnswer env (length (calls w))
               (Ssh.flyctlCommand appName ("openclaw devices approve " ++ request) None)
               30000 = Ok (out, err) ->
    exists success : bool,
      fst (Ssh.approveDevice env appName request w) = Ok (success, out ++ err) /\
      (success = true <-> ~ Occurs "error" err /\ ~ Occurs "failed" err).
Proof.
  intros env appName request w out err Hexec.
  unfold Ssh.approveDevice, bind. rewrite executeSSHCommand_run. cbv zeta.
  rewrite Hexec. cbn.
  eexists; split; [reflexivity|].
  rewrite andb_true_iff, !negb_true_iff, !includes_false_iff. tauto.
Qed.

Lemma C5_witness :
  exists success : bool,
    fst (Ssh.approveDevice Sample.calm "openclaw-user-123" "req-42" Sample.empty)
    = Ok (success, EmptyString) /\
    (success = true <-> ~ Occurs "error" EmptyString /\ ~ Occurs "failed" EmptyString).
Proof.
  exact (C5_approveDevice_success_iff_stderr_clean
           Sample.calm "openclaw-user-123" "req-42" Sample.empty
           EmptyString EmptyString eq_refl).
Defined.

(** C5 as stated fails: "error" on stdout does not prevent success. *)
Lemma C5_counterexample_stdout_not_inspected :
  fst (Ssh.approveDevice Sample.approveSaysErrorOnStdout
                         "openclaw-user-123" "req-42" Sample.empty)
  = Ok (true, "error: unknown request")
  /\ Occurs "error" "error: unknown request".
Proof.
  split; [reflexivity|].
  exists EmptyString, ": unknown request". reflexivity.
Qed.

(** C6: on the text format that the comment in [listPendingDevices]
    documents, the parser returns the two requests but cuts each
    timestamp at its first colon. *)
Theorem C6_listPendingDevices_cuts_timestamps :
  Ssh.parseDevicesText Sample.twoRequests
  = [ Ssh.mkDevice (Some "abc123") (Some "whatsapp") (Some "+1234567890")
                   (Some "2026-02-06T10");
      Ssh.mkDevice (Some "def456") (Some "telegram") (Some "@bob")
                   (Some "2026-02-06T11") ]
  /\ fst (Ssh.listPendingDevices
            (withExec (fun _ _ _ => Ok (Sample.twoRequests, EmptyString)) Sample.calm)
            (fun _ => None) "openclaw-user-123" Sample.empty)
     = Ok (Ssh.parseDevicesText Sample.twoRequests)
  /\ Ssh.labelledValue "Timestamp: 2026-02-06T10:30:00Z" <> Some "2026-02-06T10:30:00Z".
Proof.
  split; [reflexivity|]. split; [reflexivity|]. discriminate.
Qed.

(** *** What the text parser does get right *)

Section TextParser.

Lemma HasChar_cons (c d : ascii) (s : string) :
  HasChar c (String d s) <-> d = c \/ HasChar c s.
Proof. reflexivity. Qed.

Lemma split_ne_plain (sep : ascii) (s : string) :
  ~ HasChar sep s -> JS.split_ne sep s = (s, []).
Proof.
  induction s as [|c s IH]; intros Hs; cbn [JS.split_ne]; [reflexivity|].
  rewrite HasChar_cons in Hs. rewrite IH by tauto.
  destruct (Ascii.eqb_spec c sep) as [->|_]; [tauto | reflexivity].
Qed.

Lemma split_append (sep : ascii) (a b : string) :
  ~ HasChar sep a ->
  JS.split sep (a ++ String sep b) = a :: JS.split sep b.
Proof.
  unfold JS.split. induction a as [|c a IH]; intros Ha.
  - cbn [append JS.split_ne]. destruct (JS.split_ne sep b) as [h t].
    now rewrite Ascii.eqb_refl.
  - rewrite HasChar_cons in Ha. cbn [append JS.split_ne].
    specialize (IH ltac:(tauto)).
    destruct (JS.split_ne sep (a ++ String sep b)) as [h t].
    destruct (JS.split_ne sep b) as [h' t'].
    destruct (Ascii.eqb_spec c sep) as [->|_]; [tauto|].
    now inversion IH.
Qed.

(** Splitting at line feeds gives back the lines that were joined. *)
Lemma split_concat (sep : ascii) (first : string) (others : list string) :
  Forall (fun l => ~ HasChar sep l) (first :: others) ->
  JS.split sep (String.concat (String sep EmptyString) (first :: others))
  = first :: others.
Proof.
  revert first. induction others as [|second others IH]; intros first Hall.
  - cbn [String.concat]. unfold JS.split. rewrite split_ne_plain; [reflexivity|].
    now inversion Hall.
  - change (String.concat (String sep EmptyString) (first :: second :: others))
      with (first ++ String sep (String.concat (String sep EmptyString)
                                               (second :: others))).
    inversion Hall; subst. rewrite split_append by assumption.
    now rewrite IH.
Qed.

Lemma HasChar_append (c : ascii) (a b : string) :
  HasChar c (a ++ b) <-> HasChar c a \/ HasChar c b.
Proof. unfold HasChar. rewrite list_ascii_of_append. apply in_app_iff. Qed.

Lemma prefix_nil (s : string) : String.prefix EmptyString s = true.
Proof. now destruct s. Qed.

(** The value of a labelled line whose value has no colon. *)
Lemma labelledValue_plain (label v : string) :
  ~ HasChar ":"%char label -> ~ HasChar ":"%char v ->
  Ssh.labelledValue (label ++ String ":"%char v) = Some (JS.trim v).
Proof.
  intros Hl Hv. unfold Ssh.labelledValue.
  rewrite split_append by assumption.
  unfold JS.split. now rewrite split_ne_plain.
Qed.

Lemma truthy_trimmed (v : string) :
  JS.trim v <> EmptyString -> JS.truthy (Some (JS.trim v)) = true.
Proof. apply truthy_Some. Qed.

Ltac no_colon := unfold HasChar; cbn; intuition discriminate.

(** One block is read into the accumulator; the block before it, if it
    has a request id, is flushed. *)
Lemma parseLine_block (devices : list Ssh.Device) (current : Ssh.Device)
      (request channel identifier timestamp : string) :
  plainValue request -> plainValue channel ->
  plainValue identifier -> plainValue timestamp ->
  fold_left Ssh.parseLine (deviceBlock request channel identifier timestamp)
            (devices, current)
  = (if JS.truthy (Ssh.requestId current) then (devices ++ [current])%list else devices,
     Ssh.mkDevice (Some (JS.trim request)) (Some (JS.trim channel))
                  (Some (JS.trim identifier)) (Some (JS.trim timestamp))).
Proof.
  intros [Hr _] [Hc _] [Hi _] [Ht _].
  pose proof (labelledValue_plain "Request ID" request ltac:(no_colon) Hr) as Er.
  pose proof (labelledValue_plain "Channel" channel ltac:(no_colon) Hc) as Ec.
  pose proof (labelledValue_plain "Identifier" identifier ltac:(no_colon) Hi) as Ei.
  pose proof (labelledValue_plain "Timestamp" timestamp ltac:(no_colon) Ht) as Et.
  cbn [append] in Er, Ec, Ei, Et.
  unfold deviceBlock. cbn [fold_left append].
  unfold Ssh.parseLine at 4. unfold JS.startsWith. cbn [String.prefix].
  cbn. rewrite !prefix_nil. cbn.
  rewrite Er.
  destruct (JS.truthy (Ssh.requestId current)); cbn;
    unfold JS.startsWith; cbn; rewrite !prefix_nil; cbn;
    rewrite Ec; unfold JS.startsWith; cbn; rewrite ?prefix_nil; cbn;
    rewrite Ei; unfold JS.startsWith; cbn; rewrite ?prefix_nil; cbn;
    rewrite Et; reflexivity.
Qed.

Lemma plainValue_line (label v : string) :
  ~ HasChar (ascii_of_nat 10) label -> plainValue v ->
  ~ HasChar (ascii_of_nat 10) (label ++ v).
Proof. intros Hl [_ Hv]. rewrite HasChar_append. tauto. Qed.

(** Two blocks whose values contain no colon are parsed into two records
    that carry the trimmed values of their labelled lines. *)
Lemma parseDevicesText_two_plain_blocks
      (r1 c1 i1 t1 r2 c2 i2 t2 : string) :
  Forall plainValue [r1; c1; i1; t1; r2; c2; i2; t2] ->
  JS.trim r1 <> EmptyString -> JS.trim r2 <> EmptyString ->
  Ssh.parseDevicesText
    (String.concat (String (ascii_of_nat 10) EmptyString)
                   (deviceBlock r1 c1 i1 t1 ++ deviceBlock r2 c2 i2 t2))
  = [ Ssh.mkDevice (Some (JS.trim r1)) (Some (JS.trim c1))
                   (Some (JS.trim i1)) (Some (JS.trim t1));
      Ssh.mkDevice (Some (JS.trim r2)) (Some (JS.trim c2))
                   (Some (JS.trim i2)) (Some (JS.trim t2)) ].
Proof.
  intros Hall Hr1 Hr2.
  repeat match goal with
         | H : Forall _ (_ :: _) |- _ => inversion H; clear H; subst
         end.
  unfold Ssh.parseDevicesText.
  set (rest := (tl (deviceBlock r1 c1 i1 t1) ++ deviceBlock r2 c2 i2 t2)%list).
  change (deviceBlock r1 c1 i1 t1 ++ deviceBlock r2 c2 i2 t2)%list
    with (("Request ID:" ++ r1) :: rest).
  rewrite split_concat.
  - change (("Request ID:" ++ r1) :: rest)
      with (deviceBlock r1 c1 i1 t1 ++ deviceBlock r2 c2 i2 t2)%list.
    rewrite fold_left_app, !parseLine_block by assumption.
    cbn [Ssh.requestId].
    rewrite !truthy_trimmed by assumption. reflexivity.
  - subst rest. unfold deviceBlock. cbn [app tl].
    repeat (apply Forall_cons;
            [apply plainValue_line; [unfold HasChar; cbn; intuition discriminate
                                    | assumption]|]).
    apply Forall_nil.
Qed.

End TextParser.

(** C7: the command that [executeOpenClawCommand] forwards is "openclaw "
    followed by the input without its shell metacharacters, everything
    else kept in order; none of the seven characters is left in it. *)
Theorem C7_executeOpenClawCommand_strips_metacharacters :
  forall (env : Env) (appName command : string) (w : World),
    exists forwarded : string,
      Ssh.executeOpenClawCommand env appName command w
      = Ssh.executeSSHCommand env appName forwarded None w
      /\ calls (snd (Ssh.executeOpenClawCommand env appName command w))
         = Exec (Ssh.flyctlCommand appName forwarded None) 30000 :: calls w
      /\ list_ascii_of_string forwarded
         = (list_ascii_of_string "openclaw "
            ++ filter (fun c => negb (existsb (Ascii.eqb c)
                                        [";"; "&"; "|"; "`"; "$"; "("; ")"]%char))
                      (list_ascii_of_string command))%list
      /\ (forall c, In c [";"; "&"; "|"; "`"; "$"; "("; ")"]%char ->
                    ~ HasChar c forwarded).
Proof.
  intros env appName command w.
  exists ("openclaw " ++ JS.removeClass Ssh.shellMeta command).
  split; [reflexivity|]. split.
  - unfold Ssh.executeOpenClawCommand. now rewrite executeSSHCommand_run.
  - split.
    + rewrite list_ascii_of_append, removeClass_chars. reflexivity.
    + intros c Hc. unfold HasChar. rewrite list_ascii_of_append, in_app_iff.
      intros [H | H].
      * simpl in Hc, H.
        repeat (destruct Hc as [<- | Hc];
                [repeat (destruct H as [H | H]; [discriminate H|]); exact H|]).
        exact Hc.
      * revert H. apply removeClass_clean.
        simpl in Hc.
        repeat (destruct Hc as [<- | Hc]; [reflexivity|]). destruct Hc.
Qed.

(** The injection attempt of the specification, evaluated. *)
Example executeOpenClawCommand_rm_rf :
  calls (snd (Ssh.executeOpenClawCommand Sample.calm "openclaw-user-123"
                "devices list; rm -rf / && $(reboot) | `id`" Sample.empty))
  = [Exec (Ssh.flyctlCommand "openclaw-user-123"
             "openclaw devices list rm -rf /  reboot  id" None) 30000].
Proof. reflexivity. Qed.

(** ** The Fly.io client *)

(** C10: [getMachineLogs] always returns: the fixed failure text when the
    request throws, "No logs available" when the response has no or an
    empty [logs] property, and the logs otherwise. *)
Theorem C10_getMachineLogs_never_throws :
  forall (env : Env) (fly : FlyClient.t) (appName machine : string) (limit : Z)
         (w : World),
    exists text : string,
      fst (FlyClient.getMachineLogs env fly appName machine limit w) = Ok text /\
      match logsAnswer env (length (calls w)) appName machine limit with
      | Throw _ => text = "Failed to fetch logs. Use flyctl logs instead."
      | Ok None => text = "No logs available"
      | Ok (Some logs) =>
          if String.eqb logs EmptyString then text = "No logs available"
          else text = logs
      end.
Proof.
  intros env fly appName machine limit w.
  unfold FlyClient.getMachineLogs, tryCatch, bind, outside, ret. cbn.
  destruct (logsAnswer env _ _ _ _) as [[logs|]|msg]; cbn.
  - unfold JS.orElse, JS.truthy. destruct (String.eqb logs EmptyString); cbn;
      eexists; split; reflexivity.
  - eexists; split; reflexivity.
  - eexists; split; reflexivity.
Qed.

Example getMachineLogs_on_404 :
  fst (FlyClient.getMachineLogs Sample.noLogs Sample.client "openclaw-user-123"
                                "148e21" 100 Sample.empty)
  = Ok "Failed to fetch logs. Use flyctl logs instead.".
Proof. reflexivity. Qed.

(** ** Waiting loops *)

Section PollingFacts.

Variable env : Env.
Context {R : Type}.
Variable request : Event.
Variable answer : nat -> Outcome R.
Variables reached failed : R -> bool.
Variable failure : R -> string.
Variable timeoutMessage : string.
Variable interval : Z.
Variables timeoutMs startTime : Z.

Let loop := pollLoop env request answer reached failed failure timeoutMessage
                     interval.

Lemma turnStart_shift (n : nat) (t : Z) (k : nat) :
  turnStart env interval n t (S k)
  = turnStart env interval (S n) (t + Z.max 0 (latency env n) + interval) k.
Proof.
  induction k as [|k IH].
  - simpl. now rewrite Nat.add_0_r.
  - change (turnStart env interval n t (S (S k)))
      with (turnStart env interval n t (S k)
            + Z.max 0 (latency env (n + S k)) + interval).
    rewrite IH. simpl. now rewrite Nat.add_succ_r.
Qed.

Lemma turnStart_ge (n : nat) (t : Z) (k : nat) :
  0 <= interval -> t <= turnStart env interval n t k.
Proof. intros Hi. induction k; simpl; lia. Qed.

(** Enough turns: the loop is left, by a return or by a throw. *)
Lemma pollLoop_leaves (turns : nat) (w : World) :
  0 < interval ->
  timeoutMs - (now w - startTime) <= interval * Z.of_nat turns ->
  loop turns timeoutMs startTime w <> None.
Proof.
  intros Hi. revert w. induction turns as [|turns IH]; intros w Hw;
    cbn [loop pollLoop]; destruct (Z.ltb_spec (now w - startTime) timeoutMs);
    try discriminate; try lia.
  unfold outside. destruct (answer _) as [r|e]; [|discriminate].
  destruct (reached r); [discriminate|]. destruct (failed r); [discriminate|].
  apply IH. cbn. lia.
Qed.

(** No answer to a request begun before the deadline decides: the loop
    can only end in the timeout, and not before the deadline. *)
Lemma pollLoop_timeout (turns : nat) (w : World) (n : nat) :
  n = length (calls w) ->
  (forall k, turnStart env interval n (now w) k - startTime < timeoutMs ->
             undecided reached failed (answer (n + k)%nat)) ->
  loop turns timeoutMs startTime w = None \/
  exists w', loop turns timeoutMs startTime w = Some (Throw timeoutMessage, w')
             /\ timeoutMs <= now w' - startTime.
Proof.
  revert w n. induction turns as [|turns IH]; intros w n Hn Hall;
    cbn [loop pollLoop]; destruct (Z.ltb_spec (now w - startTime) timeoutMs);
    try (now left); try (right; eexists; split; [reflexivity|lia]).
  unfold outside. rewrite <- Hn.
  destruct (Hall 0%nat) as (r & Hr & Hreached & Hfailed); [assumption|].
  rewrite Nat.add_0_r in Hr. rewrite Hr, Hreached, Hfailed.
  apply (IH _ (S n)); [cbn; now rewrite Hn|].
  intros k Hk. specialize (Hall (S k)).
  rewrite turnStart_shift, Nat.add_succ_r in Hall. now apply Hall.
Qed.

(** The [k]-th answer is the first to decide and its turn begins before
    the deadline: the loop ends right after that answer, without a
    further sleep. *)
Lemma pollLoop_decides (k : nat) :
  0 <= interval ->
  forall (turns : nat) (w : World) (n : nat) (r : R),
    n = length (calls w) ->
    (forall j, (j < k)%nat -> undecided reached failed (answer (n + j)%nat)) ->
    answer (n + k)%nat = Ok r ->
    reached r || failed r = true ->
    turnStart env interval n (now w) k - startTime < timeoutMs ->
    loop turns timeoutMs startTime w = None \/
    exists w',
      loop turns timeoutMs startTime w
      = Some (if reached r then Ok tt else Throw (failure r), w')
      /\ now w' = turnStart env interval n (now w) k + Z.max 0 (latency env (n + k))
      /\ length (calls w') = S (n + k)
      /\ instances w' = instances w
      /\ deploymentLogs w' = deploymentLogs w.
Proof.
  intros Hi. induction k as [|k IH]; intros turns w n r Hn Hbefore Hk Hdec Hstart.
  - simpl in Hstart. rewrite Nat.add_0_r in Hk.
    destruct turns as [|turns]; cbn [loop pollLoop];
      destruct (Z.ltb_spec (now w - startTime) timeoutMs); try lia; [now left|].
    right. unfold outside. rewrite <- Hn, Hk.
    eexists. split.
    + destruct (reached r); [reflexivity|]. simpl in Hdec. rewrite Hdec. reflexivity.
    + cbn. rewrite Nat.add_0_r. repeat split; try reflexivity. now rewrite Hn.
  - pose proof (turnStart_ge n (now w) (S k) Hi) as Hge.
    destruct turns as [|turns]; cbn [loop pollLoop];
      destruct (Z.ltb_spec (now w - startTime) timeoutMs); try lia; [now left|].
    unfold outside. rewrite <- Hn.
    destruct (Hbefore 0%nat ltac:(lia)) as (r0 & Hr0 & Hreached & Hfailed).
    rewrite Nat.add_0_r in Hr0. rewrite Hr0, Hreached, Hfailed.
    rewrite turnStart_shift in Hstart.
    destruct (IH turns
                 (snd (sleep interval
                         (mkWorld (instances w) (deploymentLogs w)
                                  (now w + Z.max 0 (latency env n))
                                  (request :: calls w))))
                 (S n) r) as [Hnone | (w' & Hrun & Hnow & Hlen & Hinst & Hlogs)].
    + cbn. now rewrite Hn.
    + intros j Hj. specialize (Hbefore (S j) ltac:(lia)).
      now rewrite Nat.add_succ_r in Hbefore.
    + now rewrite Nat.add_succ_r in Hk.
    + exact Hdec.
    + exact Hstart.
    + now left.
    + right. exists w'. split; [exact Hrun|].
      rewrite turnStart_shift, !Nat.add_succ_r. cbn in Hnow, Hlen, Hinst, Hlogs.
      repeat split; assumption.
Qed.

End PollingFacts.

Lemma maxPolls_enough (timeoutMs interval : Z) :
  0 < interval ->
  timeoutMs <= interval * Z.of_nat (FlyClient.maxPolls timeoutMs interval).
Proof.
  intros Hi. unfold FlyClient.maxPolls.
  pose proof (Z.mod_pos_bound timeoutMs interval Hi).
  pose proof (Z.div_mod timeoutMs interval ltac:(lia)).
  rewrite Nat2Z.inj_succ.
  destruct (Z.le_gt_cases 0 (timeoutMs / interval)).
  - rewrite Z2Nat.id by assumption. nia.
  - replace (Z.to_nat (timeoutMs / interval)) with 0%nat by lia. nia.
Qed.

Lemma Fly_waitLoop_as_pollLoop (env : Env) (fly : FlyClient.t)
      (appName machine targetState : string) (timeoutMs startTime : Z)
      (turns : nat) (w : World) :
  FlyClient.waitLoop env turns fly appName machine targetState timeoutMs startTime w
  = pollLoop env (FlyGetMachine appName machine)
             (fun n => getMachineAnswer env n appName machine)
             (fun m => String.eqb (machineState m) targetState)
             (fun m => FlyClient.isTerminal (machineState m))
             (fun m => "Machine entered terminal state: " ++ machineState m)
             ("Timeout waiting for machine to reach state: " ++ targetState)
             FlyClient.pollInterval turns timeoutMs startTime w.
Proof.
  revert w. induction turns as [|turns IH]; intros w; cbn [FlyClient.waitLoop pollLoop].
  - reflexivity.
  - destruct (now w - startTime <? timeoutMs); [|reflexivity].
    unfold FlyClient.getMachine.
    destruct (outside env _ _ w) as [[m|e] w1]; [|reflexivity].
    destruct (String.eqb (machineState m) targetState); [reflexivity|].
    destruct (FlyClient.isTerminal (machineState m)); [reflexivity|].
    apply IH.
Qed.

Lemma Render_waitLoop_as_pollLoop (env : Env) (render : RenderClient.t)
      (service deploy : string) (timeoutMs startTime : Z) (turns : nat) (w : World) :
  RenderClient.waitLoop env turns render service deploy timeoutMs startTime w
  = pollLoop env (RenderGetDeploy service deploy)
             (fun n => getDeployAnswer env n service deploy)
             (fun d => String.eqb (deployStatus d) "live")
             (fun d => RenderClient.isFailed (deployStatus d))
             (fun d => "Deployment failed with status: " ++ deployStatus d)
             "Deployment timeout (5 minutes)"
             RenderClient.pollInterval turns timeoutMs startTime w.
Proof.
  revert w. induction turns as [|turns IH]; intros w;
    cbn [RenderClient.waitLoop pollLoop].
  - reflexivity.
  - destruct (now w - startTime <? timeoutMs); [|reflexivity].
    unfold RenderClient.getDeploy.
    destruct (outside env _ _ w) as [[d|e] w1]; [|reflexivity].
    destruct (String.eqb (deployStatus d) "live"); [reflexivity|].
    destruct (RenderClient.isFailed (deployStatus d)); [reflexivity|].
    apply IH.
Qed.

Lemma isTerminal_false (state : string) :
  FlyClient.isTerminal state = false <-> state <> "failed" /\ state <> "destroyed".
Proof.
  unfold FlyClient.isTerminal. rewrite orb_false_iff, !String.eqb_neq. tauto.
Qed.

Lemma isFailed_false (state : string) :
  RenderClient.isFailed state = false
  <-> state <> "build_failed" /\ state <> "deactivated".
Proof.
  unfold RenderClient.isFailed. rewrite orb_false_iff, !String.eqb_neq. tauto.
Qed.

Lemma stillWaiting_undecided (target : string) (o : Outcome FlyMachine) :
  stillWaiting target o ->
  undecided (fun m => String.eqb (machineState m) target)
            (fun m => FlyClient.isTerminal (machineState m)) o.
Proof.
  intros (m & -> & Ht & Hf & Hd). exists m.
  rewrite String.eqb_neq, isTerminal_false. auto.
Qed.

Lemma stillDeploying_undecided (o : Outcome RenderDeploy) :
  stillDeploying o ->
  undecided (fun d => String.eqb (deployStatus d) "live")
            (fun d => RenderClient.isFailed (deployStatus d)) o.
Proof.
  intros (d & -> & Ht & Hf & Hd). exists d.
  rewrite String.eqb_neq, isFailed_false. auto.
Qed.

(** [waitForMachineState] never takes its last branch. *)
Lemma waitLoop_leaves (env : Env) (fly : FlyClient.t) (appName machine target : string)
      (timeoutMs : Z) (w : World) :
  FlyClient.waitLoop env (FlyClient.maxPolls timeoutMs FlyClient.pollInterval) fly
                     appName machine target timeoutMs (now w) w <> None.
Proof.
  rewrite Fly_waitLoop_as_pollLoop. apply pollLoop_leaves; [reflexivity|].
  pose proof (maxPolls_enough timeoutMs FlyClient.pollInterval eq_refl). lia.
Qed.

Lemma waitForDeploy_leaves (env : Env) (render : RenderClient.t)
      (service deploy : string) (timeoutMs : Z) (w : World) :
  RenderClient.waitLoop env (FlyClient.maxPolls timeoutMs RenderClient.pollInterval)
                        render service deploy timeoutMs (now w) w <> None.
Proof.
  rewrite Render_waitLoop_as_pollLoop. apply pollLoop_leaves; [reflexivity|].
  pose proof (maxPolls_enough timeoutMs RenderClient.pollInterval eq_refl). lia.
Qed.

Lemma waitForMachineState_timeout (env : Env) (fly : FlyClient.t)
      (appName machine target : string) (timeoutMs : Z) (w : World) :
  (forall k, turnStart env 3000 (length (calls w)) (now w) k - now w < timeoutMs ->
             stillWaiting target
               (getMachineAnswer env (length (calls w) + k) appName machine)) ->
  exists w',
    FlyClient.waitForMachineState env fly appName machine target timeoutMs w
    = (Throw ("Timeout waiting for machine to reach state: " ++ target), w')
    /\ timeoutMs <= now w' - now w.
Proof.
  intros Hall. unfold FlyClient.waitForMachineState.
  pose proof (waitLoop_leaves env fly appName machine target timeoutMs w) as Hleaves.
  rewrite Fly_waitLoop_as_pollLoop in *.
  destruct (pollLoop_timeout env (FlyGetMachine appName machine)
              (fun n => getMachineAnswer env n appName machine)
              (fun m => String.eqb (machineState m) target)
              (fun m => FlyClient.isTerminal (machineState m))
              (fun m => "Machine entered terminal state: " ++ machineState m)
              ("Timeout waiting for machine to reach state: " ++ target)
              FlyClient.pollInterval timeoutMs (now w)
              (FlyClient.maxPolls timeoutMs FlyClient.pollInterval) w
              (length (calls w)) eq_refl
              (fun k Hk => stillWaiting_undecided _ _ (Hall k Hk)))
    as [Hnone | (w' & Hrun & Hlate)]; [contradiction|].
  rewrite Hrun. exists w'. split; [reflexivity | exact Hlate].
Qed.

(** The [k]-th answer is the first on which the loop does not go on. *)
Lemma waitForMachineState_decides (env : Env) (fly : FlyClient.t)
      (appName machine target : string) (timeoutMs : Z) (w : World)
      (k : nat) (m : FlyMachine) :
  (forall j, (j < k)%nat ->
             stillWaiting target
               (getMachineAnswer env (length (calls w) + j) appName machine)) ->
  getMachineAnswer env (length (calls w) + k) appName machine = Ok m ->
  String.eqb (machineState m) target || FlyClient.isTerminal (machineState m) = true ->
  turnStart env 3000 (length (calls w)) (now w) k - now w < timeoutMs ->
  exists w',
    FlyClient.waitForMachineState env fly appName machine target timeoutMs w
    = (if String.eqb (machineState m) target then Ok tt
       else Throw ("Machine entered terminal state: " ++ machineState m), w')
    /\ now w' = turnStart env 3000 (length (calls w)) (now w) k
                + Z.max 0 (latency env (length (calls w) + k))
    /\ length (calls w') = S (length (calls w) + k)
    /\ instances w' = instances w
    /\ deploymentLogs w' = deploymentLogs w.
Proof.
  intros Hbefore Hk Hdec Hstart. unfold FlyClient.waitForMachineState.
  pose proof (waitLoop_leaves env fly appName machine target timeoutMs w) as Hleaves.
  rewrite Fly_waitLoop_as_pollLoop in *.
  destruct (pollLoop_decides env (FlyGetMachine appName machine)
              (fun n => getMachineAnswer env n appName machine)
              (fun m => String.eqb (machineState m) target)
              (fun m => FlyClient.isTerminal (machineState m))
              (fun m => "Machine entered terminal state: " ++ machineState m)
              ("Timeout waiting for machine to reach state: " ++ target)
              FlyClient.pollInterval timeoutMs (now w) k ltac:(discriminate)
              (FlyClient.maxPolls timeoutMs FlyClient.pollInterval) w
              (length (calls w)) m eq_refl
              (fun j Hj => stillWaiting_undecided _ _ (Hbefore j Hj)) Hk Hdec Hstart)
    as [Hnone | (w' & Hrun & Hfacts)]; [contradiction|].
  rewrite Hrun. exists w'. split; [reflexivity | exact Hfacts].
Qed.

Lemma waitForDeploy_timeout (env : Env) (render : RenderClient.t)
      (service deploy : string) (timeoutMs : Z) (w : World) :
  (forall k, turnStart env 5000 (length (calls w)) (now w) k - now w < timeoutMs ->
             stillDeploying
               (getDeployAnswer env (length (calls w) + k) service deploy)) ->
  exists w',
    RenderClient.waitForDeploy env render service deploy timeoutMs w
    = (Throw "Deployment timeout (5 minutes)", w')
    /\ timeoutMs <= now w' - now w.
Proof.
  intros Hall. unfold RenderClient.waitForDeploy.
  pose proof (waitForDeploy_leaves env render service deploy timeoutMs w) as Hleaves.
  rewrite Render_waitLoop_as_pollLoop in *.
  destruct (pollLoop_timeout env (RenderGetDeploy service deploy)
              (fun n => getDeployAnswer env n service deploy)
              (fun d => String.eqb (deployStatus d) "live")
              (fun d => RenderClient.isFailed (deployStatus d))
              (fun d => "Deployment failed with status: " ++ deployStatus d)
              "Deployment timeout (5 minutes)"
              RenderClient.pollInterval timeoutMs (now w)
              (FlyClient.maxPolls timeoutMs RenderClient.pollInterval) w
              (length (calls w)) eq_refl
              (fun k Hk => stillDeploying_undecided _ (Hall k Hk)))
    as [Hnone | (w' & Hrun & Hlate)]; [contradiction|].
  rewrite Hrun. exists w'. split; [reflexivity | exact Hlate].
Qed.

Lemma waitForDeploy_decides (env : Env) (render : RenderClient.t)
      (service deploy : string) (timeoutMs : Z) (w : World)
      (k : nat) (d : RenderDeploy) :
  (forall j, (j < k)%nat ->
             stillDeploying (getDeployAnswer env (length (calls w) + j) service deploy)) ->
  getDeployAnswer env (length (calls w) + k) service deploy = Ok d ->
  String.eqb (deployStatus d) "live" || RenderClient.isFailed (deployStatus d) = true ->
  turnStart env 5000 (length (calls w)) (now w) k - now w < timeoutMs ->
  exists w',
    RenderClient.waitForDeploy env render service deploy timeoutMs w
    = (if String.eqb (deployStatus d) "live" then Ok tt
       else Throw ("Deployment failed with status: " ++ deployStatus d), w')
    /\ now w' = turnStart env 5000 (length (calls w)) (now w) k
                + Z.max 0 (latency env (length (calls w) + k))
    /\ length (calls w') = S (length (calls w) + k)
    /\ instances w' = instances w
    /\ deploymentLogs w' = deploymentLogs w.
Proof.
  intros Hbefore Hk Hdec Hstart. unfold RenderClient.waitForDeploy.
  pose proof (waitForDeploy_leaves env render service deploy timeoutMs w) as Hleaves.
  rewrite Render_waitLoop_as_pollLoop in *.
  destruct (pollLoop_decides env (RenderGetDeploy service deploy)
              (fun n => getDeployAnswer env n service deploy)
              (fun d => String.eqb (deployStatus d) "live")
              (fun d => RenderClient.isFailed (deployStatus d))
              (fun d => "Deployment failed with status: " ++ deployStatus d)
              "Deployment timeout (5 minutes)"
              RenderClient.pollInterval timeoutMs (now w) k ltac:(discriminate)
              (FlyClient.maxPolls timeoutMs RenderClient.pollInterval) w
              (length (calls w)) d eq_refl
              (fun j Hj => stillDeploying_undecided _ (Hbefore j Hj)) Hk Hdec Hstart)
    as [Hnone | (w' & Hrun & Hfacts)]; [contradiction|].
  rewrite Hrun. exists w'. split; [reflexivity | exact Hfacts].
Qed.

(** C3, as the code has it.  Both waiting helpers end in their timeout
    error, and not before the deadline, when no request that they begin
    before the deadline is answered by the target, by a terminal failure
    state or by an error.  And when the first answer on which they do not
    keep waiting is a terminal failure state (failed or destroyed for a
    machine, build_failed or deactivated for a deploy) and its request
    began before the deadline, they throw right after that answer,
    without a further sleep; for a machine this needs that the state is
    not the requested target itself. *)
Theorem C3_waiting_times_out_or_fails_fast :
  forall (env : Env) (w : World),
    (forall fly appName machine target timeoutMs,
        (forall k, turnStart env 3000 (length (calls w)) (now w) k - now w < timeoutMs ->
                   stillWaiting target
                     (getMachineAnswer env (length (calls w) + k) appName machine)) ->
        exists w',
          FlyClient.waitForMachineState env fly appName machine target timeoutMs w
          = (Throw ("Timeout waiting for machine to reach state: " ++ target), w')
          /\ timeoutMs <= now w' - now w)
    /\
    (forall fly appName machine target timeoutMs (k : nat) (m : FlyMachine),
        (forall j, (j < k)%nat ->
                   stillWaiting target
                     (getMachineAnswer env (length (calls w) + j) appName machine)) ->
        getMachineAnswer env (length (calls w) + k) appName machine = Ok m ->
        machineState m = "failed" \/ machineState m = "destroyed" ->
        machineState m <> target ->
        turnStart env 3000 (length (calls w)) (now w) k - now w < timeoutMs ->
        exists w',
          FlyClient.waitForMachineState env fly appName machine target timeoutMs w
          = (Throw ("Machine entered terminal state: " ++ machineState m), w')
          /\ now w' = turnStart env 3000 (length (calls w)) (now w) k
                      + Z.max 0 (latency env (length (calls w) + k))
          /\ length (calls w') = S (length (calls w) + k))
    /\
    (forall render service deploy timeoutMs,
        (forall k, turnStart env 5000 (length (calls w)) (now w) k - now w < timeoutMs ->
                   stillDeploying
                     (getDeployAnswer env (length (calls w) + k) service deploy)) ->
        exists w',
          RenderClient.waitForDeploy env render service deploy timeoutMs w
          = (Throw "Deployment timeout (5 minutes)", w')
          /\ timeoutMs <= now w' - now w)
    /\
    (forall render service deploy timeoutMs (k : nat) (d : RenderDeploy),
        (forall j, (j < k)%nat ->
                   stillDeploying
                     (getDeployAnswer env (length (calls w) + j) service deploy)) ->
        getDeployAnswer env (length (calls w) + k) service deploy = Ok d ->
        deployStatus d = "build_failed" \/ deployStatus d = "deactivated" ->
        turnStart env 5000 (length (calls w)) (now w) k - now w < timeoutMs ->
        exists w',
          RenderClient.waitForDeploy env render service deploy timeoutMs w
          = (Throw ("Deployment failed with status: " ++ deployStatus d), w')
          /\ now w' = turnStart env 5000 (length (calls w)) (now w) k
                      + Z.max 0 (latency env (length (calls w) + k))
          /\ length (calls w') = S (length (calls w) + k)).
Proof.
  intros env w. repeat split.
  - intros. now apply waitForMachineState_timeout.
  - intros fly appName machine target timeoutMs k m Hbefore Hk Hterm Hneq Hstart.
    destruct (waitForMachineState_decides env fly appName machine target timeoutMs
                w k m Hbefore Hk) as (w' & Hrun & Hnow & Hlen & _).
    + apply orb_true_iff. right. unfold FlyClient.isTerminal.
      destruct Hterm as [-> | ->]; reflexivity.
    + exact Hstart.
    + apply String.eqb_neq in Hneq. rewrite Hneq in Hrun. eauto.
  - intros. now apply waitForDeploy_timeout.
  - intros render service deploy timeoutMs k d Hbefore Hk Hterm Hstart.
    destruct (waitForDeploy_decides env render service deploy timeoutMs
                w k d Hbefore Hk) as (w' & Hrun & Hnow & Hlen & _).
    + apply orb_true_iff. right. unfold RenderClient.isFailed.
      destruct Hterm as [-> | ->]; reflexivity.
    + exact Hstart.
    + replace (String.eqb (deployStatus d) "live") with false in Hrun
        by (destruct Hterm as [-> | ->]; reflexivity).
      eauto.
Qed.

Lemma C3_witness :
  (exists w',
      FlyClient.waitForMachineState Sample.failedMachine Sample.client
        "openclaw-user-123" "148e21" "started" 120000 Sample.empty
      = (Throw "Machine entered terminal state: failed", w')
      /\ now w' = now Sample.empty + 250
      /\ length (calls w') = 1%nat)
  /\
  (exists w',
      RenderClient.waitForDeploy Sample.failedDeploy Sample.renderClient
        "srv-c0ffee" "dep-1" 300000 Sample.empty
      = (Throw "Deployment failed with status: build_failed", w')
      /\ now w' = now Sample.empty + 250
      /\ length (calls w') = 1%nat)
  /\
  (exists w',
      FlyClient.waitForMachineState Sample.stuckMachine Sample.client
        "openclaw-user-123" "148e21" "started" 120000 Sample.empty
      = (Throw "Timeout waiting for machine to reach state: started", w')
      /\ 120000 <= now w' - now Sample.empty).
Proof.
  destruct (C3_waiting_times_out_or_fails_fast Sample.failedMachine Sample.empty)
    as (_ & Hfly & _).
  destruct (C3_waiting_times_out_or_fails_fast Sample.failedDeploy Sample.empty)
    as (_ & _ & _ & Hrender).
  destruct (C3_waiting_times_out_or_fails_fast Sample.stuckMachine Sample.empty)
    as (Hstuck & _).
  split; [|split].
  - apply (Hfly Sample.client "openclaw-user-123" "148e21" "started" 120000 0%nat
                (mkMachine "148e21" "failed")).
    + intros j Hj. inversion Hj.
    + reflexivity.
    + left; reflexivity.
    + discriminate.
    + reflexivity.
  - apply (Hrender Sample.renderClient "srv-c0ffee" "dep-1" 300000 0%nat
                   (mkDeploy "dep-1" "build_failed")).
    + intros j Hj. inversion Hj.
    + reflexivity.
    + left; reflexivity.
    + reflexivity.
  - apply (Hstuck Sample.client "openclaw-user-123" "148e21" "started" 120000).
    intros k _. exists (mkMachine "148e21" "starting").
    repeat split; discriminate.
Defined.

(** C3 as stated fails for a machine awaited in a terminal state: the
    first answer is "destroyed", a terminal failure state, and the helper
    returns instead of throwing. *)
Lemma C3_counterexample_terminal_target :
  getMachineAnswer Sample.destroyedMachine 0 "openclaw-user-123" "148e21"
  = Ok (mkMachine "148e21" "destroyed")
  /\ fst (FlyClient.waitForMachineState Sample.destroyedMachine Sample.client
            "openclaw-user-123" "148e21" "destroyed" 120000 Sample.empty)
     = Ok tt.
Proof. split; reflexivity. Qed.

(** C9: when the requested target is itself "failed" or "destroyed" and
    the first answer on which the loop does not go on carries that state,
    [waitForMachineState] returns, right after that answer. *)
Theorem C9_terminal_target_returns :
  forall (env : Env) (fly : FlyClient.t) (appName machine target : string)
         (timeoutMs : Z) (w : World) (k : nat) (m : FlyMachine),
    target = "failed" \/ target = "destroyed" ->
    (forall j, (j < k)%nat ->
               stillWaiting target
                 (getMachineAnswer env (length (calls w) + j) appName machine)) ->
    getMachineAnswer env (length (calls w) + k) appName machine = Ok m ->
    machineState m = target ->
    turnStart env 3000 (length (calls w)) (now w) k - now w < timeoutMs ->
    exists w',
      FlyClient.waitForMachineState env fly appName machine target timeoutMs w
      = (Ok tt, w')
      /\ FlyClient.isTerminal (machineState m) = true
      /\ now w' = turnStart env 3000 (length (calls w)) (now w) k
                  + Z.max 0 (latency env (length (calls w) + k))
      /\ length (calls w') = S (length (calls w) + k).
Proof.
  intros env fly appName machine target timeoutMs w k m Htarget Hbefore Hk Hm Hstart.
  destruct (waitForMachineState_decides env fly appName machine target timeoutMs
              w k m Hbefore Hk) as (w' & Hrun & Hnow & Hlen & _).
  - rewrite Hm, String.eqb_refl. reflexivity.
  - exact Hstart.
  - rewrite Hm, String.eqb_refl in Hrun. exists w'. repeat split; try assumption.
    rewrite Hm. destruct Htarget as [-> | ->]; reflexivity.
Qed.

Lemma C9_witness :
  exists w',
    FlyClient.waitForMachineState Sample.failedMachine Sample.client
      "openclaw-user-123" "148e21" "failed" 120000 Sample.empty
    = (Ok tt, w')
    /\ FlyClient.isTerminal "failed" = true
    /\ now w' = now Sample.empty + 250
    /\ length (calls w') = 1%nat.
Proof.
  apply (C9_terminal_target_returns Sample.failedMachine Sample.client
           "openclaw-user-123" "148e21" "failed" 120000 Sample.empty 0%nat
           (mkMachine "148e21" "failed")).
  - left; reflexivity.
  - intros j Hj. inversion Hj.
  - reflexivity.
  - reflexivity.
  - reflexivity.
Defined.

(** ** The tables *)

Section TableFacts.

Lemma find_map_stable {A} (p : A -> bool) (f : A -> A) (l : list A) :
  (forall x, p (f x) = p x) ->
  find p (map f l) = option_map f (find p l).
Proof.
  intros Hp. induction l as [|x l IH]; simpl; [reflexivity|].
  rewrite Hp. destruct (p x); [reflexivity | exact IH].
Qed.

Lemma findById_updateRows (i j : string) (d : InstanceData) (rows : list Instance) :
  findById i (updateRows j d rows)
  = option_map (fun r => if String.eqb (id r) j then applyData d r else r)
               (findById i rows).
Proof.
  unfold findById, updateRows. apply find_map_stable.
  intros r. now destruct (String.eqb (id r) j).
Qed.

Lemma findByUserId_updateRows (u j : string) (d : InstanceData)
      (rows : list Instance) :
  findByUserId u (updateRows j d rows)
  = option_map (fun r => if String.eqb (id r) j then applyData d r else r)
               (findByUserId u rows).
Proof.
  unfold findByUserId, updateRows. apply find_map_stable.
  intros r. now destruct (String.eqb (id r) j).
Qed.

Lemma findById_id (i : string) (rows : list Instance) (r : Instance) :
  findById i rows = Some r -> id r = i.
Proof.
  unfold findById. intros H. apply find_some in H. now apply String.eqb_eq.
Qed.

Lemma findById_updated (i : string) (d : InstanceData) (rows : list Instance)
      (r : Instance) :
  findById i rows = Some r ->
  findById i (updateRows i d rows) = Some (applyData d r).
Proof.
  intros H. rewrite findById_updateRows, H. simpl.
  apply findById_id in H. rewrite H, String.eqb_refl. reflexivity.
Qed.

End TableFacts.

Arguments findById : simpl never.
Arguments findByUserId : simpl never.
Arguments updateRows : simpl never.
Arguments deleteRows : simpl never.

(** ** Stop, start, restart *)

(** C4, as the code has it.  On Fly.io an instance whose [containerId]
    and [containerName] are not both set makes the three operations throw
    "Instance missing Fly.io identifiers"; on Render an instance whose
    [containerId] is not set makes them throw "Instance missing Render
    service ID".  In both cases nothing at all is changed: no status
    write, [RESTARTING] included, and no call to the provider. *)
Theorem C4_lifecycle_requires_identifiers :
  forall (env : Env) (i : string) (w : World) (r : Instance),
    findById i (instances w) = Some r ->
    (JS.truthy (containerId r) = false \/ JS.truthy (containerName r) = false ->
     FlyDeploy.stopInstance env i w = (Throw "Instance missing Fly.io identifiers", w)
     /\ FlyDeploy.startInstance env i w = (Throw "Instance missing Fly.io identifiers", w)
     /\ FlyDeploy.restartInstance env i w
        = (Throw "Instance missing Fly.io identifiers", w))
    /\
    (JS.truthy (containerId r) = false ->
     RenderDeploy.stopInstance env i w = (Throw "Instance missing Render service ID", w)
     /\ RenderDeploy.startInstance env i w
        = (Throw "Instance missing Render service ID", w)
     /\ RenderDeploy.restartInstance env i w
        = (Throw "Instance missing Render service ID", w)).
Proof.
  intros env i w r Hfind. split.
  - intros Hmissing.
    assert (FlyDeploy.missingIdentifiers r = true) as Hm.
    { unfold FlyDeploy.missingIdentifiers.
      destruct Hmissing as [-> | ->]; [reflexivity | apply orb_true_r]. }
    unfold FlyDeploy.stopInstance, FlyDeploy.startInstance, FlyDeploy.restartInstance,
      bind, instance_findUnique_id.
    rewrite Hfind, Hm. repeat split.
  - intros Hmissing.
    unfold RenderDeploy.stopInstance, RenderDeploy.startInstance,
      RenderDeploy.restartInstance, bind, instance_findUnique_id.
    rewrite Hfind, Hmissing. repeat split.
Qed.

Lemma C4_witness :
  (FlyDeploy.stopInstance Sample.calm "inst-8" (Sample.withRows [Sample.bareRow])
   = (Throw "Instance missing Fly.io identifiers", Sample.withRows [Sample.bareRow])
   /\ FlyDeploy.startInstance Sample.calm "inst-8" (Sample.withRows [Sample.bareRow])
      = (Throw "Instance missing Fly.io identifiers", Sample.withRows [Sample.bareRow])
   /\ FlyDeploy.restartInstance Sample.calm "inst-8" (Sample.withRows [Sample.bareRow])
      = (Throw "Instance missing Fly.io identifiers", Sample.withRows [Sample.bareRow]))
  /\
  (RenderDeploy.stopInstance Sample.calm "inst-8" (Sample.withRows [Sample.bareRow])
   = (Throw "Instance missing Render service ID", Sample.withRows [Sample.bareRow])
   /\ RenderDeploy.startInstance Sample.calm "inst-8" (Sample.withRows [Sample.bareRow])
      = (Throw "Instance missing Render service ID", Sample.withRows [Sample.bareRow])
   /\ RenderDeploy.restartInstance Sample.calm "inst-8"
        (Sample.withRows [Sample.bareRow])
      = (Throw "Instance missing Render service ID", Sample.withRows [Sample.bareRow])).
Proof.
  destruct (C4_lifecycle_requires_identifiers
              Sample.calm "inst-8" (Sample.withRows [Sample.bareRow]) Sample.bareRow
              eq_refl) as [Hfly Hrender].
  split; [apply Hfly; left; reflexivity | apply Hrender; reflexivity].
Defined.

(** C4 as stated fails on Render: with [containerName] null the two
    identifiers are not both set, yet [stopInstance] suspends the service
    and writes [STOPPED], and [restartInstance] goes through as well. *)
Lemma C4_counterexample_render_ignores_containerName :
  JS.truthy (containerName Sample.namelessRow) = false
  /\ status Sample.namelessRow = RUNNING
  /\ fst (RenderDeploy.stopInstance Sample.calm "inst-7"
            (Sample.withRows [Sample.namelessRow])) = Ok tt
  /\ option_map status
       (findById "inst-7"
          (instances (snd (RenderDeploy.stopInstance Sample.calm "inst-7"
                             (Sample.withRows [Sample.namelessRow])))))
     = Some STOPPED
  /\ fst (RenderDeploy.restartInstance Sample.calm "inst-7"
            (Sample.withRows [Sample.namelessRow])) = Ok tt.
Proof. repeat split. Qed.

(** ** Health checks *)

(** C8, as the code has it: [checkInstanceHealth] always returns a
    boolean.  It is [false], with nothing written, when there is no such
    instance, when an identifier that the provider's guard asks for is
    missing, and when the client cannot be built; the guard asks for the
    machine id and the app name on Fly.io and for the service id alone
    on Render, where [containerName] is not consulted.  It is [false]
    when the provider request throws; and otherwise it is [true] exactly
    when the provider reports the resource as running, with
    [lastHealthCheck] set to the current time and [status] to [RUNNING]
    or [ERROR] accordingly. *)
Theorem C8_checkInstanceHealth_never_throws :
  forall (env : Env) (i : string) (w : World),
    (exists (healthy : bool) (w' : World),
        FlyDeploy.checkInstanceHealth env i w = (Ok healthy, w')
        /\ (findById i (instances w) = None -> healthy = false /\ w' = w)
        /\ (forall r, findById i (instances w) = Some r ->
              (JS.truthy (containerId r) = false \/ JS.truthy (containerName r) = false ->
               healthy = false /\ w' = w)
              /\ (forall machine appName,
                    containerId r = Some machine -> machine <> EmptyString ->
                    containerName r = Some appName -> appName <> EmptyString ->
                    (JS.truthy (FLY_API_TOKEN env) = false
                     \/ JS.truthy (FLY_ORG_SLUG env) = false ->
                     healthy = false /\ w' = w)
                    /\ (JS.truthy (FLY_API_TOKEN env) = true ->
                        JS.truthy (FLY_ORG_SLUG env) = true ->
                        match getMachineAnswer env (length (calls w)) appName machine with
                        | Throw _ => healthy = false /\ instances w' = instances w
                        | Ok m =>
                            (healthy = true <->
                             machineState m = "started" \/ machineState m = "running")
                            /\ now w' = now w + Z.max 0 (latency env (length (calls w)))
                            /\ findById i (instances w')
                               = Some (applyData
                                         (mkData None
                                            (Some (if healthy then RUNNING else ERROR))
                                            None None None (Some (now w')))
                                         r)
                        end))))
    /\
    (exists (healthy : bool) (w' : World),
        RenderDeploy.checkInstanceHealth env i w = (Ok healthy, w')
        /\ (findById i (instances w) = None -> healthy = false /\ w' = w)
        /\ (forall r, findById i (instances w) = Some r ->
              (JS.truthy (containerId r) = false -> healthy = false /\ w' = w)
              /\ (forall service,
                    containerId r = Some service -> service <> EmptyString ->
                    (JS.truthy (RENDER_API_KEY env) = false ->
                     healthy = false /\ w' = w)
                    /\ (JS.truthy (RENDER_API_KEY env) = true ->
                        match getServiceAnswer env (length (calls w)) service with
                        | Throw _ => healthy = false /\ instances w' = instances w
                        | Ok s =>
                            (healthy = true <->
                             suspended s = "not_suspended"
                             /\ serviceDetailsUrl s <> None)
                            /\ now w' = now w + Z.max 0 (latency env (length (calls w)))
                            /\ findById i (instances w')
                               = Some (applyData
                                         (mkData None
                                            (Some (if healthy then RUNNING else ERROR))
                                            None None None (Some (now w')))
                                         r)
                        end)))).
Proof.
  intros env i w. split.
  - unfold FlyDeploy.checkInstanceHealth, tryCatch, bind, instance_findUnique_id.
    destruct (findById i (instances w)) as [r|] eqn:Hfind.
    2:{ exists false, w. repeat split; intros; discriminate. }
    unfold FlyDeploy.missingIdentifiers.
    destruct (JS.truthy (containerId r)) eqn:Hcid; cbn [negb orb].
    2:{ exists false, w. split; [reflexivity|]. split; [discriminate|].
        intros r' Hr'. injection Hr' as <-. split; [auto|].
        intros machine appName Hm Hne. rewrite Hm in Hcid.
        apply truthy_Some in Hne. congruence. }
    destruct (JS.truthy (containerName r)) eqn:Hname; cbn [negb orb].
    2:{ exists false, w. split; [reflexivity|]. split; [discriminate|].
        intros r' Hr'. injection Hr' as <-. split; [auto|].
        intros machine appName _ _ Ha Hne. rewrite Ha in Hname.
        apply truthy_Some in Hne. congruence. }
    unfold FlyClient.new.
    destruct (JS.truthy (FLY_API_TOKEN env)) eqn:Htok; cbn [negb].
    2:{ exists false, w. split; [reflexivity|]. split; [discriminate|].
        intros r' Hr'. injection Hr' as <-. split; [intros [H|H]; congruence|].
        intros. split; [auto|]. intros; congruence. }
    destruct (JS.truthy (FLY_ORG_SLUG env)) eqn:Hslug; cbn [negb].
    2:{ exists false, w. split; [reflexivity|]. split; [discriminate|].
        intros r' Hr'. injection Hr' as <-. split; [intros [H|H]; congruence|].
        intros. split; [auto|]. intros; congruence. }
    unfold ret, FlyClient.getMachine, outside, Date_now, instance_update. cbn.
    destruct (getMachineAnswer env (length (calls w))
                (JS.orElse (containerName r) EmptyString)
                (JS.orElse (containerId r) EmptyString)) as [m|e] eqn:Hanswer.
    + rewrite Hfind. cbn.
      eexists _, _. split; [reflexivity|]. split; [discriminate|].
      intros r' Hr'. injection Hr' as <-. split; [intros [H|H]; congruence|].
      intros machine appName Hm Hmne Ha Hane. split; [intros [H|H]; congruence|].
      intros _ _.
      rewrite Ha, Hm, !orElse_Some in Hanswer by assumption. rewrite Hanswer.
      split; [|split].
      * unfold FlyDeploy.reportsRunning. rewrite orb_true_iff, !String.eqb_eq. tauto.
      * reflexivity.
      * cbn. now apply findById_updated.
    + eexists _, _. split; [reflexivity|]. split; [discriminate|].
      intros r' Hr'. injection Hr' as <-. split; [intros [H|H]; congruence|].
      intros machine appName Hm Hmne Ha Hane. split; [intros [H|H]; congruence|].
      intros _ _.
      rewrite Ha, Hm, !orElse_Some in Hanswer by assumption. rewrite Hanswer.
      split; reflexivity.
  - unfold RenderDeploy.checkInstanceHealth, tryCatch, bind, instance_findUnique_id.
    destruct (findById i (instances w)) as [r|] eqn:Hfind.
    2:{ exists false, w. repeat split; intros; discriminate. }
    destruct (JS.truthy (containerId r)) eqn:Hcid; cbn [negb].
    2:{ exists false, w. split; [reflexivity|]. split; [discriminate|].
        intros r' Hr'. injection Hr' as <-. split; [auto|].
        intros service Hs Hne. rewrite Hs in Hcid.
        apply truthy_Some in Hne. congruence. }
    unfold RenderClient.new.
    destruct (JS.truthy (RENDER_API_KEY env)) eqn:Hkey; cbn [negb].
    2:{ exists false, w. split; [reflexivity|]. split; [discriminate|].
        intros r' Hr'. injection Hr' as <-. split; [congruence|].
        intros. split; [auto|]. intros; congruence. }
    unfold ret, RenderClient.getService, outside, Date_now, instance_update. cbn.
    destruct (getServiceAnswer env (length (calls w))
                (JS.orElse (containerId r) EmptyString)) as [s|e] eqn:Hanswer.
    + rewrite Hfind. cbn.
      eexists _, _. split; [reflexivity|]. split; [discriminate|].
      intros r' Hr'. injection Hr' as <-. split; [congruence|].
      intros service Hs Hsne. split; [congruence|].
      intros _.
      rewrite Hs, orElse_Some in Hanswer by assumption. rewrite Hanswer.
      split; [|split].
      * unfold RenderDeploy.reportsRunning. rewrite andb_true_iff, String.eqb_eq.
        destruct (serviceDetailsUrl s); intuition congruence.
      * reflexivity.
      * cbn. now apply findById_updated.
    + eexists _, _. split; [reflexivity|]. split; [discriminate|].
      intros r' Hr'. injection Hr' as <-. split; [congruence|].
      intros service Hs Hsne. split; [congruence|].
      intros _.
      rewrite Hs, orElse_Some in Hanswer by assumption. rewrite Hanswer.
      split; reflexivity.
Qed.

Lemma C8_witness :
  exists (healthy : bool) (w' : World),
    FlyDeploy.checkInstanceHealth Sample.calm "inst-9" (Sample.withRows [Sample.liveRow])
    = (Ok healthy, w')
    /\ healthy = true
    /\ option_map status (findById "inst-9" (instances w')) = Some RUNNING.
Proof.
  destruct (C8_checkInstanceHealth_never_throws
              Sample.calm "inst-9" (Sample.withRows [Sample.liveRow]))
    as [(healthy & w' & Hrun & _ & Hrow) _].
  destruct (Hrow Sample.liveRow eq_refl) as [_ Hids].
  destruct (Hids "148e21" "openclaw-user-9" eq_refl ltac:(discriminate)
                 eq_refl ltac:(discriminate)) as [_ Hcall].
  specialize (Hcall eq_refl eq_refl). cbn in Hcall.
  destruct Hcall as (Hiff & _ & Hfound).
  assert (healthy = true) as Hh by (apply Hiff; left; reflexivity).
  exists healthy, w'. split; [exact Hrun|]. split; [exact Hh|].
  rewrite Hfound, Hh. reflexivity.
Defined.

(** C8 as stated fails on Render: with [containerName] null one of the
    two identifiers is missing, yet [checkInstanceHealth] asks the
    provider, returns [true] and writes [RUNNING] and the time of the
    check to the row.  On Fly.io the same row is answered with [false]
    and left as it is. *)
Lemma C8_counterexample_render_healthy_without_containerName :
  JS.truthy (containerName Sample.namelessRow) = false
  /\ lastHealthCheck Sample.namelessRow = None
  /\ RenderDeploy.checkInstanceHealth Sample.calm "inst-7"
       (Sample.withRows [Sample.namelessRow])
     = (Ok true,
        mkWorld [applyData (mkData None (Some RUNNING) None None None
                                   (Some 1770000000250))
                           Sample.namelessRow]
                [] 1770000000250 [RenderGetService "srv-c0ffee"])
  /\ FlyDeploy.checkInstanceHealth Sample.calm "inst-7"
       (Sample.withRows [Sample.namelessRow])
     = (Ok false, Sample.withRows [Sample.namelessRow]).
Proof. repeat split. Qed.

(** ** What the orchestrators do to the instance table *)

Section Keeping.

Variable P : list Instance -> Prop.

Lemma inert_keeps {A} (m : M A) : inert m -> keeps P m.
Proof. intros H w Hw. now rewrite H. Qed.

Lemma inert_ret {A} (a : A) : inert (ret a).
Proof. now intros w. Qed.

Lemma inert_throw {A} (msg : string) : inert (@throw A msg).
Proof. now intros w. Qed.

Lemma inert_lift {A} (o : Outcome A) : inert (lift o).
Proof. now intros w. Qed.

Lemma inert_sleep (ms : Z) : inert (sleep ms).
Proof. now intros w. Qed.

Lemma inert_Date_now : inert Date_now.
Proof. now intros w. Qed.

Lemma inert_outside (env : Env) {A} (ev : Event) (answer : nat -> Outcome A) :
  inert (outside env ev answer).
Proof. now intros w. Qed.

Lemma inert_randomUUID (env : Env) : inert (crypto_randomUUID env).
Proof. now intros w. Qed.

Lemma inert_logDeployment (i a s m : string) (e : option string) :
  inert (logDeployment i a s m e).
Proof. now intros w. Qed.

Lemma inert_bind {A B} (m : M A) (k : A -> M B) :
  inert m -> (forall a, inert (k a)) -> inert (bind m k).
Proof.
  intros Hm Hk w. unfold bind. specialize (Hm w).
  destruct (m w) as [[a|e] w1]; cbn in *; [|exact Hm].
  now rewrite Hk.
Qed.

Lemma inert_tryCatch {A} (m : M A) (h : string -> M A) :
  inert m -> (forall e, inert (h e)) -> inert (tryCatch m h).
Proof.
  intros Hm Hh w. unfold tryCatch. specialize (Hm w).
  destruct (m w) as [[a|e] w1]; cbn in *; [exact Hm|].
  now rewrite Hh.
Qed.

Lemma keeps_bind {A B} (m : M A) (k : A -> M B) :
  keeps P m -> (forall a, keeps P (k a)) -> keeps P (bind m k).
Proof.
  intros Hm Hk w Hw. unfold bind. specialize (Hm w Hw).
  destruct (m w) as [[a|e] w1]; cbn in *; [|exact Hm].
  now apply Hk.
Qed.

Lemma keeps_tryCatch {A} (m : M A) (h : string -> M A) :
  keeps P m -> (forall e, keeps P (h e)) -> keeps P (tryCatch m h).
Proof.
  intros Hm Hh w Hw. unfold tryCatch. specialize (Hm w Hw).
  destruct (m w) as [[a|e] w1]; cbn in *; [exact Hm|].
  now apply Hh.
Qed.

(** [prisma.instance.update] keeps whatever every update keeps. *)
Lemma keeps_update (i : string) (d : InstanceData) :
  (forall rows, P rows -> P (updateRows i d rows)) ->
  keeps P (instance_update i d).
Proof.
  intros Hupd w Hw. unfold instance_update.
  destruct (findById i (instances w)); cbn; auto.
Qed.

End Keeping.

Lemma inert_pollLoop (env : Env) {R : Type} (request : Event)
      (answer : nat -> Outcome R) (reached failed : R -> bool)
      (failure : R -> string) (timeoutMessage : string) (interval : Z)
      (timeoutMs startTime : Z) (turns : nat) :
  forall w o w',
    pollLoop env request answer reached failed failure timeoutMessage interval
             turns timeoutMs startTime w = Some (o, w') ->
    instances w' = instances w.
Proof.
  induction turns as [|turns IH]; intros w o w'; cbn [pollLoop];
    destruct (now w - startTime <? timeoutMs); try discriminate;
    try (intros H; now inversion H).
  unfold outside. destruct (answer _) as [r|e]; [|intros H; now inversion H].
  destruct (reached r); [intros H; now inversion H|].
  destruct (failed r); [intros H; now inversion H|].
  intros H. now rewrite (IH _ _ _ H).
Qed.

Lemma inert_waitForMachineState (env : Env) (fly : FlyClient.t)
      (appName machine target : string) (timeoutMs : Z) :
  inert (FlyClient.waitForMachineState env fly appName machine target timeoutMs).
Proof.
  intros w. unfold FlyClient.waitForMachineState.
  rewrite Fly_waitLoop_as_pollLoop.
  destruct (pollLoop _ _ _ _ _ _ _ _ _ _ _ w) as [[o w']|] eqn:Hrun; [|reflexivity].
  now apply inert_pollLoop in Hrun.
Qed.

Lemma inert_pollServiceUrl (env : Env) (remaining : nat) (render : RenderClient.t)
      (service : string) :
  inert (RenderDeploy.pollServiceUrl env remaining render service).
Proof.
  induction remaining as [|remaining IH]; cbn [RenderDeploy.pollServiceUrl].
  - apply inert_ret.
  - apply inert_bind; [apply inert_outside|]. intros s.
    destruct (JS.truthy (serviceDetailsUrl s)); [apply inert_ret|].
    apply inert_bind; [apply inert_sleep | intros _; exact IH].
Qed.

Create HintDb keeping.

#[local] Hint Resolve inert_keeps inert_ret inert_throw inert_lift inert_sleep
  inert_Date_now inert_outside inert_randomUUID inert_logDeployment
  inert_waitForMachineState inert_pollServiceUrl : keeping.
#[local] Hint Resolve keeps_bind keeps_tryCatch keeps_update : keeping.

Section Ownership.

Variables u i : string.

Lemma Owns_updateRows (j : string) (d : InstanceData) (rows : list Instance) :
  Owns u i rows -> Owns u i (updateRows j d rows).
Proof.
  intros (r & Hu & Hi). unfold Owns.
  rewrite findByUserId_updateRows, findById_updateRows, Hu, Hi. cbn. eauto.
Qed.

Lemma find_app_none {A} (p : A -> bool) (l : list A) (x : A) :
  find p l = None -> p x = true -> find p (l ++ [x])%list = Some x.
Proof.
  intros Hl Hx. induction l as [|y l IH]; simpl in *.
  - now rewrite Hx.
  - destruct (p y); [discriminate | auto].
Qed.

End Ownership.

#[local] Hint Resolve Owns_updateRows : keeping.

(** [prisma.instance.create] returns a row that is its user's. *)
Lemma instance_create_owns (env : Env) (u name : string) (p : Z)
      (s : InstanceStatus) (w w' : World) (row : Instance) :
  instance_create env u name p s w = (Ok row, w') ->
  Owns u (id row) (instances w') /\ userId row = u /\ status row = s.
Proof.
  unfold instance_create.
  destruct (findById _ (instances w)) eqn:Hi; [discriminate|].
  destruct (findByUserId u (instances w)) eqn:Hu; [discriminate|].
  intros H. inversion H; subst; clear H. cbn. split; [|split; reflexivity].
  eexists. split.
  - apply find_app_none; [exact Hu | apply String.eqb_refl].
  - apply find_app_none; [exact Hi | apply String.eqb_refl].
Qed.

Lemma bind_Ok {A B} (m : M A) (k : A -> M B) (w w' : World) (b : B) :
  bind m k w = (Ok b, w') ->
  exists a w1, m w = (Ok a, w1) /\ k a w1 = (Ok b, w').
Proof.
  unfold bind. destruct (m w) as [[a|e] w1]; [eauto | discriminate].
Qed.

Lemma bind_Throw {A B} (m : M A) (k : A -> M B) (w w' : World) (e : string) :
  bind m k w = (Throw e, w') ->
  m w = (Throw e, w') \/ exists a w1, m w = (Ok a, w1) /\ k a w1 = (Throw e, w').
Proof.
  unfold bind. destruct (m w) as [[a|e0] w1]; intros H.
  - right. exists a, w1. split; [reflexivity | exact H].
  - left. now inversion H.
Qed.

Ltac keeping :=
  repeat first
    [ solve [apply inert_keeps; auto with keeping]
    | solve [apply keeps_update; intros; auto with keeping]
    | apply keeps_bind; [|intros ?]
    | apply keeps_tryCatch; [|intros ?] ].

(** ** Deployment on Fly.io *)

Section FlyDeployFacts.

Variable env : Env.
Context {UserConfiguration : Type}.
Variable builder : ConfigBuilder UserConfiguration.
Variable P : list Instance -> Prop.
Hypothesis P_updateRows : forall j d rows, P rows -> P (updateRows j d rows).

Lemma Fly_provision_keeps (config : UserConfiguration) (s : FlyDeploy.Started) :
  keeps P (FlyDeploy.provision env builder config s).
Proof.
  unfold FlyDeploy.provision, FlyClient.verifyAccess, FlyClient.createApp,
    FlyClient.setSecrets, FlyClient.createMachine, FlyClient.allocateIPAddress, void.
  cbv zeta. keeping.
Qed.

Lemma Fly_complete_keeps (s : FlyDeploy.Started) (p : FlyDeploy.Provisioned) :
  keeps P (FlyDeploy.complete env s p).
Proof.
  unfold FlyDeploy.complete, FlyDeploy.probeHealth. cbv zeta. keeping.
Qed.

Lemma Fly_tryBlock_keeps (config : UserConfiguration) (s : FlyDeploy.Started) :
  keeps P (FlyDeploy.tryBlock env builder config s).
Proof.
  unfold FlyDeploy.tryBlock. apply keeps_bind;
    [apply Fly_provision_keeps | intros p; apply Fly_complete_keeps].
Qed.

End FlyDeployFacts.

Section FlyDeployRuns.

Variable env : Env.
Context {UserConfiguration : Type}.
Variable builder : ConfigBuilder UserConfiguration.

(** When the [try] block is entered, the row just created is the
    user's, with status [DEPLOYING]. *)
Lemma Fly_prelude_owns (userId : string) (w w0 : World) (s : FlyDeploy.Started) :
  FlyDeploy.prelude env userId w = (Ok s, w0) ->
  Owns userId (id (FlyDeploy.instance s)) (instances w0).
Proof.
  unfold FlyDeploy.prelude. intros H.
  apply bind_Ok in H as (fly & w1 & _ & H).
  apply bind_Ok in H as (t & w2 & _ & H).
  apply bind_Ok in H as (existing & w3 & _ & H).
  apply bind_Ok in H as (? & w4 & _ & H).
  apply bind_Ok in H as (port & w5 & _ & H).
  apply bind_Ok in H as (row & w6 & Hcreate & H).
  apply bind_Ok in H as (? & w7 & Hlog & H).
  apply instance_create_owns in Hcreate as (Howns & _).
  unfold logDeployment in Hlog. unfold ret in H.
  inversion Hlog; subst; clear Hlog. inversion H; subst; clear H.
  exact Howns.
Qed.

(** The [catch] block, when the row is there. *)
Lemma Fly_onFailure_run (s : FlyDeploy.Started) (msg : string) (w : World)
      (r : Instance) :
  findById (id (FlyDeploy.instance s)) (instances w) = Some r ->
  FlyDeploy.onFailure s msg w
  = (Throw ("Deployment failed: " ++ msg),
     mkWorld (updateRows (id (FlyDeploy.instance s)) (dataStatus ERROR) (instances w))
             (deploymentLogs w
              ++ [mkLog (id (FlyDeploy.instance s)) "DEPLOY" "FAILED"
                        "Deployment failed" (Some msg)])
             (now w) (calls w)).
Proof.
  intros Hfind. unfold FlyDeploy.onFailure, bind, instance_update.
  rewrite Hfind. reflexivity.
Qed.

(** The [catch] block always ends in a throw. *)
Lemma Fly_onFailure_throws (s : FlyDeploy.Started) (msg : string) (w : World) :
  throws (fst (FlyDeploy.onFailure s msg w)) = true.
Proof.
  unfold FlyDeploy.onFailure, bind, instance_update.
  destruct (findById _ (instances w)); reflexivity.
Qed.

(** The end of the [try] block, when the row is there. *)
Lemma Fly_complete_run (s : FlyDeploy.Started) (p : FlyDeploy.Provisioned)
      (w : World) (r : Instance) :
  findById (id (FlyDeploy.instance s)) (instances w) = Some r ->
  let i := id (FlyDeploy.instance s) in
  let url := FlyDeploy.accessUrl_ p ++ "/health" in
  let healthOk :=
    probeSucceeded (fetchHealth env (length (calls w)) url (FlyDeploy.gatewayToken_ p)) in
  FlyDeploy.complete env s p w
  = (Ok (FlyDeploy.mkResult i (machineId (FlyDeploy.machine p)) (FlyDeploy.appName s)
           (FlyDeploy.port_ s) (FlyDeploy.accessUrl_ p)
           (if healthOk then "RUNNING" else "ERROR")),
     mkWorld
       (updateRows i
          (mkData (Some (Some (machineId (FlyDeploy.machine p))))
                  (Some (if healthOk then RUNNING else ERROR))
                  (Some (FlyDeploy.accessUrl_ p)) None None None)
          (instances w))
       (deploymentLogs w
        ++ [mkLog i "DEPLOY" (if healthOk then "SUCCESS" else "PARTIAL")
                  (if healthOk then "Deployment completed"
                   else "Deployment completed but health check failed") None])
       (now w + Z.max 0 (latency env (length (calls w))))
       (HealthProbe url (FlyDeploy.gatewayToken_ p) :: calls w)).
Proof.
  intros Hfind i url healthOk. subst i url healthOk.
  unfold FlyDeploy.complete, FlyDeploy.probeHealth, bind, tryCatch, outside,
    instance_update, logDeployment, ret. cbn.
  destruct (fetchHealth env _ _ _) as [[ok code]|e]; cbn; rewrite Hfind; reflexivity.
Qed.

(** Without the row the end of the [try] block throws, whatever the
    probe says. *)
Lemma Fly_complete_orphan (s : FlyDeploy.Started) (p : FlyDeploy.Provisioned)
      (w : World) :
  findById (id (FlyDeploy.instance s)) (instances w) = None ->
  throws (fst (FlyDeploy.complete env s p w)) = true
  /\ instances (snd (FlyDeploy.complete env s p w)) = instances w.
Proof.
  intros Hfind.
  unfold FlyDeploy.complete, FlyDeploy.probeHealth, bind, tryCatch, outside,
    instance_update, logDeployment, ret. cbn.
  destruct (fetchHealth env _ _ _) as [[ok code]|e]; cbn; rewrite Hfind; split;
    reflexivity.
Qed.

End FlyDeployRuns.

(** ** No step is carried out twice *)

Section Steps.

Lemma stepsOf_app (a b : list Event) :
  stepsOf (a ++ b) = (stepsOf a ++ stepsOf b)%list.
Proof. unfold stepsOf. apply flat_map_app. Qed.

Lemma stepsOf_polls (ev : Event) (k : nat) :
  stepOf ev = None -> stepsOf (repeat ev k) = [].
Proof.
  intros Hev. induction k as [|k IH]; [reflexivity|].
  cbn [repeat]. change (ev :: repeat ev k) with ([ev] ++ repeat ev k)%list.
  rewrite stepsOf_app, IH. unfold stepsOf. cbn. now rewrite Hev.
Qed.

Lemma consumes_quiet {A} (m : M A) (script : list string) :
  quiet m -> consumes m script script.
Proof.
  intros Hm w. exists [], []. rewrite Hm. repeat split.
  destruct (fst (m w)); [reflexivity | now exists script].
Qed.

Lemma consumes_bind {A B} (m : M A) (k : A -> M B) (s0 s1 s2 : list string) :
  consumes m s0 s1 -> (forall a, consumes (k a) s1 s2) -> consumes (bind m k) s0 s2.
Proof.
  intros Hm Hk w. unfold bind.
  destruct (Hm w) as (made1 & done1 & Hcalls1 & Hsteps1 & Hscript1).
  destruct (m w) as [[a|e] w1]; cbn in *.
  - destruct (Hk a w1) as (made2 & done2 & Hcalls2 & Hsteps2 & Hscript2).
    exists (made2 ++ made1)%list, (done1 ++ done2)%list.
    rewrite Hcalls2, Hcalls1, stepsOf_app, Hsteps1, Hsteps2, rev_app_distr, <- !app_assoc.
    repeat split.
    destruct (fst (k a w1)).
    + now rewrite Hscript1, Hscript2.
    + destruct Hscript2 as [later Hlater]. exists later.
      now rewrite Hscript1, Hlater, app_assoc.
  - exists made1, done1. auto.
Qed.

(** A call that is a step is carried out whether it succeeds or not. *)
Lemma consumes_step (env : Env) {A} (ev : Event) (answer : nat -> Outcome A)
      (name : string) (rest : list string) :
  stepOf ev = Some name -> consumes (outside env ev answer) (name :: rest) rest.
Proof.
  intros Hev w. exists [ev], [name]. unfold outside, stepsOf. cbn. rewrite Hev.
  repeat split. destruct (answer _); [reflexivity | now exists rest].
Qed.

Lemma calls_pollLoop (env : Env) {R : Type} (request : Event)
      (answer : nat -> Outcome R) (reached failed : R -> bool)
      (failure : R -> string) (timeoutMessage : string) (interval : Z)
      (timeoutMs startTime : Z) (turns : nat) :
  forall w o w',
    pollLoop env request answer reached failed failure timeoutMessage interval
             turns timeoutMs startTime w = Some (o, w') ->
    exists k, calls w' = (repeat request k ++ calls w)%list.
Proof.
  induction turns as [|turns IH]; intros w o w'; cbn [pollLoop];
    destruct (now w - startTime <? timeoutMs); try discriminate;
    try (intros H; inversion H; now exists 0%nat).
  unfold outside. destruct (answer _) as [r|e];
    [|intros H; inversion H; now exists 1%nat].
  destruct (reached r); [intros H; inversion H; now exists 1%nat|].
  destruct (failed r); [intros H; inversion H; now exists 1%nat|].
  intros H. apply IH in H as [k Hk]. exists (S k). cbn in Hk. rewrite Hk.
  change (request :: calls w) with ([request] ++ calls w)%list.
  rewrite app_assoc. f_equal. symmetry. apply repeat_cons.
Qed.

(** Waiting for the machine carries out no step. *)
Lemma consumes_waitForMachineState (env : Env) (fly : FlyClient.t)
      (appName machine target : string) (timeoutMs : Z) (script : list string) :
  consumes (FlyClient.waitForMachineState env fly appName machine target timeoutMs)
           script script.
Proof.
  intros w. unfold FlyClient.waitForMachineState. rewrite Fly_waitLoop_as_pollLoop.
  destruct (pollLoop _ _ _ _ _ _ _ _ _ _ _ w) as [[o w']|] eqn:Hrun.
  - apply calls_pollLoop in Hrun as [k Hk].
    exists (repeat (FlyGetMachine appName machine) k), []. cbn [fst snd].
    rewrite stepsOf_polls by reflexivity. repeat split; [exact Hk|].
    destruct o; [reflexivity | now exists script].
  - exists [], []. repeat split. now exists script.
Qed.

(** Waiting for the service URL carries out no step. *)
Lemma consumes_pollServiceUrl (env : Env) (remaining : nat) (render : RenderClient.t)
      (service : string) (script : list string) :
  consumes (RenderDeploy.pollServiceUrl env remaining render service) script script.
Proof.
  induction remaining as [|remaining IH]; cbn [RenderDeploy.pollServiceUrl].
  - now apply consumes_quiet.
  - apply consumes_bind with (s1 := script).
    + intros w. exists [RenderGetService service], []. unfold RenderClient.getService,
        outside. cbn. repeat split.
      destruct (getServiceAnswer env _ _); [reflexivity | now exists script].
    + intros s. destruct (JS.truthy (serviceDetailsUrl s)); [now apply consumes_quiet|].
      apply consumes_bind with (s1 := script); [now apply consumes_quiet|].
      intros _. exact IH.
Qed.

(** The health probe is carried out once and never throws. *)
Lemma consumes_probe {A} (env : Env) (ev : Event) (answer : nat -> Outcome A)
      (f : A -> bool) (name : string) (rest : list string) :
  stepOf ev = Some name ->
  consumes (tryCatch (bind (outside env ev answer) (fun res => ret (f res)))
                     (fun _ => ret false))
           (name :: rest) rest.
Proof.
  intros Hev w. exists [ev], [name].
  unfold tryCatch, bind, outside, ret, stepsOf. cbn. rewrite Hev.
  destruct (answer _); repeat split.
Qed.

Lemma quiet_update (i : string) (d : InstanceData) : quiet (instance_update i d).
Proof. intros w. unfold instance_update. now destruct (findById i (instances w)). Qed.

Lemma consumes_done {A} (m : M A) (script rest : list string) (w : World) :
  consumes m script rest -> NoDup script ->
  exists made, calls (snd (m w)) = (made ++ calls w)%list /\ NoDup (stepsOf made).
Proof.
  intros Hm Hscript. destruct (Hm w) as (made & done & Hcalls & Hsteps & Hshape).
  exists made. split; [exact Hcalls|]. rewrite Hsteps. apply NoDup_rev.
  assert (exists later, script = (done ++ later)%list) as [later ->]
      by (destruct (fst (m w)); eauto).
  now apply NoDup_app_remove_r in Hscript.
Qed.

End Steps.

Ltac quietly := solve [apply consumes_quiet; first [apply quiet_update | now intros ?]].

Ltac stepping :=
  repeat first
    [ quietly
    | solve [eapply consumes_step; reflexivity]
    | solve [eapply consumes_probe; reflexivity]
    | apply consumes_waitForMachineState
    | apply consumes_pollServiceUrl
    | eapply consumes_bind; [|intros ?] ].

Lemma Fly_tryBlock_steps (env : Env) {UserConfiguration : Type}
      (builder : ConfigBuilder UserConfiguration) (config : UserConfiguration)
      (s : FlyDeploy.Started) :
  consumes (FlyDeploy.tryBlock env builder config s)
           ["verifyAccess"; "createApp"; "setSecrets"; "createMachine";
            "allocateIPAddress"; "health"] [].
Proof.
  unfold FlyDeploy.tryBlock, FlyDeploy.provision, FlyDeploy.complete,
    FlyDeploy.probeHealth, FlyClient.verifyAccess, FlyClient.createApp,
    FlyClient.setSecrets, FlyClient.createMachine, FlyClient.allocateIPAddress, void.
  cbv zeta. stepping.
Qed.

Lemma Render_tryBlock_steps (env : Env) {UserConfiguration : Type}
      (builder : ConfigBuilder UserConfiguration) (config : UserConfiguration)
      (s : RenderDeploy.Started) :
  consumes (RenderDeploy.tryBlock env builder config s) ["createService"; "health"] [].
Proof.
  unfold RenderDeploy.tryBlock, RenderDeploy.provision, RenderDeploy.complete,
    RenderDeploy.probeHealth, RenderClient.createService.
  cbv zeta. stepping.
Qed.

Section FlyDeployOutcome.

Variable env : Env.
Context {UserConfiguration : Type}.
Variable builder : ConfigBuilder UserConfiguration.

(** Nothing before the health probe reads the probe's answer. *)
Lemma Fly_prelude_ignores_health h (userId : string) :
  FlyDeploy.prelude (withFetchHealth h env) userId = FlyDeploy.prelude env userId.
Proof. reflexivity. Qed.

Lemma Fly_provision_ignores_health h (config : UserConfiguration)
      (s : FlyDeploy.Started) :
  FlyDeploy.provision (withFetchHealth h env) builder config s
  = FlyDeploy.provision env builder config s.
Proof. reflexivity. Qed.

(** A return of [deployInstance]: the last outside call was the health
    probe, and its answer is what the row and the result say. *)
Lemma Fly_deployInstance_returns (userId : string) (config : UserConfiguration)
      (w w' : World) (res : FlyDeploy.DeploymentResult) :
  FlyDeploy.deployInstance env builder userId config w = (Ok res, w') ->
  exists (row : Instance) (url bearer : string) (earlier : list Event),
    findByUserId userId (instances w') = Some row
    /\ id row = FlyDeploy.res_instanceId res
    /\ calls w' = HealthProbe url bearer :: earlier
    /\ status row
       = (if probeSucceeded (fetchHealth env (length earlier) url bearer)
          then RUNNING else ERROR)
    /\ FlyDeploy.res_status res
       = (if probeSucceeded (fetchHealth env (length earlier) url bearer)
          then "RUNNING" else "ERROR").
Proof.
  intros H. unfold FlyDeploy.deployInstance in H.
  apply bind_Ok in H as (s & w0 & Hpre & H). unfold tryCatch in H.
  destruct (FlyDeploy.tryBlock env builder config s w0) as [[res1|e] w1] eqn:Htry.
  - inversion H; subst; clear H.
    unfold FlyDeploy.tryBlock in Htry.
    apply bind_Ok in Htry as (p & wp & Hprov & Hcomp).
    pose proof (Fly_prelude_owns env userId w w0 s Hpre) as Howns.
    apply (Fly_provision_keeps env builder _ (Owns_updateRows userId _) config s)
      in Howns.
    rewrite Hprov in Howns. cbn in Howns.
    destruct Howns as (r0 & Hu & Hi).
    rewrite (Fly_complete_run env s p wp r0 Hi) in Hcomp.
    inversion Hcomp; subst; clear Hcomp.
    eexists _, _, _, _. cbn.
    split; [rewrite findByUserId_updateRows, Hu; cbn;
            rewrite (findById_id _ _ _ Hi), String.eqb_refl; reflexivity|].
    split; [cbn; apply (findById_id _ _ _ Hi)|].
    split; [reflexivity|].
    split; reflexivity.
  - pose proof (Fly_onFailure_throws s e w1) as Hthrows.
    rewrite H in Hthrows. discriminate.
Qed.

(** Whether [deployInstance] throws does not depend on what the health
    probe answers. *)
Lemma Fly_deployInstance_ignores_health h (userId : string)
      (config : UserConfiguration) (w : World) :
  throws (fst (FlyDeploy.deployInstance (withFetchHealth h env) builder userId config w))
  = throws (fst (FlyDeploy.deployInstance env builder userId config w)).
Proof.
  unfold FlyDeploy.deployInstance, bind, tryCatch.
  rewrite Fly_prelude_ignores_health.
  destruct (FlyDeploy.prelude env userId w) as [[s|e] w0]; [|reflexivity].
  unfold FlyDeploy.tryBlock, bind. rewrite Fly_provision_ignores_health.
  destruct (FlyDeploy.provision env builder config s w0) as [[p|e] w1]; [|reflexivity].
  destruct (findById (id (FlyDeploy.instance s)) (instances w1)) as [r0|] eqn:Hfind.
  - rewrite (Fly_complete_run (withFetchHealth h env) s p w1 r0 Hfind),
      (Fly_complete_run env s p w1 r0 Hfind). reflexivity.
  - destruct (Fly_complete_orphan (withFetchHealth h env) s p w1 Hfind) as [H1 _].
    destruct (Fly_complete_orphan env s p w1 Hfind) as [H2 _].
    destruct (FlyDeploy.complete (withFetchHealth h env) s p w1) as [[?|e1] w2];
      [discriminate|].
    destruct (FlyDeploy.complete env s p w1) as [[?|e2] w3]; [discriminate|].
    now rewrite !Fly_onFailure_throws.
Qed.

(** A failure inside the [try] block: it comes from before the final
    status write, the row ends as [ERROR], a [FAILED] log row carries
    the message, the error is raised again, and nothing is called after
    the failure. *)
Lemma Fly_deployInstance_fails (userId : string) (config : UserConfiguration)
      (w w0 w1 : World) (s : FlyDeploy.Started) (msg : string) :
  FlyDeploy.prelude env userId w = (Ok s, w0) ->
  FlyDeploy.tryBlock env builder config s w0 = (Throw msg, w1) ->
  FlyDeploy.provision env builder config s w0 = (Throw msg, w1)
  /\ exists (w' : World) (row : Instance),
      FlyDeploy.deployInstance env builder userId config w
      = (Throw ("Deployment failed: " ++ msg), w')
      /\ findByUserId userId (instances w') = Some row
      /\ id row = id (FlyDeploy.instance s)
      /\ status row = ERROR
      /\ deploymentLogs w'
         = (deploymentLogs w1
            ++ [mkLog (id (FlyDeploy.instance s)) "DEPLOY" "FAILED"
                      "Deployment failed" (Some msg)])%list
      /\ calls w' = calls w1
      /\ exists made, calls w1 = (made ++ calls w0)%list /\ NoDup (stepsOf made).
Proof.
  intros Hpre Htry.
  pose proof (Fly_prelude_owns env userId w w0 s Hpre) as Howns0.
  pose proof (Fly_tryBlock_keeps env builder _ (Owns_updateRows userId _) config s
                w0 Howns0) as Howns1.
  rewrite Htry in Howns1. cbn in Howns1.
  split.
  - unfold FlyDeploy.tryBlock in Htry. apply bind_Throw in Htry.
    destruct Htry as [Hprov | (p & wp & Hprov & Hcomp)]; [exact Hprov|].
    exfalso.
    pose proof (Fly_provision_keeps env builder _ (Owns_updateRows userId _) config s
                  w0 Howns0) as Hownsp.
    rewrite Hprov in Hownsp. cbn in Hownsp.
    destruct Hownsp as (r0 & _ & Hi).
    rewrite (Fly_complete_run env s p wp r0 Hi) in Hcomp. discriminate.
  - destruct Howns1 as (r1 & Hu & Hi).
    unfold FlyDeploy.deployInstance, bind, tryCatch. rewrite Hpre, Htry.
    rewrite (Fly_onFailure_run s msg w1 r1 Hi).
    eexists _, _. split; [reflexivity|]. cbn.
    split; [rewrite findByUserId_updateRows, Hu; cbn;
            rewrite (findById_id _ _ _ Hi), String.eqb_refl; reflexivity|].
    split; [cbn; apply (findById_id _ _ _ Hi)|].
    split; [reflexivity|]. split; [reflexivity|]. split; [reflexivity|].
    destruct (consumes_done _ _ _ w0 (Fly_tryBlock_steps env builder config s))
      as (made & Hmade & Hnodup).
    { repeat constructor; cbn; intuition discriminate. }
    rewrite Htry in Hmade. eauto.
Qed.

End FlyDeployOutcome.

(** ** Deployment on Render *)

Section RenderDeployFacts.

Variable env : Env.
Context {UserConfiguration : Type}.
Variable builder : ConfigBuilder UserConfiguration.
Variable P : list Instance -> Prop.
Hypothesis P_updateRows : forall j d rows, P rows -> P (updateRows j d rows).

Lemma Render_provision_keeps (config : UserConfiguration) (s : RenderDeploy.Started) :
  keeps P (RenderDeploy.provision env builder config s).
Proof.
  unfold RenderDeploy.provision, RenderClient.createService. cbv zeta. keeping.
Qed.

Lemma Render_complete_keeps (s : RenderDeploy.Started) (p : RenderDeploy.Provisioned) :
  keeps P (RenderDeploy.complete env s p).
Proof.
  unfold RenderDeploy.complete, RenderDeploy.probeHealth. cbv zeta. keeping.
Qed.

Lemma Render_tryBlock_keeps (config : UserConfiguration) (s : RenderDeploy.Started) :
  keeps P (RenderDeploy.tryBlock env builder config s).
Proof.
  unfold RenderDeploy.tryBlock. apply keeps_bind;
    [apply Render_provision_keeps | intros p; apply Render_complete_keeps].
Qed.

End RenderDeployFacts.

Section RenderDeployRuns.

Variable env : Env.
Context {UserConfiguration : Type}.
Variable builder : ConfigBuilder UserConfiguration.

Lemma Render_prelude_owns (userId : string) (w w0 : World) (s : RenderDeploy.Started) :
  RenderDeploy.prelude env userId w = (Ok s, w0) ->
  Owns userId (id (RenderDeploy.instance s)) (instances w0).
Proof.
  unfold RenderDeploy.prelude. intros H.
  apply bind_Ok in H as (render & w1 & _ & H).
  apply bind_Ok in H as (existing & w3 & _ & H).
  apply bind_Ok in H as (? & w4 & _ & H).
  apply bind_Ok in H as (port & w5 & _ & H).
  apply bind_Ok in H as (row & w6 & Hcreate & H).
  apply bind_Ok in H as (? & w7 & Hlog & H).
  apply instance_create_owns in Hcreate as (Howns & _).
  unfold logDeployment in Hlog. unfold ret in H.
  inversion Hlog; subst; clear Hlog. inversion H; subst; clear H.
  exact Howns.
Qed.

Lemma Render_onFailure_run (s : RenderDeploy.Started) (msg : string) (w : World)
      (r : Instance) :
  findById (id (RenderDeploy.instance s)) (instances w) = Some r ->
  RenderDeploy.onFailure s msg w
  = (Throw ("Deployment failed: " ++ msg),
     mkWorld (updateRows (id (RenderDeploy.instance s)) (dataStatus ERROR)
                         (instances w))
             (deploymentLogs w
              ++ [mkLog (id (RenderDeploy.instance s)) "DEPLOY" "FAILED"
                        "Deployment failed" (Some msg)])
             (now w) (calls w)).
Proof.
  intros Hfind. unfold RenderDeploy.onFailure, bind, instance_update.
  rewrite Hfind. reflexivity.
Qed.

Lemma Render_onFailure_throws (s : RenderDeploy.Started) (msg : string) (w : World) :
  throws (fst (RenderDeploy.onFailure s msg w)) = true.
Proof.
  unfold RenderDeploy.onFailure, bind, instance_update.
  destruct (findById _ (instances w)); reflexivity.
Qed.

Lemma Render_complete_run (s : RenderDeploy.Started) (p : RenderDeploy.Provisioned)
      (w : World) (r : Instance) :
  findById (id (RenderDeploy.instance s)) (instances w) = Some r ->
  let i := id (RenderDeploy.instance s) in
  let url := RenderDeploy.accessUrl_ p ++ "/health" in
  let healthOk :=
    probeSucceeded
      (fetchHealth env (length (calls w)) url (RenderDeploy.gatewayToken_ p)) in
  RenderDeploy.complete env s p w
  = (Ok (RenderDeploy.mkResult i (serviceId (RenderDeploy.service p))
           (RenderDeploy.serviceName_ s) (RenderDeploy.port_ s)
           (RenderDeploy.accessUrl_ p) (RenderDeploy.shellUrl_ p)
           (if healthOk then "RUNNING" else "ERROR")),
     mkWorld
       (updateRows i
          (mkData (Some (Some (serviceId (RenderDeploy.service p))))
                  (Some (if healthOk then RUNNING else ERROR))
                  (Some (RenderDeploy.accessUrl_ p))
                  (Some (RenderDeploy.shellUrl_ p)) None None)
          (instances w))
       (deploymentLogs w
        ++ [mkLog i "DEPLOY" (if healthOk then "SUCCESS" else "PARTIAL")
                  (if healthOk then "Deployment completed"
                   else "Deployment completed but health check failed") None])
       (now w + Z.max 0 (latency env (length (calls w))))
       (HealthProbe url (RenderDeploy.gatewayToken_ p) :: calls w)).
Proof.
  intros Hfind i url healthOk. subst i url healthOk.
  unfold RenderDeploy.complete, RenderDeploy.probeHealth, bind, tryCatch, outside,
    instance_update, logDeployment, ret. cbn.
  destruct (fetchHealth env _ _ _) as [[ok code]|e]; cbn; rewrite Hfind; reflexivity.
Qed.

Lemma Render_complete_orphan (s : RenderDeploy.Started) (p : RenderDeploy.Provisioned)
      (w : World) :
  findById (id (RenderDeploy.instance s)) (instances w) = None ->
  throws (fst (RenderDeploy.complete env s p w)) = true
  /\ instances (snd (RenderDeploy.complete env s p w)) = instances w.
Proof.
  intros Hfind.
  unfold RenderDeploy.complete, RenderDeploy.probeHealth, bind, tryCatch, outside,
    instance_update, logDeployment, ret. cbn.
  destruct (fetchHealth env _ _ _) as [[ok code]|e]; cbn; rewrite Hfind; split;
    reflexivity.
Qed.

Lemma Render_prelude_ignores_health h (userId : string) :
  RenderDeploy.prelude (withFetchHealth h env) userId = RenderDeploy.prelude env userId.
Proof. reflexivity. Qed.

Lemma Render_provision_ignores_health h (config : UserConfiguration)
      (s : RenderDeploy.Started) :
  RenderDeploy.provision (withFetchHealth h env) builder config s
  = RenderDeploy.provision env builder config s.
Proof. reflexivity. Qed.

Lemma Render_deployInstance_returns (userId : string) (config : UserConfiguration)
      (w w' : World) (res : RenderDeploy.DeploymentResult) :
  RenderDeploy.deployInstance env builder userId config w = (Ok res, w') ->
  exists (row : Instance) (url bearer : string) (earlier : list Event),
    findByUserId userId (instances w') = Some row
    /\ id row = RenderDeploy.res_instanceId res
    /\ calls w' = HealthProbe url bearer :: earlier
    /\ status row
       = (if probeSucceeded (fetchHealth env (length earlier) url bearer)
          then RUNNING else ERROR)
    /\ RenderDeploy.res_status res
       = (if probeSucceeded (fetchHealth env (length earlier) url bearer)
          then "RUNNING" else "ERROR").
Proof.
  intros H. unfold RenderDeploy.deployInstance in H.
  apply bind_Ok in H as (s & w0 & Hpre & H). unfold tryCatch in H.
  destruct (RenderDeploy.tryBlock env builder config s w0) as [[res1|e] w1] eqn:Htry.
  - inversion H; subst; clear H.
    unfold RenderDeploy.tryBlock in Htry.
    apply bind_Ok in Htry as (p & wp & Hprov & Hcomp).
    pose proof (Render_prelude_owns userId w w0 s Hpre) as Howns.
    apply (Render_provision_keeps env builder _ (Owns_updateRows userId _) config s)
      in Howns.
    rewrite Hprov in Howns. cbn in Howns.
    destruct Howns as (r0 & Hu & Hi).
    rewrite (Render_complete_run s p wp r0 Hi) in Hcomp.
    inversion Hcomp; subst; clear Hcomp.
    eexists _, _, _, _. cbn.
    split; [rewrite findByUserId_updateRows, Hu; cbn;
            rewrite (findById_id _ _ _ Hi), String.eqb_refl; reflexivity|].
    split; [cbn; apply (findById_id _ _ _ Hi)|].
    split; [reflexivity|].
    split; reflexivity.
  - pose proof (Render_onFailure_throws s e w1) as Hthrows.
    rewrite H in Hthrows. discriminate.
Qed.

End RenderDeployRuns.

Section RenderDeployOutcome.

Variable env : Env.
Context {UserConfiguration : Type}.
Variable builder : ConfigBuilder UserConfiguration.

Lemma Render_deployInstance_ignores_health h (userId : string)
      (config : UserConfiguration) (w : World) :
  throws (fst (RenderDeploy.deployInstance (withFetchHealth h env) builder userId
                 config w))
  = throws (fst (RenderDeploy.deployInstance env builder userId config w)).
Proof.
  unfold RenderDeploy.deployInstance, bind, tryCatch.
  rewrite Render_prelude_ignores_health.
  destruct (RenderDeploy.prelude env userId w) as [[s|e] w0]; [|reflexivity].
  unfold RenderDeploy.tryBlock, bind. rewrite Render_provision_ignores_health.
  destruct (RenderDeploy.provision env builder config s w0) as [[p|e] w1];
    [|reflexivity].
  destruct (findById (id (RenderDeploy.instance s)) (instances w1)) as [r0|] eqn:Hfind.
  - rewrite (Render_complete_run (withFetchHealth h env) s p w1 r0 Hfind),
      (Render_complete_run env s p w1 r0 Hfind). reflexivity.
  - destruct (Render_complete_orphan (withFetchHealth h env) s p w1 Hfind) as [H1 _].
    destruct (Render_complete_orphan env s p w1 Hfind) as [H2 _].
    destruct (RenderDeploy.complete (withFetchHealth h env) s p w1) as [[?|e1] w2];
      [discriminate|].
    destruct (RenderDeploy.complete env s p w1) as [[?|e2] w3]; [discriminate|].
    now rewrite !Render_onFailure_throws.
Qed.

Lemma Render_deployInstance_fails (userId : string) (config : UserConfiguration)
      (w w0 w1 : World) (s : RenderDeploy.Started) (msg : string) :
  RenderDeploy.prelude env userId w = (Ok s, w0) ->
  RenderDeploy.tryBlock env builder config s w0 = (Throw msg, w1) ->
  RenderDeploy.provision env builder config s w0 = (Throw msg, w1)
  /\ exists (w' : World) (row : Instance),
      RenderDeploy.deployInstance env builder userId config w
      = (Throw ("Deployment failed: " ++ msg), w')
      /\ findByUserId userId (instances w') = Some row
      /\ id row = id (RenderDeploy.instance s)
      /\ status row = ERROR
      /\ deploymentLogs w'
         = (deploymentLogs w1
            ++ [mkLog (id (RenderDeploy.instance s)) "DEPLOY" "FAILED"
                      "Deployment failed" (Some msg)])%list
      /\ calls w' = calls w1
      /\ exists made, calls w1 = (made ++ calls w0)%list /\ NoDup (stepsOf made).
Proof.
  intros Hpre Htry.
  pose proof (Render_prelude_owns env userId w w0 s Hpre) as Howns0.
  pose proof (Render_tryBlock_keeps env builder _ (Owns_updateRows userId _) config s
                w0 Howns0) as Howns1.
  rewrite Htry in Howns1. cbn in Howns1.
  split.
  - unfold RenderDeploy.tryBlock in Htry. apply bind_Throw in Htry.
    destruct Htry as [Hprov | (p & wp & Hprov & Hcomp)]; [exact Hprov|].
    exfalso.
    pose proof (Render_provision_keeps env builder _ (Owns_updateRows userId _)
                  config s w0 Howns0) as Hownsp.
    rewrite Hprov in Hownsp. cbn in Hownsp.
    destruct Hownsp as (r0 & _ & Hi).
    rewrite (Render_complete_run env s p wp r0 Hi) in Hcomp. discriminate.
  - destruct Howns1 as (r1 & Hu & Hi).
    unfold RenderDeploy.deployInstance, bind, tryCatch. rewrite Hpre, Htry.
    rewrite (Render_onFailure_run s msg w1 r1 Hi).
    eexists _, _. split; [reflexivity|]. cbn.
    split; [rewrite findByUserId_updateRows, Hu; cbn;
            rewrite (findById_id _ _ _ Hi), String.eqb_refl; reflexivity|].
    split; [cbn; apply (findById_id _ _ _ Hi)|].
    split; [reflexivity|]. split; [reflexivity|]. split; [reflexivity|].
    destruct (consumes_done _ _ _ w0 (Render_tryBlock_steps env builder config s))
      as (made & Hmade & Hnodup).
    { repeat constructor; cbn; intuition discriminate. }
    rewrite Htry in Hmade. eauto.
Qed.

End RenderDeployOutcome.

(** ** The orchestrators' claims *)

(** C1: on both providers, when [deployInstance] returns, the user's
    [Instance] row has status [RUNNING] or [ERROR], never [DEPLOYING];
    the last outside call was the health probe, and the returned status
    string is "RUNNING" exactly when that probe succeeded and "ERROR"
    otherwise; and whether [deployInstance] throws does not depend on
    what the health probe answers, be it a non-2xx response or a thrown
    fetch. *)
Theorem C1_deployInstance_final_status :
  forall (env : Env) (UserConfiguration : Type)
         (builder : ConfigBuilder UserConfiguration)
         (userId : string) (config : UserConfiguration) (w : World),
    (forall res w',
        FlyDeploy.deployInstance env builder userId config w = (Ok res, w') ->
        exists (row : Instance) (url bearer : string) (earlier : list Event),
          findByUserId userId (instances w') = Some row
          /\ (status row = RUNNING \/ status row = ERROR)
          /\ status row <> DEPLOYING
          /\ calls w' = HealthProbe url bearer :: earlier
          /\ (FlyDeploy.res_status res = "RUNNING" <->
              probeSucceeded (fetchHealth env (length earlier) url bearer) = true)
          /\ (FlyDeploy.res_status res = "ERROR" <->
              probeSucceeded (fetchHealth env (length earlier) url bearer) = false)
          /\ (status row = RUNNING <->
              probeSucceeded (fetchHealth env (length earlier) url bearer) = true))
    /\ (forall h,
           throws (fst (FlyDeploy.deployInstance (withFetchHealth h env) builder
                          userId config w))
           = throws (fst (FlyDeploy.deployInstance env builder userId config w)))
    /\ (forall res w',
           RenderDeploy.deployInstance env builder userId config w = (Ok res, w') ->
           exists (row : Instance) (url bearer : string) (earlier : list Event),
             findByUserId userId (instances w') = Some row
             /\ (status row = RUNNING \/ status row = ERROR)
             /\ status row <> DEPLOYING
             /\ calls w' = HealthProbe url bearer :: earlier
             /\ (RenderDeploy.res_status res = "RUNNING" <->
                 probeSucceeded (fetchHealth env (length earlier) url bearer) = true)
             /\ (RenderDeploy.res_status res = "ERROR" <->
                 probeSucceeded (fetchHealth env (length earlier) url bearer) = false)
             /\ (status row = RUNNING <->
                 probeSucceeded (fetchHealth env (length earlier) url bearer) = true))
    /\ (forall h,
           throws (fst (RenderDeploy.deployInstance (withFetchHealth h env) builder
                          userId config w))
           = throws (fst (RenderDeploy.deployInstance env builder userId config w))).
Proof.
  intros env UserConfiguration builder userId config w.
  split; [|split; [|split]].
  - intros res w' Hrun.
    destruct (Fly_deployInstance_returns env builder userId config w w' res Hrun)
      as (row & url & bearer & earlier & Hrow & _ & Hcalls & Hstatus & Hres).
    exists row, url, bearer, earlier.
    rewrite Hstatus, Hres.
    destruct (probeSucceeded (fetchHealth env (length earlier) url bearer));
      repeat split; auto; try discriminate; intros; discriminate.
  - intros h. apply Fly_deployInstance_ignores_health.
  - intros res w' Hrun.
    destruct (Render_deployInstance_returns env builder userId config w w' res Hrun)
      as (row & url & bearer & earlier & Hrow & _ & Hcalls & Hstatus & Hres).
    exists row, url, bearer, earlier.
    rewrite Hstatus, Hres.
    destruct (probeSucceeded (fetchHealth env (length earlier) url bearer));
      repeat split; auto; try discriminate; intros; discriminate.
  - intros h. apply Render_deployInstance_ignores_health.
Qed.

Lemma C1_witness :
  (exists (res : FlyDeploy.DeploymentResult) (w' : World) (row : Instance),
      FlyDeploy.deployInstance Sample.unhealthy Sample.plainBuilder
        "user-1234567" "claude" Sample.empty = (Ok res, w')
      /\ findByUserId "user-1234567" (instances w') = Some row
      /\ (status row = RUNNING \/ status row = ERROR)
      /\ status row <> DEPLOYING
      /\ FlyDeploy.res_status res = "ERROR")
  /\
  (exists (res : RenderDeploy.DeploymentResult) (w' : World) (row : Instance),
      RenderDeploy.deployInstance Sample.calm Sample.plainBuilder
        "user-1234567" "claude" Sample.empty = (Ok res, w')
      /\ findByUserId "user-1234567" (instances w') = Some row
      /\ (status row = RUNNING \/ status row = ERROR)
      /\ status row <> DEPLOYING
      /\ RenderDeploy.res_status res = "RUNNING").
Proof.
  split.
  - destruct (C1_deployInstance_final_status
                Sample.unhealthy string Sample.plainBuilder "user-1234567" "claude"
                Sample.empty) as (Hfly & _).
    eassert (FlyDeploy.deployInstance Sample.unhealthy Sample.plainBuilder
               "user-1234567" "claude" Sample.empty = (Ok _, _))
      as Hrun by (lazy; reflexivity).
    destruct (Hfly _ _ Hrun)
      as (row & url & bearer & earlier & Hrow & Hstatus & Hnot & _).
    eexists _, _, row. split; [exact Hrun|]. repeat split; assumption.
  - destruct (C1_deployInstance_final_status
                Sample.calm string Sample.plainBuilder "user-1234567" "claude"
                Sample.empty) as (_ & _ & Hrender & _).
    eassert (RenderDeploy.deployInstance Sample.calm Sample.plainBuilder
               "user-1234567" "claude" Sample.empty = (Ok _, _))
      as Hrun by (lazy; reflexivity).
    destruct (Hrender _ _ Hrun)
      as (row & url & bearer & earlier & Hrow & Hstatus & Hnot & _).
    eexists _, _, row. split; [exact Hrun|]. repeat split; assumption.
Defined.


(* ===================================================================== *)
(** * Further properties of the sources *)
(* ===================================================================== *)

(** ** The text parser of [listPendingDevices], on every input *)

Section TextParserInvariants.

Lemma parseDevicesText_flush (stdout : string) :
  Ssh.parseDevicesText stdout
  = flushDevices (fold_left Ssh.parseLine (JS.split (ascii_of_nat 10) stdout)
                            ([], Ssh.noDevice)).
Proof.
  unfold Ssh.parseDevicesText, flushDevices.
  now destruct (fold_left _ _ _) as [devices current].
Qed.

(** One turn of the loop only ever stores a record that has a request
    id, and only an opening line can add to what will be returned. *)
Lemma parseLine_step (acc : list Ssh.Device * Ssh.Device) (line : string) :
  Forall (fun d => JS.truthy (Ssh.requestId d) = true) (fst acc) ->
  Forall (fun d => JS.truthy (Ssh.requestId d) = true) (fst (Ssh.parseLine acc line))
  /\ (length (flushDevices (Ssh.parseLine acc line))
      <= length (flushDevices acc)
         + (if JS.startsWith line "Request ID:" then 1 else 0))%nat.
Proof.
  destruct acc as [devices current]. cbn [fst]. intros Hall.
  unfold Ssh.parseLine, flushDevices.
  destruct (JS.startsWith line "Request ID:").
  - cbn [fst snd].
    destruct (JS.truthy (Ssh.requestId current)) eqn:Hcur; cbn [fst snd Ssh.requestId].
    + split; [apply Forall_app; split; [exact Hall | now constructor]|].
      destruct (JS.truthy (Ssh.labelledValue line));
        rewrite ?length_app; cbn [length]; lia.
    + split; [exact Hall|].
      destruct (JS.truthy (Ssh.labelledValue line));
        rewrite ?length_app; cbn [length]; lia.
  - destruct (JS.startsWith line "Channel:");
      [|destruct (JS.startsWith line "Identifier:");
        [|destruct (JS.startsWith line "Timestamp:")]];
      cbn [fst snd Ssh.requestId];
      (split; [exact Hall|]);
      destruct (JS.truthy (Ssh.requestId current));
      rewrite ?length_app; cbn [length]; lia.
Qed.

Lemma parseLine_invariant (lines : list string) :
  forall acc : list Ssh.Device * Ssh.Device,
    Forall (fun d => JS.truthy (Ssh.requestId d) = true) (fst acc) ->
    Forall (fun d => JS.truthy (Ssh.requestId d) = true)
           (fst (fold_left Ssh.parseLine lines acc))
    /\ (length (flushDevices (fold_left Ssh.parseLine lines acc))
        <= length (flushDevices acc)
           + length (filter (fun l => JS.startsWith l "Request ID:") lines))%nat.
Proof.
  induction lines as [|line lines IH]; intros acc Hall.
  - cbn. split; [exact Hall | lia].
  - cbn [fold_left filter].
    destruct (parseLine_step acc line Hall) as [Hall' Hlen'].
    destruct (IH _ Hall') as [Hall'' Hlen''].
    split; [exact Hall''|].
    destruct (JS.startsWith line "Request ID:"); cbn [length]; lia.
Qed.

End TextParserInvariants.

(** X1: whatever the device list looks like, every record that the text
    parser of [listPendingDevices] returns has a request id that is not
    empty, and it returns at most one record for each line that begins
    with "Request ID:". *)
Theorem parseDevicesText_records_have_request_ids :
  forall stdout : string,
    Forall (fun d => exists request,
                Ssh.requestId d = Some request /\ request <> EmptyString)
           (Ssh.parseDevicesText stdout)
    /\ (length (Ssh.parseDevicesText stdout) <= length (requestLines stdout))%nat.
Proof.
  intros stdout. rewrite parseDevicesText_flush. unfold requestLines.
  destruct (parseLine_invariant (JS.split (ascii_of_nat 10) stdout) ([], Ssh.noDevice))
    as [Hall Hlen]; [constructor|].
  change (length (flushDevices ([], Ssh.noDevice))) with 0%nat in Hlen.
  split; [|exact Hlen].
  assert (Forall (fun d => JS.truthy (Ssh.requestId d) = true)
                 (flushDevices (fold_left Ssh.parseLine
                                          (JS.split (ascii_of_nat 10) stdout)
                                          ([], Ssh.noDevice)))) as Hflush.
  { unfold flushDevices.
    destruct (JS.truthy (Ssh.requestId (snd _))) eqn:Hcur; [|exact Hall].
    apply Forall_app. split; [exact Hall|]. now constructor. }
  eapply Forall_impl; [|exact Hflush].
  intros d Hd. cbv beta in Hd.
  destruct (Ssh.requestId d) as [request|]; [|discriminate Hd].
  exists request. split; [reflexivity|]. now apply truthy_Some.
Qed.

(** A device list of any number of blocks. *)
Lemma fold_parseLine_blocks (blocks : list PlainBlock) :
  Forall plainBlock blocks ->
  forall acc,
    flushDevices (fold_left Ssh.parseLine (flat_map blockLines blocks) acc)
    = (flushDevices acc ++ map blockDevice blocks)%list.
Proof.
  induction 1 as [|[[[r c] i] t] blocks (Hr & Hc & Hi & Ht & Hne) _ IH];
    intros [devices current].
  - cbn. now rewrite app_nil_r.
  - cbn [flat_map blockLines]. rewrite fold_left_app, parseLine_block by assumption.
    rewrite IH. unfold flushDevices at 1. cbn [fst snd Ssh.requestId].
    rewrite truthy_trimmed by assumption.
    unfold flushDevices. cbn [fst snd map blockDevice].
    now rewrite <- app_assoc.
Qed.

(** X2: a device list of any number of four-line blocks whose values
    contain no colon and no line feed is read back record by record,
    each value trimmed. *)
Theorem parseDevicesText_reads_plain_blocks :
  forall blocks : list PlainBlock,
    Forall plainBlock blocks ->
    Ssh.parseDevicesText (blocksText blocks) = map blockDevice blocks.
Proof.
  intros blocks Hall. rewrite parseDevicesText_flush. unfold blocksText.
  destruct blocks as [|b blocks]; [reflexivity|].
  assert (Forall (fun l => ~ HasChar (ascii_of_nat 10) l)
                 (flat_map blockLines (b :: blocks))) as Hlines.
  { apply Forall_flat_map. eapply Forall_impl; [|exact Hall].
    intros [[[r c] i] t] (Hr & Hc & Hi & Ht & _). unfold blockLines, deviceBlock.
    repeat (apply Forall_cons;
            [apply plainValue_line; [unfold HasChar; cbn; intuition discriminate
                                    | assumption]|]).
    apply Forall_nil. }
  destruct (flat_map blockLines (b :: blocks)) as [|first others] eqn:Hflat.
  - destruct b as [[[r c] i] t]. discriminate.
  - rewrite split_concat by exact Hlines. rewrite <- Hflat.
    now rewrite fold_parseLine_blocks.
Qed.

Lemma parseDevicesText_reads_plain_blocks_witness :
  Forall plainBlock [("abc123", " whatsapp", "+1234567890 ", "soon");
                     ("def456", "telegram", "@bob", "later")]
  /\ Ssh.parseDevicesText
       (blocksText [("abc123", " whatsapp", "+1234567890 ", "soon");
                    ("def456", "telegram", "@bob", "later")])
     = [ Ssh.mkDevice (Some "abc123") (Some "whatsapp") (Some "+1234567890")
                      (Some "soon");
         Ssh.mkDevice (Some "def456") (Some "telegram") (Some "@bob") (Some "later") ].
Proof.
  assert (Forall plainBlock [("abc123", " whatsapp", "+1234567890 ", "soon");
                             ("def456", "telegram", "@bob", "later")]) as Hall.
  { repeat constructor; unfold HasChar; cbn; intuition discriminate. }
  split; [exact Hall|].
  exact (parseDevicesText_reads_plain_blocks _ Hall).
Defined.

(** ** [runDoctor] on output that is not JSON *)

Section DoctorText.

Lemma classify_fold (lines : list string) :
  forall issues warnings : list string,
    fold_left SshDiagnostics.classify lines (issues, warnings)
    = ((issues ++ map JS.trim (filter SshDiagnostics.mentionsIssue lines))%list,
       (warnings
        ++ map JS.trim
             (filter (fun l => negb (SshDiagnostics.mentionsIssue l)
                               && SshDiagnostics.mentionsWarning l) lines))%list).
Proof.
  induction lines as [|line lines IH]; intros issues warnings.
  - cbn. now rewrite !app_nil_r.
  - cbn [fold_left filter]. unfold SshDiagnostics.classify at 2.
    destruct (SshDiagnostics.mentionsIssue line); cbn [negb andb].
    + rewrite IH. cbn [map]. now rewrite <- app_assoc.
    + destruct (SshDiagnostics.mentionsWarning line); rewrite IH; [|reflexivity].
      cbn [map]. now rewrite <- app_assoc.
Qed.

Lemma lowerChar_line_feed (c : ascii) :
  Ascii.eqb (JSMore.lowerChar c) (ascii_of_nat 10) = Ascii.eqb c (ascii_of_nat 10).
Proof.
  destruct c as [b0 b1 b2 b3 b4 b5 b6 b7].
  destruct b0, b1, b2, b3, b4, b5, b6, b7; reflexivity.
Qed.

Lemma toLowerCase_split_ne (s : string) :
  JS.split_ne (ascii_of_nat 10) (JSMore.toLowerCase s)
  = (JSMore.toLowerCase (fst (JS.split_ne (ascii_of_nat 10) s)),
     map JSMore.toLowerCase (snd (JS.split_ne (ascii_of_nat 10) s))).
Proof.
  induction s as [|c s IH]; [reflexivity|].
  cbn [JSMore.toLowerCase JS.split_ne]. rewrite IH, lowerChar_line_feed.
  destruct (JS.split_ne (ascii_of_nat 10) s) as [h t].
  now destruct (Ascii.eqb c (ascii_of_nat 10)).
Qed.

Lemma toLowerCase_split (s : string) :
  JS.split (ascii_of_nat 10) (JSMore.toLowerCase s)
  = map JSMore.toLowerCase (JS.split (ascii_of_nat 10) s).
Proof.
  unfold JS.split. rewrite toLowerCase_split_ne.
  now destruct (JS.split_ne (ascii_of_nat 10) s).
Qed.

Lemma split_ne_app_plain (sep : ascii) (a b : string) :
  ~ HasChar sep a ->
  JS.split_ne sep (a ++ b)
  = (a ++ fst (JS.split_ne sep b), snd (JS.split_ne sep b)).
Proof.
  induction a as [|c a IH]; intros Ha.
  - cbn [append]. now destruct (JS.split_ne sep b).
  - rewrite HasChar_cons in Ha. cbn [append JS.split_ne].
    rewrite IH by tauto.
    destruct (Ascii.eqb_spec c sep) as [->|_]; [tauto | reflexivity].
Qed.

(** A text that contains no separator and occurs in [s] occurs in one
    of the pieces of [s]. *)
Lemma occurs_in_piece (sep : ascii) (sub s : string) :
  ~ HasChar sep sub -> Occurs sub s -> Exists (Occurs sub) (JS.split sep s).
Proof.
  intros Hsub (before & after & ->). unfold JS.split.
  induction before as [|c before IH].
  - cbn [append]. rewrite split_ne_app_plain by assumption.
    apply Exists_cons_hd. now exists EmptyString, (fst (JS.split_ne sep after)).
  - cbn [append JS.split_ne].
    destruct (JS.split_ne sep (before ++ sub ++ after)) as [h t].
    destruct (Ascii.eqb c sep); [now apply Exists_cons_tl|].
    inversion IH as [? ? Hh|? ? Ht]; subst.
    + destruct Hh as (b & a & Hh).
      apply Exists_cons_hd. exists (String c b), a. cbn [append]. now rewrite Hh.
    + now apply Exists_cons_tl.
Qed.

(** The report that the loop over the lines builds. *)
Lemma doctorFromText_fields (stdout stderr : string) :
  SshDiagnostics.doctorFromText stdout stderr
  = SshDiagnostics.mkReport
      (forallb (fun l => negb (SshDiagnostics.mentionsIssue l))
               (doctorLines stdout stderr))
      (map JS.trim (filter SshDiagnostics.mentionsIssue (doctorLines stdout stderr)))
      (map JS.trim
           (filter (fun l => negb (SshDiagnostics.mentionsIssue l)
                             && SshDiagnostics.mentionsWarning l)
                   (doctorLines stdout stderr))).
Proof.
  unfold SshDiagnostics.doctorFromText, doctorLines.
  rewrite classify_fold. cbn [app]. f_equal.
  induction (JS.split (ascii_of_nat 10) (stdout ++ stderr)) as [|l ls IH];
    [reflexivity|].
  cbn [filter forallb map]. destruct (SshDiagnostics.mentionsIssue l); [reflexivity|].
  exact IH.
Qed.

End DoctorText.

(** X3: when the doctor's output is not JSON, [runDoctor] reads the lines
    of stdout followed by stderr: the issues are the lines that mention
    "error" or "issue" in any letter case, the warnings the other lines
    that mention "warn", both trimmed and in their order, and the
    report is healthy exactly when no line is an issue. *)
Theorem doctorFromText_sorts_the_lines :
  forall stdout stderr : string,
    let report := SshDiagnostics.doctorFromText stdout stderr in
    SshDiagnostics.issues report
    = map JS.trim (filter SshDiagnostics.mentionsIssue (doctorLines stdout stderr))
    /\ SshDiagnostics.warnings report
       = map JS.trim
           (filter (fun l => negb (SshDiagnostics.mentionsIssue l)
                             && SshDiagnostics.mentionsWarning l)
                   (doctorLines stdout stderr))
    /\ SshDiagnostics.healthy report
       = forallb (fun l => negb (SshDiagnostics.mentionsIssue l))
                 (doctorLines stdout stderr)
    /\ (length (SshDiagnostics.issues report) + length (SshDiagnostics.warnings report)
        <= length (doctorLines stdout stderr))%nat.
Proof.
  intros stdout stderr. cbv zeta. rewrite doctorFromText_fields.
  cbn [SshDiagnostics.issues SshDiagnostics.warnings SshDiagnostics.healthy].
  split; [reflexivity|]. split; [reflexivity|]. split; [reflexivity|].
  rewrite !length_map.
  induction (doctorLines stdout stderr) as [|l ls IH]; [cbn; lia|].
  cbn [filter]. destruct (SshDiagnostics.mentionsIssue l); cbn [negb andb length];
    [lia|]. destruct (SshDiagnostics.mentionsWarning l); cbn [length]; lia.
Qed.

(** X4: when the doctor command returns output that is not JSON and
    "error" or "issue" occurs anywhere in it, on stdout or on stderr and
    in any letter case, [runDoctor] reports the gateway as not healthy,
    with at least one issue. *)
Theorem runDoctor_reports_errors_in_text :
  forall (env : Env) (parsers : SshDiagnostics.Parsers) (appName : string)
         (w : World) (stdout stderr : string),
    execAnswer env (length (calls w))
               (Ssh.flyctlCommand appName "openclaw doctor --json" None) 30000
    = Ok (stdout, stderr) ->
    SshDiagnostics.parseDoctor parsers stdout = None ->
    Occurs "error" (JSMore.toLowerCase (stdout ++ stderr))
    \/ Occurs "issue" (JSMore.toLowerCase (stdout ++ stderr)) ->
    exists (report : SshDiagnostics.DoctorReport) (w' : World),
      SshDiagnostics.runDoctor env parsers appName w = (Ok report, w')
      /\ SshDiagnostics.healthy report = false
      /\ SshDiagnostics.issues report <> [].
Proof.
  intros env parsers appName w stdout stderr Hexec Hparse Hocc.
  unfold SshDiagnostics.runDoctor, bind.
  rewrite executeSSHCommand_run. cbv zeta. rewrite Hexec. cbn [fst snd Ssh.stdout Ssh.stderr].
  rewrite Hparse. unfold ret. eexists _, _. split; [reflexivity|].
  assert (exists l, In l (doctorLines stdout stderr)
                    /\ SshDiagnostics.mentionsIssue l = true) as (l & Hin & Hl).
  { assert (exists sub, (sub = "error" \/ sub = "issue")
                        /\ Occurs sub (JSMore.toLowerCase (stdout ++ stderr)))
      as (sub & Hsub & Hs) by (destruct Hocc; eauto).
    apply (occurs_in_piece (ascii_of_nat 10)) in Hs.
    - rewrite toLowerCase_split in Hs. apply Exists_exists in Hs as (l' & Hin' & Hl').
      apply in_map_iff in Hin' as (l & <- & Hin).
      exists l. split; [exact Hin|].
      apply includes_iff_occurs in Hl'. unfold SshDiagnostics.mentionsIssue.
      destruct Hsub as [-> | ->]; rewrite Hl'; [reflexivity | apply orb_true_r].
    - destruct Hsub as [-> | ->]; unfold HasChar; cbn; intuition discriminate. }
  rewrite doctorFromText_fields.
  cbn [SshDiagnostics.issues SshDiagnostics.healthy]. split.
  - apply not_true_is_false. intros Hall. rewrite forallb_forall in Hall.
    specialize (Hall l Hin). now rewrite Hl in Hall.
  - intros Hnil. apply map_eq_nil in Hnil.
    assert (In l (filter SshDiagnostics.mentionsIssue (doctorLines stdout stderr)))
      as Hf by (apply filter_In; auto).
    now rewrite Hnil in Hf.
Qed.

Lemma runDoctor_reports_errors_in_text_witness :
  exists (report : SshDiagnostics.DoctorReport) (w' : World),
    SshDiagnostics.runDoctor doctorShouts noParsers "openclaw-user-123" Sample.empty
    = (Ok report, w')
    /\ SshDiagnostics.healthy report = false
    /\ SshDiagnostics.issues report <> [].
Proof.
  apply (runDoctor_reports_errors_in_text doctorShouts noParsers "openclaw-user-123"
           Sample.empty
           ("Gateway: ok" ++ Sample.newline ++ "  Config ERROR: missing key")
           EmptyString).
  - reflexivity.
  - reflexivity.
  - left. exists ("gateway: ok" ++ Sample.newline ++ "  config "), ": missing key".
    reflexivity.
Defined.

(** ** [getGatewayHealth] *)

(** What [executeSSHCommand] hands to the shell and what it returns,
    with or without options. *)
Lemma executeSSHCommand_runs (env : Env) (appName command : string)
      (options : option Ssh.Options) (w : World) :
  let line := Ssh.flyctlCommand appName command options in
  let timeout := effectiveTimeout options in
  Ssh.executeSSHCommand env appName command options w
  = (match execAnswer env (length (calls w)) line timeout with
     | Ok out => Ok (Ssh.mkOutput (fst out) (snd out))
     | Throw msg => Throw ("SSH command failed: " ++ msg)
     end,
     mkWorld (instances w) (deploymentLogs w)
             (now w + Z.max 0 (latency env (length (calls w))))
             (Exec line timeout :: calls w)).
Proof.
  cbv zeta.
  assert (match options with
          | Some (Ssh.mkOptions (Some t) _) => if t =? 0 then 30000 else t
          | _ => 30000
          end = effectiveTimeout options) as Htimeout
      by (destruct options as [[[t|] m]|]; reflexivity).
  unfold Ssh.executeSSHCommand, tryCatch, bind, outside, ret, throw.
  rewrite Htimeout. cbn [fst snd].
  destruct (execAnswer env _ _ _); reflexivity.
Qed.

(** X5: [getGatewayHealth] never throws.  It runs the health command
    once, with a timeout of ten seconds, and answers [unknown] exactly
    when the command fails or its output does not parse, [healthy]
    exactly when the parsed status is "ok"; an uptime of zero and an
    empty version are reported as null, every other uptime and version
    as they were parsed. *)
Theorem getGatewayHealth_always_answers :
  forall (env : Env) (parsers : SshDiagnostics.Parsers) (appName : string) (w : World),
    let line := Ssh.flyctlCommand appName "openclaw health --json"
                                  (Some (Ssh.mkOptions (Some 10000) None)) in
    let answer := execAnswer env (length (calls w)) line 10000 in
    exists health : SshDiagnostics.GatewayHealth,
      SshDiagnostics.getGatewayHealth env parsers appName w
      = (Ok health,
         mkWorld (instances w) (deploymentLogs w)
                 (now w + Z.max 0 (latency env (length (calls w))))
                 (Exec line 10000 :: calls w))
      /\ (SshDiagnostics.healthStatus health = SshDiagnostics.Unknown <->
          forall out, answer = Ok out ->
                      SshDiagnostics.parseHealth parsers (fst out) = None)
      /\ (SshDiagnostics.healthStatus health = SshDiagnostics.Healthy <->
          exists out parsed,
            answer = Ok out
            /\ SshDiagnostics.parseHealth parsers (fst out) = Some parsed
            /\ SshDiagnostics.jsonStatus parsed = Some "ok")
      /\ SshDiagnostics.uptime health <> Some 0
      /\ SshDiagnostics.version health <> Some EmptyString
      /\ (forall out parsed,
             answer = Ok out ->
             SshDiagnostics.parseHealth parsers (fst out) = Some parsed ->
             (SshDiagnostics.jsonUptime parsed = Some 0 ->
              SshDiagnostics.uptime health = None)
             /\ (forall n, SshDiagnostics.jsonUptime parsed = Some n -> n <> 0 ->
                           SshDiagnostics.uptime health = Some n)
             /\ (SshDiagnostics.jsonVersion parsed = Some EmptyString ->
                 SshDiagnostics.version health = None)
             /\ (forall v, SshDiagnostics.jsonVersion parsed = Some v ->
                           v <> EmptyString ->
                           SshDiagnostics.version health = Some v)).
Proof.
  intros env parsers appName w line answer.
  unfold SshDiagnostics.getGatewayHealth, tryCatch, bind.
  rewrite executeSSHCommand_runs. cbv zeta.
  change (effectiveTimeout (Some (Ssh.mkOptions (Some 10000) None))) with 10000.
  fold line. fold answer.
  destruct answer as [[stdout stderr]|e] eqn:Hanswer; cbn [fst snd Ssh.stdout].
  - destruct (SshDiagnostics.parseHealth parsers stdout) as [parsed|] eqn:Hparse.
    + unfold ret. eexists. split; [reflexivity|].
      cbn [SshDiagnostics.healthStatus SshDiagnostics.uptime SshDiagnostics.version].
      split; [|split; [|split; [|split]]].
      * split.
        -- repeat match goal with
                  | |- context [match ?x with _ => _ end] => destruct x
                  end; discriminate.
        -- intros Hnone. specialize (Hnone _ eq_refl). cbn in Hnone. congruence.
      * split.
        -- intros Hh. exists (stdout, stderr), parsed.
           split; [reflexivity|]. split; [exact Hparse|].
           revert Hh. destruct (SshDiagnostics.jsonStatus parsed) as [st|];
             [|discriminate].
           destruct (String.eqb_spec st "ok") as [Hst|_]; [|discriminate].
           now rewrite Hst.
        -- intros (out & parsed' & Hout & Hparse' & Hok).
           inversion Hout; subst. cbn in Hparse'. rewrite Hparse in Hparse'.
           inversion Hparse'; subst. now rewrite Hok.
      * destruct (SshDiagnostics.jsonUptime parsed) as [n|]; [|discriminate].
        destruct (Z.eqb_spec n 0); [discriminate | congruence].
      * destruct (JS.truthy (SshDiagnostics.jsonVersion parsed)) eqn:Hv; [|discriminate].
        intros Hs. rewrite Hs in Hv. discriminate.
      * intros out parsed' Hout Hparse'. inversion Hout; subst out.
        cbn [fst] in Hparse'. rewrite Hparse in Hparse'.
        inversion Hparse'; subst parsed'. clear Hparse' Hout.
        split; [intros ->; reflexivity|].
        split; [intros n -> Hn; now destruct (Z.eqb_spec n 0)|].
        split; [intros ->; reflexivity|].
        intros v Hv Hne. rewrite Hv. apply truthy_Some in Hne. now rewrite Hne.
    + unfold throw, ret. eexists. split; [reflexivity|].
      cbn [SshDiagnostics.healthStatus SshDiagnostics.uptime SshDiagnostics.version].
      split; [|split; [|split; [|split]]]; try discriminate.
      * split; [|reflexivity]. intros _ out Hout. inversion Hout; subst. exact Hparse.
      * split; [discriminate|].
        intros (out & parsed' & Hout & Hparse' & _). inversion Hout; subst.
        cbn in Hparse'. congruence.
      * intros out parsed' Hout Hparse'. inversion Hout; subst out.
        cbn [fst] in Hparse'. congruence.
  - unfold ret. eexists. split; [reflexivity|].
    cbn [SshDiagnostics.healthStatus SshDiagnostics.uptime SshDiagnostics.version].
    split; [|split; [|split; [|split]]]; try discriminate.
    + split; [|reflexivity]. intros _ out Hout. discriminate.
    + split; [discriminate|]. intros (out & parsed' & Hout & _). discriminate.
Qed.

(** ** The terminal route: [POST /api/instance/terminal] *)

Section TerminalRouteFacts.

Variable env : Env.
Variable parsers : SshDiagnostics.Parsers.

Lemma bind_ret_run {A B} (m : M A) (g : A -> B) (w : World) :
  bind m (fun a => ret (g a)) w
  = (match fst (m w) with Ok a => Ok (g a) | Throw e => Throw e end, snd (m w)).
Proof. unfold bind, ret. now destruct (m w) as [[a|e] w1]. Qed.

Lemma executeSSHCommand_world (appName command : string)
      (options : option Ssh.Options) (w : World) :
  snd (Ssh.executeSSHCommand env appName command options w)
  = afterCommand env appName command options w.
Proof. now rewrite executeSSHCommand_runs. Qed.

Lemma runsOneCommand_then {A B} (appName command : string)
      (options : option Ssh.Options) (k : A -> M B) (m : M A) :
  (forall w, snd (m w) = afterCommand env appName command options w) ->
  (forall a w, snd (k a w) = w) ->
  forall w, snd (bind m k w) = afterCommand env appName command options w.
Proof.
  intros Hm Hk w. unfold bind. specialize (Hm w).
  destruct (m w) as [[a|e] w1]; cbn in *; [now rewrite Hk | exact Hm].
Qed.

Lemma listPendingDevices_world (appName : string) (w : World) :
  snd (Ssh.listPendingDevices env (SshDiagnostics.parseDevices parsers) appName w)
  = afterCommand env appName "openclaw devices list --json" None w.
Proof.
  unfold Ssh.listPendingDevices.
  apply runsOneCommand_then; [apply executeSSHCommand_world|].
  intros out w0. now destruct (SshDiagnostics.parseDevices parsers _).
Qed.

Lemma approveDevice_world (appName request : string) (w : World) :
  snd (Ssh.approveDevice env appName request w)
  = afterCommand env appName ("openclaw devices approve " ++ request) None w.
Proof.
  unfold Ssh.approveDevice.
  apply runsOneCommand_then; [apply executeSSHCommand_world | reflexivity].
Qed.

Lemma getWhatsAppQR_world (appName : string) (w : World) :
  snd (SshDiagnostics.getWhatsAppQR env parsers appName w)
  = afterCommand env appName
      ("openclaw logs --grep " ++ dquote ++ "QR Code" ++ dquote ++ " --tail 100") None w.
Proof.
  unfold SshDiagnostics.getWhatsAppQR.
  apply runsOneCommand_then; [apply executeSSHCommand_world|].
  intros out w0. destruct (SshDiagnostics.matchQR parsers _) as [group|]; [|reflexivity].
  now destruct (JS.truthy (Some group)).
Qed.

Lemma runDoctor_world (appName : string) (w : World) :
  snd (SshDiagnostics.runDoctor env parsers appName w)
  = afterCommand env appName "openclaw doctor --json" None w.
Proof.
  unfold SshDiagnostics.runDoctor.
  apply runsOneCommand_then; [apply executeSSHCommand_world|].
  intros out w0. now destruct (SshDiagnostics.parseDoctor parsers _).
Qed.

Lemma listChannels_world (appName : string) (w : World) :
  snd (SshDiagnostics.listChannels env parsers appName w)
  = afterCommand env appName "openclaw channels list --json" None w.
Proof.
  unfold SshDiagnostics.listChannels.
  apply runsOneCommand_then; [apply executeSSHCommand_world|].
  intros out w0. now destruct (SshDiagnostics.parseChannels parsers _).
Qed.

Lemma getGatewayHealth_run (appName : string) (w : World) :
  exists health,
    SshDiagnostics.getGatewayHealth env parsers appName w
    = (Ok health,
       afterCommand env appName "openclaw health --json"
                    (Some (Ssh.mkOptions (Some 10000) None)) w).
Proof.
  unfold SshDiagnostics.getGatewayHealth, tryCatch, bind.
  rewrite executeSSHCommand_runs. cbv zeta.
  destruct (execAnswer env _ _ _) as [out|e]; [|eexists; reflexivity].
  destruct (SshDiagnostics.parseHealth parsers _); eexists; reflexivity.
Qed.

Lemma executeOpenClawCommand_world (appName command : string) (w : World) :
  snd (Ssh.executeOpenClawCommand env appName command w)
  = afterCommand env appName ("openclaw " ++ JS.removeClass Ssh.shellMeta command) None w.
Proof. unfold Ssh.executeOpenClawCommand. apply executeSSHCommand_world. Qed.

(** What the [switch] does: it refuses without doing anything, or it
    runs one command in the app and answers 200 unless that throws. *)
Lemma dispatch_cases (appName : string) (body : TerminalRoute.RequestBody) (w : World) :
  (exists resp,
      TerminalRoute.dispatch env parsers appName body w = (Ok resp, w)
      /\ (TerminalRoute.statusCode resp = 400 \/ TerminalRoute.statusCode resp = 403))
  \/ (exists command options,
         snd (TerminalRoute.dispatch env parsers appName body w)
         = afterCommand env appName command options w
         /\ match fst (TerminalRoute.dispatch env parsers appName body w) with
            | Ok resp => TerminalRoute.statusCode resp = 200
            | Throw _ => True
            end).
Proof.
  unfold TerminalRoute.dispatch. cbv zeta.
  set (action := JS.orElse (TerminalRoute.reqAction body) EmptyString).
  destruct (String.eqb action "list-devices").
  { right. rewrite bind_ret_run. cbn [fst snd]. eexists _, _.
    split; [apply listPendingDevices_world|].
    now destruct (fst (Ssh.listPendingDevices _ _ _ _)). }
  destruct (String.eqb action "approve-device").
  { destruct (JS.truthy (TerminalRoute.reqRequestId body)); cbn [negb].
    - right. rewrite bind_ret_run. cbn [fst snd]. eexists _, _.
      split; [apply approveDevice_world|].
      now destruct (fst (Ssh.approveDevice _ _ _ _)).
    - left. eexists. split; [reflexivity | now left]. }
  destruct (String.eqb action "get-whatsapp-qr").
  { right. rewrite bind_ret_run. cbn [fst snd]. eexists _, _.
    split; [apply getWhatsAppQR_world|].
    now destruct (fst (SshDiagnostics.getWhatsAppQR _ _ _ _)). }
  destruct (String.eqb action "run-doctor").
  { right. rewrite bind_ret_run. cbn [fst snd]. eexists _, _.
    split; [apply runDoctor_world|].
    now destruct (fst (SshDiagnostics.runDoctor _ _ _ _)). }
  destruct (String.eqb action "check-health").
  { right. rewrite bind_ret_run.
    destruct (getGatewayHealth_run appName w) as [health ->]. cbn [fst snd].
    eexists _, _. split; reflexivity. }
  destruct (String.eqb action "list-channels").
  { right. rewrite bind_ret_run. cbn [fst snd]. eexists _, _.
    split; [apply listChannels_world|].
    now destruct (fst (SshDiagnostics.listChannels _ _ _ _)). }
  destruct (String.eqb action "execute").
  { destruct (JS.truthy (TerminalRoute.reqCommand body)); cbn [negb].
    - destruct (TerminalRoute.isAllowed _); cbn [negb].
      + right. rewrite bind_ret_run. cbn [fst snd]. eexists _, _.
        split; [apply executeOpenClawCommand_world|].
        now destruct (fst (Ssh.executeOpenClawCommand _ _ _ _)).
      + left. eexists. split; [reflexivity | now right].
    - left. eexists. split; [reflexivity | now left]. }
  left. eexists. split; [reflexivity | now left].
Qed.

Variable web : TerminalRoute.Web.

(** The handler as a case analysis: the three gates, a failure to read
    the session, the user or the body, or the [switch]. *)
Lemma POST_cases (w : World) :
  (exists resp,
      TerminalRoute.POST env parsers web w = (Ok resp, w)
      /\ In (TerminalRoute.statusCode resp) [400; 401; 403; 404; 500])
  \/ (exists email user row appName command options resp,
         TerminalRoute.sessionEmail web = Ok (Some email)
         /\ TerminalRoute.userIdByEmail web email = Ok (Some user)
         /\ findByUserId user (instances w) = Some row
         /\ containerName row = Some appName
         /\ appName <> EmptyString
         /\ TerminalRoute.POST env parsers web w
            = (Ok resp, afterCommand env appName command options w)
         /\ (TerminalRoute.statusCode resp = 200
             \/ TerminalRoute.statusCode resp = 500)).
Proof.
  unfold TerminalRoute.POST, tryCatch, bind, lift.
  destruct (TerminalRoute.sessionEmail web) as [email|e] eqn:Hsession;
    [|left; eexists; split; [reflexivity | cbn; tauto]].
  destruct (JS.truthy email) eqn:Hemail; cbn [negb];
    [|left; eexists; split; [reflexivity | cbn; tauto]].
  destruct email as [email|]; [|discriminate Hemail].
  replace (JS.orElse (Some email) EmptyString) with email
    by (unfold JS.orElse; now rewrite Hemail).
  destruct (TerminalRoute.userIdByEmail web email) as [user|e] eqn:Huser;
    [|left; eexists; split; [reflexivity | cbn; tauto]].
  destruct user as [user|]; unfold instance_findUnique_userId, ret;
    [|left; eexists; split; [reflexivity | cbn; tauto]].
  destruct (findByUserId user (instances w)) as [row|] eqn:Hrow;
    [|left; eexists; split; [reflexivity | cbn; tauto]].
  destruct (JS.truthy (containerName row)) eqn:Hname; cbn [negb];
    [|left; eexists; split; [reflexivity | cbn; tauto]].
  destruct (containerName row) as [appName|] eqn:Hcontainer; [|discriminate Hname].
  replace (JS.orElse (Some appName) EmptyString) with appName
    by (unfold JS.orElse; now rewrite Hname).
  destruct (TerminalRoute.requestJson web) as [body|e];
    [|left; eexists; split; [reflexivity | cbn; tauto]].
  destruct (dispatch_cases appName body w) as [(resp & Hrun & Hcode) | Hrun].
  - left. rewrite Hrun. exists resp. split; [reflexivity|].
    cbn. destruct Hcode as [-> | ->]; tauto.
  - right. destruct Hrun as (command & options & Hworld & Hcode).
    destruct (TerminalRoute.dispatch env parsers appName body w) as [[resp|e] w1];
      cbn [fst snd] in *; subst w1;
      eexists email, user, row, appName, command, options, _;
      (split; [first [reflexivity | exact Hsession]|]);
      (split; [first [reflexivity | exact Huser]|]);
      (split; [exact Hrow|]);
      (split; [first [reflexivity | exact Hcontainer]|]);
      (split; [now apply truthy_Some|]);
      (split; [reflexivity|]).
    + now left.
    + now right.
Qed.

End TerminalRouteFacts.

(** X6: the handler never throws: it answers every request with one of
    the statuses 200, 400, 401, 403, 404 and 500, and it writes neither
    to the instance table nor to the deployment log. *)
Theorem POST_always_answers :
  forall (env : Env) (parsers : SshDiagnostics.Parsers) (web : TerminalRoute.Web)
         (w : World),
    exists (resp : TerminalRoute.Response) (w' : World),
      TerminalRoute.POST env parsers web w = (Ok resp, w')
      /\ In (TerminalRoute.statusCode resp) [200; 400; 401; 403; 404; 500]
      /\ instances w' = instances w
      /\ deploymentLogs w' = deploymentLogs w.
Proof.
  intros env parsers web w.
  destruct (POST_cases env parsers web w)
    as [(resp & Hrun & Hcode)
       | (email & user & row & appName & command & options & resp & _ & _ & _ & _ & _
          & Hrun & Hcode)];
    rewrite Hrun; eexists _, _; (split; [reflexivity|]).
  - split; [cbn in *; tauto | split; reflexivity].
  - split; [cbn; destruct Hcode as [-> | ->]; tauto | split; reflexivity].
Qed.

(** X7: whatever the request, the handler calls [exec] at most once,
    and only for a caller whose session has an e-mail address, whose
    user row has an instance and whose instance has an app name: the one
    line handed to [exec] is then the line that [executeSSHCommand]
    builds for that app name, [flyctl ssh console], the machine flag,
    [--app] with the app name, and [--command] with the command between
    double quotes.  The statement is about that line; how the shell that
    [exec] starts reads the quoted command is outside it. *)
Theorem POST_calls_exec_at_most_once :
  forall (env : Env) (parsers : SshDiagnostics.Parsers) (web : TerminalRoute.Web)
         (w : World),
    let w' := snd (TerminalRoute.POST env parsers web w) in
    w' = w
    \/ exists email user row appName command options,
        TerminalRoute.sessionEmail web = Ok (Some email)
        /\ TerminalRoute.userIdByEmail web email = Ok (Some user)
        /\ findByUserId user (instances w) = Some row
        /\ containerName row = Some appName
        /\ appName <> EmptyString
        /\ calls w'
           = Exec (Ssh.flyctlCommand appName command options)
                  (effectiveTimeout options) :: calls w.
Proof.
  intros env parsers web w. cbv zeta.
  destruct (POST_cases env parsers web w)
    as [(resp & Hrun & _)
       | (email & user & row & appName & command & options & resp & Hsession & Huser
          & Hrow & Hname & Hne & Hrun & _)];
    rewrite Hrun; [now left|].
  right. exists email, user, row, appName, command, options. repeat split; assumption.
Qed.

Section TerminalRouteRuns.

Variable env : Env.
Variable parsers : SshDiagnostics.Parsers.
Variable web : TerminalRoute.Web.

(** Past the three gates, the handler is the [switch] inside the
    [try]. *)
Lemma POST_dispatch (w : World) (email user appName : string) (row : Instance)
      (body : TerminalRoute.RequestBody) :
  TerminalRoute.sessionEmail web = Ok (Some email) -> email <> EmptyString ->
  TerminalRoute.userIdByEmail web email = Ok (Some user) ->
  findByUserId user (instances w) = Some row ->
  containerName row = Some appName -> appName <> EmptyString ->
  TerminalRoute.requestJson web = Ok body ->
  TerminalRoute.POST env parsers web w
  = match TerminalRoute.dispatch env parsers appName body w with
    | (Ok resp, w') => (Ok resp, w')
    | (Throw e, w') =>
        (Ok (TerminalRoute.mkResponse
               (TerminalRoute.ErrorBody (JS.orElse (Some e) "Command execution failed"))
               500), w')
    end.
Proof.
  intros Hsession Hemail Huser Hrow Hname Happ Hbody.
  apply truthy_Some in Hemail. apply truthy_Some in Happ.
  unfold TerminalRoute.POST, tryCatch, bind, lift, instance_findUnique_userId, ret.
  rewrite Hsession, Hemail. cbn [negb].
  replace (JS.orElse (Some email) EmptyString) with email
    by (unfold JS.orElse; now rewrite Hemail).
  rewrite Huser, Hrow, Hname, Happ, Hbody. cbn [negb].
  replace (JS.orElse (Some appName) EmptyString) with appName
    by (unfold JS.orElse; now rewrite Happ).
  reflexivity.
Qed.

Lemma removeClass_app (cls : ascii -> bool) (a b : string) :
  JS.removeClass cls (a ++ b) = JS.removeClass cls a ++ JS.removeClass cls b.
Proof.
  induction a as [|c a IH]; [reflexivity|].
  cbn [append JS.removeClass]. rewrite IH. now destruct (cls c).
Qed.

(** No allowed prefix contains a shell metacharacter. *)
Lemma allowedCommands_clean (allowed : string) :
  In allowed TerminalRoute.allowedCommands ->
  JS.removeClass Ssh.shellMeta allowed = allowed.
Proof.
  unfold TerminalRoute.allowedCommands. cbn [In].
  intros H. repeat (destruct H as [<- | H]; [reflexivity|]). destruct H.
Qed.

(** A command that fails makes every function of the proxy that does
    not catch throw the wrapped message. *)
Lemma executeSSHCommand_fails {B} (appName command : string)
      (options : option Ssh.Options) (k : Ssh.Output -> M B) (w : World) (e : string) :
  (forall line t, execAnswer env (length (calls w)) line t = Throw e) ->
  bind (Ssh.executeSSHCommand env appName command options) k w
  = (Throw ("SSH command failed: " ++ e), afterCommand env appName command options w).
Proof.
  intros Hexec. unfold bind. rewrite executeSSHCommand_runs. cbv zeta.
  now rewrite Hexec.
Qed.

End TerminalRouteRuns.

(** X8: the three gates of the handler come before anything else.  A
    request without a session e-mail is answered 401, a caller without
    an instance 404, an instance without an app name 400: each without
    reading the body of the request, which may not even be JSON, and
    without running a command or changing anything. *)
Theorem POST_gates :
  forall (env : Env) (parsers : SshDiagnostics.Parsers) (web : TerminalRoute.Web)
         (w : World),
    (forall email,
        TerminalRoute.sessionEmail web = Ok email -> JS.truthy email = false ->
        TerminalRoute.POST env parsers web w
        = (Ok (TerminalRoute.mkResponse (TerminalRoute.ErrorBody "Unauthorized") 401), w))
    /\ (forall email,
           TerminalRoute.sessionEmail web = Ok (Some email) -> email <> EmptyString ->
           TerminalRoute.userIdByEmail web email = Ok None
           \/ (exists user,
                  TerminalRoute.userIdByEmail web email = Ok (Some user)
                  /\ findByUserId user (instances w) = None) ->
           TerminalRoute.POST env parsers web w
           = (Ok (TerminalRoute.mkResponse (TerminalRoute.ErrorBody "No instance found")
                                           404), w))
    /\ (forall email user row,
           TerminalRoute.sessionEmail web = Ok (Some email) -> email <> EmptyString ->
           TerminalRoute.userIdByEmail web email = Ok (Some user) ->
           findByUserId user (instances w) = Some row ->
           JS.truthy (containerName row) = false ->
           TerminalRoute.POST env parsers web w
           = (Ok (TerminalRoute.mkResponse
                    (TerminalRoute.ErrorBody "Instance not properly configured") 400),
              w)).
Proof.
  intros env parsers web w. split; [|split].
  - intros email Hsession Hemail.
    unfold TerminalRoute.POST, tryCatch, bind, lift. now rewrite Hsession, Hemail.
  - intros email Hsession Hemail Hnone. apply truthy_Some in Hemail.
    unfold TerminalRoute.POST, tryCatch, bind, lift, instance_findUnique_userId, ret.
    rewrite Hsession, Hemail. cbn [negb].
    replace (JS.orElse (Some email) EmptyString) with email
      by (unfold JS.orElse; now rewrite Hemail).
    destruct Hnone as [-> | (user & -> & ->)]; reflexivity.
  - intros email user row Hsession Hemail Huser Hrow Hname. apply truthy_Some in Hemail.
    unfold TerminalRoute.POST, tryCatch, bind, lift, instance_findUnique_userId, ret.
    rewrite Hsession, Hemail. cbn [negb].
    replace (JS.orElse (Some email) EmptyString) with email
      by (unfold JS.orElse; now rewrite Hemail).
    now rewrite Huser, Hrow, Hname.
Qed.

Lemma POST_gates_witness :
  TerminalRoute.POST Sample.calm noParsers anonymous Sample.empty
  = (Ok (TerminalRoute.mkResponse (TerminalRoute.ErrorBody "Unauthorized") 401),
     Sample.empty)
  /\ TerminalRoute.POST Sample.calm noParsers
       (signedIn (TerminalRoute.mkBody (Some "run-doctor") None None)) Sample.empty
     = (Ok (TerminalRoute.mkResponse (TerminalRoute.ErrorBody "No instance found") 404),
        Sample.empty)
  /\ TerminalRoute.POST Sample.calm noParsers
       (signedIn (TerminalRoute.mkBody (Some "run-doctor") None None))
       (Sample.withRows [mkInstance "inst-9" "user-9" None None 3009 DEPLOYING
                                    None None None None])
     = (Ok (TerminalRoute.mkResponse
              (TerminalRoute.ErrorBody "Instance not properly configured") 400),
        Sample.withRows [mkInstance "inst-9" "user-9" None None 3009 DEPLOYING
                                    None None None None]).
Proof.
  split; [|split].
  - apply (proj1 (POST_gates Sample.calm noParsers anonymous Sample.empty) None);
      reflexivity.
  - apply (proj1 (proj2 (POST_gates Sample.calm noParsers
                           (signedIn (TerminalRoute.mkBody (Some "run-doctor") None None))
                           Sample.empty)) "ada@example.com");
      [reflexivity | discriminate |].
    right. exists "user-9". split; reflexivity.
  - apply (proj2 (proj2 (POST_gates Sample.calm noParsers
                           (signedIn (TerminalRoute.mkBody (Some "run-doctor") None None))
                           (Sample.withRows
                              [mkInstance "inst-9" "user-9" None None 3009 DEPLOYING
                                          None None None None])))
                 "ada@example.com" "user-9"
                 (mkInstance "inst-9" "user-9" None None 3009 DEPLOYING
                             None None None None));
      [reflexivity | discriminate | reflexivity | reflexivity | reflexivity].
Defined.

(** X9: the [execute] action of a caller who is past the gates.  A
    command that begins with none of the ten allowed prefixes is
    answered 403 and [exec] is not called.  For a command that begins
    with one of them [exec] is called once, and the line it is handed is
    the one that [executeSSHCommand] builds for the caller's app name
    and for "openclaw" followed by that prefix and by the rest of the
    command, from which the characters of the class [shellMeta] are
    removed and in which every other character stays, in its order.
    The statement is about that line; how the shell that [exec] starts
    reads the quoted command is outside it. *)
Theorem POST_execute_line_for_exec :
  forall (env : Env) (parsers : SshDiagnostics.Parsers) (web : TerminalRoute.Web)
         (w : World) (email user appName command : string) (row : Instance)
         (request : option string),
    TerminalRoute.sessionEmail web = Ok (Some email) -> email <> EmptyString ->
    TerminalRoute.userIdByEmail web email = Ok (Some user) ->
    findByUserId user (instances w) = Some row ->
    containerName row = Some appName -> appName <> EmptyString ->
    TerminalRoute.requestJson web
    = Ok (TerminalRoute.mkBody (Some "execute") (Some command) request) ->
    command <> EmptyString ->
    (TerminalRoute.isAllowed command = false
     /\ TerminalRoute.POST env parsers web w
        = (Ok (TerminalRoute.mkResponse
                 (TerminalRoute.ErrorBody
                    "Command not allowed. Use preset actions instead.") 403), w))
    \/ (exists allowed rest,
           In allowed TerminalRoute.allowedCommands
           /\ command = allowed ++ rest
           /\ (forall c, Ssh.shellMeta c = true ->
                         ~ HasChar c (JS.removeClass Ssh.shellMeta rest))
           /\ list_ascii_of_string (JS.removeClass Ssh.shellMeta rest)
              = filter (fun c => negb (Ssh.shellMeta c)) (list_ascii_of_string rest)
           /\ snd (TerminalRoute.POST env parsers web w)
              = afterCommand env appName
                  ("openclaw " ++ allowed ++ JS.removeClass Ssh.shellMeta rest)
                  None w).
Proof.
  intros env parsers web w email user appName command row request
         Hsession Hemail Huser Hrow Hname Happ Hbody Hcommand.
  rewrite (POST_dispatch env parsers web w email user appName row _
             Hsession Hemail Huser Hrow Hname Happ Hbody).
  apply truthy_Some in Hcommand.
  unfold TerminalRoute.dispatch. cbv zeta.
  cbn [TerminalRoute.reqAction TerminalRoute.reqCommand].
  change (JS.orElse (Some "execute") EmptyString) with "execute".
  cbn [String.eqb Ascii.eqb Bool.eqb andb]. rewrite Hcommand. cbn [negb].
  replace (JS.orElse (Some command) EmptyString) with command
    by (unfold JS.orElse; now rewrite Hcommand).
  destruct (TerminalRoute.isAllowed command) eqn:Hallowed; cbn [negb];
    [right | left; split; reflexivity].
  unfold TerminalRoute.isAllowed in Hallowed.
  apply existsb_exists in Hallowed as (allowed & Hin & Hprefix).
  apply prefix_iff_append in Hprefix as [rest ->].
  exists allowed, rest. split; [exact Hin|]. split; [reflexivity|].
  split; [intros c Hc; now apply removeClass_clean|].
  split; [apply removeClass_chars|].
  rewrite bind_ret_run.
  pose proof (executeOpenClawCommand_world env appName (allowed ++ rest) w) as Hworld.
  rewrite removeClass_app, (allowedCommands_clean allowed Hin) in Hworld.
  destruct (fst (Ssh.executeOpenClawCommand env appName (allowed ++ rest) w));
    exact Hworld.
Qed.

Lemma POST_execute_line_for_exec_witness :
  (TerminalRoute.isAllowed "logs --tail 5; reboot" = false
   /\ TerminalRoute.POST Sample.calm noParsers
        (signedIn (TerminalRoute.mkBody (Some "execute") (Some "logs --tail 5; reboot")
                                        None))
        (Sample.withRows [Sample.liveRow])
      = (Ok (TerminalRoute.mkResponse
               (TerminalRoute.ErrorBody
                  "Command not allowed. Use preset actions instead.") 403),
         Sample.withRows [Sample.liveRow]))
  \/ (exists allowed rest,
         In allowed TerminalRoute.allowedCommands
         /\ "logs --tail 5; reboot" = allowed ++ rest
         /\ (forall c, Ssh.shellMeta c = true ->
                       ~ HasChar c (JS.removeClass Ssh.shellMeta rest))
         /\ list_ascii_of_string (JS.removeClass Ssh.shellMeta rest)
            = filter (fun c => negb (Ssh.shellMeta c)) (list_ascii_of_string rest)
         /\ snd (TerminalRoute.POST Sample.calm noParsers
                   (signedIn (TerminalRoute.mkBody (Some "execute")
                                                   (Some "logs --tail 5; reboot") None))
                   (Sample.withRows [Sample.liveRow]))
            = afterCommand Sample.calm "openclaw-user-9"
                ("openclaw " ++ allowed ++ JS.removeClass Ssh.shellMeta rest)
                None (Sample.withRows [Sample.liveRow])).
Proof.
  apply (POST_execute_line_for_exec Sample.calm noParsers
           (signedIn (TerminalRoute.mkBody (Some "execute")
                                           (Some "logs --tail 5; reboot") None))
           (Sample.withRows [Sample.liveRow])
           "ada@example.com" "user-9" "openclaw-user-9" "logs --tail 5; reboot"
           Sample.liveRow None).
  - reflexivity.
  - discriminate.
  - reflexivity.
  - reflexivity.
  - reflexivity.
  - discriminate.
  - reflexivity.
  - discriminate.
Defined.

(** X10: when the remote command cannot be run, every action that ran
    it is answered 500 with the wrapped message of the failure; only
    [check-health] is answered 200, with the status [unknown]. *)
Theorem POST_when_the_command_fails :
  forall (env : Env) (parsers : SshDiagnostics.Parsers) (web : TerminalRoute.Web)
         (w : World) (email user appName e : string) (row : Instance)
         (body : TerminalRoute.RequestBody),
    TerminalRoute.sessionEmail web = Ok (Some email) -> email <> EmptyString ->
    TerminalRoute.userIdByEmail web email = Ok (Some user) ->
    findByUserId user (instances w) = Some row ->
    containerName row = Some appName -> appName <> EmptyString ->
    TerminalRoute.requestJson web = Ok body ->
    (forall line t, execAnswer env (length (calls w)) line t = Throw e) ->
    (TerminalRoute.reqAction body = Some "check-health" ->
     fst (TerminalRoute.POST env parsers web w)
     = Ok (TerminalRoute.mkResponse
             (TerminalRoute.HealthBody
                (SshDiagnostics.mkGatewayHealth SshDiagnostics.Unknown None None))
             200))
    /\ (TerminalRoute.reqAction body <> Some "check-health" ->
        calls (snd (TerminalRoute.POST env parsers web w)) <> calls w ->
        fst (TerminalRoute.POST env parsers web w)
        = Ok (TerminalRoute.mkResponse
                (TerminalRoute.ErrorBody ("SSH command failed: " ++ e)) 500)).
Proof.
  intros env parsers web w email user appName e row body
         Hsession Hemail Huser Hrow Hname Happ Hbody Hexec.
  rewrite (POST_dispatch env parsers web w email user appName row _
             Hsession Hemail Huser Hrow Hname Happ Hbody).
  unfold TerminalRoute.dispatch. cbv zeta. split.
  - intros ->. change (JS.orElse (Some "check-health") EmptyString) with "check-health".
    cbn [String.eqb Ascii.eqb Bool.eqb andb].
    rewrite bind_ret_run. unfold SshDiagnostics.getGatewayHealth, tryCatch.
    rewrite (executeSSHCommand_fails env _ _ _ _ w e Hexec).
    reflexivity.
  - intros Haction.
    assert (String.eqb (JS.orElse (TerminalRoute.reqAction body) EmptyString)
                       "check-health" = false) as Hne.
    { apply String.eqb_neq. intros Heq. apply Haction.
      unfold JS.orElse in Heq.
      destruct (TerminalRoute.reqAction body) as [a|]; cbn in Heq;
        [|discriminate Heq].
      destruct (String.eqb a EmptyString); cbn in Heq;
        [discriminate Heq | now rewrite Heq]. }
    rewrite Hne.
    set (action := JS.orElse (TerminalRoute.reqAction body) EmptyString).
    unfold Ssh.listPendingDevices, Ssh.approveDevice, SshDiagnostics.getWhatsAppQR,
      SshDiagnostics.runDoctor, SshDiagnostics.listChannels, Ssh.executeOpenClawCommand.
    repeat match goal with
           | |- context [if String.eqb action ?a then _ else _] =>
               destruct (String.eqb action a)
           | |- context [if negb ?b then _ else _] => destruct b; cbn [negb]
           end;
      try (intros Hcalls; exfalso; now apply Hcalls);
      intros _;
      first [ rewrite (executeSSHCommand_fails env _ _ _ _ w e Hexec)
            | unfold bind at 1;
              rewrite (executeSSHCommand_fails env _ _ _ _ w e Hexec) ];
      reflexivity.
Qed.

Lemma POST_when_the_command_fails_witness :
  fst (TerminalRoute.POST noShell noParsers
         (signedIn (TerminalRoute.mkBody (Some "check-health") None None))
         (Sample.withRows [Sample.liveRow]))
  = Ok (TerminalRoute.mkResponse
          (TerminalRoute.HealthBody
             (SshDiagnostics.mkGatewayHealth SshDiagnostics.Unknown None None))
          200)
  /\ fst (TerminalRoute.POST noShell noParsers
            (signedIn (TerminalRoute.mkBody (Some "run-doctor") None None))
            (Sample.withRows [Sample.liveRow]))
     = Ok (TerminalRoute.mkResponse
             (TerminalRoute.ErrorBody
                "SSH command failed: Command failed: flyctl: not found")
             500).
Proof.
  split.
  - apply (POST_when_the_command_fails noShell noParsers
             (signedIn (TerminalRoute.mkBody (Some "check-health") None None))
             (Sample.withRows [Sample.liveRow])
             "ada@example.com" "user-9" "openclaw-user-9"
             "Command failed: flyctl: not found" Sample.liveRow
             (TerminalRoute.mkBody (Some "check-health") None None));
      try reflexivity; discriminate.
  - apply (POST_when_the_command_fails noShell noParsers
             (signedIn (TerminalRoute.mkBody (Some "run-doctor") None None))
             (Sample.withRows [Sample.liveRow])
             "ada@example.com" "user-9" "openclaw-user-9"
             "Command failed: flyctl: not found" Sample.liveRow
             (TerminalRoute.mkBody (Some "run-doctor") None None));
      try reflexivity; discriminate.
Defined.

(** ** The HTTP layer of the Fly.io client *)

(** X11: [appExists] answers [false] to every 404 response whose body
    can be read, and [true] to every 2xx response that is 204 or
    carries JSON.  It answers [false] only when the request failed
    with a message in which "404" occurs, and a failure whose message
    does not contain "404" is thrown again unchanged. *)
Theorem appExists_answers :
  forall (Json : Type) (emptyObject : Json) (json : string -> Outcome Json)
         (fetched : Outcome FlyHttp.HttpResponse),
    (forall res body,
        fetched = Ok res -> FlyHttp.httpStatus res = 404 ->
        FlyHttp.httpText res = Ok body ->
        FlyHttp.appExists Json emptyObject json fetched = Ok false)
    /\ (forall res,
           fetched = Ok res -> FlyHttp.ok res = true ->
           FlyHttp.httpStatus res = 204
           \/ (exists text doc, FlyHttp.httpText res = Ok text /\ json text = Ok doc) ->
           FlyHttp.appExists Json emptyObject json fetched = Ok true)
    /\ (FlyHttp.appExists Json emptyObject json fetched = Ok false ->
        exists msg,
          FlyHttp.request Json emptyObject json fetched = Throw msg /\ Occurs "404" msg)
    /\ (forall msg,
           FlyHttp.request Json emptyObject json fetched = Throw msg ->
           ~ Occurs "404" msg ->
           FlyHttp.appExists Json emptyObject json fetched = Throw msg).
Proof.
  intros Json emptyObject json fetched. split; [|split; [|split]].
  - intros res body -> Hstatus Hbody.
    unfold FlyHttp.appExists, FlyHttp.request, FlyHttp.ok.
    rewrite Hstatus, Hbody. cbn [Z.leb Z.compare Pos.compare Pos.compare_cont andb negb].
    change (JSMore.numberToString 404) with "404".
    replace (JS.includes ("Fly.io API error " ++ "404" ++ ": " ++ body) "404") with true;
      [reflexivity|].
    symmetry. apply includes_iff_occurs.
    now exists "Fly.io API error ", (": " ++ body).
  - intros res -> Hok Hbody. unfold FlyHttp.appExists, FlyHttp.request.
    rewrite Hok. cbn [negb].
    destruct Hbody as [-> | (text & doc & -> & ->)]; [reflexivity|].
    now destruct (FlyHttp.httpStatus res =? 204).
  - unfold FlyHttp.appExists.
    destruct (FlyHttp.request Json emptyObject json fetched) as [doc|msg];
      [discriminate|].
    destruct (JS.includes msg "404") eqn:Hmsg; [|discriminate].
    intros _. exists msg. split; [reflexivity | now apply includes_iff_occurs].
  - intros msg Hrequest Hmsg. unfold FlyHttp.appExists. rewrite Hrequest.
    apply includes_false_iff in Hmsg. now rewrite Hmsg.
Qed.

Lemma appExists_answers_witness :
  FlyHttp.appExists string "{}" (fun text => Ok text)
    (Ok (FlyHttp.mkHttp 404 (Ok "app not found"))) = Ok false
  /\ FlyHttp.appExists string "{}" (fun text => Ok text)
       (Ok (FlyHttp.mkHttp 204 (Throw "body used already"))) = Ok true
  /\ FlyHttp.appExists string "{}" (fun text => Ok text) (Throw "fetch failed")
     = Throw "fetch failed".
Proof.
  split; [|split].
  - apply (proj1 (appExists_answers string "{}" (fun text => Ok text)
                    (Ok (FlyHttp.mkHttp 404 (Ok "app not found"))))
                 (FlyHttp.mkHttp 404 (Ok "app not found")) "app not found");
      reflexivity.
  - apply (proj1 (proj2 (appExists_answers string "{}" (fun text => Ok text)
                           (Ok (FlyHttp.mkHttp 204 (Throw "body used already")))))
                 (FlyHttp.mkHttp 204 (Throw "body used already")));
      [reflexivity | reflexivity | now left].
  - apply (proj2 (proj2 (proj2 (appExists_answers string "{}" (fun text => Ok text)
                                  (Throw "fetch failed"))))
                 "fetch failed"); [reflexivity|].
    apply includes_false_iff. reflexivity.
Defined.

(** ** What [deployInstance] stores and what it returns *)

Section Runs.

Lemma inert_run {A} (m : M A) (w w' : World) (o : Outcome A) :
  inert m -> m w = (o, w') -> instances w' = instances w.
Proof. intros Hm Hrun. specialize (Hm w). now rewrite Hrun in Hm. Qed.

Lemma instance_update_Ok (i : string) (d : InstanceData) (w w' : World) (u : unit) :
  instance_update i d w = (Ok u, w') ->
  (exists r, findById i (instances w) = Some r)
  /\ w' = mkWorld (updateRows i d (instances w)) (deploymentLogs w) (now w) (calls w).
Proof.
  unfold instance_update. destruct (findById i (instances w)) as [r|]; [|discriminate].
  intros H. inversion H. eauto.
Qed.

(** [prisma.instance.create] returns the row it stores, and afterwards
    both unique keys find that row. *)
Lemma instance_create_row (env : Env) (u name : string) (p : Z)
      (s : InstanceStatus) (w w' : World) (row : Instance) :
  instance_create env u name p s w = (Ok row, w') ->
  row = mkInstance (cuid env (length (calls w))) u None (Some name) p s
                   None None None None
  /\ findByUserId u (instances w) = None
  /\ w' = mkWorld (instances w ++ [row]) (deploymentLogs w) (now w) (calls w)
  /\ findById (id row) (instances w') = Some row
  /\ findByUserId u (instances w') = Some row.
Proof.
  unfold instance_create.
  destruct (findById _ (instances w)) eqn:Hi; [discriminate|].
  destruct (findByUserId u (instances w)) eqn:Hu; [discriminate|].
  intros H. inversion H; subst; clear H. cbn [instances id].
  repeat split.
  - apply find_app_none; [exact Hi | apply String.eqb_refl].
  - apply find_app_none; [exact Hu | apply String.eqb_refl].
Qed.

(** A row keeps its key, its owner, its app name and its port through
    every update. *)
Lemma applyData_fixed (d : InstanceData) (r : Instance) :
  id (applyData d r) = id r /\ userId (applyData d r) = userId r
  /\ containerName (applyData d r) = containerName r /\ port (applyData d r) = port r.
Proof. repeat split. Qed.

End Runs.

Ltac run_ok H :=
  repeat match type of H with
         | bind _ _ _ = (Ok _, _) =>
             let a := fresh "a" in
             let w := fresh "w" in
             let Hstep := fresh "Hstep" in
             apply bind_Ok in H as (a & w & Hstep & H)
         end.

(** After [run_ok]: what each step did to the instance table. *)
Ltac tables :=
  repeat match goal with
         | H : instance_update _ _ _ = (Ok _, _) |- _ =>
             apply instance_update_Ok in H as [[? ?] ?]; subst
         | H : ?m ?w = (Ok _, ?w') |- _ =>
             apply inert_run in H; [|solve [auto with keeping]]
         end.

Section FlyDeployRows.

Variable env : Env.
Context {UserConfiguration : Type}.
Variable builder : ConfigBuilder UserConfiguration.

Lemma FlyClient_new_run (w w' : World) (o : Outcome FlyClient.t) :
  FlyClient.new env w = (o, w') -> w' = w.
Proof.
  unfold FlyClient.new.
  destruct (negb (JS.truthy (FLY_API_TOKEN env))); [now inversion 1|].
  destruct (negb (JS.truthy (FLY_ORG_SLUG env))); now inversion 1.
Qed.

(** When the [try] block is entered: the placeholder row. *)
Lemma Fly_prelude_row (u : string) (w w0 : World) (s : FlyDeploy.Started) :
  FlyDeploy.prelude env u w = (Ok s, w0) ->
  findById (id (FlyDeploy.instance s)) (instances w0) = Some (FlyDeploy.instance s)
  /\ findByUserId u (instances w0) = Some (FlyDeploy.instance s)
  /\ userId (FlyDeploy.instance s) = u
  /\ containerName (FlyDeploy.instance s) = Some (FlyDeploy.appName s)
  /\ port (FlyDeploy.instance s) = FlyDeploy.port_ s
  /\ FlyDeploy.appName s
     = "openclaw-" ++ JS.slice0 8 u ++ "-" ++ JS.toString36 (now w).
Proof.
  unfold FlyDeploy.prelude. intros H.
  apply bind_Ok in H as (fly & w1 & Hnew & H). apply FlyClient_new_run in Hnew. subst w1.
  apply bind_Ok in H as (t & w2 & Hnow & H). unfold Date_now in Hnow.
  inversion Hnow; subst; clear Hnow.
  apply bind_Ok in H as (existing & w3 & _ & H).
  apply bind_Ok in H as (? & w4 & _ & H).
  apply bind_Ok in H as (port & w5 & _ & H).
  apply bind_Ok in H as (row & w6 & Hcreate & H).
  apply bind_Ok in H as (? & w7 & Hlog & H).
  apply instance_create_row in Hcreate as (Hrow & _ & _ & Hi & Hu).
  unfold logDeployment in Hlog. unfold ret in H.
  inversion Hlog; subst w7; clear Hlog. inversion H; subst s w0; clear H.
  cbn [FlyDeploy.instance FlyDeploy.appName FlyDeploy.port_ instances].
  split; [exact Hi|]. split; [exact Hu|]. rewrite Hrow. repeat split.
Qed.

(** What the first part of the [try] block does to the instance
    table: it stores the gateway token, then the machine id. *)
Lemma Fly_provision_rows (config : UserConfiguration) (s : FlyDeploy.Started)
      (w0 wp : World) (p : FlyDeploy.Provisioned) :
  FlyDeploy.provision env builder config s w0 = (Ok p, wp) ->
  FlyDeploy.accessUrl_ p = FlyClient.getAppUrl (FlyDeploy.appName s)
  /\ instances wp
     = updateRows (id (FlyDeploy.instance s))
         (mkData (Some (Some (machineId (FlyDeploy.machine p)))) None None None None None)
         (updateRows (id (FlyDeploy.instance s))
            (mkData None None None None (Some (FlyDeploy.gatewayToken_ p)) None)
            (instances w0)).
Proof.
  unfold FlyDeploy.provision. cbv zeta. intros H.
  unfold FlyClient.verifyAccess, FlyClient.createApp, FlyClient.setSecrets,
    FlyClient.createMachine, FlyClient.allocateIPAddress, void in H.
  run_ok H. unfold ret in H. inversion H; subst; clear H.
  cbn [FlyDeploy.accessUrl_ FlyDeploy.gatewayToken_ FlyDeploy.machine].
  split; [reflexivity|].
  tables. cbn [instances] in *. congruence.
Qed.

End FlyDeployRows.

Lemma findByUserId_updated (u i : string) (d : InstanceData) (rows : list Instance)
      (r : Instance) :
  findByUserId u rows = Some r -> id r = i ->
  findByUserId u (updateRows i d rows) = Some (applyData d r).
Proof.
  intros H Hi. rewrite findByUserId_updateRows, H. cbn.
  now rewrite Hi, String.eqb_refl.
Qed.

(** The row and the result of a deployment that returns. *)
Lemma Fly_deployInstance_row :
  forall (env : Env) (UserConfiguration : Type)
         (builder : ConfigBuilder UserConfiguration)
         (u : string) (config : UserConfiguration) (w w' : World)
         (res : FlyDeploy.DeploymentResult),
    FlyDeploy.deployInstance env builder u config w = (Ok res, w') ->
    exists (row : Instance) (bearer : string) (earlier : list Event),
      findByUserId u (instances w') = Some row
      /\ findById (FlyDeploy.res_instanceId res) (instances w') = Some row
      /\ userId row = u
      /\ containerId row = Some (FlyDeploy.res_machineId res)
      /\ containerName row = Some (FlyDeploy.res_appName res)
      /\ port row = FlyDeploy.res_port res
      /\ accessUrl row = Some (FlyDeploy.res_accessUrl res)
      /\ gatewayToken row = Some bearer
      /\ calls w' = HealthProbe (FlyDeploy.res_accessUrl res ++ "/health") bearer :: earlier
      /\ FlyDeploy.res_appName res
         = "openclaw-" ++ JS.slice0 8 u ++ "-" ++ JS.toString36 (now w)
      /\ FlyDeploy.res_accessUrl res
         = "https://" ++ FlyDeploy.res_appName res ++ ".fly.dev".
Proof.
  intros env UserConfiguration builder u config w w' res H.
  unfold FlyDeploy.deployInstance in H.
  apply bind_Ok in H as (s & w0 & Hpre & H). unfold tryCatch in H.
  destruct (FlyDeploy.tryBlock env builder config s w0) as [[res1|e] w1] eqn:Htry.
  - inversion H; subst; clear H.
    unfold FlyDeploy.tryBlock in Htry.
    apply bind_Ok in Htry as (p & wp & Hprov & Hcomp).
    apply Fly_prelude_row in Hpre as (Hi & Hu & Huser & Hname & Hport & Happ).
    apply Fly_provision_rows in Hprov as (Hurl & Hrows).
    pose proof (findById_id _ _ _ Hi) as Hid.
    assert (findById (id (FlyDeploy.instance s)) (instances wp) = Some _) as Hip
        by (rewrite Hrows; apply findById_updated, findById_updated, Hi).
    assert (findByUserId u (instances wp) = Some _) as Hup
        by (rewrite Hrows; apply findByUserId_updated;
            [apply findByUserId_updated; [exact Hu | exact Hid] | exact Hid]).
    rewrite (Fly_complete_run env s p wp _ Hip) in Hcomp.
    inversion Hcomp; subst res w'; clear Hcomp.
    cbn [instances calls FlyDeploy.res_instanceId FlyDeploy.res_machineId
         FlyDeploy.res_appName FlyDeploy.res_port FlyDeploy.res_accessUrl].
    eexists _, _, _.
    split; [apply findByUserId_updated; [exact Hup | exact Hid]|].
    split; [apply findById_updated; exact Hip|].
    cbn [applyData userId containerId containerName port accessUrl gatewayToken
         setContainerId setAccessUrl setGatewayToken].
    split; [exact Huser|]. split; [reflexivity|]. split; [exact Hname|].
    split; [exact Hport|]. split; [reflexivity|]. split; [reflexivity|].
    split; [reflexivity|]. split; [exact Happ|]. exact Hurl.
  - pose proof (Fly_onFailure_throws s e w1) as Hthrows.
    rewrite H in Hthrows. discriminate.
Qed.

(** X12: when [deployInstance] returns on Fly.io, what it returns is
    what it stored.  The user's row has the returned instance id, the
    machine id as [containerId], the app name as [containerName], the
    returned port and access URL; the app name is "openclaw-", the first
    eight characters of the user id, "-" and the time of the call in
    base 36; the access URL is that of the app on fly.dev; and the
    health probe, the last outside call, went to that URL's [/health]
    with the gateway token that the row stores. *)
Theorem Fly_deployInstance_stores_what_it_returns :
  forall (env : Env) (UserConfiguration : Type)
         (builder : ConfigBuilder UserConfiguration)
         (u : string) (config : UserConfiguration) (w w' : World)
         (res : FlyDeploy.DeploymentResult),
    FlyDeploy.deployInstance env builder u config w = (Ok res, w') ->
    exists (row : Instance) (bearer : string) (earlier : list Event),
      findByUserId u (instances w') = Some row
      /\ findById (FlyDeploy.res_instanceId res) (instances w') = Some row
      /\ userId row = u
      /\ containerId row = Some (FlyDeploy.res_machineId res)
      /\ containerName row = Some (FlyDeploy.res_appName res)
      /\ port row = FlyDeploy.res_port res
      /\ accessUrl row = Some (FlyDeploy.res_accessUrl res)
      /\ gatewayToken row = Some bearer
      /\ calls w' = HealthProbe (FlyDeploy.res_accessUrl res ++ "/health") bearer :: earlier
      /\ FlyDeploy.res_appName res
         = "openclaw-" ++ JS.slice0 8 u ++ "-" ++ JS.toString36 (now w)
      /\ FlyDeploy.res_accessUrl res
         = "https://" ++ FlyDeploy.res_appName res ++ ".fly.dev".
Proof. exact Fly_deployInstance_row. Qed.

Lemma Fly_deployInstance_stores_what_it_returns_witness :
  exists (res : FlyDeploy.DeploymentResult) (w' : World) (row : Instance)
         (bearer : string) (earlier : list Event),
    FlyDeploy.deployInstance Sample.calm Sample.plainBuilder
      "user-1234567" "claude" Sample.empty = (Ok res, w')
    /\ findByUserId "user-1234567" (instances w') = Some row
    /\ findById (FlyDeploy.res_instanceId res) (instances w') = Some row
    /\ containerId row = Some (FlyDeploy.res_machineId res)
    /\ containerName row = Some (FlyDeploy.res_appName res)
    /\ accessUrl row = Some (FlyDeploy.res_accessUrl res)
    /\ gatewayToken row = Some bearer
    /\ calls w' = HealthProbe (FlyDeploy.res_accessUrl res ++ "/health") bearer :: earlier.
Proof.
  eassert (FlyDeploy.deployInstance Sample.calm Sample.plainBuilder
             "user-1234567" "claude" Sample.empty = (Ok _, _))
    as Hrun by (lazy; reflexivity).
  destruct (Fly_deployInstance_stores_what_it_returns
              Sample.calm string Sample.plainBuilder "user-1234567" "claude"
              Sample.empty _ _ Hrun)
    as (row & bearer & earlier & Hu & Hi & _ & Hmachine & Hname & _ & Hurl & Htoken
        & Hcalls & _).
  eexists _, _, row, bearer, earlier.
  split; [exact Hrun|]. repeat split; assumption.
Defined.

Section RenderDeployRows.

Variable env : Env.
Context {UserConfiguration : Type}.
Variable builder : ConfigBuilder UserConfiguration.

Lemma RenderClient_new_run (w w' : World) (o : Outcome RenderClient.t) :
  RenderClient.new env w = (o, w') -> w' = w.
Proof.
  unfold RenderClient.new.
  destruct (negb (JS.truthy (RENDER_API_KEY env))); now inversion 1.
Qed.

Lemma Render_prelude_row (u : string) (w w0 : World) (s : RenderDeploy.Started) :
  RenderDeploy.prelude env u w = (Ok s, w0) ->
  findById (id (RenderDeploy.instance s)) (instances w0)
  = Some (RenderDeploy.instance s)
  /\ findByUserId u (instances w0) = Some (RenderDeploy.instance s)
  /\ userId (RenderDeploy.instance s) = u
  /\ containerName (RenderDeploy.instance s) = Some (RenderDeploy.serviceName_ s)
  /\ port (RenderDeploy.instance s) = RenderDeploy.port_ s
  /\ RenderDeploy.serviceName_ s = "openclaw-" ++ JS.slice0 8 u.
Proof.
  unfold RenderDeploy.prelude. intros H.
  apply bind_Ok in H as (render & w1 & _ & H).
  apply bind_Ok in H as (existing & w3 & _ & H).
  apply bind_Ok in H as (? & w4 & _ & H).
  apply bind_Ok in H as (port & w5 & _ & H).
  apply bind_Ok in H as (row & w6 & Hcreate & H).
  apply bind_Ok in H as (? & w7 & Hlog & H).
  apply instance_create_row in Hcreate as (Hrow & _ & _ & Hi & Hu).
  unfold logDeployment in Hlog. unfold ret in H.
  inversion Hlog; subst w7; clear Hlog. inversion H; subst s w0; clear H.
  cbn [RenderDeploy.instance RenderDeploy.serviceName_ RenderDeploy.port_ instances].
  split; [exact Hi|]. split; [exact Hu|]. rewrite Hrow. repeat split.
Qed.

(** The polling loop returns the empty string or a URL that is not
    empty. *)
Lemma Render_provision_rows (config : UserConfiguration) (s : RenderDeploy.Started)
      (w0 wp : World) (p : RenderDeploy.Provisioned) :
  RenderDeploy.provision env builder config s w0 = (Ok p, wp) ->
  RenderDeploy.shellUrl_ p = RenderClient.getShellUrl (serviceId (RenderDeploy.service p))
  /\ RenderDeploy.accessUrl_ p <> EmptyString
  /\ instances wp
     = updateRows (id (RenderDeploy.instance s))
         (mkData (Some (Some (serviceId (RenderDeploy.service p)))) None None None
                 (Some (RenderDeploy.gatewayToken_ p)) None)
         (instances w0).
Proof.
  unfold RenderDeploy.provision. cbv zeta. intros H.
  unfold RenderClient.createService in H.
  run_ok H. unfold ret in H. inversion H; subst; clear H.
  cbn [RenderDeploy.accessUrl_ RenderDeploy.gatewayToken_ RenderDeploy.service
       RenderDeploy.shellUrl_].
  split; [reflexivity|]. split.
  - match goal with
    | |- (if String.eqb ?polled _ then _ else _) <> _ =>
        destruct (String.eqb_spec polled EmptyString) as [_|Hne];
        [discriminate | exact Hne]
    end.
  - tables. cbn [instances] in *. congruence.
Qed.

End RenderDeployRows.

(** The row and the result of a deployment that returns. *)
Lemma Render_deployInstance_row :
  forall (env : Env) (UserConfiguration : Type)
         (builder : ConfigBuilder UserConfiguration)
         (u : string) (config : UserConfiguration) (w w' : World)
         (res : RenderDeploy.DeploymentResult),
    RenderDeploy.deployInstance env builder u config w = (Ok res, w') ->
    exists (row : Instance) (bearer : string) (earlier : list Event),
      findByUserId u (instances w') = Some row
      /\ findById (RenderDeploy.res_instanceId res) (instances w') = Some row
      /\ userId row = u
      /\ containerId row = Some (RenderDeploy.res_serviceId res)
      /\ containerName row = Some (RenderDeploy.res_serviceName res)
      /\ port row = RenderDeploy.res_port res
      /\ accessUrl row = Some (RenderDeploy.res_accessUrl res)
      /\ serviceUrl row = Some (RenderDeploy.res_shellUrl res)
      /\ gatewayToken row = Some bearer
      /\ calls w'
         = HealthProbe (RenderDeploy.res_accessUrl res ++ "/health") bearer :: earlier
      /\ RenderDeploy.res_serviceName res = "openclaw-" ++ JS.slice0 8 u
      /\ RenderDeploy.res_shellUrl res
         = "https://dashboard.render.com/web/" ++ RenderDeploy.res_serviceId res
             ++ "/shell"
      /\ RenderDeploy.res_accessUrl res <> EmptyString.
Proof.
  intros env UserConfiguration builder u config w w' res H.
  unfold RenderDeploy.deployInstance in H.
  apply bind_Ok in H as (s & w0 & Hpre & H). unfold tryCatch in H.
  destruct (RenderDeploy.tryBlock env builder config s w0) as [[res1|e] w1] eqn:Htry.
  - inversion H; subst; clear H.
    unfold RenderDeploy.tryBlock in Htry.
    apply bind_Ok in Htry as (p & wp & Hprov & Hcomp).
    apply Render_prelude_row in Hpre as (Hi & Hu & Huser & Hname & Hport & Hservice).
    apply Render_provision_rows in Hprov as (Hshell & Hurl & Hrows).
    pose proof (findById_id _ _ _ Hi) as Hid.
    assert (findById (id (RenderDeploy.instance s)) (instances wp) = Some _) as Hip
        by (rewrite Hrows; apply findById_updated, Hi).
    assert (findByUserId u (instances wp) = Some _) as Hup
        by (rewrite Hrows; apply findByUserId_updated; [exact Hu | exact Hid]).
    rewrite (Render_complete_run env s p wp _ Hip) in Hcomp.
    inversion Hcomp; subst res w'; clear Hcomp.
    cbn [instances calls RenderDeploy.res_instanceId RenderDeploy.res_serviceId
         RenderDeploy.res_serviceName RenderDeploy.res_port RenderDeploy.res_accessUrl
         RenderDeploy.res_shellUrl].
    eexists _, _, _.
    split; [apply findByUserId_updated; [exact Hup | exact Hid]|].
    split; [apply findById_updated; exact Hip|].
    cbn [applyData userId containerId containerName port accessUrl serviceUrl
         gatewayToken setContainerId setAccessUrl setServiceUrl setGatewayToken].
    split; [exact Huser|]. split; [reflexivity|]. split; [exact Hname|].
    split; [exact Hport|]. split; [reflexivity|]. split; [reflexivity|].
    split; [reflexivity|]. split; [reflexivity|]. split; [exact Hservice|].
    split; [exact Hshell | exact Hurl].
  - pose proof (Render_onFailure_throws s e w1) as Hthrows.
    rewrite H in Hthrows. discriminate.
Qed.

(** X13: when [deployInstance] returns on Render, what it returns is
    what it stored.  The user's row has the returned instance id, the
    service id as [containerId], the service name as [containerName],
    the returned port and access URL, and the shell URL in its
    [serviceUrl] column; the service name is "openclaw-" and the first
    eight characters of the user id; the shell URL is that of the
    service in the dashboard; the access URL is never empty; and the
    health probe, the last outside call, went to the access URL's
    [/health] with the gateway token that the row stores. *)
Theorem Render_deployInstance_stores_what_it_returns :
  forall (env : Env) (UserConfiguration : Type)
         (builder : ConfigBuilder UserConfiguration)
         (u : string) (config : UserConfiguration) (w w' : World)
         (res : RenderDeploy.DeploymentResult),
    RenderDeploy.deployInstance env builder u config w = (Ok res, w') ->
    exists (row : Instance) (bearer : string) (earlier : list Event),
      findByUserId u (instances w') = Some row
      /\ findById (RenderDeploy.res_instanceId res) (instances w') = Some row
      /\ userId row = u
      /\ containerId row = Some (RenderDeploy.res_serviceId res)
      /\ containerName row = Some (RenderDeploy.res_serviceName res)
      /\ port row = RenderDeploy.res_port res
      /\ accessUrl row = Some (RenderDeploy.res_accessUrl res)
      /\ serviceUrl row = Some (RenderDeploy.res_shellUrl res)
      /\ gatewayToken row = Some bearer
      /\ calls w'
         = HealthProbe (RenderDeploy.res_accessUrl res ++ "/health") bearer :: earlier
      /\ RenderDeploy.res_serviceName res = "openclaw-" ++ JS.slice0 8 u
      /\ RenderDeploy.res_shellUrl res
         = "https://dashboard.render.com/web/" ++ RenderDeploy.res_serviceId res
             ++ "/shell"
      /\ RenderDeploy.res_accessUrl res <> EmptyString.
Proof. exact Render_deployInstance_row. Qed.

Lemma Render_deployInstance_stores_what_it_returns_witness :
  exists (res : RenderDeploy.DeploymentResult) (w' : World) (row : Instance)
         (bearer : string) (earlier : list Event),
    RenderDeploy.deployInstance Sample.calm Sample.plainBuilder
      "user-1234567" "claude" Sample.empty = (Ok res, w')
    /\ findByUserId "user-1234567" (instances w') = Some row
    /\ findById (RenderDeploy.res_instanceId res) (instances w') = Some row
    /\ containerId row = Some (RenderDeploy.res_serviceId res)
    /\ containerName row = Some (RenderDeploy.res_serviceName res)
    /\ accessUrl row = Some (RenderDeploy.res_accessUrl res)
    /\ serviceUrl row = Some (RenderDeploy.res_shellUrl res)
    /\ gatewayToken row = Some bearer
    /\ calls w'
       = HealthProbe (RenderDeploy.res_accessUrl res ++ "/health") bearer :: earlier.
Proof.
  eassert (RenderDeploy.deployInstance Sample.calm Sample.plainBuilder
             "user-1234567" "claude" Sample.empty = (Ok _, _))
    as Hrun by (lazy; reflexivity).
  destruct (Render_deployInstance_stores_what_it_returns
              Sample.calm string Sample.plainBuilder "user-1234567" "claude"
              Sample.empty _ _ Hrun)
    as (row & bearer & earlier & Hu & Hi & _ & Hservice & Hname & _ & Hurl & Hshell
        & Htoken & Hcalls & _).
  eexists _, _, row, bearer, earlier.
  split; [exact Hrun|]. repeat split; assumption.
Defined.

(** ** Redeployment over an instance that cannot be cleaned up *)

Lemma instance_create_taken (env : Env) (u name : string) (p : Z)
      (s : InstanceStatus) (w : World) (ex : Instance) :
  findByUserId u (instances w) = Some ex ->
  instance_create env u name p s w = (Throw "Unique constraint failed", w).
Proof.
  intros Hex. unfold instance_create. rewrite Hex.
  now destruct (findById _ (instances w)).
Qed.

(** X14: the clean-up of a pre-existing instance swallows its errors,
    but a user can have one row only.  When the user has an instance and
    the first provider call of the clean-up fails (listing the machines
    on Fly.io, deleting the service on Render), [deployInstance] throws
    before its [try] block: the old row stays as it was, no deployment
    log is written, and nothing is called but the failed clean-up call
    and the port allocation. *)
Theorem deployInstance_after_failed_cleanup :
  forall (env : Env) (UserConfiguration : Type)
         (builder : ConfigBuilder UserConfiguration)
         (u : string) (config : UserConfiguration) (w : World) (ex : Instance),
    findByUserId u (instances w) = Some ex ->
    (forall machine appName,
        containerId ex = Some machine -> machine <> EmptyString ->
        containerName ex = Some appName -> appName <> EmptyString ->
        throws (listMachinesAnswer env (length (calls w)) appName) = true ->
        exists e w',
          FlyDeploy.deployInstance env builder u config w = (Throw e, w')
          /\ instances w' = instances w
          /\ deploymentLogs w' = deploymentLogs w
          /\ (calls w' = calls w
              \/ calls w' = AllocatePort :: FlyListMachines appName :: calls w))
    /\ (forall service,
           containerId ex = Some service -> service <> EmptyString ->
           throws (voidCall env (length (calls w)) (RenderDeleteService service)) = true ->
           exists e w',
             RenderDeploy.deployInstance env builder u config w = (Throw e, w')
             /\ instances w' = instances w
             /\ deploymentLogs w' = deploymentLogs w
             /\ (calls w' = calls w
                 \/ calls w' = AllocatePort :: RenderDeleteService service :: calls w)).
Proof.
  intros env UserConfiguration builder u config w ex Hex. split.
  - intros machine appName Hmachine Hm Hname Hn Hthrows.
    apply truthy_Some in Hm. apply truthy_Some in Hn.
    unfold FlyDeploy.deployInstance, FlyDeploy.prelude.
    unfold bind at 1. unfold bind at 1.
    destruct (FlyClient.new env w) as [[fly|e] w1] eqn:Hnew;
      apply FlyClient_new_run in Hnew; subst w1;
      [|eexists _, _; split; [reflexivity|]; repeat split; now left].
    unfold bind, Date_now, instance_findUnique_userId. cbn [fst snd instances now].
    rewrite Hex. unfold FlyDeploy.cleanup, tryCatch, bind, whenM.
    rewrite Hmachine, Hname, Hm, Hn.
    replace (JS.orElse (Some appName) EmptyString) with appName
      by (unfold JS.orElse; now rewrite Hn).
    unfold FlyClient.listMachines, outside.
    destruct (listMachinesAnswer env (length (calls w)) appName) as [ms|e0];
      [discriminate Hthrows|].
    unfold ret, allocatePort, outside. cbn [calls instances deploymentLogs now].
    destruct (allocatePortAnswer env _) as [p|e1].
    + rewrite (instance_create_taken env u _ p DEPLOYING _ ex) by exact Hex.
      eexists _, _. split; [reflexivity|]. repeat split. now right.
    + eexists _, _. split; [reflexivity|]. repeat split. now right.
  - intros service Hservice Hs Hthrows. apply truthy_Some in Hs.
    unfold RenderDeploy.deployInstance, RenderDeploy.prelude.
    unfold bind at 1. unfold bind at 1.
    destruct (RenderClient.new env w) as [[render|e] w1] eqn:Hnew;
      apply RenderClient_new_run in Hnew; subst w1;
      [|eexists _, _; split; [reflexivity|]; repeat split; now left].
    unfold bind, instance_findUnique_userId. cbn [fst snd instances].
    rewrite Hex. unfold RenderDeploy.cleanup, tryCatch, bind, whenM.
    rewrite Hservice, Hs.
    replace (JS.orElse (Some service) EmptyString) with service
      by (unfold JS.orElse; now rewrite Hs).
    unfold RenderClient.deleteService, void, outside.
    destruct (voidCall env (length (calls w)) (RenderDeleteService service)) as [?|e0];
      [discriminate Hthrows|].
    unfold ret, allocatePort, outside. cbn [calls instances deploymentLogs now].
    destruct (allocatePortAnswer env _) as [p|e1].
    + rewrite (instance_create_taken env u _ p DEPLOYING _ ex) by exact Hex.
      eexists _, _. split; [reflexivity|]. repeat split. now right.
    + eexists _, _. split; [reflexivity|]. repeat split. now right.
Qed.

Lemma deployInstance_after_failed_cleanup_witness :
  (exists e w',
      FlyDeploy.deployInstance noListing Sample.plainBuilder "user-9" "claude"
        (Sample.withRows [Sample.liveRow]) = (Throw e, w')
      /\ instances w' = [Sample.liveRow]
      /\ deploymentLogs w' = [])
  /\ (exists e w',
         RenderDeploy.deployInstance refusing Sample.plainBuilder "user-9" "claude"
           (Sample.withRows [Sample.liveRow]) = (Throw e, w')
         /\ instances w' = [Sample.liveRow]
         /\ deploymentLogs w' = []).
Proof.
  destruct (deployInstance_after_failed_cleanup noListing string Sample.plainBuilder
              "user-9" "claude" (Sample.withRows [Sample.liveRow]) Sample.liveRow
              eq_refl) as [Hfly _].
  destruct (deployInstance_after_failed_cleanup refusing string Sample.plainBuilder
              "user-9" "claude" (Sample.withRows [Sample.liveRow]) Sample.liveRow
              eq_refl) as [_ Hrender].
  split.
  - destruct (Hfly "148e21" "openclaw-user-9" eq_refl ltac:(discriminate)
                   eq_refl ltac:(discriminate) eq_refl)
      as (e & w' & Hrun & Hrows & Hlogs & _).
    exists e, w'. repeat split; assumption.
  - destruct (Hrender "148e21" eq_refl ltac:(discriminate) eq_refl)
      as (e & w' & Hrun & Hrows & Hlogs & _).
    exists e, w'. repeat split; assumption.
Defined.

(** ** Stop, start and restart of an instance that has its identifiers *)

Section Lifecycle.

Variable env : Env.

Lemma FlyClient_new_ok :
  JS.truthy (FLY_API_TOKEN env) = true -> JS.truthy (FLY_ORG_SLUG env) = true ->
  exists fly, forall w, FlyClient.new env w = (Ok fly, w).
Proof.
  intros Ht Ho. unfold FlyClient.new. rewrite Ht, Ho. eexists. reflexivity.
Qed.

Lemma RenderClient_new_ok :
  JS.truthy (RENDER_API_KEY env) = true ->
  exists render, forall w, RenderClient.new env w = (Ok render, w).
Proof.
  intros Hk. unfold RenderClient.new. rewrite Hk. eexists. reflexivity.
Qed.

Lemma FlyClient_new_throws :
  JS.truthy (FLY_API_TOKEN env) = false \/ JS.truthy (FLY_ORG_SLUG env) = false ->
  exists e, forall w, FlyClient.new env w = (Throw e, w).
Proof.
  intros H. unfold FlyClient.new.
  destruct (JS.truthy (FLY_API_TOKEN env)); cbn [negb]; [|eexists; reflexivity].
  destruct H as [H|H]; [discriminate|]. rewrite H. eexists. reflexivity.
Qed.

Lemma RenderClient_new_throws :
  JS.truthy (RENDER_API_KEY env) = false ->
  exists e, forall w, RenderClient.new env w = (Throw e, w).
Proof.
  intros H. unfold RenderClient.new. rewrite H. eexists. reflexivity.
Qed.

End Lifecycle.

(** X15: [stopInstance] and [startInstance] record nothing unless the
    provider accepted the call.  For an instance that has its
    identifiers, with the credentials configured, each makes one call
    to the provider (stop or start of the machine on Fly.io, suspend or
    resume of the service on Render).  If that call returns, the row's
    status becomes [STOPPED], resp. [RUNNING], and one [SUCCESS] row is
    added to the deployment log; if it throws, the same error is thrown
    and neither table is changed. *)
Theorem stop_and_start_record_only_success :
  forall (env : Env) (i : string) (w : World) (r : Instance) (service : string),
    findById i (instances w) = Some r ->
    containerId r = Some service -> service <> EmptyString ->
    let called ev :=
      mkWorld (instances w) (deploymentLogs w)
              (now w + Z.max 0 (latency env (length (calls w)))) (ev :: calls w) in
    let recorded ev s action text :=
      mkWorld (updateRows i (dataStatus s) (instances w))
              (deploymentLogs w ++ [mkLog i action "SUCCESS" text None])%list
              (now w + Z.max 0 (latency env (length (calls w)))) (ev :: calls w) in
    let outcome ev s action text :=
      match voidCall env (length (calls w)) ev with
      | Ok _ => (Ok tt, recorded ev s action text)
      | Throw e => (Throw e, called ev)
      end in
    (forall appName,
        containerName r = Some appName -> appName <> EmptyString ->
        JS.truthy (FLY_API_TOKEN env) = true -> JS.truthy (FLY_ORG_SLUG env) = true ->
        FlyDeploy.stopInstance env i w
        = outcome (FlyStopMachine appName service) STOPPED "STOP" "Instance stopped"
        /\ FlyDeploy.startInstance env i w
           = outcome (FlyStartMachine appName service) RUNNING "START"
                     "Instance started")
    /\ (JS.truthy (RENDER_API_KEY env) = true ->
        RenderDeploy.stopInstance env i w
        = outcome (RenderSuspendService service) STOPPED "STOP" "Instance stopped"
        /\ RenderDeploy.startInstance env i w
           = outcome (RenderResumeService service) RUNNING "START" "Instance started").
Proof.
  intros env i w r service Hfind Hservice Hs called recorded outcome.
  subst called recorded outcome. cbv beta.
  apply truthy_Some in Hs. split.
  - intros appName Hname Hn Htoken Horg. apply truthy_Some in Hn.
    destruct (FlyClient_new_ok env Htoken Horg) as [fly Hnew].
    unfold FlyDeploy.stopInstance, FlyDeploy.startInstance, FlyDeploy.missingIdentifiers,
      bind, instance_findUnique_id.
    rewrite Hfind, Hservice, Hname, Hs, Hn. cbn [negb orb]. rewrite !Hnew.
    replace (JS.orElse (Some appName) EmptyString) with appName
      by (unfold JS.orElse; now rewrite Hn).
    replace (JS.orElse (Some service) EmptyString) with service
      by (unfold JS.orElse; now rewrite Hs).
    unfold FlyClient.stopMachine, FlyClient.startMachine, void, outside,
      instance_update, logDeployment.
    cbn [instances deploymentLogs now calls].
    split; destruct (voidCall env _ _); rewrite ?Hfind; reflexivity.
  - intros Hkey. destruct (RenderClient_new_ok env Hkey) as [render Hnew].
    unfold RenderDeploy.stopInstance, RenderDeploy.startInstance,
      bind, instance_findUnique_id.
    rewrite Hfind, Hservice, Hs. cbn [negb]. rewrite !Hnew.
    replace (JS.orElse (Some service) EmptyString) with service
      by (unfold JS.orElse; now rewrite Hs).
    unfold RenderClient.suspendService, RenderClient.resumeService, void, outside,
      instance_update, logDeployment.
    cbn [instances deploymentLogs now calls].
    split; destruct (voidCall env _ _); rewrite ?Hfind; reflexivity.
Qed.

Lemma stop_and_start_record_only_success_witness :
  (exists w',
      FlyDeploy.stopInstance Sample.calm "inst-9" (Sample.withRows [Sample.liveRow])
      = (Ok tt, w')
      /\ option_map status (findById "inst-9" (instances w')) = Some STOPPED
      /\ deploymentLogs w' = [mkLog "inst-9" "STOP" "SUCCESS" "Instance stopped" None])
  /\ (exists e w',
         RenderDeploy.startInstance refusing "inst-9" (Sample.withRows [Sample.liveRow])
         = (Throw e, w')
         /\ instances w' = [Sample.liveRow]
         /\ deploymentLogs w' = []).
Proof.
  destruct (stop_and_start_record_only_success
              Sample.calm "inst-9" (Sample.withRows [Sample.liveRow]) Sample.liveRow
              "148e21" eq_refl eq_refl ltac:(discriminate)) as [Hfly _].
  destruct (stop_and_start_record_only_success
              refusing "inst-9" (Sample.withRows [Sample.liveRow]) Sample.liveRow
              "148e21" eq_refl eq_refl ltac:(discriminate)) as [_ Hrender].
  split.
  - destruct (Hfly "openclaw-user-9" eq_refl ltac:(discriminate) eq_refl eq_refl)
      as [Hstop _].
    eexists. split; [exact Hstop|]. split; reflexivity.
  - destruct (Hrender eq_refl) as [_ Hstart].
    eexists _, _. split; [exact Hstart|]. split; reflexivity.
Defined.

(** X16: [restartInstance] writes [RESTARTING] before it talks to the
    provider, and nothing takes that back.  For an instance that has its
    identifiers: if the credentials are missing or the provider's
    restart call throws, the error is thrown, no log row is written and
    the row is left with status [RESTARTING]; if the call returns, the
    row ends as [RUNNING] and one [RESTART] row with status [SUCCESS] is
    added to the deployment log. *)
Theorem restartInstance_can_leave_RESTARTING :
  forall (env : Env) (i : string) (w : World) (r : Instance) (service : string),
    findById i (instances w) = Some r ->
    containerId r = Some service -> service <> EmptyString ->
    let restarting := updateRows i (dataStatus RESTARTING) (instances w) in
    let outcome ev :=
      match voidCall env (length (calls w)) ev with
      | Ok _ =>
          (Ok tt,
           mkWorld (updateRows i (dataStatus RUNNING) restarting)
                   (deploymentLogs w
                    ++ [mkLog i "RESTART" "SUCCESS" "Instance restarted" None])%list
                   (now w + Z.max 0 (latency env (length (calls w)))) (ev :: calls w))
      | Throw e =>
          (Throw e,
           mkWorld restarting (deploymentLogs w)
                   (now w + Z.max 0 (latency env (length (calls w)))) (ev :: calls w))
      end in
    option_map status (findById i restarting) = Some RESTARTING
    /\ (forall appName,
           containerName r = Some appName -> appName <> EmptyString ->
           (JS.truthy (FLY_API_TOKEN env) = false
            \/ JS.truthy (FLY_ORG_SLUG env) = false ->
            exists e,
              FlyDeploy.restartInstance env i w
              = (Throw e, mkWorld restarting (deploymentLogs w) (now w) (calls w)))
           /\ (JS.truthy (FLY_API_TOKEN env) = true ->
               JS.truthy (FLY_ORG_SLUG env) = true ->
               FlyDeploy.restartInstance env i w
               = outcome (FlyRestartMachine appName service)))
    /\ (JS.truthy (RENDER_API_KEY env) = false ->
        exists e,
          RenderDeploy.restartInstance env i w
          = (Throw e, mkWorld restarting (deploymentLogs w) (now w) (calls w)))
    /\ (JS.truthy (RENDER_API_KEY env) = true ->
        RenderDeploy.restartInstance env i w = outcome (RenderRestartService service)).
Proof.
  intros env i w r service Hfind Hservice Hs restarting outcome.
  subst outcome. cbv beta. apply truthy_Some in Hs.
  assert (findById i restarting = Some (applyData (dataStatus RESTARTING) r)) as Hre
      by (apply findById_updated, Hfind).
  split; [now rewrite Hre|]. split; [|split].
  - intros appName Hname Hn. apply truthy_Some in Hn.
    assert (FlyDeploy.restartInstance env i w
            = bind (FlyClient.new env)
                   (fun fly =>
                      bind (FlyClient.restartMachine env fly appName service)
                           (fun _ =>
                              bind (instance_update i (dataStatus RUNNING))
                                   (fun _ => logDeployment i "RESTART" "SUCCESS"
                                                           "Instance restarted" None)))
                   (mkWorld restarting (deploymentLogs w) (now w) (calls w))) as ->.
    { unfold FlyDeploy.restartInstance, FlyDeploy.missingIdentifiers.
      unfold bind at 1. unfold instance_findUnique_id.
      rewrite Hfind, Hservice, Hname, Hs, Hn. cbn [negb orb].
      replace (JS.orElse (Some appName) EmptyString) with appName
        by (unfold JS.orElse; now rewrite Hn).
      replace (JS.orElse (Some service) EmptyString) with service
        by (unfold JS.orElse; now rewrite Hs).
      unfold bind at 1. unfold instance_update at 1. now rewrite Hfind. }
    split.
    + intros Hmissing. destruct (FlyClient_new_throws env Hmissing) as [e Hnew].
      exists e. unfold bind. now rewrite Hnew.
    + intros Htoken Horg. destruct (FlyClient_new_ok env Htoken Horg) as [fly Hnew].
      unfold bind. rewrite Hnew.
      unfold FlyClient.restartMachine, void, outside, instance_update, logDeployment.
      cbn [instances deploymentLogs now calls].
      destruct (voidCall env _ _); rewrite ?Hre; reflexivity.
  - intros Hmissing. destruct (RenderClient_new_throws env Hmissing) as [e Hnew].
    exists e. unfold RenderDeploy.restartInstance, bind, instance_findUnique_id,
                instance_update.
    rewrite Hfind, Hservice, Hs. cbn [negb]. now rewrite Hfind, Hnew.
  - intros Hkey. destruct (RenderClient_new_ok env Hkey) as [render Hnew].
    unfold RenderDeploy.restartInstance, bind, instance_findUnique_id.
    rewrite Hfind, Hservice, Hs. cbn [negb].
    replace (JS.orElse (Some service) EmptyString) with service
      by (unfold JS.orElse; now rewrite Hs).
    unfold instance_update at 1. rewrite Hfind, Hnew.
    unfold RenderClient.restartService, void, outside, instance_update, logDeployment.
    cbn [instances deploymentLogs now calls]. fold restarting.
    destruct (voidCall env _ _); rewrite ?Hre; reflexivity.
Qed.

Lemma restartInstance_can_leave_RESTARTING_witness :
  exists e w',
    RenderDeploy.restartInstance refusing "inst-9" (Sample.withRows [Sample.liveRow])
    = (Throw e, w')
    /\ option_map status (findById "inst-9" (instances w')) = Some RESTARTING
    /\ deploymentLogs w' = [].
Proof.
  destruct (restartInstance_can_leave_RESTARTING
              refusing "inst-9" (Sample.withRows [Sample.liveRow]) Sample.liveRow
              "148e21" eq_refl eq_refl ltac:(discriminate))
    as (Hstatus & _ & _ & Hrender).
  eexists _, _. split; [exact (Hrender eq_refl)|]. split; [exact Hstatus | reflexivity].
Defined.

(** ** Operations on one instance leave the other rows alone *)

Section OtherRows.

Lemma findById_updateRows_other (i j : string) (d : InstanceData)
      (rows : list Instance) :
  j <> i -> findById j (updateRows i d rows) = findById j rows.
Proof.
  intros Hji. rewrite findById_updateRows.
  destruct (findById j rows) as [r|] eqn:Hr; [|reflexivity]. cbn.
  apply findById_id in Hr. rewrite Hr.
  apply String.eqb_neq in Hji. now rewrite Hji.
Qed.

Lemma findById_deleteRows_other (i j : string) (rows : list Instance) :
  j <> i -> findById j (deleteRows i rows) = findById j rows.
Proof.
  intros Hji. unfold findById, deleteRows.
  induction rows as [|r rows IH]; [reflexivity|]. cbn [filter find].
  destruct (String.eqb_spec (id r) i) as [Hi|Hi]; cbn [negb find].
  - destruct (String.eqb_spec (id r) j) as [Hj|_]; [congruence | exact IH].
  - destruct (String.eqb (id r) j); [reflexivity | exact IH].
Qed.

Lemma find_app_some {A} (p : A -> bool) (l l' : list A) (x : A) :
  find p l = Some x -> find p (l ++ l')%list = Some x.
Proof.
  induction l as [|y l IH]; cbn; [discriminate|].
  destruct (p y); [trivial | exact IH].
Qed.

Lemma NoDup_map_injective {A B} (f : A -> B) (l : list A) (a b : A) :
  NoDup (map f l) -> In a l -> In b l -> f a = f b -> a = b.
Proof.
  induction l as [|x l IH]; cbn; [contradiction|].
  intros Hnd Ha Hb Hf. inversion Hnd as [|? ? Hx Hl]; subst.
  destruct Ha as [<- | Ha], Hb as [<- | Hb]; auto.
  - exfalso. apply Hx. rewrite Hf. now apply in_map.
  - exfalso. apply Hx. rewrite <- Hf. now apply in_map.
Qed.

Lemma inert_FlyClient_new (env : Env) : inert (FlyClient.new env).
Proof.
  intros w. destruct (FlyClient.new env w) as [o w'] eqn:Hnew.
  apply FlyClient_new_run in Hnew. now subst.
Qed.

Lemma inert_RenderClient_new (env : Env) : inert (RenderClient.new env).
Proof.
  intros w. destruct (RenderClient.new env w) as [o w'] eqn:Hnew.
  apply RenderClient_new_run in Hnew. now subst.
Qed.

Lemma inert_findUnique_id (i : string) : inert (instance_findUnique_id i).
Proof. now intros w. Qed.

Lemma inert_findUnique_userId (u : string) : inert (instance_findUnique_userId u).
Proof. now intros w. Qed.

Lemma inert_getMachineLogs (env : Env) (fly : FlyClient.t) (appName machine : string)
      (limit : Z) :
  inert (FlyClient.getMachineLogs env fly appName machine limit).
Proof.
  unfold FlyClient.getMachineLogs.
  apply inert_tryCatch; [|intros; apply inert_ret].
  apply inert_bind; [apply inert_outside | intros; apply inert_ret].
Qed.

End OtherRows.

#[local] Hint Resolve inert_FlyClient_new inert_RenderClient_new inert_findUnique_id
  inert_findUnique_userId inert_getMachineLogs : keeping.

Section OneRow.

Variable env : Env.
Variable i : string.
Variable P : list Instance -> Prop.
Hypothesis P_update : forall d rows, P rows -> P (updateRows i d rows).

Ltac lifecycle :=
  apply keeps_bind; [keeping|]; intros [r|]; [|keeping];
  match goal with
  | |- keeps _ (if ?b then _ else _) => destruct b; keeping
  end.

Lemma Fly_lifecycle_keeps :
  keeps P (FlyDeploy.stopInstance env i)
  /\ keeps P (FlyDeploy.startInstance env i)
  /\ keeps P (FlyDeploy.restartInstance env i)
  /\ keeps P (FlyDeploy.checkInstanceHealth env i)
  /\ forall tail, keeps P (FlyDeploy.getInstanceLogs env i tail).
Proof.
  unfold FlyDeploy.stopInstance, FlyDeploy.startInstance, FlyDeploy.restartInstance,
    FlyDeploy.checkInstanceHealth, FlyDeploy.getInstanceLogs,
    FlyClient.stopMachine, FlyClient.startMachine, FlyClient.restartMachine,
    FlyClient.getMachine, void.
  repeat split; try intros tail; try lifecycle.
  apply keeps_tryCatch; [lifecycle | intros; keeping].
Qed.

Lemma Render_lifecycle_keeps :
  keeps P (RenderDeploy.stopInstance env i)
  /\ keeps P (RenderDeploy.startInstance env i)
  /\ keeps P (RenderDeploy.restartInstance env i)
  /\ keeps P (RenderDeploy.checkInstanceHealth env i)
  /\ forall tail, keeps P (RenderLogs.getInstanceLogs i tail).
Proof.
  unfold RenderDeploy.stopInstance, RenderDeploy.startInstance,
    RenderDeploy.restartInstance, RenderDeploy.checkInstanceHealth,
    RenderLogs.getInstanceLogs,
    RenderClient.suspendService, RenderClient.resumeService,
    RenderClient.restartService, RenderClient.getService, void.
  repeat split; try intros tail; try lifecycle.
  - apply keeps_tryCatch; [lifecycle | intros; keeping].
  - apply keeps_bind; [keeping|]; intros [r|]; keeping.
Qed.

End OneRow.

(** X17: stopping, starting, restarting, health-checking an instance or
    reading its logs, however many lines of them, changes no other row
    of the instance table, on either provider and whether the operation
    returns or throws. *)
Theorem operations_on_one_instance_leave_the_others :
  forall (env : Env) (i j : string) (w : World),
    j <> i ->
    let unchanged {A} (m : M A) :=
      findById j (instances (snd (m w))) = findById j (instances w) in
    unchanged (FlyDeploy.stopInstance env i)
    /\ unchanged (FlyDeploy.startInstance env i)
    /\ unchanged (FlyDeploy.restartInstance env i)
    /\ unchanged (FlyDeploy.checkInstanceHealth env i)
    /\ (forall tail, unchanged (FlyDeploy.getInstanceLogs env i tail))
    /\ unchanged (RenderDeploy.stopInstance env i)
    /\ unchanged (RenderDeploy.startInstance env i)
    /\ unchanged (RenderDeploy.restartInstance env i)
    /\ unchanged (RenderDeploy.checkInstanceHealth env i)
    /\ (forall tail, unchanged (RenderLogs.getInstanceLogs i tail)).
Proof.
  intros env i j w Hji unchanged. subst unchanged. cbv beta.
  set (P := fun rows => findById j rows = findById j (instances w)).
  assert (forall d rows, P rows -> P (updateRows i d rows)) as Hupd
      by (intros d rows Hrows; unfold P; now rewrite findById_updateRows_other).
  destruct (Fly_lifecycle_keeps env i P Hupd) as (F1 & F2 & F3 & F4 & F5).
  destruct (Render_lifecycle_keeps env i P Hupd) as (R1 & R2 & R3 & R4 & R5).
  split; [apply F1; reflexivity|]. split; [apply F2; reflexivity|].
  split; [apply F3; reflexivity|]. split; [apply F4; reflexivity|].
  split; [intros tail; apply F5; reflexivity|].
  split; [apply R1; reflexivity|]. split; [apply R2; reflexivity|].
  split; [apply R3; reflexivity|]. split; [apply R4; reflexivity|].
  intros tail; apply R5; reflexivity.
Qed.

Lemma operations_on_one_instance_leave_the_others_witness :
  findById "inst-7"
           (instances (snd (FlyDeploy.restartInstance Sample.calm "inst-9" twoUsers)))
  = Some Sample.namelessRow
  /\ findById "inst-7"
              (instances (snd (RenderDeploy.checkInstanceHealth Sample.calm "inst-9"
                                                                twoUsers)))
     = Some Sample.namelessRow.
Proof.
  destruct (operations_on_one_instance_leave_the_others
              Sample.calm "inst-9" "inst-7" twoUsers ltac:(discriminate))
    as (_ & _ & Hrestart & _ & _ & _ & _ & _ & Hhealth & _).
  split; [rewrite Hrestart | rewrite Hhealth]; reflexivity.
Defined.

(** ** [deployInstance] and the instances of other users *)

Section OtherUsers.

Variable env : Env.
Context {UserConfiguration : Type}.
Variable builder : ConfigBuilder UserConfiguration.
Variable j : string.
Variable other : Instance.

Let P (rows : list Instance) : Prop := findById j rows = Some other.

Lemma other_keeps_delete (i : string) : j <> i -> keeps P (instance_delete i).
Proof.
  intros Hji w Hw. unfold instance_delete.
  destruct (findById i (instances w)); [|exact Hw].
  cbn [snd instances]. unfold P. now rewrite findById_deleteRows_other.
Qed.

Lemma other_keeps_create (u name : string) (p : Z) (s : InstanceStatus) :
  keeps P (instance_create env u name p s).
Proof.
  intros w Hw. unfold instance_create.
  destruct (findById _ (instances w)); [exact Hw|].
  destruct (findByUserId u (instances w)); [exact Hw|].
  cbn [snd instances]. now apply find_app_some.
Qed.

Lemma other_keeps_update (i : string) (d : InstanceData) (rows : list Instance) :
  j <> i -> P rows -> P (updateRows i d rows).
Proof. intros Hji Hrows. unfold P. now rewrite findById_updateRows_other. Qed.

Lemma Fly_cleanup_other (fly : FlyClient.t) (existing : option Instance) :
  (forall ex, existing = Some ex -> j <> id ex) ->
  keeps P (FlyDeploy.cleanup env fly existing).
Proof.
  intros Hex. unfold FlyDeploy.cleanup. destruct existing as [ex|]; [|keeping].
  specialize (Hex ex eq_refl).
  apply keeps_tryCatch; [|intros; keeping].
  apply keeps_bind; [|intros; now apply other_keeps_delete].
  apply inert_keeps. unfold whenM.
  destruct (JS.truthy (containerId ex)); [|apply inert_ret].
  destruct (JS.truthy (containerName ex)); [|apply inert_ret].
  apply inert_bind; [apply inert_outside|]. intros machines.
  apply inert_bind; [|intros; apply inert_outside].
  induction machines as [|m machines IH]; cbn [forEach]; [apply inert_ret|].
  apply inert_bind; [apply inert_outside | intros; exact IH].
Qed.

Lemma Render_cleanup_other (render : RenderClient.t) (existing : option Instance) :
  (forall ex, existing = Some ex -> j <> id ex) ->
  keeps P (RenderDeploy.cleanup env render existing).
Proof.
  intros Hex. unfold RenderDeploy.cleanup. destruct existing as [ex|]; [|keeping].
  specialize (Hex ex eq_refl).
  apply keeps_tryCatch; [|intros; keeping].
  apply keeps_bind; [|intros; now apply other_keeps_delete].
  apply inert_keeps. unfold whenM.
  destruct (JS.truthy (containerId ex)); [apply inert_outside | apply inert_ret].
Qed.

(** The user's own row is not the other row, whose key is unique. *)
Lemma own_row_is_another (u : string) (rows : list Instance) :
  NoDup (map id rows) -> P rows -> userId other <> u ->
  forall ex, findByUserId u rows = Some ex -> j <> id ex.
Proof.
  intros Hnd Hother Hu ex Hex Hj.
  apply find_some in Hex as [Hin Hex]. apply String.eqb_eq in Hex.
  pose proof (findById_id _ _ _ Hother) as Hid.
  apply find_some in Hother as [Hin' _].
  assert (other = ex) by (apply (NoDup_map_injective id rows); congruence).
  congruence.
Qed.

Lemma Fly_tryBlock_other (config : UserConfiguration) (s : FlyDeploy.Started) :
  j <> id (FlyDeploy.instance s) ->
  keeps P (tryCatch (FlyDeploy.tryBlock env builder config s) (FlyDeploy.onFailure s)).
Proof.
  intros Hji.
  assert (forall d rows, P rows -> P (updateRows (id (FlyDeploy.instance s)) d rows))
    as Hupd by (intros; now apply other_keeps_update).
  unfold FlyDeploy.tryBlock, FlyDeploy.provision, FlyDeploy.complete,
    FlyDeploy.probeHealth, FlyDeploy.onFailure,
    FlyClient.verifyAccess, FlyClient.createApp,
    FlyClient.setSecrets, FlyClient.createMachine, FlyClient.allocateIPAddress, void.
  cbv zeta. keeping.
Qed.

Lemma Render_tryBlock_other (config : UserConfiguration) (s : RenderDeploy.Started) :
  j <> id (RenderDeploy.instance s) ->
  keeps P (tryCatch (RenderDeploy.tryBlock env builder config s)
                    (RenderDeploy.onFailure s)).
Proof.
  intros Hji.
  assert (forall d rows, P rows -> P (updateRows (id (RenderDeploy.instance s)) d rows))
    as Hupd by (intros; now apply other_keeps_update).
  unfold RenderDeploy.tryBlock, RenderDeploy.provision, RenderDeploy.complete,
    RenderDeploy.probeHealth, RenderDeploy.onFailure, RenderClient.createService.
  cbv zeta. keeping.
Qed.

Lemma Fly_deployInstance_other (u : string) (config : UserConfiguration) (w : World) :
  NoDup (map id (instances w)) -> P (instances w) -> userId other <> u ->
  P (instances (snd (FlyDeploy.deployInstance env builder u config w))).
Proof.
  intros Hnd Hw Hu.
  pose proof (own_row_is_another u _ Hnd Hw Hu) as Hex.
  assert (P (instances (snd (FlyDeploy.prelude env u w)))) as Hpre.
  { unfold FlyDeploy.prelude.
    unfold bind at 1. destruct (FlyClient.new env w) as [[fly|e] w1] eqn:Hnew;
      apply FlyClient_new_run in Hnew; subst w1; [|exact Hw].
    unfold bind at 1. unfold Date_now at 1.
    unfold bind at 1. unfold instance_findUnique_userId at 1.
    assert (keeps P (bind (FlyDeploy.cleanup env fly (findByUserId u (instances w)))
                          (fun _ =>
                             bind (allocatePort env)
                                  (fun port =>
                                     bind (instance_create env u
                                             ("openclaw-" ++ JS.slice0 8 u ++ "-"
                                                ++ JS.toString36 (now w))
                                             port DEPLOYING)
                                          (fun instance =>
                                             bind (logDeployment (id instance) "DEPLOY"
                                                     "IN_PROGRESS"
                                                     "Creating Fly.io app..." None)
                                                  (fun _ =>
                                                     ret (FlyDeploy.mkStarted fly
                                                            ("openclaw-"
                                                               ++ JS.slice0 8 u ++ "-"
                                                               ++ JS.toString36 (now w))
                                                            port instance)))))))
      as Hk.
    { apply keeps_bind; [now apply Fly_cleanup_other|]. intros _.
      apply keeps_bind; [unfold allocatePort; keeping|]. intros port.
      apply keeps_bind; [apply other_keeps_create|]. intros row. keeping. }
    exact (Hk w Hw). }
  unfold FlyDeploy.deployInstance, bind.
  destruct (FlyDeploy.prelude env u w) as [[s|e] w0] eqn:Hrun; cbn [snd] in Hpre;
    [|exact Hpre].
  apply Fly_tryBlock_other; [|exact Hpre].
  apply Fly_prelude_row in Hrun as (Hi & _ & Huser & _).
  intros Hj. rewrite <- Hj in Hi. unfold P in Hpre. congruence.
Qed.

Lemma Render_deployInstance_other (u : string) (config : UserConfiguration) (w : World) :
  NoDup (map id (instances w)) -> P (instances w) -> userId other <> u ->
  P (instances (snd (RenderDeploy.deployInstance env builder u config w))).
Proof.
  intros Hnd Hw Hu.
  pose proof (own_row_is_another u _ Hnd Hw Hu) as Hex.
  assert (P (instances (snd (RenderDeploy.prelude env u w)))) as Hpre.
  { unfold RenderDeploy.prelude.
    unfold bind at 1. destruct (RenderClient.new env w) as [[render|e] w1] eqn:Hnew;
      apply RenderClient_new_run in Hnew; subst w1; [|exact Hw].
    unfold bind at 1. unfold instance_findUnique_userId at 1.
    assert (keeps P (bind (RenderDeploy.cleanup env render
                                                (findByUserId u (instances w)))
                          (fun _ =>
                             bind (allocatePort env)
                                  (fun port =>
                                     bind (instance_create env u
                                             ("openclaw-" ++ JS.slice0 8 u)
                                             port DEPLOYING)
                                          (fun instance =>
                                             bind (logDeployment (id instance) "DEPLOY"
                                                     "IN_PROGRESS"
                                                     "Creating Render service..." None)
                                                  (fun _ =>
                                                     ret (RenderDeploy.mkStarted render
                                                            ("openclaw-"
                                                               ++ JS.slice0 8 u)
                                                            port instance)))))))
      as Hk.
    { apply keeps_bind; [now apply Render_cleanup_other|]. intros _.
      apply keeps_bind; [unfold allocatePort; keeping|]. intros port.
      apply keeps_bind; [apply other_keeps_create|]. intros row. keeping. }
    exact (Hk w Hw). }
  unfold RenderDeploy.deployInstance, bind.
  destruct (RenderDeploy.prelude env u w) as [[s|e] w0] eqn:Hrun; cbn [snd] in Hpre;
    [|exact Hpre].
  apply Render_tryBlock_other; [|exact Hpre].
  apply Render_prelude_row in Hrun as (Hi & _ & Huser & _).
  intros Hj. rewrite <- Hj in Hi. unfold P in Hpre. congruence.
Qed.

End OtherUsers.

(** X18: a deployment touches the rows of its user only.  In an
    instance table whose ids are unique, an instance that belongs to
    another user is the same row after [deployInstance] as before it,
    on either provider and whether the deployment returns or throws. *)
Theorem deployInstance_leaves_other_users_alone :
  forall (env : Env) (UserConfiguration : Type)
         (builder : ConfigBuilder UserConfiguration)
         (u : string) (config : UserConfiguration) (w : World)
         (j : string) (other : Instance),
    NoDup (map id (instances w)) ->
    findById j (instances w) = Some other ->
    userId other <> u ->
    findById j (instances (snd (FlyDeploy.deployInstance env builder u config w)))
    = Some other
    /\ findById j (instances (snd (RenderDeploy.deployInstance env builder u config w)))
       = Some other.
Proof.
  intros env UserConfiguration builder u config w j other Hnd Hother Hu. split.
  - now apply Fly_deployInstance_other.
  - now apply Render_deployInstance_other.
Qed.

Lemma deployInstance_leaves_other_users_alone_witness :
  findById "inst-7"
           (instances (snd (FlyDeploy.deployInstance Sample.calm Sample.plainBuilder
                                                     "user-9" "claude" twoUsers)))
  = Some Sample.namelessRow
  /\ findById "inst-7"
              (instances (snd (RenderDeploy.deployInstance Sample.calm
                                 Sample.plainBuilder "user-9" "claude" twoUsers)))
     = Some Sample.namelessRow.
Proof.
  apply (deployInstance_leaves_other_users_alone
           Sample.calm string Sample.plainBuilder "user-9" "claude" twoUsers
           "inst-7" Sample.namelessRow).
  - repeat constructor; cbn; intuition discriminate.
  - reflexivity.
  - discriminate.
Defined.

(** ** How much the waiting helpers ask and how long they wait *)

Section PollingBounds.

Variable env : Env.
Context {R : Type}.
Variable request : Event.
Variable answer : nat -> Outcome R.
Variables reached failed : R -> bool.
Variable failure : R -> string.
Variable timeoutMessage : string.
Variable interval : Z.
Variables timeoutMs startTime : Z.
Hypothesis interval_pos : 0 <= interval.

Let loop := pollLoop env request answer reached failed failure timeoutMessage
                     interval.

(** Where the loop is left, seen from the world [w] in which a turn
    begins. *)
Let left (w w' : World) : Prop :=
  exists k : nat,
    calls w' = (repeat request k ++ calls w)%list
    /\ ((0 < k)%nat -> interval * (Z.of_nat k - 1) + (now w - startTime) < timeoutMs)
    /\ instances w' = instances w
    /\ deploymentLogs w' = deploymentLogs w
    /\ now w <= now w'
    /\ (forall j, (S j < k)%nat ->
                  undecided reached failed (answer (length (calls w) + j))).

(** Whatever the number of turns allowed: a request is begun only
    before the deadline and each further one a full interval later, the
    tables are left alone, and every request but the last was answered
    by a state on which the loop goes on. *)
Lemma pollLoop_bounded (turns : nat) :
  forall (w w' : World) (o : Outcome unit),
    loop turns timeoutMs startTime w = Some (o, w') -> left w w'.
Proof.
  induction turns as [|turns IH]; intros w w' o; cbn [loop pollLoop];
    destruct (Z.ltb_spec (now w - startTime) timeoutMs) as [Hbefore|Hafter];
    try discriminate;
    try (intros H; inversion H; subst; exists 0%nat;
         repeat split; try reflexivity; intros; lia).
  unfold outside.
  assert (forall o1,
             Some (o1, mkWorld (instances w) (deploymentLogs w)
                               (now w + Z.max 0 (latency env (length (calls w))))
                               (request :: calls w))
             = Some (o, w') -> left w w') as Hdecided.
  { intros o1 H. inversion H; subst. exists 1%nat. cbn [repeat app Z.of_nat].
    cbn [calls instances deploymentLogs now].
    repeat split; try reflexivity; try lia. }
  destruct (answer _) as [r|e] eqn:Hanswer; [|now apply Hdecided].
  destruct (reached r) eqn:Hreached; [now apply Hdecided|].
  destruct (failed r) eqn:Hfailed; [now apply Hdecided|].
  intros H. apply IH in H as (k & Hcalls & Hk & Hrows & Hlogs & Hnow & Hon).
  cbn [sleep snd calls instances deploymentLogs now length] in *.
  exists (S k). split.
  - rewrite Hcalls. change (request :: calls w) with ([request] ++ calls w)%list.
    rewrite app_assoc. f_equal. symmetry. apply repeat_cons.
  - split; [|split; [exact Hrows | split; [exact Hlogs | split; [lia|]]]].
    + intros _. destruct k as [|k]; [cbn; lia|].
      specialize (Hk ltac:(lia)). lia.
    + intros [|j] Hj.
      * rewrite Nat.add_0_r. exists r. auto.
      * rewrite Nat.add_succ_r. apply (Hon j). lia.
Qed.

End PollingBounds.

Lemma undecided_stillWaiting (target : string) (o : Outcome FlyMachine) :
  undecided (fun m => String.eqb (machineState m) target)
            (fun m => FlyClient.isTerminal (machineState m)) o ->
  stillWaiting target o.
Proof.
  intros (m & -> & Ht & Hf). exists m.
  apply String.eqb_neq in Ht. apply isTerminal_false in Hf. tauto.
Qed.

Lemma undecided_stillDeploying (o : Outcome RenderDeploy) :
  undecided (fun d => String.eqb (deployStatus d) "live")
            (fun d => RenderClient.isFailed (deployStatus d)) o ->
  stillDeploying o.
Proof.
  intros (d & -> & Ht & Hf). exists d.
  apply String.eqb_neq in Ht. apply isFailed_false in Hf. tauto.
Qed.

(** X19: the two waiting helpers are bounded in what they ask,
    whatever the provider answers.  [waitForMachineState] and
    [waitForDeploy] only repeat their one status request; a request is
    begun only before the deadline, and the one after it a full polling
    interval later (3 s for a machine, 5 s for a deploy), so that [k]
    requests need [(k - 1)] intervals to fit into the timeout and none
    is made when the timeout is not positive; every request but the
    last was answered by a state on which the helper goes on waiting, so
    that nothing is asked again once an answer has decided the wait;
    they write to neither table; and the clock does not go back. *)
Theorem waiting_helpers_are_bounded :
  forall (env : Env) (w : World) (timeoutMs : Z),
    let bounded {A} (m : M A) (request : Event) (interval : Z)
                (goesOn : nat -> Prop) :=
      exists k : nat,
        calls (snd (m w)) = (repeat request k ++ calls w)%list
        /\ ((0 < k)%nat -> interval * (Z.of_nat k - 1) < timeoutMs)
        /\ instances (snd (m w)) = instances w
        /\ deploymentLogs (snd (m w)) = deploymentLogs w
        /\ now w <= now (snd (m w))
        /\ (forall j, (S j < k)%nat -> goesOn (length (calls w) + j)%nat) in
    (forall fly appName machine target,
        bounded (FlyClient.waitForMachineState env fly appName machine target timeoutMs)
                (FlyGetMachine appName machine) 3000
                (fun n => stillWaiting target (getMachineAnswer env n appName machine)))
    /\ (forall render service deploy,
           bounded (RenderClient.waitForDeploy env render service deploy timeoutMs)
                   (RenderGetDeploy service deploy) 5000
                   (fun n => stillDeploying (getDeployAnswer env n service deploy))).
Proof.
  intros env w timeoutMs bounded. subst bounded. cbv beta. split.
  - intros fly appName machine target. unfold FlyClient.waitForMachineState.
    rewrite Fly_waitLoop_as_pollLoop.
    destruct (pollLoop _ _ _ _ _ _ _ _ _ _ _ w) as [[o w']|] eqn:Hrun.
    + cbn [snd].
      apply (pollLoop_bounded env _ _ _ _ _ _ FlyClient.pollInterval) in Hrun;
        [|unfold FlyClient.pollInterval; lia].
      destruct Hrun as (k & Hcalls & Hk & Hrows & Hlogs & Hnow & Hon).
      exists k. split; [exact Hcalls|]. unfold FlyClient.pollInterval in *.
      split; [intros Hpos; specialize (Hk Hpos); lia|].
      split; [exact Hrows|]. split; [exact Hlogs|]. split; [exact Hnow|].
      intros j Hj. apply undecided_stillWaiting, (Hon j Hj).
    + exists 0%nat. cbn [snd repeat app].
      repeat split; try reflexivity; intros; lia.
  - intros render service deploy. unfold RenderClient.waitForDeploy.
    rewrite Render_waitLoop_as_pollLoop.
    destruct (pollLoop _ _ _ _ _ _ _ _ _ _ _ w) as [[o w']|] eqn:Hrun.
    + cbn [snd].
      apply (pollLoop_bounded env _ _ _ _ _ _ RenderClient.pollInterval) in Hrun;
        [|unfold RenderClient.pollInterval; lia].
      destruct Hrun as (k & Hcalls & Hk & Hrows & Hlogs & Hnow & Hon).
      exists k. split; [exact Hcalls|]. unfold RenderClient.pollInterval in *.
      split; [intros Hpos; specialize (Hk Hpos); lia|].
      split; [exact Hrows|]. split; [exact Hlogs|]. split; [exact Hnow|].
      intros j Hj. apply undecided_stillDeploying, (Hon j Hj).
    + exists 0%nat. cbn [snd repeat app].
      repeat split; try reflexivity; intros; lia.
Qed.

(** ** The wait for the service URL in the Render deployment *)

Lemma pollServiceUrl_turn (env : Env) (render : RenderClient.t) (service : string)
      (remaining : nat) (w : World) :
  RenderDeploy.pollServiceUrl env (S remaining) render service w
  = let asked :=
      mkWorld (instances w) (deploymentLogs w)
              (now w + Z.max 0 (latency env (length (calls w))))
              (RenderGetService service :: calls w) in
    match getServiceAnswer env (length (calls w)) service with
    | Throw e => (Throw e, asked)
    | Ok s =>
        if JS.truthy (serviceDetailsUrl s)
        then (Ok (JS.orElse (serviceDetailsUrl s) EmptyString), asked)
        else RenderDeploy.pollServiceUrl env remaining render service
               (mkWorld (instances w) (deploymentLogs w)
                        (now w + Z.max 0 (latency env (length (calls w))) + 5000)
                        (RenderGetService service :: calls w))
    end.
Proof.
  cbn [RenderDeploy.pollServiceUrl]. unfold bind at 1.
  unfold RenderClient.getService, outside. cbv zeta.
  destruct (getServiceAnswer env (length (calls w)) service) as [s|e]; [|reflexivity].
  now destruct (JS.truthy (serviceDetailsUrl s)).
Qed.

Lemma pollServiceUrl_run (env : Env) (render : RenderClient.t) (service : string)
      (remaining : nat) :
  forall w : World,
    let run := RenderDeploy.pollServiceUrl env remaining render service w in
    exists k : nat,
      (k <= remaining)%nat
      /\ calls (snd run) = (repeat (RenderGetService service) k ++ calls w)%list
      /\ instances (snd run) = instances w
      /\ deploymentLogs (snd run) = deploymentLogs w
      /\ match fst run with
         | Ok url =>
             (url = EmptyString /\ k = remaining
              /\ now w + 5000 * Z.of_nat remaining <= now (snd run)
              /\ forall j, (j < remaining)%nat ->
                           exists s, getServiceAnswer env (length (calls w) + j) service
                                     = Ok s
                                     /\ JS.truthy (serviceDetailsUrl s) = false)
             \/ (url <> EmptyString
                 /\ exists j s,
                     k = S j
                     /\ getServiceAnswer env (length (calls w) + j) service = Ok s
                     /\ serviceDetailsUrl s = Some url)
         | Throw e =>
             exists j, k = S j
                       /\ getServiceAnswer env (length (calls w) + j) service = Throw e
         end
      /\ (forall j, (S j < k)%nat ->
                    noUrlYet (getServiceAnswer env (length (calls w) + j) service)).
Proof.
  induction remaining as [|remaining IH]; intros w; cbv zeta.
  - exists 0%nat. cbn. repeat split; try lia. left. repeat split; try lia.
  - rewrite pollServiceUrl_turn. cbv zeta.
    destruct (getServiceAnswer env (length (calls w)) service) as [s|e] eqn:Hanswer.
    + destruct (JS.truthy (serviceDetailsUrl s)) eqn:Hurl.
      * exists 1%nat. cbn [fst snd calls instances deploymentLogs repeat app].
        split; [lia|]. split; [reflexivity|]. split; [reflexivity|].
        split; [reflexivity|]. split; [|intros; lia]. right.
        destruct (serviceDetailsUrl s) as [url|] eqn:Hs; [|discriminate Hurl].
        split; [unfold JS.orElse; rewrite Hurl; now apply truthy_Some|].
        exists 0%nat, s. rewrite Nat.add_0_r.
        unfold JS.orElse. rewrite Hurl. auto.
      * specialize (IH (mkWorld (instances w) (deploymentLogs w)
                                (now w + Z.max 0 (latency env (length (calls w))) + 5000)
                                (RenderGetService service :: calls w))).
        cbv zeta in IH. destruct IH as (k & Hk & Hcalls & Hrows & Hlogs & Hres & Hon).
        cbn [instances deploymentLogs now calls length] in *.
        exists (S k). split; [lia|]. split.
        { rewrite Hcalls.
          change (RenderGetService service :: calls w)
            with ([RenderGetService service] ++ calls w)%list.
          rewrite app_assoc. f_equal. symmetry. apply repeat_cons. }
        split; [exact Hrows|]. split; [exact Hlogs|]. split.
        { destruct (fst (RenderDeploy.pollServiceUrl env remaining render service _))
            as [url|e].
          -- destruct Hres as [(Hempty & Hall & Hnow & Hnone) | (Hne & j & s' & Hj & Hs')].
             ++ left. split; [exact Hempty|]. split; [lia|]. split; [lia|].
                intros j Hj. destruct j as [|j].
                ** exists s. rewrite Nat.add_0_r. auto.
                ** destruct (Hnone j ltac:(lia)) as (s' & Hs' & Hfalsy).
                   exists s'. rewrite Nat.add_succ_r. auto.
             ++ right. split; [exact Hne|]. exists (S j), s'.
                rewrite Nat.add_succ_r. split; [lia | exact Hs'].
          -- destruct Hres as (j & Hj & He). exists (S j).
             rewrite Nat.add_succ_r. split; [lia | exact He]. }
        intros [|j] Hj.
        -- rewrite Nat.add_0_r. exists s. auto.
        -- rewrite Nat.add_succ_r. apply (Hon j). lia.
    + exists 1%nat. cbn [fst snd calls instances deploymentLogs repeat app].
      split; [lia|]. split; [reflexivity|]. split; [reflexivity|].
      split; [reflexivity|]. split; [|intros; lia].
      exists 0%nat. rewrite Nat.add_0_r. auto.
Qed.

(** X20: the wait for the service URL in the Render deployment is
    bounded by its sixty attempts.  It only repeats the one status
    request, at most sixty times, and writes to neither table.  It
    returns the first URL that the provider reports and that is not
    empty: every answer before the last one came without a URL; it
    gives up with the empty string exactly after sixty answers without a
    URL and, with them, sixty pauses of five seconds; and it throws only
    the error of a status request, the first that fails. *)
Theorem pollServiceUrl_gives_up_after_sixty :
  forall (env : Env) (render : RenderClient.t) (service : string) (w : World),
    let run := RenderDeploy.pollServiceUrl env RenderDeploy.maxAttempts render service w in
    exists k : nat,
      (k <= 60)%nat
      /\ calls (snd run) = (repeat (RenderGetService service) k ++ calls w)%list
      /\ instances (snd run) = instances w
      /\ deploymentLogs (snd run) = deploymentLogs w
      /\ match fst run with
         | Ok url =>
             (url = EmptyString /\ k = 60%nat
              /\ now w + 300000 <= now (snd run)
              /\ forall j, (j < 60)%nat ->
                           exists s, getServiceAnswer env (length (calls w) + j) service
                                     = Ok s
                                     /\ JS.truthy (serviceDetailsUrl s) = false)
             \/ (url <> EmptyString
                 /\ exists j s,
                     k = S j
                     /\ getServiceAnswer env (length (calls w) + j) service = Ok s
                     /\ serviceDetailsUrl s = Some url)
         | Throw e =>
             exists j, k = S j
                       /\ getServiceAnswer env (length (calls w) + j) service = Throw e
         end
      /\ (forall j, (S j < k)%nat ->
                    noUrlYet (getServiceAnswer env (length (calls w) + j) service)).
Proof.
  intros env render service w.
  exact (pollServiceUrl_run env render service RenderDeploy.maxAttempts w).
Qed.

Example pollServiceUrl_without_url :
  fst (RenderDeploy.pollServiceUrl noUrl RenderDeploy.maxAttempts Sample.renderClient
                                   "srv-c0ffee" Sample.empty)
  = Ok EmptyString
  /\ length (calls (snd (RenderDeploy.pollServiceUrl noUrl RenderDeploy.maxAttempts
                           Sample.renderClient "srv-c0ffee" Sample.empty)))
     = 60%nat.
Proof. split; vm_compute; reflexivity. Qed.

(** ** The deployment log of a deployment *)

Section Evolving.

Variable R : World -> World -> Prop.
Hypothesis R_refl : forall w, R w w.
Hypothesis R_trans : forall w1 w2 w3, R w1 w2 -> R w2 w3 -> R w1 w3.

Lemma evolves_ret {A} (a : A) : evolves R (ret a).
Proof. intros w. apply R_refl. Qed.

Lemma evolves_bind {A B} (m : M A) (k : A -> M B) :
  evolves R m -> (forall a, evolves R (k a)) -> evolves R (bind m k).
Proof.
  intros Hm Hk w. unfold bind. specialize (Hm w).
  destruct (m w) as [[a|e] w1]; cbn in *; [|exact Hm].
  eapply R_trans; [exact Hm | apply Hk].
Qed.

Lemma evolves_tryCatch {A} (m : M A) (h : string -> M A) :
  evolves R m -> (forall e, evolves R (h e)) -> evolves R (tryCatch m h).
Proof.
  intros Hm Hh w. unfold tryCatch. specialize (Hm w).
  destruct (m w) as [[a|e] w1]; cbn in *; [exact Hm|].
  eapply R_trans; [exact Hm | apply Hh].
Qed.

End Evolving.

Section Silence.

Lemma silent_run {A} (m : M A) (w w' : World) (o : Outcome A) :
  silent m -> m w = (o, w') -> deploymentLogs w' = deploymentLogs w.
Proof. intros Hm Hrun. specialize (Hm w). now rewrite Hrun in Hm. Qed.

Lemma silent_ret {A} (a : A) : silent (ret a).
Proof. now intros w. Qed.

Lemma silent_throw {A} (msg : string) : silent (@throw A msg).
Proof. now intros w. Qed.

Lemma silent_lift {A} (o : Outcome A) : silent (lift o).
Proof. now intros w. Qed.

Lemma silent_sleep (ms : Z) : silent (sleep ms).
Proof. now intros w. Qed.

Lemma silent_Date_now : silent Date_now.
Proof. now intros w. Qed.

Lemma silent_outside (env : Env) {A} (ev : Event) (answer : nat -> Outcome A) :
  silent (outside env ev answer).
Proof. now intros w. Qed.

Lemma silent_randomUUID (env : Env) : silent (crypto_randomUUID env).
Proof. now intros w. Qed.

Lemma silent_findUnique_userId (u : string) : silent (instance_findUnique_userId u).
Proof. now intros w. Qed.

Lemma silent_update (i : string) (d : InstanceData) : silent (instance_update i d).
Proof. intros w. unfold instance_update. now destruct (findById i (instances w)). Qed.

Lemma silent_delete (i : string) : silent (instance_delete i).
Proof. intros w. unfold instance_delete. now destruct (findById i (instances w)). Qed.

Lemma silent_create (env : Env) (u name : string) (p : Z) (s : InstanceStatus) :
  silent (instance_create env u name p s).
Proof.
  intros w. unfold instance_create.
  destruct (findById _ (instances w)); [reflexivity|].
  now destruct (findByUserId u (instances w)).
Qed.

Lemma silent_bind {A B} (m : M A) (k : A -> M B) :
  silent m -> (forall a, silent (k a)) -> silent (bind m k).
Proof.
  intros Hm Hk w. unfold bind. specialize (Hm w).
  destruct (m w) as [[a|e] w1]; cbn in *; [|exact Hm].
  now rewrite Hk.
Qed.

Lemma silent_tryCatch {A} (m : M A) (h : string -> M A) :
  silent m -> (forall e, silent (h e)) -> silent (tryCatch m h).
Proof.
  intros Hm Hh w. unfold tryCatch. specialize (Hm w).
  destruct (m w) as [[a|e] w1]; cbn in *; [exact Hm|].
  now rewrite Hh.
Qed.

Lemma silent_FlyClient_new (env : Env) : silent (FlyClient.new env).
Proof.
  intros w. destruct (FlyClient.new env w) as [o w'] eqn:Hnew.
  apply FlyClient_new_run in Hnew. now subst.
Qed.

Lemma silent_RenderClient_new (env : Env) : silent (RenderClient.new env).
Proof.
  intros w. destruct (RenderClient.new env w) as [o w'] eqn:Hnew.
  apply RenderClient_new_run in Hnew. now subst.
Qed.

Lemma silent_waitForMachineState (env : Env) (fly : FlyClient.t)
      (appName machine target : string) (timeoutMs : Z) :
  silent (FlyClient.waitForMachineState env fly appName machine target timeoutMs).
Proof.
  intros w. unfold FlyClient.waitForMachineState. rewrite Fly_waitLoop_as_pollLoop.
  destruct (pollLoop _ _ _ _ _ _ _ _ _ _ _ w) as [[o w']|] eqn:Hrun; [|reflexivity].
  apply (pollLoop_bounded env _ _ _ _ _ _ FlyClient.pollInterval) in Hrun;
    [|unfold FlyClient.pollInterval; lia].
  now destruct Hrun as (k & _ & _ & _ & Hlogs & _).
Qed.

Lemma silent_pollServiceUrl (env : Env) (remaining : nat) (render : RenderClient.t)
      (service : string) :
  silent (RenderDeploy.pollServiceUrl env remaining render service).
Proof.
  intros w. now destruct (pollServiceUrl_run env render service remaining w)
    as (k & _ & _ & _ & Hlogs & _).
Qed.

Lemma silent_forEach {A} (xs : list A) (body : A -> M unit) :
  (forall x, silent (body x)) -> silent (forEach xs body).
Proof.
  intros Hbody. induction xs as [|x xs IH]; cbn [forEach]; [apply silent_ret|].
  apply silent_bind; [apply Hbody | intros; exact IH].
Qed.

End Silence.

Create HintDb logging.

#[local] Hint Resolve silent_ret silent_throw silent_lift silent_sleep silent_Date_now
  silent_outside silent_randomUUID silent_findUnique_userId silent_update silent_delete
  silent_create silent_FlyClient_new silent_RenderClient_new
  silent_waitForMachineState silent_pollServiceUrl : logging.

Section Reporting.

Variable i : string.

Lemma reported_refl (w : World) : reported i w w.
Proof. exists []. split; [now rewrite app_nil_r | constructor]. Qed.

Lemma reported_trans (w1 w2 w3 : World) :
  reported i w1 w2 -> reported i w2 w3 -> reported i w1 w3.
Proof.
  intros (r1 & H1 & F1) (r2 & H2 & F2). exists (r1 ++ r2)%list. split.
  - now rewrite H2, H1, app_assoc.
  - apply Forall_app. auto.
Qed.

Lemma silent_reported {A} (m : M A) : silent m -> evolves (reported i) m.
Proof.
  intros Hm w. exists []. split; [now rewrite Hm, app_nil_r | constructor].
Qed.

Lemma progress_reported (text : string) :
  evolves (reported i) (logDeployment i "DEPLOY" "IN_PROGRESS" text None).
Proof.
  intros w. exists [mkLog i "DEPLOY" "IN_PROGRESS" text None]. split; [reflexivity|].
  repeat constructor.
Qed.

End Reporting.

Ltac reporting :=
  repeat first
    [ solve [apply silent_reported; auto with logging]
    | solve [apply progress_reported]
    | apply evolves_bind; [apply reported_trans | | intros ?]
    | apply evolves_tryCatch; [apply reported_trans | | intros ?] ].

Section DeploymentLogs.

Variable env : Env.
Context {UserConfiguration : Type}.
Variable builder : ConfigBuilder UserConfiguration.

Lemma Fly_provision_reports (config : UserConfiguration) (s : FlyDeploy.Started) :
  evolves (reported (id (FlyDeploy.instance s)))
          (FlyDeploy.provision env builder config s).
Proof.
  unfold FlyDeploy.provision, FlyClient.verifyAccess, FlyClient.createApp,
    FlyClient.setSecrets, FlyClient.createMachine, FlyClient.allocateIPAddress, void.
  cbv zeta. reporting.
Qed.

Lemma Render_provision_reports (config : UserConfiguration) (s : RenderDeploy.Started) :
  evolves (reported (id (RenderDeploy.instance s)))
          (RenderDeploy.provision env builder config s).
Proof.
  unfold RenderDeploy.provision, RenderClient.createService.
  cbv zeta. reporting.
Qed.

End DeploymentLogs.

Section PreludeLogs.

Variable env : Env.

Lemma logsOnReturn_bind {A B} (m : M A) (k : A -> M B)
      (rows : B -> list DeploymentLog) :
  silent m -> (forall a, logsOnReturn (k a) rows) -> logsOnReturn (bind m k) rows.
Proof.
  intros Hm Hk w. unfold bind. specialize (Hm w).
  destruct (m w) as [[a|e] w1]; cbn in *; [|exact Hm].
  specialize (Hk a w1). destruct (k a w1) as [[b|e] w2]; now rewrite <- Hm.
Qed.

Lemma silent_Fly_cleanup (fly : FlyClient.t) (existing : option Instance) :
  silent (FlyDeploy.cleanup env fly existing).
Proof.
  unfold FlyDeploy.cleanup. destruct existing as [ex|]; [|apply silent_ret].
  apply silent_tryCatch; [|intros; apply silent_ret].
  apply silent_bind; [|intros; apply silent_delete]. unfold whenM.
  destruct (JS.truthy (containerId ex)); [|apply silent_ret].
  destruct (JS.truthy (containerName ex)); [|apply silent_ret].
  apply silent_bind; [apply silent_outside|]. intros machines.
  apply silent_bind; [|intros; apply silent_outside].
  apply silent_forEach. intros m. apply silent_outside.
Qed.

Lemma silent_Render_cleanup (render : RenderClient.t) (existing : option Instance) :
  silent (RenderDeploy.cleanup env render existing).
Proof.
  unfold RenderDeploy.cleanup. destruct existing as [ex|]; [|apply silent_ret].
  apply silent_tryCatch; [|intros; apply silent_ret].
  apply silent_bind; [|intros; apply silent_delete]. unfold whenM.
  destruct (JS.truthy (containerId ex)); [apply silent_outside | apply silent_ret].
Qed.

(** Before the [try] block one row is written, once the placeholder
    exists; a failure before that writes nothing. *)
Lemma Fly_prelude_logs (u : string) :
  logsOnReturn (FlyDeploy.prelude env u)
               (fun s => [mkLog (id (FlyDeploy.instance s)) "DEPLOY" "IN_PROGRESS"
                                "Creating Fly.io app..." None]).
Proof.
  unfold FlyDeploy.prelude.
  apply logsOnReturn_bind; [apply silent_FlyClient_new|]. intros fly.
  apply logsOnReturn_bind; [apply silent_Date_now|]. intros t.
  apply logsOnReturn_bind; [apply silent_findUnique_userId|]. intros existing.
  apply logsOnReturn_bind; [apply silent_Fly_cleanup|]. intros _.
  apply logsOnReturn_bind; [apply silent_outside|]. intros port.
  apply logsOnReturn_bind; [apply silent_create|]. intros row.
  intros w. reflexivity.
Qed.

Lemma Render_prelude_logs (u : string) :
  logsOnReturn (RenderDeploy.prelude env u)
               (fun s => [mkLog (id (RenderDeploy.instance s)) "DEPLOY" "IN_PROGRESS"
                                "Creating Render service..." None]).
Proof.
  unfold RenderDeploy.prelude.
  apply logsOnReturn_bind; [apply silent_RenderClient_new|]. intros render.
  apply logsOnReturn_bind; [apply silent_findUnique_userId|]. intros existing.
  apply logsOnReturn_bind; [apply silent_Render_cleanup|]. intros _.
  apply logsOnReturn_bind; [apply silent_outside|]. intros port.
  apply logsOnReturn_bind; [apply silent_create|]. intros row.
  intros w. reflexivity.
Qed.

End PreludeLogs.

(** X21: [deployInstance] closes its deployment log once.  The log is
    only appended to.  A deployment that returns has written progress
    rows and then one closing row, [SUCCESS] when it returns "RUNNING"
    and [PARTIAL] when it returns "ERROR"; a deployment that throws
    has written nothing at all (it failed before its [try] block) or
    progress rows and then one [FAILED] row that carries the message
    which the thrown error wraps.  Every row has the action [DEPLOY] and
    the id of the new instance. *)
Theorem deployInstance_closes_its_log :
  forall (env : Env) (UserConfiguration : Type)
         (builder : ConfigBuilder UserConfiguration)
         (u : string) (config : UserConfiguration) (w : World),
    let closes {Res} (run : Outcome Res * World) (instanceOf : Res -> string)
            (statusOf : Res -> string) :=
      match run with
      | (Ok res, w') =>
          exists progress closing,
            deploymentLogs w' = (deploymentLogs w ++ progress ++ [closing])%list
            /\ progress <> []
            /\ Forall (progressRow (instanceOf res)) progress
            /\ closing
               = mkLog (instanceOf res) "DEPLOY"
                       (if String.eqb (statusOf res) "RUNNING" then "SUCCESS"
                        else "PARTIAL")
                       (if String.eqb (statusOf res) "RUNNING"
                        then "Deployment completed"
                        else "Deployment completed but health check failed")
                       None
      | (Throw e, w') =>
          deploymentLogs w' = deploymentLogs w
          \/ exists i msg progress,
              e = "Deployment failed: " ++ msg
              /\ deploymentLogs w'
                 = (deploymentLogs w ++ progress
                      ++ [mkLog i "DEPLOY" "FAILED" "Deployment failed" (Some msg)])%list
              /\ progress <> []
              /\ Forall (progressRow i) progress
      end in
    closes (FlyDeploy.deployInstance env builder u config w)
           FlyDeploy.res_instanceId FlyDeploy.res_status
    /\ closes (RenderDeploy.deployInstance env builder u config w)
              RenderDeploy.res_instanceId RenderDeploy.res_status.
Proof.
  intros env UserConfiguration builder u config w closes. subst closes. cbv beta.
  split.
  - unfold FlyDeploy.deployInstance, bind.
    pose proof (Fly_prelude_logs env u w) as Hpre.
    destruct (FlyDeploy.prelude env u w) as [[s|e] w0] eqn:Hprelude; [|now left].
    unfold tryCatch.
    destruct (FlyDeploy.tryBlock env builder config s w0) as [[res|msg] w1] eqn:Htry.
    + unfold FlyDeploy.tryBlock in Htry.
      apply bind_Ok in Htry as (p & wp & Hprov & Hcomp).
      destruct (Fly_provision_reports env builder config s w0) as (rows & Hrows & Hall).
      rewrite Hprov in Hrows. cbn [snd] in Hrows.
      destruct (findById (id (FlyDeploy.instance s)) (instances wp)) as [r|] eqn:Hrow.
      * rewrite (Fly_complete_run env s p wp r Hrow) in Hcomp.
        inversion Hcomp; subst res w1; clear Hcomp.
        cbn [deploymentLogs FlyDeploy.res_instanceId FlyDeploy.res_status].
        eexists (_ :: rows), _. rewrite Hrows, Hpre.
        split; [now rewrite <- !app_assoc|]. split; [discriminate|].
        split; [constructor; [repeat split | exact Hall]|].
        now destruct (probeSucceeded _).
      * destruct (Fly_complete_orphan env s p wp Hrow) as [Hthrows _].
        rewrite Hcomp in Hthrows. discriminate.
    + destruct (Fly_deployInstance_fails env builder u config w w0 w1 s msg
                  Hprelude Htry)
        as (Hprov & w' & row & Hrun & _ & _ & _ & Hlogs & _).
      unfold FlyDeploy.deployInstance, bind, tryCatch in Hrun.
      rewrite Hprelude, Htry in Hrun. rewrite Hrun.
      destruct (Fly_provision_reports env builder config s w0) as (rows & Hrows & Hall).
      rewrite Hprov in Hrows. cbn [snd] in Hrows.
      right.
      exists (id (FlyDeploy.instance s)), msg,
        (mkLog (id (FlyDeploy.instance s)) "DEPLOY" "IN_PROGRESS"
               "Creating Fly.io app..." None :: rows).
      split; [reflexivity|]. rewrite Hlogs, Hrows, Hpre.
      split; [now rewrite <- !app_assoc|]. split; [discriminate|].
      constructor; [repeat split | exact Hall].
  - unfold RenderDeploy.deployInstance, bind.
    pose proof (Render_prelude_logs env u w) as Hpre.
    destruct (RenderDeploy.prelude env u w) as [[s|e] w0] eqn:Hprelude; [|now left].
    unfold tryCatch.
    destruct (RenderDeploy.tryBlock env builder config s w0) as [[res|msg] w1] eqn:Htry.
    + unfold RenderDeploy.tryBlock in Htry.
      apply bind_Ok in Htry as (p & wp & Hprov & Hcomp).
      destruct (Render_provision_reports env builder config s w0)
        as (rows & Hrows & Hall).
      rewrite Hprov in Hrows. cbn [snd] in Hrows.
      destruct (findById (id (RenderDeploy.instance s)) (instances wp)) as [r|] eqn:Hrow.
      * rewrite (Render_complete_run env s p wp r Hrow) in Hcomp.
        inversion Hcomp; subst res w1; clear Hcomp.
        cbn [deploymentLogs RenderDeploy.res_instanceId RenderDeploy.res_status].
        eexists (_ :: rows), _. rewrite Hrows, Hpre.
        split; [now rewrite <- !app_assoc|]. split; [discriminate|].
        split; [constructor; [repeat split | exact Hall]|].
        now destruct (probeSucceeded _).
      * destruct (Render_complete_orphan env s p wp Hrow) as [Hthrows _].
        rewrite Hcomp in Hthrows. discriminate.
    + destruct (Render_deployInstance_fails env builder u config w w0 w1 s msg
                  Hprelude Htry)
        as (Hprov & w' & row & Hrun & _ & _ & _ & Hlogs & _).
      unfold RenderDeploy.deployInstance, bind, tryCatch in Hrun.
      rewrite Hprelude, Htry in Hrun. rewrite Hrun.
      destruct (Render_provision_reports env builder config s w0)
        as (rows & Hrows & Hall).
      rewrite Hprov in Hrows. cbn [snd] in Hrows.
      right.
      exists (id (RenderDeploy.instance s)), msg,
        (mkLog (id (RenderDeploy.instance s)) "DEPLOY" "IN_PROGRESS"
               "Creating Render service..." None :: rows).
      split; [reflexivity|]. rewrite Hlogs, Hrows, Hpre.
      split; [now rewrite <- !app_assoc|]. split; [discriminate|].
      constructor; [repeat split | exact Hall].
Qed.

(** ** Operating an instance that was just deployed *)

Lemma FlyClient_new_credentials (env : Env) (w w' : World) (fly : FlyClient.t) :
  FlyClient.new env w = (Ok fly, w') ->
  JS.truthy (FLY_API_TOKEN env) = true /\ JS.truthy (FLY_ORG_SLUG env) = true.
Proof.
  unfold FlyClient.new.
  destruct (JS.truthy (FLY_API_TOKEN env)); cbn [negb]; [|discriminate].
  destruct (JS.truthy (FLY_ORG_SLUG env)); cbn [negb]; [auto | discriminate].
Qed.

Lemma RenderClient_new_credentials (env : Env) (w w' : World) (render : RenderClient.t) :
  RenderClient.new env w = (Ok render, w') -> JS.truthy (RENDER_API_KEY env) = true.
Proof.
  unfold RenderClient.new.
  destruct (JS.truthy (RENDER_API_KEY env)); cbn [negb]; [auto | discriminate].
Qed.

(** X22: what [deployInstance] returns is enough to operate the
    instance.  On Fly.io, if the machine id is not empty, stopping the
    returned instance asks the provider to stop that machine in that
    app, and reading its logs asks for the logs of that machine and
    returns a text.  On Render, reading the logs of the returned
    instance calls nothing and returns the text that points to the
    returned shell URL, and, if the service id is not empty, stopping it
    suspends that service. *)
Theorem deployed_instance_can_be_operated :
  forall (env : Env) (UserConfiguration : Type)
         (builder : ConfigBuilder UserConfiguration)
         (u : string) (config : UserConfiguration) (w : World),
    (forall res w',
        FlyDeploy.deployInstance env builder u config w = (Ok res, w') ->
        FlyDeploy.res_machineId res <> EmptyString ->
        calls (snd (FlyDeploy.stopInstance env (FlyDeploy.res_instanceId res) w'))
        = FlyStopMachine (FlyDeploy.res_appName res) (FlyDeploy.res_machineId res)
            :: calls w'
        /\ forall tail,
            calls (snd (FlyDeploy.getInstanceLogs env (FlyDeploy.res_instanceId res)
                                                  tail w'))
            = FlyGetLogs (FlyDeploy.res_appName res) (FlyDeploy.res_machineId res) tail
                :: calls w'
            /\ throws (fst (FlyDeploy.getInstanceLogs
                              env (FlyDeploy.res_instanceId res) tail w')) = false)
    /\ (forall res w',
           RenderDeploy.deployInstance env builder u config w = (Ok res, w') ->
           (forall tail,
               RenderLogs.getInstanceLogs (RenderDeploy.res_instanceId res) tail w'
               = (Ok ("Logs are available in the Render dashboard:"
                        ++ String (ascii_of_nat 10) (RenderDeploy.res_shellUrl res)),
                  w'))
           /\ (RenderDeploy.res_serviceId res <> EmptyString ->
               calls (snd (RenderDeploy.stopInstance
                             env (RenderDeploy.res_instanceId res) w'))
               = RenderSuspendService (RenderDeploy.res_serviceId res) :: calls w')).
Proof.
  intros env UserConfiguration builder u config w. split.
  - intros res w' Hrun Hmachine.
    destruct (Fly_deployInstance_row env UserConfiguration builder u config w w' res Hrun)
      as (row & bearer & earlier & _ & Hi & _ & Hid & Hname & _ & _ & _ & _ & Happ & _).
    assert (FlyDeploy.res_appName res <> EmptyString) as Hne
        by (rewrite Happ; discriminate).
    unfold FlyDeploy.deployInstance in Hrun.
    apply bind_Ok in Hrun as (s & w0 & Hpre & _).
    unfold FlyDeploy.prelude in Hpre. apply bind_Ok in Hpre as (fly & w1 & Hnew & _).
    apply FlyClient_new_credentials in Hnew as [Htoken Horg].
    destruct (FlyClient_new_ok env Htoken Horg) as [fly' Hnew].
    apply truthy_Some in Hmachine. apply truthy_Some in Hne.
    assert (FlyDeploy.missingIdentifiers row = false) as Hids
        by (unfold FlyDeploy.missingIdentifiers; now rewrite Hid, Hname, Hmachine, Hne).
    assert (JS.orElse (containerName row) EmptyString = FlyDeploy.res_appName res)
      as Hn by (rewrite Hname; unfold JS.orElse; now rewrite Hne).
    assert (JS.orElse (containerId row) EmptyString = FlyDeploy.res_machineId res)
      as Hm by (rewrite Hid; unfold JS.orElse; now rewrite Hmachine).
    split.
    + unfold FlyDeploy.stopInstance, bind, instance_findUnique_id.
      rewrite Hi, Hids, Hnew, Hn, Hm.
      unfold FlyClient.stopMachine, void, outside.
      destruct (voidCall env _ _); [|reflexivity].
      unfold instance_update. cbn [instances]. now rewrite Hi.
    + intros tail. unfold FlyDeploy.getInstanceLogs, bind, instance_findUnique_id.
      rewrite Hi, Hids, Hnew, Hn, Hm.
      unfold FlyClient.getMachineLogs, tryCatch, bind, outside.
      now destruct (logsAnswer env _ _ _ _).
  - intros res w' Hrun.
    destruct (Render_deployInstance_row env UserConfiguration builder u config w w' res
                                        Hrun)
      as (row & bearer & earlier & _ & Hi & _ & Hid & _ & _ & _ & Hshell & _ & _ & _
          & Hurl & _).
    split.
    + intros tail. unfold RenderLogs.getInstanceLogs, bind, instance_findUnique_id.
      rewrite Hi, Hshell. unfold ret. do 3 f_equal.
      unfold JS.orElse. rewrite Hurl. reflexivity.
    + intros Hservice. apply truthy_Some in Hservice.
      unfold RenderDeploy.deployInstance in Hrun.
      apply bind_Ok in Hrun as (s & w0 & Hpre & _).
      unfold RenderDeploy.prelude in Hpre.
      apply bind_Ok in Hpre as (render & w1 & Hnew & _).
      apply RenderClient_new_credentials in Hnew.
      destruct (RenderClient_new_ok env Hnew) as [render' Hnew'].
      unfold RenderDeploy.stopInstance, bind, instance_findUnique_id.
      rewrite Hi, Hid, Hservice. cbn [negb]. rewrite Hnew'.
      replace (JS.orElse (Some (RenderDeploy.res_serviceId res)) EmptyString)
        with (RenderDeploy.res_serviceId res)
        by (unfold JS.orElse; now rewrite Hservice).
      unfold RenderClient.suspendService, void, outside.
      destruct (voidCall env _ _); [|reflexivity].
      unfold instance_update. cbn [instances]. now rewrite Hi.
Qed.

Lemma deployed_instance_can_be_operated_witness :
  exists (res : RenderDeploy.DeploymentResult) (w' : World),
    RenderDeploy.deployInstance Sample.calm Sample.plainBuilder
      "user-1234567" "claude" Sample.empty = (Ok res, w')
    /\ RenderLogs.getInstanceLogs (RenderDeploy.res_instanceId res) 100 w'
       = (Ok ("Logs are available in the Render dashboard:"
                ++ String (ascii_of_nat 10)
                     "https://dashboard.render.com/web/srv-c0ffee/shell"),
          w')
    /\ calls (snd (RenderDeploy.stopInstance
                     Sample.calm (RenderDeploy.res_instanceId res) w'))
       = RenderSuspendService "srv-c0ffee" :: calls w'.
Proof.
  eassert (RenderDeploy.deployInstance Sample.calm Sample.plainBuilder
             "user-1234567" "claude" Sample.empty = (Ok _, _))
    as Hrun by (lazy; reflexivity).
  destruct (deployed_instance_can_be_operated
              Sample.calm string Sample.plainBuilder "user-1234567" "claude"
              Sample.empty) as [_ Hrender].
  destruct (Hrender _ _ Hrun) as [Hlogs Hstop].
  eexists _, _. split; [exact Hrun|]. split.
  - exact (Hlogs 100).
  - apply Hstop. discriminate.
Defined.

(** ** The clean-up of a pre-existing instance on Fly.io *)

Section FlyCleanup.

Variable env : Env.
Variable fly : FlyClient.t.
Variable appName : string.

Lemma findById_deleteRows_same (i : string) (rows : list Instance) :
  findById i (deleteRows i rows) = None.
Proof.
  unfold findById, deleteRows. induction rows as [|r rows IH]; [reflexivity|].
  cbn [filter]. destruct (String.eqb (id r) i) eqn:Hr; cbn [negb find]; [exact IH|].
  now rewrite Hr.
Qed.

Lemma forEach_deleteMachine_accepted (machines : list FlyMachine) :
  (forall n ev, voidCall env n ev = Ok tt) ->
  forall w, exists w',
    forEach machines (fun m => FlyClient.deleteMachine env fly appName (machineId m)) w
    = (Ok tt, w')
    /\ calls w'
       = (rev (map (fun m => FlyDeleteMachine appName (machineId m)) machines)
            ++ calls w)%list
    /\ instances w' = instances w
    /\ deploymentLogs w' = deploymentLogs w.
Proof.
  intros Haccept. induction machines as [|m machines IH]; intros w; cbn [forEach].
  - exists w. repeat split.
  - unfold bind. unfold FlyClient.deleteMachine at 1. unfold void, outside.
    rewrite Haccept.
    destruct (IH (mkWorld (instances w) (deploymentLogs w)
                          (now w + Z.max 0 (latency env (length (calls w))))
                          (FlyDeleteMachine appName (machineId m) :: calls w)))
      as (w' & Hrun & Hcalls & Hrows & Hlogs).
    exists w'. split; [exact Hrun|]. cbn [calls instances deploymentLogs] in *.
    split; [|split; assumption].
    rewrite Hcalls. cbn [map rev]. now rewrite <- app_assoc.
Qed.

Lemma inert_forEach {A} (xs : list A) (body : A -> M unit) :
  (forall x, inert (body x)) -> inert (forEach xs body).
Proof.
  intros Hbody. induction xs as [|x xs IH]; cbn [forEach]; [apply inert_ret|].
  apply inert_bind; [apply Hbody | intros; exact IH].
Qed.

(** The clean-up swallows every error. *)
Lemma Fly_cleanup_returns (existing : option Instance) (w : World) :
  exists w', FlyDeploy.cleanup env fly existing w = (Ok tt, w').
Proof.
  unfold FlyDeploy.cleanup. destruct existing as [ex|]; [|now exists w].
  unfold tryCatch.
  match goal with
  | |- context [match ?run with _ => _ end] => destruct run as [[[]|e] w1]
  end; eexists; reflexivity.
Qed.

End FlyCleanup.

Lemma Render_cleanup_returns (env : Env) (render : RenderClient.t)
      (existing : option Instance) (w : World) :
  exists w', RenderDeploy.cleanup env render existing w = (Ok tt, w').
Proof.
  unfold RenderDeploy.cleanup. destruct existing as [ex|]; [|now exists w].
  unfold tryCatch.
  match goal with
  | |- context [match ?run with _ => _ end] => destruct run as [[[]|e] w1]
  end; eexists; reflexivity.
Qed.

(** X23: the clean-up of a pre-existing instance never throws, whatever
    the row and whatever the provider answers, and on Fly.io it deletes
    the row last.  For a row that has both identifiers: when the
    provider accepts every call, the clean-up lists the machines of the
    app, deletes each of them in the order listed, deletes the app and
    then the row; when the provider refuses to delete the app, the row
    stays in the table as it was. *)
Theorem Fly_cleanup_deletes_the_row_last :
  forall (env : Env) (fly : FlyClient.t),
    (forall (existing : option Instance) (w : World),
        exists w', FlyDeploy.cleanup env fly existing w = (Ok tt, w'))
    /\
    forall (ex : Instance) (w : World)
           (machine appName : string) (machines : list FlyMachine),
      containerId ex = Some machine -> machine <> EmptyString ->
      containerName ex = Some appName -> appName <> EmptyString ->
      findById (id ex) (instances w) <> None ->
      listMachinesAnswer env (length (calls w)) appName = Ok machines ->
      ((forall n ev, voidCall env n ev = Ok tt) ->
       exists w',
         FlyDeploy.cleanup env fly (Some ex) w = (Ok tt, w')
         /\ calls w'
            = (FlyDeleteApp appName
                 :: rev (map (fun m => FlyDeleteMachine appName (machineId m)) machines)
                 ++ FlyListMachines appName :: calls w)%list
         /\ instances w' = deleteRows (id ex) (instances w)
         /\ findById (id ex) (instances w') = None
         /\ deploymentLogs w' = deploymentLogs w)
      /\ ((forall n, throws (voidCall env n (FlyDeleteApp appName)) = true) ->
          exists w',
            FlyDeploy.cleanup env fly (Some ex) w = (Ok tt, w')
            /\ instances w' = instances w
            /\ deploymentLogs w' = deploymentLogs w).
Proof.
  intros env fly. split; [apply Fly_cleanup_returns|].
  intros ex w machine appName machines Hid Hm Hname Hn Hrow Hlist.
  apply truthy_Some in Hm. apply truthy_Some in Hn.
  unfold FlyDeploy.cleanup, tryCatch.
  rewrite Hid, Hname, Hm, Hn. unfold whenM.
  replace (JS.orElse (Some appName) EmptyString) with appName
    by (unfold JS.orElse; now rewrite Hn).
  set (listed := mkWorld (instances w) (deploymentLogs w)
                         (now w + Z.max 0 (latency env (length (calls w))))
                         (FlyListMachines appName :: calls w)).
  assert (forall {B} (k : list FlyMachine -> M B),
             bind (FlyClient.listMachines env fly appName) k w = k machines listed)
    as Hlisted
      by (intros B k; unfold bind, FlyClient.listMachines, outside; now rewrite Hlist).
  split.
  - intros Haccept. unfold bind at 1. rewrite Hlisted.
    unfold bind at 1.
    destruct (forEach_deleteMachine_accepted env fly appName machines Haccept listed)
      as (w1 & Hrun & Hcalls & Hrows & Hlogs).
    rewrite Hrun. unfold FlyClient.deleteApp, void, outside. rewrite Haccept.
    unfold instance_delete. cbn [instances]. rewrite Hrows. cbn [instances listed].
    destruct (findById (id ex) (instances w)) as [r|]; [|contradiction].
    eexists. split; [reflexivity|]. cbn [calls instances deploymentLogs].
    rewrite Hcalls, Hlogs. cbn [calls instances deploymentLogs listed].
    repeat split. apply findById_deleteRows_same.
  - intros Hrefuse. unfold bind at 1. rewrite Hlisted.
    unfold bind at 1.
    pose proof (inert_forEach machines
                  (fun m => FlyClient.deleteMachine env fly appName (machineId m))
                  (fun m => inert_outside env _ _) listed) as Hrows.
    pose proof (silent_forEach machines
                  (fun m => FlyClient.deleteMachine env fly appName (machineId m))
                  (fun m => silent_outside env _ _) listed) as Hlogs.
    destruct (forEach machines _ listed) as [[?|e] w1]; cbn [snd] in Hrows, Hlogs.
    + unfold FlyClient.deleteApp, void, outside.
      specialize (Hrefuse (length (calls w1))).
      destruct (voidCall env _ _) as [?|e]; [discriminate Hrefuse|].
      eexists. split; [reflexivity|]. cbn [instances deploymentLogs].
      now rewrite Hrows, Hlogs.
    + eexists. split; [reflexivity|]. now rewrite Hrows, Hlogs.
Qed.

Lemma Fly_cleanup_deletes_the_row_last_witness :
  exists w',
    FlyDeploy.cleanup
      (withListing (fun _ _ => Ok [mkMachine "148e21" "started";
                                   mkMachine "148e22" "stopped"]))
      Sample.client (Some Sample.liveRow) twoUsers
    = (Ok tt, w')
    /\ calls w' = [FlyDeleteApp "openclaw-user-9";
                   FlyDeleteMachine "openclaw-user-9" "148e22";
                   FlyDeleteMachine "openclaw-user-9" "148e21";
                   FlyListMachines "openclaw-user-9"]
    /\ instances w' = [Sample.namelessRow].
Proof.
  destruct (Fly_cleanup_deletes_the_row_last
              (withListing (fun _ _ => Ok [mkMachine "148e21" "started";
                                           mkMachine "148e22" "stopped"]))
              Sample.client) as [_ Hlast].
  destruct (Hlast Sample.liveRow twoUsers "148e21" "openclaw-user-9"
              [mkMachine "148e21" "started"; mkMachine "148e22" "stopped"]
              eq_refl ltac:(discriminate) eq_refl ltac:(discriminate)
              ltac:(discriminate) eq_refl)
    as [Haccepted _].
  destruct (Haccepted (fun _ _ => eq_refl)) as (w' & Hrun & Hcalls & Hrows & _).
  exists w'. split; [exact Hrun|]. split; [exact Hcalls | exact Hrows].
Defined.

(** ** What a deployment asks of the provider *)

Section Asking.

Lemma objGet_objSet_other (k k' v' : string) (o : JS.Obj) :
  k' <> k -> objGet k (JS.objSet k' v' o) = objGet k o.
Proof.
  intros Hk. unfold objGet. induction o as [|[k0 v0] o IH]; cbn [JS.objSet find fst].
  - apply String.eqb_neq in Hk. now rewrite Hk.
  - destruct (String.eqb_spec k0 k') as [->|Hk0]; cbn [find fst].
    + apply String.eqb_neq in Hk. now rewrite Hk.
    + destruct (String.eqb k0 k); [reflexivity|]. cbn in IH. exact IH.
Qed.

(** A property that the second object does not have keeps the value it
    has in the first. *)
Lemma objGet_spread (k : string) (base extra : JS.Obj) :
  (forall v, ~ In (k, v) extra) -> objGet k (JS.spread base extra) = objGet k base.
Proof.
  unfold JS.spread. revert base.
  induction extra as [|[k' v'] extra IH]; intros base Hk; [reflexivity|].
  cbn [fold_left fst snd]. rewrite IH.
  - apply objGet_objSet_other. intros ->. apply (Hk v'). now left.
  - intros v Hv. apply (Hk v). now right.
Qed.

Lemma lift_Ok {A} (o : Outcome A) (w w' : World) (a : A) :
  lift o w = (Ok a, w') -> o = Ok a /\ calls w' = calls w.
Proof. unfold lift. now inversion 1. Qed.

Lemma outside_Ok (env : Env) {A} (ev : Event) (answer : nat -> Outcome A)
      (w w' : World) (a : A) :
  outside env ev answer w = (Ok a, w') -> calls w' = ev :: calls w.
Proof. unfold outside. now inversion 1. Qed.

Lemma quiet_run {A} (m : M A) (w w' : World) (o : Outcome A) :
  quiet m -> m w = (o, w') -> calls w' = calls w.
Proof. intros Hm Hrun. specialize (Hm w). now rewrite Hrun in Hm. Qed.

Lemma quiet_randomUUID (env : Env) : quiet (crypto_randomUUID env).
Proof. now intros w. Qed.

Lemma quiet_logDeployment (i a s m : string) (e : option string) :
  quiet (logDeployment i a s m e).
Proof. now intros w. Qed.

Lemma quiet_sleep (ms : Z) : quiet (sleep ms).
Proof. now intros w. Qed.

Lemma waitForMachineState_Ok (env : Env) (fly : FlyClient.t)
      (appName machine target : string) (timeoutMs : Z) (w w' : World)
      (o : Outcome unit) :
  FlyClient.waitForMachineState env fly appName machine target timeoutMs w = (o, w') ->
  exists k : nat,
    calls w' = (repeat (FlyGetMachine appName machine) k ++ calls w)%list
    /\ ((0 < k)%nat -> 3000 * (Z.of_nat k - 1) < timeoutMs)
    /\ (forall j, (S j < k)%nat ->
                  stillWaiting target
                    (getMachineAnswer env (length (calls w) + j) appName machine)).
Proof.
  unfold FlyClient.waitForMachineState. rewrite Fly_waitLoop_as_pollLoop.
  destruct (pollLoop _ _ _ _ _ _ _ _ _ _ _ w) as [[o1 w1]|] eqn:Hrun.
  - intros H. inversion H; subst; clear H.
    apply (pollLoop_bounded env _ _ _ _ _ _ FlyClient.pollInterval) in Hrun;
      [|unfold FlyClient.pollInterval; lia].
    destruct Hrun as (k & Hcalls & Hk & _ & _ & _ & Hon).
    exists k. split; [exact Hcalls|]. split.
    + unfold FlyClient.pollInterval in Hk. intros Hpos. specialize (Hk Hpos). lia.
    + intros j Hj. apply undecided_stillWaiting, (Hon j Hj).
  - intros H. inversion H; subst. exists 0%nat.
    split; [reflexivity|]. split; intros; lia.
Qed.

Lemma called_refl (w : World) : called w w.
Proof. now exists []. Qed.

Lemma called_trans (w1 w2 w3 : World) : called w1 w2 -> called w2 w3 -> called w1 w3.
Proof.
  intros [m1 H1] [m2 H2]. exists (m2 ++ m1)%list. now rewrite H2, H1, app_assoc.
Qed.

Lemma quiet_called {A} (m : M A) : quiet m -> evolves called m.
Proof. intros Hm w. exists []. now rewrite Hm. Qed.

Lemma outside_called (env : Env) {A} (ev : Event) (answer : nat -> Outcome A) :
  evolves called (outside env ev answer).
Proof. intros w. now exists [ev]. Qed.

Lemma called_run {A} (m : M A) (w w' : World) (o : Outcome A) :
  evolves called m -> m w = (o, w') -> called w w'.
Proof. intros Hm Hrun. specialize (Hm w). now rewrite Hrun in Hm. Qed.

Lemma quiet_delete (i : string) : quiet (instance_delete i).
Proof. intros w. unfold instance_delete. now destruct (findById i (instances w)). Qed.

Lemma forEach_called {A} (xs : list A) (body : A -> M unit) :
  (forall x, evolves called (body x)) -> evolves called (forEach xs body).
Proof.
  intros Hbody. induction xs as [|x xs IH]; cbn [forEach]; [intros w; apply called_refl|].
  apply evolves_bind; [apply called_trans | apply Hbody | intros; exact IH].
Qed.

Lemma Fly_cleanup_called (env : Env) (fly : FlyClient.t) (existing : option Instance) :
  evolves called (FlyDeploy.cleanup env fly existing).
Proof.
  unfold FlyDeploy.cleanup.
  destruct existing as [ex|]; [|intros w; apply called_refl].
  apply evolves_tryCatch; [apply called_trans | | intros e w; apply called_refl].
  apply evolves_bind; [apply called_trans | | intros; apply quiet_called, quiet_delete].
  unfold whenM.
  destruct (JS.truthy (containerId ex)); [|intros w; apply called_refl].
  destruct (JS.truthy (containerName ex)); [|intros w; apply called_refl].
  apply evolves_bind; [apply called_trans | apply outside_called|]. intros machines.
  apply evolves_bind; [apply called_trans | | intros; apply outside_called].
  apply forEach_called. intros m. apply outside_called.
Qed.

Lemma Render_cleanup_called (env : Env) (render : RenderClient.t)
      (existing : option Instance) :
  evolves called (RenderDeploy.cleanup env render existing).
Proof.
  unfold RenderDeploy.cleanup.
  destruct existing as [ex|]; [|intros w; apply called_refl].
  apply evolves_tryCatch; [apply called_trans | | intros e w; apply called_refl].
  apply evolves_bind; [apply called_trans | | intros; apply quiet_called, quiet_delete].
  unfold whenM.
  destruct (JS.truthy (containerId ex)); [apply outside_called|].
  intros w; apply called_refl.
Qed.

End Asking.

(** After [run_ok]: what each step returned and the calls it made. *)
Ltac traced :=
  repeat match goal with
         | H : lift _ _ = (Ok _, _) |- _ => apply lift_Ok in H as [? ?]
         | H : outside _ _ _ _ = (Ok _, _) |- _ => apply outside_Ok in H
         | H : crypto_randomUUID _ _ = (Ok _, _) |- _ =>
             apply (quiet_run _ _ _ _ (quiet_randomUUID _)) in H
         | H : logDeployment _ _ _ _ _ _ = (Ok _, _) |- _ =>
             apply (quiet_run _ _ _ _ (quiet_logDeployment _ _ _ _ _)) in H
         | H : sleep _ _ = (Ok _, _) |- _ =>
             apply (quiet_run _ _ _ _ (quiet_sleep _)) in H
         | H : instance_update _ _ _ = (Ok _, _) |- _ =>
             apply (quiet_run _ _ _ _ (quiet_update _ _)) in H
         | H : FlyClient.waitForMachineState _ _ _ _ _ _ _ = (_, _) |- _ =>
             apply waitForMachineState_Ok in H as (? & ? & ? & ?)
         end.

Ltac chained :=
  repeat match goal with
         | H : calls ?w = _ |- context [calls ?w] => rewrite H; clear H
         end.

Section FlyAsks.

Variable env : Env.
Context {UserConfiguration : Type}.
Variable builder : ConfigBuilder UserConfiguration.

Lemma Fly_provision_calls (config : UserConfiguration) (s : FlyDeploy.Started)
      (w0 wp : World) (p : FlyDeploy.Provisioned) :
  FlyDeploy.provision env builder config s w0 = (Ok p, wp) ->
  exists (cfg : OpenClawConfig builder) (envVars : JS.Obj) (polls : nat),
    generateOpenClawConfig builder config = Ok cfg
    /\ buildEnvironmentVariables builder config = Ok envVars
    /\ (polls <= 40)%nat
    /\ calls wp
       = (FlyAllocateIP (FlyDeploy.appName s) "v6"
            :: repeat (FlyGetMachine (FlyDeploy.appName s)
                                     (machineId (FlyDeploy.machine p))) polls
            ++ [ FlyCreateMachine (FlyDeploy.appName s)
                   (mkMachineRequest
                      (FlyDeploy.appName s ++ "-main") "iad" (OPENCLAW_IMAGE env)
                      [ ("OPENCLAW_CONFIG", JSON_stringify builder cfg);
                        ("NODE_ENV", "production");
                        ("OPENCLAW_WORKSPACE", "/home/node/.openclaw/workspace") ]
                      "shared" 1 512 (Some FlyDeploy.startCmd) (Some 18789));
                 FlySetSecrets (FlyDeploy.appName s)
                   (JS.spread [("OPENCLAW_GATEWAY_TOKEN", FlyDeploy.gatewayToken_ p)]
                              envVars);
                 FlyCreateApp (FlyDeploy.appName s)
                              (FlyClient.orgSlug (FlyDeploy.fly s));
                 FlyVerifyAccess ]
            ++ calls w0)%list.
Proof.
  unfold FlyDeploy.provision. cbv zeta. intros H.
  unfold FlyClient.verifyAccess, FlyClient.createApp, FlyClient.setSecrets,
    FlyClient.createMachine, FlyClient.allocateIPAddress, void in H.
  run_ok H. unfold ret in H. inversion H; subst p wp; clear H.
  traced. cbn [FlyDeploy.machine FlyDeploy.gatewayToken_].
  match goal with
  | Hc : generateOpenClawConfig builder config = Ok ?cfg,
    He : buildEnvironmentVariables builder config = Ok ?vars,
    Hb : (0 < ?k)%nat -> _ |- _ =>
      exists cfg, vars, k;
      split; [exact Hc|]; split; [exact He|]; split; [lia|]
  end.
  chained. reflexivity.
Qed.

End FlyAsks.

Section FlyAsksMore.

Variable env : Env.
Context {UserConfiguration : Type}.
Variable builder : ConfigBuilder UserConfiguration.

Lemma quiet_create (u name : string) (p : Z) (s : InstanceStatus) :
  quiet (instance_create env u name p s).
Proof.
  intros w. unfold instance_create.
  destruct (findById _ (instances w)); [reflexivity|].
  now destruct (findByUserId u (instances w)).
Qed.

Lemma FlyClient_new_value (w w' : World) (fly : FlyClient.t) :
  FlyClient.new env w = (Ok fly, w') ->
  FlyClient.orgSlug fly = JS.orElse (FLY_ORG_SLUG env) EmptyString.
Proof.
  unfold FlyClient.new.
  destruct (negb (JS.truthy (FLY_API_TOKEN env))); [discriminate|].
  destruct (negb (JS.truthy (FLY_ORG_SLUG env))); [discriminate|].
  unfold ret. intros H. now inversion H.
Qed.

(** Before the [try] block: the clean-up, then the port. *)
Lemma Fly_prelude_calls (u : string) (w w0 : World) (s : FlyDeploy.Started) :
  FlyDeploy.prelude env u w = (Ok s, w0) ->
  FlyClient.orgSlug (FlyDeploy.fly s) = JS.orElse (FLY_ORG_SLUG env) EmptyString
  /\ exists cleaning, calls w0 = (AllocatePort :: cleaning ++ calls w)%list.
Proof.
  unfold FlyDeploy.prelude. intros H.
  apply bind_Ok in H as (fly & w1 & Hnew & H).
  pose proof (FlyClient_new_value _ _ _ Hnew) as Horg.
  apply FlyClient_new_run in Hnew. subst w1.
  apply bind_Ok in H as (t & w2 & Hnow & H). unfold Date_now in Hnow.
  inversion Hnow; subst; clear Hnow.
  apply bind_Ok in H as (existing & w3 & Hfind & H).
  unfold instance_findUnique_userId in Hfind. inversion Hfind; subst; clear Hfind.
  apply bind_Ok in H as (? & w4 & Hclean & H).
  apply (called_run _ _ _ _ (Fly_cleanup_called env fly _)) in Hclean
    as [cleaning Hcleaning].
  apply bind_Ok in H as (port & w5 & Hport & H). apply outside_Ok in Hport.
  apply bind_Ok in H as (row & w6 & Hcreate & H).
  apply (quiet_run _ _ _ _ (quiet_create _ _ _ _)) in Hcreate.
  apply bind_Ok in H as (? & w7 & Hlog & H).
  apply (quiet_run _ _ _ _ (quiet_logDeployment _ _ _ _ _)) in Hlog.
  unfold ret in H. inversion H; subst s w0; clear H.
  cbn [FlyDeploy.fly]. split; [exact Horg|].
  exists cleaning. now rewrite Hlog, Hcreate, Hport, Hcleaning.
Qed.

End FlyAsksMore.

(** X24: what a deployment that returns has asked of Fly.io, call by
    call.  After the clean-up of a pre-existing instance and the port
    allocation it verified the token; created the app in the
    configured organisation; set the secrets, which are the
    configuration's variables over the gateway token, so that the token
    is the one stored in the row unless the configuration defines
    [OPENCLAW_GATEWAY_TOKEN] itself; created the machine
    "<app>-main" in region iad from the OpenClaw image with one shared
    CPU, 512 MB, the start command, the internal port 18789 and the
    configuration in [OPENCLAW_CONFIG]; asked at most forty times for the
    state of that machine; allocated a v6 address; and probed the
    gateway.  Nothing else was called. *)
Theorem Fly_deployInstance_asks :
  forall (env : Env) (UserConfiguration : Type)
         (builder : ConfigBuilder UserConfiguration)
         (u : string) (config : UserConfiguration) (w w' : World)
         (res : FlyDeploy.DeploymentResult),
    FlyDeploy.deployInstance env builder u config w = (Ok res, w') ->
    exists (cfg : OpenClawConfig builder) (envVars : JS.Obj) (bearer : string)
           (polls : nat) (cleaning : list Event) (row : Instance),
      let app := FlyDeploy.res_appName res in
      let secrets := JS.spread [("OPENCLAW_GATEWAY_TOKEN", bearer)] envVars in
      generateOpenClawConfig builder config = Ok cfg
      /\ buildEnvironmentVariables builder config = Ok envVars
      /\ findByUserId u (instances w') = Some row
      /\ gatewayToken row = Some bearer
      /\ ((forall v, ~ In ("OPENCLAW_GATEWAY_TOKEN", v) envVars) ->
          objGet "OPENCLAW_GATEWAY_TOKEN" secrets = Some bearer)
      /\ (polls <= 40)%nat
      /\ calls w'
         = (HealthProbe (FlyDeploy.res_accessUrl res ++ "/health") bearer
              :: FlyAllocateIP app "v6"
              :: repeat (FlyGetMachine app (FlyDeploy.res_machineId res)) polls
              ++ [ FlyCreateMachine app
                     (mkMachineRequest
                        (app ++ "-main") "iad" (OPENCLAW_IMAGE env)
                        [ ("OPENCLAW_CONFIG", JSON_stringify builder cfg);
                          ("NODE_ENV", "production");
                          ("OPENCLAW_WORKSPACE", "/home/node/.openclaw/workspace") ]
                        "shared" 1 512 (Some FlyDeploy.startCmd) (Some 18789));
                   FlySetSecrets app secrets;
                   FlyCreateApp app (JS.orElse (FLY_ORG_SLUG env) EmptyString);
                   FlyVerifyAccess;
                   AllocatePort ]
              ++ cleaning ++ calls w)%list.
Proof.
  intros env UserConfiguration builder u config w w' res Hrun.
  destruct (Fly_deployInstance_row env UserConfiguration builder u config w w' res Hrun)
    as (row & bearer & earlier & Hu & _ & _ & _ & _ & _ & _ & Htoken & Hcalls & _).
  unfold FlyDeploy.deployInstance in Hrun.
  apply bind_Ok in Hrun as (s & w0 & Hpre & H). unfold tryCatch in H.
  destruct (FlyDeploy.tryBlock env builder config s w0) as [[res1|e] w1] eqn:Htry.
  - inversion H; subst res1 w1; clear H.
    unfold FlyDeploy.tryBlock in Htry.
    apply bind_Ok in Htry as (p & wp & Hprov & Hcomp).
    destruct (Fly_prelude_calls env u w w0 s Hpre) as (Horg & cleaning & Hcalls0).
    destruct (Fly_provision_calls env builder config s w0 wp p Hprov)
      as (cfg & envVars & polls & Hcfg & Hvars & Hpolls & Hcallsp).
    destruct (findById (id (FlyDeploy.instance s)) (instances wp)) as [r|] eqn:Hrow.
    + rewrite (Fly_complete_run env s p wp r Hrow) in Hcomp.
      inversion Hcomp; subst res w'; clear Hcomp.
      cbn [calls FlyDeploy.res_appName FlyDeploy.res_machineId FlyDeploy.res_accessUrl]
        in *.
      inversion Hcalls; subst bearer earlier.
      exists cfg, envVars, (FlyDeploy.gatewayToken_ p), polls, cleaning, row.
      cbv zeta.
      split; [exact Hcfg|]. split; [exact Hvars|]. split; [exact Hu|].
      split; [exact Htoken|].
      split; [intros Hfree; rewrite objGet_spread by exact Hfree; reflexivity|].
      split; [exact Hpolls|].
      rewrite Hcallsp, Hcalls0, Horg. cbn [app]. reflexivity.
    + destruct (Fly_complete_orphan env s p wp Hrow) as [Hthrows _].
      rewrite Hcomp in Hthrows. discriminate.
  - pose proof (Fly_onFailure_throws s e w1) as Hthrows.
    rewrite H in Hthrows. discriminate.
Qed.

Lemma Fly_deployInstance_asks_witness :
  exists (res : FlyDeploy.DeploymentResult) (w' : World) (bearer : string)
         (polls : nat) (cleaning : list Event),
    FlyDeploy.deployInstance Sample.calm Sample.plainBuilder
      "user-1234567" "claude" Sample.empty = (Ok res, w')
    /\ objGet "OPENCLAW_GATEWAY_TOKEN"
              (JS.spread [("OPENCLAW_GATEWAY_TOKEN", bearer)]
                         [("ANTHROPIC_API_KEY", "sk-claude")])
       = Some bearer
    /\ (polls <= 40)%nat
    /\ exists body,
        calls w'
        = (HealthProbe (FlyDeploy.res_accessUrl res ++ "/health") bearer
             :: FlyAllocateIP (FlyDeploy.res_appName res) "v6"
             :: repeat (FlyGetMachine (FlyDeploy.res_appName res)
                                      (FlyDeploy.res_machineId res)) polls
             ++ [ FlyCreateMachine (FlyDeploy.res_appName res) body;
                  FlySetSecrets (FlyDeploy.res_appName res)
                    (JS.spread [("OPENCLAW_GATEWAY_TOKEN", bearer)]
                               [("ANTHROPIC_API_KEY", "sk-claude")]);
                  FlyCreateApp (FlyDeploy.res_appName res) "personal";
                  FlyVerifyAccess;
                  AllocatePort ]
             ++ cleaning ++ [])%list.
Proof.
  eassert (FlyDeploy.deployInstance Sample.calm Sample.plainBuilder
             "user-1234567" "claude" Sample.empty = (Ok _, _))
    as Hrun by (lazy; reflexivity).
  destruct (Fly_deployInstance_asks
              Sample.calm string Sample.plainBuilder "user-1234567" "claude"
              Sample.empty _ _ Hrun)
    as (cfg & envVars & bearer & polls & cleaning & row & Hcfg & Hvars & _ & _ & Hfree
        & Hpolls & Hcalls).
  cbn in Hvars. inversion Hvars; subst envVars. clear Hvars.
  eexists _, _, bearer, polls, cleaning. split; [exact Hrun|].
  split; [apply Hfree; intros v [Hv|[]]; discriminate Hv|].
  split; [exact Hpolls|]. eexists. exact Hcalls.
Defined.

Section RenderAsks.

Variable env : Env.
Context {UserConfiguration : Type}.
Variable builder : ConfigBuilder UserConfiguration.

Lemma pollServiceUrl_Ok (render : RenderClient.t) (service : string) (remaining : nat)
      (w w' : World) (o : Outcome string) :
  RenderDeploy.pollServiceUrl env remaining render service w = (o, w') ->
  exists k : nat,
    (k <= remaining)%nat
    /\ calls w' = (repeat (RenderGetService service) k ++ calls w)%list.
Proof.
  intros Hrun.
  destruct (pollServiceUrl_run env render service remaining w) as (k & Hk & Hcalls & _).
  cbv zeta in Hcalls. rewrite Hrun in Hcalls. eauto.
Qed.

Lemma Render_provision_calls (config : UserConfiguration) (s : RenderDeploy.Started)
      (w0 wp : World) (p : RenderDeploy.Provisioned) :
  RenderDeploy.provision env builder config s w0 = (Ok p, wp) ->
  exists (cfg : OpenClawConfig builder) (envVars : JS.Obj) (polls : nat),
    generateOpenClawConfig builder config = Ok cfg
    /\ buildEnvironmentVariables builder config = Ok envVars
    /\ (polls <= 60)%nat
    /\ calls wp
       = (repeat (RenderGetService (serviceId (RenderDeploy.service p))) polls
            ++ [ RenderCreateService
                   (mkServiceRequest
                      (RenderDeploy.serviceName_ s) "oregon" "starter"
                      (Some RenderDeploy.startCommand) (OPENCLAW_IMAGE env)
                      (JS.spread
                         [ ("OPENCLAW_GATEWAY_TOKEN", RenderDeploy.gatewayToken_ p);
                           ("OPENCLAW_CONFIG", JSON_stringify builder cfg);
                           ("NODE_ENV", "production");
                           ("OPENCLAW_WORKSPACE", "/home/node/.openclaw/workspace") ]
                         envVars)) ]
            ++ calls w0)%list.
Proof.
  unfold RenderDeploy.provision. cbv zeta. intros H.
  unfold RenderClient.createService in H.
  run_ok H. unfold ret in H. inversion H; subst p wp; clear H.
  traced.
  match goal with
  | H : RenderDeploy.pollServiceUrl _ _ _ _ _ = (_, _) |- _ =>
      apply pollServiceUrl_Ok in H as (polls & Hpolls & Hcalls)
  end.
  cbn [RenderDeploy.service RenderDeploy.gatewayToken_].
  match goal with
  | Hc : generateOpenClawConfig builder config = Ok ?cfg,
    He : buildEnvironmentVariables builder config = Ok ?vars |- _ =>
      exists cfg, vars, polls;
      split; [exact Hc|]; split; [exact He|];
      split; [unfold RenderDeploy.maxAttempts in Hpolls; exact Hpolls|]
  end.
  chained. reflexivity.
Qed.

Lemma Render_prelude_calls (u : string) (w w0 : World) (s : RenderDeploy.Started) :
  RenderDeploy.prelude env u w = (Ok s, w0) ->
  exists cleaning, calls w0 = (AllocatePort :: cleaning ++ calls w)%list.
Proof.
  unfold RenderDeploy.prelude. intros H.
  apply bind_Ok in H as (render & w1 & Hnew & H).
  apply RenderClient_new_run in Hnew. subst w1.
  apply bind_Ok in H as (existing & w3 & Hfind & H).
  unfold instance_findUnique_userId in Hfind. inversion Hfind; subst; clear Hfind.
  apply bind_Ok in H as (? & w4 & Hclean & H).
  apply (called_run _ _ _ _ (Render_cleanup_called env render _)) in Hclean
    as [cleaning Hcleaning].
  apply bind_Ok in H as (port & w5 & Hport & H). apply outside_Ok in Hport.
  apply bind_Ok in H as (row & w6 & Hcreate & H).
  apply (quiet_run _ _ _ _ (quiet_create env _ _ _ _)) in Hcreate.
  apply bind_Ok in H as (? & w7 & Hlog & H).
  apply (quiet_run _ _ _ _ (quiet_logDeployment _ _ _ _ _)) in Hlog.
  unfold ret in H. inversion H; subst s w0; clear H.
  exists cleaning. now rewrite Hlog, Hcreate, Hport, Hcleaning.
Qed.

End RenderAsks.

(** X25: what a deployment that returns has asked of Render, call by
    call.  After the clean-up of a pre-existing instance and the port
    allocation it created one service, named after the user, in region
    oregon on the starter plan, from the OpenClaw image and with the
    start command; the service's variables are the configuration's
    variables over the gateway token, [OPENCLAW_CONFIG], [NODE_ENV] and
    [OPENCLAW_WORKSPACE], so that the token is the one stored in the row
    unless the configuration defines [OPENCLAW_GATEWAY_TOKEN] itself; it
    then asked at most sixty times for the service and probed the
    gateway.  Nothing else was called; no deploy is waited for. *)
Theorem Render_deployInstance_asks :
  forall (env : Env) (UserConfiguration : Type)
         (builder : ConfigBuilder UserConfiguration)
         (u : string) (config : UserConfiguration) (w w' : World)
         (res : RenderDeploy.DeploymentResult),
    RenderDeploy.deployInstance env builder u config w = (Ok res, w') ->
    exists (cfg : OpenClawConfig builder) (envVars : JS.Obj) (bearer : string)
           (polls : nat) (cleaning : list Event) (row : Instance),
      let vars :=
        JS.spread [ ("OPENCLAW_GATEWAY_TOKEN", bearer);
                    ("OPENCLAW_CONFIG", JSON_stringify builder cfg);
                    ("NODE_ENV", "production");
                    ("OPENCLAW_WORKSPACE", "/home/node/.openclaw/workspace") ]
                  envVars in
      generateOpenClawConfig builder config = Ok cfg
      /\ buildEnvironmentVariables builder config = Ok envVars
      /\ findByUserId u (instances w') = Some row
      /\ gatewayToken row = Some bearer
      /\ ((forall v, ~ In ("OPENCLAW_GATEWAY_TOKEN", v) envVars) ->
          objGet "OPENCLAW_GATEWAY_TOKEN" vars = Some bearer)
      /\ (polls <= 60)%nat
      /\ calls w'
         = (HealthProbe (RenderDeploy.res_accessUrl res ++ "/health") bearer
              :: repeat (RenderGetService (RenderDeploy.res_serviceId res)) polls
              ++ [ RenderCreateService
                     (mkServiceRequest
                        (RenderDeploy.res_serviceName res) "oregon" "starter"
                        (Some RenderDeploy.startCommand) (OPENCLAW_IMAGE env) vars);
                   AllocatePort ]
              ++ cleaning ++ calls w)%list.
Proof.
  intros env UserConfiguration builder u config w w' res Hrun.
  destruct (Render_deployInstance_row env UserConfiguration builder u config w w' res
                                      Hrun)
    as (row & bearer & earlier & Hu & _ & _ & _ & _ & _ & _ & _ & Htoken & Hcalls & _).
  unfold RenderDeploy.deployInstance in Hrun.
  apply bind_Ok in Hrun as (s & w0 & Hpre & H). unfold tryCatch in H.
  destruct (RenderDeploy.tryBlock env builder config s w0) as [[res1|e] w1] eqn:Htry.
  - inversion H; subst res1 w1; clear H.
    unfold RenderDeploy.tryBlock in Htry.
    apply bind_Ok in Htry as (p & wp & Hprov & Hcomp).
    destruct (Render_prelude_calls env u w w0 s Hpre) as (cleaning & Hcalls0).
    destruct (Render_provision_calls env builder config s w0 wp p Hprov)
      as (cfg & envVars & polls & Hcfg & Hvars & Hpolls & Hcallsp).
    destruct (findById (id (RenderDeploy.instance s)) (instances wp)) as [r|] eqn:Hrow.
    + rewrite (Render_complete_run env s p wp r Hrow) in Hcomp.
      inversion Hcomp; subst res w'; clear Hcomp.
      cbn [calls RenderDeploy.res_serviceName RenderDeploy.res_serviceId
           RenderDeploy.res_accessUrl] in *.
      inversion Hcalls; subst bearer earlier.
      exists cfg, envVars, (RenderDeploy.gatewayToken_ p), polls, cleaning, row.
      cbv zeta.
      split; [exact Hcfg|]. split; [exact Hvars|]. split; [exact Hu|].
      split; [exact Htoken|].
      split; [intros Hfree; rewrite objGet_spread by exact Hfree; reflexivity|].
      split; [exact Hpolls|].
      rewrite Hcallsp, Hcalls0. cbn [app]. reflexivity.
    + destruct (Render_complete_orphan env s p wp Hrow) as [Hthrows _].
      rewrite Hcomp in Hthrows. discriminate.
  - pose proof (Render_onFailure_throws s e w1) as Hthrows.
    rewrite H in Hthrows. discriminate.
Qed.

Lemma Render_deployInstance_asks_witness :
  exists (res : RenderDeploy.DeploymentResult) (w' : World) (bearer : string)
         (polls : nat) (cleaning : list Event),
    RenderDeploy.deployInstance Sample.calm Sample.plainBuilder
      "user-1234567" "claude" Sample.empty = (Ok res, w')
    /\ (polls <= 60)%nat
    /\ exists body,
        objGet "OPENCLAW_GATEWAY_TOKEN" (svcEnvVars body) = Some bearer
        /\ calls w'
           = (HealthProbe (RenderDeploy.res_accessUrl res ++ "/health") bearer
                :: repeat (RenderGetService (RenderDeploy.res_serviceId res)) polls
                ++ [RenderCreateService body; AllocatePort] ++ cleaning ++ [])%list.
Proof.
  eassert (RenderDeploy.deployInstance Sample.calm Sample.plainBuilder
             "user-1234567" "claude" Sample.empty = (Ok _, _))
    as Hrun by (lazy; reflexivity).
  destruct (Render_deployInstance_asks
              Sample.calm string Sample.plainBuilder "user-1234567" "claude"
              Sample.empty _ _ Hrun)
    as (cfg & envVars & bearer & polls & cleaning & row & Hcfg & Hvars & _ & _ & Hfree
        & Hpolls & Hcalls).
  cbn in Hvars. inversion Hvars; subst envVars. clear Hvars.
  eexists _, _, bearer, polls, cleaning. split; [exact Hrun|].
  split; [exact Hpolls|]. eexists. split; [|exact Hcalls].
  apply Hfree. intros v [Hv|[]]. discriminate Hv.
Defined.

(** ** How long a deployment takes at least *)

Section Clock.

Lemma later_refl (w : World) : later w w.
Proof. unfold later. lia. Qed.

Lemma later_trans (w1 w2 w3 : World) : later w1 w2 -> later w2 w3 -> later w1 w3.
Proof. unfold later. lia. Qed.

Lemma later_run {A} (m : M A) (w w' : World) (o : Outcome A) :
  evolves later m -> m w = (o, w') -> now w <= now w'.
Proof. intros Hm Hrun. specialize (Hm w). now rewrite Hrun in Hm. Qed.

Lemma outside_later (env : Env) {A} (ev : Event) (answer : nat -> Outcome A) :
  evolves later (outside env ev answer).
Proof. intros w. unfold later. cbn. lia. Qed.

Lemma lift_later {A} (o : Outcome A) : evolves later (lift o).
Proof. intros w. apply later_refl. Qed.

Lemma randomUUID_later (env : Env) : evolves later (crypto_randomUUID env).
Proof. intros w. apply later_refl. Qed.

Lemma logDeployment_later (i a s m : string) (e : option string) :
  evolves later (logDeployment i a s m e).
Proof. intros w. unfold later. cbn. lia. Qed.

Lemma update_later (i : string) (d : InstanceData) : evolves later (instance_update i d).
Proof.
  intros w. unfold instance_update, later.
  destruct (findById i (instances w)); cbn; lia.
Qed.

Lemma delete_later (i : string) : evolves later (instance_delete i).
Proof.
  intros w. unfold instance_delete, later.
  destruct (findById i (instances w)); cbn; lia.
Qed.

Lemma create_later (env : Env) (u name : string) (p : Z) (s : InstanceStatus) :
  evolves later (instance_create env u name p s).
Proof.
  intros w. unfold instance_create, later.
  destruct (findById _ (instances w)); [cbn; lia|].
  destruct (findByUserId u (instances w)); cbn; lia.
Qed.

Lemma sleep_exact (ms : Z) (w w' : World) (u : unit) :
  sleep ms w = (Ok u, w') -> now w' = now w + ms.
Proof. unfold sleep. now inversion 1. Qed.

Lemma waitForMachineState_later (env : Env) (fly : FlyClient.t)
      (appName machine target : string) (timeoutMs : Z) :
  evolves later (FlyClient.waitForMachineState env fly appName machine target timeoutMs).
Proof.
  intros w. unfold FlyClient.waitForMachineState. rewrite Fly_waitLoop_as_pollLoop.
  destruct (pollLoop _ _ _ _ _ _ _ _ _ _ _ w) as [[o w']|] eqn:Hrun;
    [|apply later_refl].
  apply (pollLoop_bounded env _ _ _ _ _ _ FlyClient.pollInterval) in Hrun;
    [|unfold FlyClient.pollInterval; lia].
  now destruct Hrun as (k & _ & _ & _ & _ & Hnow & _).
Qed.

Lemma pollServiceUrl_later (env : Env) (remaining : nat) (render : RenderClient.t)
      (service : string) :
  evolves later (RenderDeploy.pollServiceUrl env remaining render service).
Proof.
  induction remaining as [|remaining IH]; intros w.
  - apply later_refl.
  - rewrite pollServiceUrl_turn. cbv zeta.
    destruct (getServiceAnswer env _ _) as [s|e]; [|unfold later; cbn; lia].
    destruct (JS.truthy (serviceDetailsUrl s)); [unfold later; cbn; lia|].
    eapply later_trans; [|apply IH]. unfold later. cbn. lia.
Qed.

Lemma forEach_later {A} (xs : list A) (body : A -> M unit) :
  (forall x, evolves later (body x)) -> evolves later (forEach xs body).
Proof.
  intros Hbody. induction xs as [|x xs IH]; cbn [forEach]; [intros w; apply later_refl|].
  apply evolves_bind; [apply later_trans | apply Hbody | intros; exact IH].
Qed.

Lemma Fly_cleanup_later (env : Env) (fly : FlyClient.t) (existing : option Instance) :
  evolves later (FlyDeploy.cleanup env fly existing).
Proof.
  unfold FlyDeploy.cleanup.
  destruct existing as [ex|]; [|intros w; apply later_refl].
  apply evolves_tryCatch; [apply later_trans | | intros e w; apply later_refl].
  apply evolves_bind; [apply later_trans | | intros; apply delete_later].
  unfold whenM.
  destruct (JS.truthy (containerId ex)); [|intros w; apply later_refl].
  destruct (JS.truthy (containerName ex)); [|intros w; apply later_refl].
  apply evolves_bind; [apply later_trans | apply outside_later|]. intros machines.
  apply evolves_bind; [apply later_trans | | intros; apply outside_later].
  apply forEach_later. intros m. apply outside_later.
Qed.

Lemma Render_cleanup_later (env : Env) (render : RenderClient.t)
      (existing : option Instance) :
  evolves later (RenderDeploy.cleanup env render existing).
Proof.
  unfold RenderDeploy.cleanup.
  destruct existing as [ex|]; [|intros w; apply later_refl].
  apply evolves_tryCatch; [apply later_trans | | intros e w; apply later_refl].
  apply evolves_bind; [apply later_trans | | intros; apply delete_later].
  unfold whenM.
  destruct (JS.truthy (containerId ex)); [apply outside_later|].
  intros w; apply later_refl.
Qed.

End Clock.

(** After [run_ok]: how the clock moved in each step. *)
Ltac timed :=
  repeat match goal with
         | H : sleep _ _ = (Ok _, _) |- _ => apply sleep_exact in H
         | H : lift _ _ = (Ok _, _) |- _ => apply (later_run _ _ _ _ (lift_later _)) in H
         | H : outside _ _ _ _ = (Ok _, _) |- _ =>
             apply (later_run _ _ _ _ (outside_later _ _ _)) in H
         | H : crypto_randomUUID _ _ = (Ok _, _) |- _ =>
             apply (later_run _ _ _ _ (randomUUID_later _)) in H
         | H : logDeployment _ _ _ _ _ _ = (Ok _, _) |- _ =>
             apply (later_run _ _ _ _ (logDeployment_later _ _ _ _ _)) in H
         | H : instance_update _ _ _ = (Ok _, _) |- _ =>
             apply (later_run _ _ _ _ (update_later _ _)) in H
         | H : instance_create _ _ _ _ _ _ = (Ok _, _) |- _ =>
             apply (later_run _ _ _ _ (create_later _ _ _ _ _)) in H
         | H : FlyClient.waitForMachineState _ _ _ _ _ _ _ = (_, _) |- _ =>
             apply (later_run _ _ _ _ (waitForMachineState_later _ _ _ _ _ _)) in H
         | H : RenderDeploy.pollServiceUrl _ _ _ _ _ = (_, _) |- _ =>
             apply (later_run _ _ _ _ (pollServiceUrl_later _ _ _ _)) in H
         | H : FlyDeploy.cleanup _ _ _ _ = (_, _) |- _ =>
             apply (later_run _ _ _ _ (Fly_cleanup_later _ _ _)) in H
         | H : RenderDeploy.cleanup _ _ _ _ = (_, _) |- _ =>
             apply (later_run _ _ _ _ (Render_cleanup_later _ _ _)) in H
         end.

(** X26: a deployment that returns has taken its pauses.  On Fly.io
    [deployInstance] returns no sooner than 25 seconds after it was
    called (10 for the address, 15 for the gateway), on Render no sooner
    than 30 seconds (10 for the deploy, 20 for the gateway), however
    fast the provider answers. *)
Theorem deployInstance_takes_its_pauses :
  forall (env : Env) (UserConfiguration : Type)
         (builder : ConfigBuilder UserConfiguration)
         (u : string) (config : UserConfiguration) (w : World),
    (forall res w',
        FlyDeploy.deployInstance env builder u config w = (Ok res, w') ->
        now w + 25000 <= now w')
    /\ (forall res w',
           RenderDeploy.deployInstance env builder u config w = (Ok res, w') ->
           now w + 30000 <= now w').
Proof.
  intros env UserConfiguration builder u config w. split.
  - intros res w' Hrun. unfold FlyDeploy.deployInstance in Hrun.
    apply bind_Ok in Hrun as (s & w0 & Hpre & H). unfold tryCatch in H.
    destruct (FlyDeploy.tryBlock env builder config s w0) as [[res1|e] w1] eqn:Htry.
    + inversion H; subst res1 w1; clear H.
      unfold FlyDeploy.tryBlock in Htry.
      apply bind_Ok in Htry as (p & wp & Hprov & Hcomp).
      assert (now w <= now w0) as H0.
      { unfold FlyDeploy.prelude in Hpre.
        apply bind_Ok in Hpre as (fly & w1 & Hnew & Hpre).
        apply FlyClient_new_run in Hnew. subst w1.
        apply bind_Ok in Hpre as (t & w2 & Hnow & Hpre). unfold Date_now in Hnow.
        inversion Hnow; subst t w2; clear Hnow.
        apply bind_Ok in Hpre as (existing & w3 & Hfind & Hpre).
        unfold instance_findUnique_userId in Hfind.
        inversion Hfind; subst existing w3; clear Hfind.
        unfold allocatePort in Hpre. run_ok Hpre.
        unfold ret in Hpre. inversion Hpre; subst; clear Hpre.
        timed. lia. }
      assert (now w0 + 25000 <= now wp) as Hp.
      { unfold FlyDeploy.provision in Hprov. cbv zeta in Hprov.
        unfold FlyClient.verifyAccess, FlyClient.createApp, FlyClient.setSecrets,
          FlyClient.createMachine, FlyClient.allocateIPAddress, void in Hprov.
        run_ok Hprov. unfold ret in Hprov. inversion Hprov; subst; clear Hprov.
        timed. lia. }
      destruct (findById (id (FlyDeploy.instance s)) (instances wp)) as [r|] eqn:Hrow.
      * rewrite (Fly_complete_run env s p wp r Hrow) in Hcomp.
        inversion Hcomp; subst res w'; clear Hcomp. cbn [now]. lia.
      * destruct (Fly_complete_orphan env s p wp Hrow) as [Hthrows _].
        rewrite Hcomp in Hthrows. discriminate.
    + pose proof (Fly_onFailure_throws s e w1) as Hthrows.
      rewrite H in Hthrows. discriminate.
  - intros res w' Hrun. unfold RenderDeploy.deployInstance in Hrun.
    apply bind_Ok in Hrun as (s & w0 & Hpre & H). unfold tryCatch in H.
    destruct (RenderDeploy.tryBlock env builder config s w0) as [[res1|e] w1] eqn:Htry.
    + inversion H; subst res1 w1; clear H.
      unfold RenderDeploy.tryBlock in Htry.
      apply bind_Ok in Htry as (p & wp & Hprov & Hcomp).
      assert (now w <= now w0) as H0.
      { unfold RenderDeploy.prelude in Hpre.
        apply bind_Ok in Hpre as (render & w1 & Hnew & Hpre).
        apply RenderClient_new_run in Hnew. subst w1.
        apply bind_Ok in Hpre as (existing & w3 & Hfind & Hpre).
        unfold instance_findUnique_userId in Hfind.
        inversion Hfind; subst existing w3; clear Hfind.
        unfold allocatePort in Hpre. run_ok Hpre.
        unfold ret in Hpre. inversion Hpre; subst; clear Hpre.
        timed. lia. }
      assert (now w0 + 30000 <= now wp) as Hp.
      { unfold RenderDeploy.provision in Hprov. cbv zeta in Hprov.
        unfold RenderClient.createService in Hprov.
        run_ok Hprov. unfold ret in Hprov. inversion Hprov; subst; clear Hprov.
        timed. lia. }
      destruct (findById (id (RenderDeploy.instance s)) (instances wp)) as [r|] eqn:Hrow.
      * rewrite (Render_complete_run env s p wp r Hrow) in Hcomp.
        inversion Hcomp; subst res w'; clear Hcomp. cbn [now]. lia.
      * destruct (Render_complete_orphan env s p wp Hrow) as [Hthrows _].
        rewrite Hcomp in Hthrows. discriminate.
    + pose proof (Render_onFailure_throws s e w1) as Hthrows.
      rewrite H in Hthrows. discriminate.
Qed.

Lemma deployInstance_takes_its_pauses_witness :
  exists (res : FlyDeploy.DeploymentResult) (w' : World),
    FlyDeploy.deployInstance Sample.calm Sample.plainBuilder
      "user-1234567" "claude" Sample.empty = (Ok res, w')
    /\ now Sample.empty + 25000 <= now w'.
Proof.
  eassert (FlyDeploy.deployInstance Sample.calm Sample.plainBuilder
             "user-1234567" "claude" Sample.empty = (Ok _, _))
    as Hrun by (lazy; reflexivity).
  destruct (deployInstance_takes_its_pauses
              Sample.calm string Sample.plainBuilder "user-1234567" "claude"
              Sample.empty) as [Hfly _].
  eexists _, _. split; [exact Hrun|]. exact (Hfly _ _ Hrun).
Defined.

(** ** Failures of a deployment *)

Section Failing.

Variable env : Env.

Lemma outside_calls {A} (ev : Event) (answer : nat -> Outcome A)
      (w w' : World) (o : Outcome A) :
  outside env ev answer w = (o, w') -> calls w' = ev :: calls w.
Proof. unfold outside. now inversion 1. Qed.

Lemma quiet_lift {A} (o : Outcome A) : quiet (lift o).
Proof. now intros w. Qed.

Lemma instance_create_throws (u name : string) (p : Z) (s : InstanceStatus)
      (w w' : World) (e : string) :
  instance_create env u name p s w = (Throw e, w') -> w' = w.
Proof.
  unfold instance_create.
  destruct (findById _ (instances w)); [now inversion 1|].
  destruct (findByUserId u (instances w)); [now inversion 1 | discriminate].
Qed.

(** The clean-up only ever removes rows. *)
Lemma keeps_delete_within (rows0 : list Instance) (i : string) :
  keeps (fun rows => forall r, In r rows -> In r rows0) (instance_delete i).
Proof.
  intros w Hw. unfold instance_delete.
  destruct (findById i (instances w)); cbn [snd instances]; [|exact Hw].
  intros r Hr. apply filter_In in Hr as [Hr _]. now apply Hw.
Qed.

Lemma Fly_cleanup_within (fly : FlyClient.t) (existing : option Instance) (w : World) :
  forall r, In r (instances (snd (FlyDeploy.cleanup env fly existing w))) ->
            In r (instances w).
Proof.
  assert (keeps (fun rows => forall r, In r rows -> In r (instances w))
                (FlyDeploy.cleanup env fly existing)) as Hkeeps.
  { unfold FlyDeploy.cleanup.
    destruct existing as [ex|]; [|apply inert_keeps, inert_ret].
    apply keeps_tryCatch; [|intros; apply inert_keeps, inert_ret].
    apply keeps_bind; [|intros; apply keeps_delete_within].
    apply inert_keeps. unfold whenM.
    destruct (JS.truthy (containerId ex)); [|apply inert_ret].
    destruct (JS.truthy (containerName ex)); [|apply inert_ret].
    apply inert_bind; [apply inert_outside|]. intros machines.
    apply inert_bind; [|intros; apply inert_outside].
    apply inert_forEach. intros m. apply inert_outside. }
  apply (Hkeeps w). auto.
Qed.

Lemma Render_cleanup_within (render : RenderClient.t) (existing : option Instance)
      (w : World) :
  forall r, In r (instances (snd (RenderDeploy.cleanup env render existing w))) ->
            In r (instances w).
Proof.
  assert (keeps (fun rows => forall r, In r rows -> In r (instances w))
                (RenderDeploy.cleanup env render existing)) as Hkeeps.
  { unfold RenderDeploy.cleanup.
    destruct existing as [ex|]; [|apply inert_keeps, inert_ret].
    apply keeps_tryCatch; [|intros; apply inert_keeps, inert_ret].
    apply keeps_bind; [|intros; apply keeps_delete_within].
    apply inert_keeps. unfold whenM.
    destruct (JS.truthy (containerId ex)); [apply inert_outside | apply inert_ret]. }
  apply (Hkeeps w). auto.
Qed.

(** A failure before the [try] block is one of the client, of the port
    allocation or of the creation of the row; nothing was logged and no
    row was written, rows can only have been removed by the clean-up. *)
Lemma Fly_prelude_throws (u : string) (w w0 : World) (e : string) :
  FlyDeploy.prelude env u w = (Throw e, w0) ->
  deploymentLogs w0 = deploymentLogs w
  /\ (forall r, In r (instances w0) -> In r (instances w))
  /\ (FlyClient.new env w = (Throw e, w0)
      \/ (exists n, allocatePortAnswer env n = Throw e)
      \/ (exists name p wc,
             instance_create env u name p DEPLOYING wc = (Throw e, w0))).
Proof.
  intros H.
  split; [pose proof (Fly_prelude_logs env u w) as Hlogs;
          rewrite H in Hlogs; exact Hlogs|].
  unfold FlyDeploy.prelude in H.
  apply bind_Throw in H as [Hnew | (fly & w1 & Hnew & H)].
  { pose proof (FlyClient_new_run env _ _ _ Hnew). subst w0. auto. }
  apply FlyClient_new_run in Hnew. subst w1.
  apply bind_Throw in H as [Hd | (t & w2 & Hd & H)]; [discriminate Hd|].
  inversion Hd; subst t w2; clear Hd.
  apply bind_Throw in H as [Hf | (existing & w3 & Hf & H)]; [discriminate Hf|].
  inversion Hf; subst existing w3; clear Hf.
  pose proof (Fly_cleanup_returns env fly (findByUserId u (instances w)) w)
    as [w4 Hclean].
  pose proof (Fly_cleanup_within fly (findByUserId u (instances w)) w) as Hwithin.
  rewrite Hclean in Hwithin. cbn [snd] in Hwithin.
  apply bind_Throw in H as [Hc | ([] & w4' & Hc & H)]; [congruence|].
  assert (w4' = w4) by congruence. subst w4'. clear Hc.
  apply bind_Throw in H as [Hp | (port & w5 & Hp & H)].
  { unfold allocatePort, outside in Hp. inversion Hp; subst; clear Hp.
    split; [exact Hwithin | right; left; eauto]. }
  unfold allocatePort, outside in Hp. inversion Hp; subst w5; clear Hp.
  apply bind_Throw in H as [Hcreate | (row & w6 & Hcreate & H)].
  { pose proof (instance_create_throws _ _ _ _ _ _ _ Hcreate). subst w0.
    split; [exact Hwithin | right; right; eauto]. }
  apply bind_Throw in H as [Hl | (? & w7 & Hl & H)]; discriminate.
Qed.

Lemma Render_prelude_throws (u : string) (w w0 : World) (e : string) :
  RenderDeploy.prelude env u w = (Throw e, w0) ->
  deploymentLogs w0 = deploymentLogs w
  /\ (forall r, In r (instances w0) -> In r (instances w))
  /\ (RenderClient.new env w = (Throw e, w0)
      \/ (exists n, allocatePortAnswer env n = Throw e)
      \/ (exists name p wc,
             instance_create env u name p DEPLOYING wc = (Throw e, w0))).
Proof.
  intros H.
  split; [pose proof (Render_prelude_logs env u w) as Hlogs;
          rewrite H in Hlogs; exact Hlogs|].
  unfold RenderDeploy.prelude in H.
  apply bind_Throw in H as [Hnew | (render & w1 & Hnew & H)].
  { pose proof (RenderClient_new_run env _ _ _ Hnew). subst w0. auto. }
  apply RenderClient_new_run in Hnew. subst w1.
  apply bind_Throw in H as [Hf | (existing & w3 & Hf & H)]; [discriminate Hf|].
  inversion Hf; subst existing w3; clear Hf.
  pose proof (Render_cleanup_returns env render (findByUserId u (instances w)) w)
    as [w4 Hclean].
  pose proof (Render_cleanup_within render (findByUserId u (instances w)) w)
    as Hwithin.
  rewrite Hclean in Hwithin. cbn [snd] in Hwithin.
  apply bind_Throw in H as [Hc | ([] & w4' & Hc & H)]; [congruence|].
  assert (w4' = w4) by congruence. subst w4'. clear Hc.
  apply bind_Throw in H as [Hp | (port & w5 & Hp & H)].
  { unfold allocatePort, outside in Hp. inversion Hp; subst; clear Hp.
    split; [exact Hwithin | right; left; eauto]. }
  unfold allocatePort, outside in Hp. inversion Hp; subst w5; clear Hp.
  apply bind_Throw in H as [Hcreate | (row & w6 & Hcreate & H)].
  { pose proof (instance_create_throws _ _ _ _ _ _ _ Hcreate). subst w0.
    split; [exact Hwithin | right; right; eauto]. }
  apply bind_Throw in H as [Hl | (? & w7 & Hl & H)]; discriminate.
Qed.

End Failing.

(** Splits a run that throws at the step that threw. *)
Ltac run_throw H :=
  repeat match type of H with
         | bind _ _ _ = (Throw _, _) =>
             let a := fresh "a" in
             let w := fresh "w" in
             let Hstep := fresh "Hstep" in
             apply bind_Throw in H as [H | (a & w & Hstep & H)]
         end.

(** After [run_throw]: the calls each step made, whether it returned or
    threw. *)
Ltac asked :=
  repeat match goal with
         | H : lift _ _ = (_, _) |- _ =>
             apply (quiet_run _ _ _ _ (quiet_lift _)) in H
         | H : outside _ _ _ _ = (_, _) |- _ => apply outside_calls in H
         | H : crypto_randomUUID _ _ = (_, _) |- _ =>
             apply (quiet_run _ _ _ _ (quiet_randomUUID _)) in H
         | H : logDeployment _ _ _ _ _ _ = (_, _) |- _ =>
             apply (quiet_run _ _ _ _ (quiet_logDeployment _ _ _ _ _)) in H
         | H : sleep _ _ = (_, _) |- _ =>
             apply (quiet_run _ _ _ _ (quiet_sleep _)) in H
         | H : instance_update _ _ _ = (_, _) |- _ =>
             apply (quiet_run _ _ _ _ (quiet_update _ _)) in H
         end.

(** The calls made are the older end of one pass. *)
Ltac once_through :=
  split; [lia|]; split;
  [ chained; unfold flyPass, renderPass; cbn [skipn repeat app];
    rewrite <- ?app_assoc; cbn [app]; reflexivity |].

Section FlyFailing.

Variable env : Env.
Context {UserConfiguration : Type}.
Variable builder : ConfigBuilder UserConfiguration.

(** Up to a failure, the first part of the [try] block has gone once
    through its calls: what it asked is the older end of one pass, with
    the status requests of the one wait in a row, each but the last
    answered by a machine that was still on its way. *)
Lemma Fly_provision_once (config : UserConfiguration) (s : FlyDeploy.Started)
      (w0 w1 : World) (e : string) :
  FlyDeploy.provision env builder config s w0 = (Throw e, w1) ->
  exists (polls : nat) (machine : string) (body : MachineRequest)
         (secrets : JS.Obj) (n : nat),
    (polls <= 40)%nat
    /\ calls w1
       = (skipn n (flyPass (FlyDeploy.appName s) (FlyClient.orgSlug (FlyDeploy.fly s))
                           machine body secrets polls)
            ++ calls w0)%list
    /\ (forall j, (S j < polls)%nat ->
                  stillWaiting "started"
                    (getMachineAnswer env (4 + length (calls w0) + j)
                                      (FlyDeploy.appName s) machine)).
Proof.
  unfold FlyDeploy.provision. cbv zeta. intros H.
  unfold FlyClient.verifyAccess, FlyClient.createApp, FlyClient.setSecrets,
    FlyClient.createMachine, FlyClient.allocateIPAddress, void in H.
  run_throw H; try discriminate H.
  all: asked.
  all: try match goal with
           | Hw : FlyClient.waitForMachineState _ _ _ _ _ _ _ = (_, _) |- _ =>
               apply waitForMachineState_Ok in Hw as (k & Hw & Hk & Hon)
           end.
  all: first
         [ match goal with
           | Hon : forall j, (S j < ?k)%nat ->
                             stillWaiting _ (getMachineAnswer _ _ _ ?machine) |- _ =>
               exists k, machine; eexists; eexists;
               first [exists 0%nat; once_through | exists 1%nat; once_through];
               intros j Hj; generalize (Hon j Hj); chained; cbn [length];
               intros Hgoes; exact Hgoes
           end
         | exists 0%nat, EmptyString; eexists; eexists;
           first [ exists 1%nat; once_through | exists 2%nat; once_through
                 | exists 3%nat; once_through | exists 4%nat; once_through ];
           intros j Hj; lia ].
  Unshelve.
  all: first [exact [] | exact (mkMachineRequest EmptyString EmptyString EmptyString
                                                 [] EmptyString 0 0 None None)].
Qed.

End FlyFailing.

Section RenderFailing.

Variable env : Env.
Context {UserConfiguration : Type}.
Variable builder : ConfigBuilder UserConfiguration.

Lemma pollServiceUrl_asks (render : RenderClient.t) (service : string)
      (remaining : nat) (w w' : World) (o : Outcome string) :
  RenderDeploy.pollServiceUrl env remaining render service w = (o, w') ->
  exists k : nat,
    (k <= remaining)%nat
    /\ calls w' = (repeat (RenderGetService service) k ++ calls w)%list
    /\ (forall j, (S j < k)%nat ->
                  noUrlYet (getServiceAnswer env (length (calls w) + j) service)).
Proof.
  intros Hrun.
  destruct (pollServiceUrl_run env render service remaining w)
    as (k & Hk & Hcalls & _ & _ & _ & Hon).
  cbv zeta in Hcalls. rewrite Hrun in Hcalls. eauto.
Qed.

(** The same on Render: the service is created once and its URL asked
    for in one row of requests, each but the last answered without a
    URL. *)
Lemma Render_provision_once (config : UserConfiguration) (s : RenderDeploy.Started)
      (w0 w1 : World) (e : string) :
  RenderDeploy.provision env builder config s w0 = (Throw e, w1) ->
  exists (polls : nat) (service : string) (body : ServiceRequest) (n : nat),
    (polls <= 60)%nat
    /\ calls w1 = (skipn n (renderPass service body polls) ++ calls w0)%list
    /\ (forall j, (S j < polls)%nat ->
                  noUrlYet (getServiceAnswer env (1 + length (calls w0) + j) service)).
Proof.
  unfold RenderDeploy.provision. cbv zeta. intros H.
  unfold RenderClient.createService in H.
  run_throw H; try discriminate H.
  all: asked.
  all: try match goal with
           | Hp : RenderDeploy.pollServiceUrl _ _ _ _ _ = (_, _) |- _ =>
               apply pollServiceUrl_asks in Hp as (k & Hk & Hp & Hon);
               unfold RenderDeploy.maxAttempts in Hk
           end.
  all: first
         [ match goal with
           | Hon : forall j, (S j < ?k)%nat ->
                             noUrlYet (getServiceAnswer _ _ ?service) |- _ =>
               exists k, service; eexists; exists 0%nat; once_through;
               intros j Hj; generalize (Hon j Hj); chained; cbn [length];
               intros Hgoes; exact Hgoes
           end
         | exists 0%nat, EmptyString; eexists;
           first [exists 0%nat; once_through | exists 1%nat; once_through];
           intros j Hj; lia ].
  Unshelve.
  all: exact (mkServiceRequest EmptyString EmptyString EmptyString None EmptyString []).
Qed.

End RenderFailing.

(** ** The claim about failures of a deployment *)

(** C2, as the code has it: on both providers, once the placeholder row
    is written and the [try] block is entered, a failure of any step in
    it comes from before the final status write; [deployInstance] then
    sets the row's status to [ERROR], appends a [FAILED] deployment-log
    row that carries the error's message, throws an error that wraps that
    message, and makes no further call to the outside.  Up to the
    failure no step of the sequence was carried out twice, the wait
    included: the calls made are the older end of one pass through the
    sequence, in which the status requests of the wait stand in one row
    between the creation of the resource and what follows, at most
    forty of them on Fly.io and sixty on Render, and each but the last
    was answered by a state on which the wait goes on, so that no wait
    was begun again after it had failed or run out.  A failure before
    the [try] block, which is one of the construction of the client, of
    the port allocation or of the creation of the row, is thrown as it
    is; no log row is written, and no row of the instance table is
    written to: rows can only have been removed by the clean-up, whose
    own errors never surface. *)
Theorem C2_failure_in_try_block_marks_error :
  forall (env : Env) (UserConfiguration : Type)
         (builder : ConfigBuilder UserConfiguration)
         (userId : string) (config : UserConfiguration) (w : World),
    (forall (s : FlyDeploy.Started) (w0 w1 : World) (msg : string),
        FlyDeploy.prelude env userId w = (Ok s, w0) ->
        FlyDeploy.tryBlock env builder config s w0 = (Throw msg, w1) ->
        FlyDeploy.provision env builder config s w0 = (Throw msg, w1)
        /\ exists (w' : World) (row : Instance),
            FlyDeploy.deployInstance env builder userId config w
            = (Throw ("Deployment failed: " ++ msg), w')
            /\ findByUserId userId (instances w') = Some row
            /\ id row = id (FlyDeploy.instance s)
            /\ status row = ERROR
            /\ deploymentLogs w'
               = (deploymentLogs w1
                  ++ [mkLog (id (FlyDeploy.instance s)) "DEPLOY" "FAILED"
                            "Deployment failed" (Some msg)])%list
            /\ calls w' = calls w1
            /\ exists made,
                calls w1 = (made ++ calls w0)%list /\ NoDup (stepsOf made)
                /\ exists (polls : nat) (machine : string) (body : MachineRequest)
                          (secrets : JS.Obj) (later : list Event),
                    (polls <= 40)%nat
                    /\ (later ++ made)%list
                       = flyPass (FlyDeploy.appName s)
                                 (FlyClient.orgSlug (FlyDeploy.fly s))
                                 machine body secrets polls
                    /\ (forall j, (S j < polls)%nat ->
                                  stillWaiting "started"
                                    (getMachineAnswer env
                                       (4 + length (calls w0) + j)
                                       (FlyDeploy.appName s) machine)))
    /\
    (forall (s : RenderDeploy.Started) (w0 w1 : World) (msg : string),
        RenderDeploy.prelude env userId w = (Ok s, w0) ->
        RenderDeploy.tryBlock env builder config s w0 = (Throw msg, w1) ->
        RenderDeploy.provision env builder config s w0 = (Throw msg, w1)
        /\ exists (w' : World) (row : Instance),
            RenderDeploy.deployInstance env builder userId config w
            = (Throw ("Deployment failed: " ++ msg), w')
            /\ findByUserId userId (instances w') = Some row
            /\ id row = id (RenderDeploy.instance s)
            /\ status row = ERROR
            /\ deploymentLogs w'
               = (deploymentLogs w1
                  ++ [mkLog (id (RenderDeploy.instance s)) "DEPLOY" "FAILED"
                            "Deployment failed" (Some msg)])%list
            /\ calls w' = calls w1
            /\ exists made,
                calls w1 = (made ++ calls w0)%list /\ NoDup (stepsOf made)
                /\ exists (polls : nat) (service : string) (body : ServiceRequest)
                          (later : list Event),
                    (polls <= 60)%nat
                    /\ (later ++ made)%list = renderPass service body polls
                    /\ (forall j, (S j < polls)%nat ->
                                  noUrlYet
                                    (getServiceAnswer env
                                       (1 + length (calls w0) + j) service)))
    /\
    (forall (e : string) (w0 : World),
        FlyDeploy.prelude env userId w = (Throw e, w0) ->
        FlyDeploy.deployInstance env builder userId config w = (Throw e, w0)
        /\ deploymentLogs w0 = deploymentLogs w
        /\ (forall r, In r (instances w0) -> In r (instances w))
        /\ (FlyClient.new env w = (Throw e, w0)
            \/ (exists n, allocatePortAnswer env n = Throw e)
            \/ (exists name p wc,
                   instance_create env userId name p DEPLOYING wc = (Throw e, w0))))
    /\
    (forall (e : string) (w0 : World),
        RenderDeploy.prelude env userId w = (Throw e, w0) ->
        RenderDeploy.deployInstance env builder userId config w = (Throw e, w0)
        /\ deploymentLogs w0 = deploymentLogs w
        /\ (forall r, In r (instances w0) -> In r (instances w))
        /\ (RenderClient.new env w = (Throw e, w0)
            \/ (exists n, allocatePortAnswer env n = Throw e)
            \/ (exists name p wc,
                   instance_create env userId name p DEPLOYING wc = (Throw e, w0))))
    /\
    (forall (fly : FlyClient.t) (existing : option Instance) (w1 : World),
        exists w2, FlyDeploy.cleanup env fly existing w1 = (Ok tt, w2))
    /\
    (forall (render : RenderClient.t) (existing : option Instance) (w1 : World),
        exists w2, RenderDeploy.cleanup env render existing w1 = (Ok tt, w2)).
Proof.
  intros env UserConfiguration builder userId config w.
  split; [|split; [|split; [|split; [|split]]]].
  - intros s w0 w1 msg Hpre Htry.
    destruct (Fly_deployInstance_fails env builder userId config w w0 w1 s msg
                Hpre Htry)
      as (Hprov & w' & row & Hrun & Hrow & Hid & Hstatus & Hlogs & Hcalls
          & made & Hmade & Hnodup).
    split; [exact Hprov|]. exists w', row.
    do 6 (split; [assumption|]).
    exists made. split; [exact Hmade|]. split; [exact Hnodup|].
    destruct (Fly_provision_once env builder config s w0 w1 msg Hprov)
      as (polls & machine & body & secrets & n & Hpolls & Hpass & Hon).
    exists polls, machine, body, secrets.
    rewrite Hmade in Hpass. apply app_inv_tail in Hpass.
    eexists. split; [exact Hpolls|]. split; [|exact Hon].
    rewrite Hpass. apply firstn_skipn.
  - intros s w0 w1 msg Hpre Htry.
    destruct (Render_deployInstance_fails env builder userId config w w0 w1 s msg
                Hpre Htry)
      as (Hprov & w' & row & Hrun & Hrow & Hid & Hstatus & Hlogs & Hcalls
          & made & Hmade & Hnodup).
    split; [exact Hprov|]. exists w', row.
    do 6 (split; [assumption|]).
    exists made. split; [exact Hmade|]. split; [exact Hnodup|].
    destruct (Render_provision_once env builder config s w0 w1 msg Hprov)
      as (polls & service & body & n & Hpolls & Hpass & Hon).
    exists polls, service, body.
    rewrite Hmade in Hpass. apply app_inv_tail in Hpass.
    eexists. split; [exact Hpolls|]. split; [|exact Hon].
    rewrite Hpass. apply firstn_skipn.
  - intros e w0 Hpre. split; [|now apply Fly_prelude_throws].
    unfold FlyDeploy.deployInstance, bind. now rewrite Hpre.
  - intros e w0 Hpre. split; [|now apply Render_prelude_throws].
    unfold RenderDeploy.deployInstance, bind. now rewrite Hpre.
  - intros fly existing w1. apply Fly_cleanup_returns.
  - intros render existing w1. apply Render_cleanup_returns.
Qed.

Lemma C2_witness :
  (exists (w' : World) (row : Instance),
      FlyDeploy.deployInstance Sample.noMachine Sample.plainBuilder
        "user-1234567" "claude" Sample.empty
      = (Throw "Deployment failed: Fly.io API error 422: invalid image", w')
      /\ findByUserId "user-1234567" (instances w') = Some row
      /\ status row = ERROR
      /\ last (deploymentLogs w')
              (mkLog EmptyString EmptyString EmptyString EmptyString None)
         = mkLog "inst-1" "DEPLOY" "FAILED" "Deployment failed"
                 (Some "Fly.io API error 422: invalid image"))
  /\ (exists w0 : World,
         RenderDeploy.deployInstance Sample.noPort Sample.plainBuilder
           "user-1234567" "claude" Sample.empty
         = (Throw "No available ports", w0)
         /\ deploymentLogs w0 = []
         /\ instances w0 = []).
Proof.
  split.
  - destruct (C2_failure_in_try_block_marks_error
                Sample.noMachine string Sample.plainBuilder "user-1234567" "claude"
                Sample.empty) as [Hfly _].
    eassert (FlyDeploy.prelude Sample.noMachine "user-1234567" Sample.empty
             = (Ok _, _)) as Hpre by (lazy; reflexivity).
    match type of Hpre with
    | _ = (Ok ?s, ?w0) =>
        eassert (FlyDeploy.tryBlock Sample.noMachine Sample.plainBuilder "claude" s w0
                 = (Throw "Fly.io API error 422: invalid image", _))
          as Htry by (lazy; reflexivity)
    end.
    destruct (Hfly _ _ _ _ Hpre Htry)
      as (_ & w' & row & Hrun & Hrow & _ & Hstatus & Hlogs & _).
    exists w', row. split; [exact Hrun|]. split; [exact Hrow|].
    split; [exact Hstatus|]. rewrite Hlogs. apply last_last.
  - destruct (C2_failure_in_try_block_marks_error
                Sample.noPort string Sample.plainBuilder "user-1234567" "claude"
                Sample.empty) as (_ & _ & _ & Hrender & _).
    eassert (RenderDeploy.prelude Sample.noPort "user-1234567" Sample.empty
             = (Throw "No available ports", _)) as Hpre by (lazy; reflexivity).
    destruct (Hrender _ _ Hpre) as (Hrun & Hlogs & Hrows & _).
    eexists. split; [exact Hrun|]. split; [exact Hlogs|]. reflexivity.
Defined.

(** C2 as stated fails for a step before the [try] block: when no port
    can be allocated, [deployInstance] throws that error as it is, and
    there is neither an [Instance] row in [ERROR] nor a [FAILED] log
    row. *)
Lemma C2_counterexample_port_allocation :
  FlyDeploy.deployInstance Sample.noPort Sample.plainBuilder
    "user-1234567" "claude" Sample.empty
  = (Throw "No available ports",
     mkWorld [] [] (now Sample.empty + 250) [AllocatePort])
  /\ RenderDeploy.deployInstance Sample.noPort Sample.plainBuilder
       "user-1234567" "claude" Sample.empty
     = (Throw "No available ports",
        mkWorld [] [] (now Sample.empty + 250) [AllocatePort]).
Proof. split; reflexivity. Qed.
